(** * LuaSQL Firebird driver (ls_firebird.c): a shallow embedding

    The driver sits between the Lua runtime and the Firebird client
    library.  Both are external to the driver: the client library is
    modelled as an oracle [engine] that answers every native call from the
    history of the calls made so far, the numeric and calendar conversions
    of the Lua runtime and of libc as a record [Host] of functions.  The
    driver's own code is translated function by function, in the order of
    the C file, over an explicit state [World]: the four kinds of userdata
    blocks, the Lua registry, the Lua stack of the running C function and
    the log of native calls.

    Memory allocation is taken to succeed, except in [conn_escape] whose
    only failure is that of its [malloc]. *)

From Stdlib Require Import ZArith List Strings.String Strings.Byte Bool Lia.
From stdpp Require Import base option list gmap.
Import ListNotations.

Local Open Scope Z_scope.

(** ** Bytes, C integers and C strings *)

Definition byte_of_Z (z : Z) : byte :=
  match Byte.of_N (Z.to_N (z mod 256)) with
  | Some b => b
  | None => x00
  end.

Definition Z_of_byte (b : byte) : Z := Z.of_N (Byte.to_N b).

#[global] Instance byte_eq_decision : EqDecision byte := Byte.byte_eq_dec.

(** Conversion to a signed integer type of [w] bits (two's complement). *)
Definition wrap_signed (w : Z) (z : Z) : Z :=
  (z + 2 ^ (w - 1)) mod 2 ^ w - 2 ^ (w - 1).

Definition to_short (z : Z) : Z := wrap_signed 16 z.
Definition to_int (z : Z) : Z := wrap_signed 32 z.

(** The bytes of a Lua string are followed in memory by a NUL; C code that
    scans for the terminator sees the prefix before the first NUL byte. *)
Fixpoint cstr (s : list byte) : list byte :=
  match s with
  | [] => []
  | c :: rest => if Byte.eqb c x00 then [] else c :: cstr rest
  end.

Definition strlen (s : list byte) : Z := Z.of_nat (length (cstr s)).

(** The integer whose little-endian image the bytes are. *)
Fixpoint vax_unsigned (bs : list byte) : Z :=
  match bs with
  | [] => 0
  | b :: rest => Z_of_byte b + 256 * vax_unsigned rest
  end.

(** [isc_vax_integer] of the client library: the signed integer held in
    [n] bytes, least significant first; 0 for a length outside 1..4. *)
Definition isc_vax_integer (bs : list byte) (n : Z) : Z :=
  if decide (n <= 0 \/ 4 < n) then 0
  else wrap_signed (8 * n) (vax_unsigned (take (Z.to_nat n) bs)).

(** The image of an integer in [n] bytes of memory.  Memory is taken to be
    little-endian, as on the hosts the driver is built for. *)
Fixpoint le_bytes (n : nat) (z : Z) : list byte :=
  match n with
  | O => []
  | S n' => byte_of_Z z :: le_bytes n' (z / 256)
  end.

(** ** Lua values and the host runtime *)

Definition ptr := positive.

(** The four userdata classes of the driver (their metatable names). *)
Inductive kind := KEnv | KConn | KStmt | KCur.

#[global] Instance kind_eq_dec : EqDecision kind.
Proof. solve_decision. Defined.

Definition kind_code (k : kind) : nat :=
  match k with KEnv => 0 | KConn => 1 | KStmt => 2 | KCur => 3 end%nat.

Definition code_kind (n : nat) : kind :=
  match n with 0 => KEnv | 1 => KConn | 2 => KStmt | _ => KCur end%nat.

Lemma code_kind_code (k : kind) : code_kind (kind_code k) = k.
Proof. destruct k; reflexivity. Qed.

#[global] Instance kind_countable : Countable kind :=
  inj_countable' kind_code code_kind code_kind_code.

Definition LUASQL_ENVIRONMENT_FIREBIRD : kind := KEnv.
Definition LUASQL_CONNECTION_FIREBIRD : kind := KConn.
Definition LUASQL_STATEMENT_FIREBIRD : kind := KStmt.
Definition LUASQL_CURSOR_FIREBIRD : kind := KCur.

Inductive lua_key :=
| KeyNum (n : Z)
| KeyStr (s : list byte).

Inductive lua_value :=
| LNil
| LBoolean (b : bool)
| LInteger (n : Z)
| LFloat (bits : list byte)            (* a lua_Number, by the bytes of its C double *)
| LString (s : list byte)
| LTable (t : lua_table)
| LUserdata (k : kind) (p : ptr)
with lua_table :=
| TEmpty
| TField (k : lua_key) (v : lua_value) (rest : lua_table).

Definition lua_key_eqb (a b : lua_key) : bool :=
  match a, b with
  | KeyNum x, KeyNum y => Z.eqb x y
  | KeyStr x, KeyStr y => bool_decide (x = y)
  | _, _ => false
  end.

(** [t[k]] and [t[k] = v] on a table held by value. *)
Fixpoint table_get (t : lua_table) (k : lua_key) : lua_value :=
  match t with
  | TEmpty => LNil
  | TField k' v rest => if lua_key_eqb k' k then v else table_get rest k
  end.

Fixpoint table_set (t : lua_table) (k : lua_key) (v : lua_value) : lua_table :=
  match t with
  | TEmpty => TField k v TEmpty
  | TField k' v' rest =>
      if lua_key_eqb k' k then TField k v rest else TField k' v' (table_set rest k v)
  end.

Fixpoint table_remove (t : lua_table) (k : lua_key) : lua_table :=
  match t with
  | TEmpty => TEmpty
  | TField k' v rest =>
      if lua_key_eqb k' k then rest else TField k' v (table_remove rest k)
  end.

(** Assigning nil to a field takes it out of the table. *)
Definition table_assign (t : lua_table) (k : lua_key) (v : lua_value) : lua_table :=
  match v with
  | LNil => table_remove t k
  | _ => table_set t k v
  end.

Inductive lua_type_tag := LUA_TNIL | LUA_TBOOLEAN | LUA_TNUMBER | LUA_TSTRING
                        | LUA_TTABLE | LUA_TUSERDATA | LUA_TNONE.

Definition type_of (v : lua_value) : lua_type_tag :=
  match v with
  | LNil => LUA_TNIL
  | LBoolean _ => LUA_TBOOLEAN
  | LInteger _ | LFloat _ => LUA_TNUMBER
  | LString _ => LUA_TSTRING
  | LTable _ => LUA_TTABLE
  | LUserdata _ _ => LUA_TUSERDATA
  end.

(** What the driver asks of the Lua runtime, of libc and of the client
    library's date helpers without looking inside: conversions of numbers
    and of calendar values. *)
Record Host := {
  (** [lua_tolstring] on a number *)
  number_tostring : lua_value -> list byte;
  (** [(ISC_INT64)lua_tonumber(L, i)] *)
  tonumber_int64 : lua_value -> Z;
  (** the 8 bytes of [(double)lua_tonumber(L, i)] *)
  tonumber_double : lua_value -> list byte;
  (** the 8 bytes of the ISC_TIMESTAMP that [isc_encode_timestamp] makes of
      [localtime((time_t)lua_tointeger(L, i))] *)
  tointeger_timestamp : lua_value -> list byte;
  (** a C float (4 bytes) read as a lua_Number *)
  float_number : list byte -> lua_value;
  (** [isc_decode_sql_time] then [strftime "%X"] *)
  time_string : list byte -> list byte;
  (** [isc_decode_sql_date] then [strftime "%Y-%m-%d"] *)
  date_string : list byte -> list byte;
  (** [isc_decode_timestamp] then [strftime "%Y-%m-%d %X"] *)
  timestamp_string : list byte -> list byte
}.

(** ** The client library's data: status vectors and descriptors *)

(** One slot of a status vector: a number, or the address of a message. *)
Inductive ISC_STATUS :=
| st_num (z : Z)
| st_str (msg : string).

Definition st_is (z : Z) (s : ISC_STATUS) : bool :=
  match s with st_num n => Z.eqb n z | st_str _ => false end.

Definition st_nonzero (s : ISC_STATUS) : bool :=
  match s with st_num n => negb (Z.eqb n 0) | st_str _ => true end.

Definition st_positive (s : ISC_STATUS) : bool :=
  match s with st_num n => Z.ltb 0 n | st_str _ => true end.

Definition sv_at (X : list ISC_STATUS) (i : nat) : ISC_STATUS :=
  nth i X (st_num 0).

(** [#define CHECK_DB_ERROR( X ) ( (X)[0] == 1 && (X)[1] )] *)
Definition CHECK_DB_ERROR (X : list ISC_STATUS) : bool :=
  st_is 1 (sv_at X 0) && st_nonzero (sv_at X 1).

Record XSQLVAR := {
  sqltype : Z;
  sqllen : Z;
  sqldata : option (list byte);    (* NULL, or the buffer it points to *)
  sqlind : option Z;               (* NULL, or the short it points to *)
  aliasname : list byte;
  aliasname_length : Z
}.

Record XSQLDA := {
  version : Z;
  sqln : Z;                        (* declared capacity *)
  sqld : Z;                        (* columns the engine reports *)
  sqlvar : list XSQLVAR            (* the sqln slots *)
}.

(** Constants of ibase.h (the Firebird client header). *)
Definition SQLDA_VERSION1 : Z := 1.
Definition SQL_TEXT : Z := 452.
Definition SQL_VARYING : Z := 448.
Definition SQL_SHORT : Z := 500.
Definition SQL_LONG : Z := 496.
Definition SQL_FLOAT : Z := 482.
Definition SQL_DOUBLE : Z := 480.
Definition SQL_D_FLOAT : Z := 530.
Definition SQL_TIMESTAMP : Z := 510.
Definition SQL_BLOB : Z := 520.
Definition SQL_TYPE_TIME : Z := 560.
Definition SQL_TYPE_DATE : Z := 570.
Definition SQL_INT64 : Z := 580.
Definition DSQL_close : Z := 1.
Definition DSQL_drop : Z := 2.
Definition isc_dpb_version1 : Z := 1.
Definition isc_dpb_num_buffers : Z := 5.
Definition isc_dpb_user_name : Z := 28.
Definition isc_dpb_password : Z := 29.
Definition isc_tpb_version3 : Z := 3.
Definition isc_tpb_write : Z := 9.
Definition isc_info_sql_stmt_type : Z := 21.
Definition isc_info_sql_records : Z := 23.
Definition isc_info_req_select_count : Z := 13.
Definition isc_info_req_insert_count : Z := 14.
Definition isc_info_req_update_count : Z := 15.
Definition isc_info_req_delete_count : Z := 16.
Definition isc_info_sql_stmt_select : Z := 1.
Definition isc_info_sql_stmt_insert : Z := 2.
Definition isc_info_sql_stmt_update : Z := 3.
Definition isc_info_sql_stmt_delete : Z := 4.
Definition isc_info_sql_stmt_ddl : Z := 5.
Definition isc_info_sql_stmt_exec_procedure : Z := 8.
Definition isc_segment : Z := 335544366.
Definition isc_random : Z := 335544382.

(** [var->sqltype & ~1]: the type code without its nullable bit. *)
Definition base_type (t : Z) : Z := Z.land t (Z.lnot 1).

(** ** The driver's structs *)

(** A pointer that owns a heap block: NULL, the live block, or the address
    of a block that has been freed. *)
Inductive owned (A : Type) :=
| Null
| Live (a : A)
| Dangling.
Arguments Null {A}.
Arguments Live {A} a.
Arguments Dangling {A}.

Record env_data := {
  env_closed : Z;
  env_lock : Z;                    (* lock count for open connections *)
  status_vector : list ISC_STATUS  (* for error results *)
}.

Record conn_data := {
  conn_closed : Z;
  conn_lock : Z;                   (* lock count for open statements *)
  conn_env : ptr;
  autocommit : Z;
  db : Z;                          (* the database handle *)
  dpb_buffer : list byte;          (* the used part of char dpb_buffer[1024] *)
  dpb_length : Z;
  transaction : Z;                 (* the transaction handle *)
  dialect : Z
}.

Record stmt_data := {
  stmt_closed : Z;
  stmt_lock : Z;                   (* lock count for open cursors *)
  stmt_env : ptr;
  stmt_conn : ptr;
  in_sqlda : owned XSQLDA;         (* the parameter data array *)
  handle : Z;                      (* the statement handle *)
  type : Z;
  hidden : Z
}.

Record cur_data := {
  cur_closed : Z;
  cur_env : ptr;
  cur_stmt : ptr;
  out_sqlda : owned XSQLDA         (* the cursor data array *)
}.

(** ** The client library as an oracle *)

(** The native calls the driver makes, with the arguments it passes (the
    status vector apart: it is the one of the environment named at the call). *)
Inductive call :=
| isc_attach_database (name_length : Z) (name : list byte) (dpb_len : Z) (dpb : list byte)
| isc_start_transaction (dbh : Z) (tpb : list byte)
| isc_detach_database (dbh : Z)
| isc_commit_transaction (tr : Z)
| isc_rollback_transaction (tr : Z)
| isc_commit_retaining (tr : Z)
| isc_rollback_retaining (tr : Z)
| isc_dsql_allocate_statement (dbh : Z) (h : Z)
| isc_dsql_prepare (tr : Z) (h : Z) (sql : list byte) (dial : Z)
| isc_dsql_sql_info (h : Z) (items : list Z) (buffer_length : Z)
| isc_dsql_describe_bind (h : Z) (da : XSQLDA)
| isc_dsql_describe (h : Z) (da : XSQLDA)
| isc_dsql_set_cursor_name (h : Z) (owner : ptr)
| isc_dsql_execute (tr : Z) (h : Z) (da : owned XSQLDA)
| isc_dsql_fetch (h : Z) (da : XSQLDA)
| isc_dsql_free_statement (h : Z) (option : Z)
| isc_create_blob2 (dbh : Z) (tr : Z)
| isc_put_segment (bh : Z) (seg_length : Z) (seg : list byte)
| isc_open_blob2 (dbh : Z) (tr : Z) (blob_id : list byte)
| isc_get_segment (bh : Z)
| isc_close_blob (bh : Z).

(** What a native call gives back.  A call reads the fields that concern it. *)
Record reply := {
  rp_status : list ISC_STATUS;     (* the status vector after the call *)
  rp_value : Z;                    (* the ISC_STATUS the function returns *)
  rp_handle : Z;                   (* the handle passed by address, after a call that
                                      makes one (attach, start, allocate, create and
                                      open blob) or gives one up (detach, commit,
                                      rollback, drop); the other calls leave theirs *)
  rp_quad : list byte;             (* isc_create_blob2: the blob id (an ISC_QUAD) *)
  rp_buffer : list byte;           (* isc_dsql_sql_info: the bytes written to the
                                      result buffer; isc_get_segment: the
                                      actual_seg_len bytes of the segment *)
  rp_sqld : Z;                     (* describe: the column count (an ISC_SHORT) *)
  rp_columns : list XSQLVAR;       (* describe: type, length and name per column *)
  rp_row : list (Z * list byte)    (* fetch: null flag and data per column *)
}.

Record Engine := {
  (** the answer to a call, given the calls made before it *)
  isc : list call -> call -> reply;
  (** the messages [fb_interpret] draws from a status vector, in order *)
  fb_interpret : list ISC_STATUS -> list (list byte)
}.

(** What [isc_dsql_describe] and [isc_dsql_describe_bind] write into a
    descriptor: the count, and as many columns as it has slots. *)
Fixpoint describe_slots (cols slots : list XSQLVAR) : list XSQLVAR :=
  match cols, slots with
  | c :: cols', s :: slots' =>
      {| sqltype := sqltype c; sqllen := sqllen c;
         sqldata := sqldata s; sqlind := sqlind s;
         aliasname := aliasname c; aliasname_length := aliasname_length c |}
      :: describe_slots cols' slots'
  | _, _ => slots
  end.

Definition described (r : reply) (da : XSQLDA) : XSQLDA :=
  {| version := version da; sqln := sqln da; sqld := rp_sqld r;
     sqlvar := describe_slots (rp_columns r) (sqlvar da) |}.

(** What [isc_dsql_fetch] writes: the row, into the buffers that exist. *)
Fixpoint fetch_slots (row : list (Z * list byte)) (slots : list XSQLVAR) : list XSQLVAR :=
  match row, slots with
  | (ind, data) :: row', s :: slots' =>
      {| sqltype := sqltype s; sqllen := sqllen s;
         sqldata := match sqldata s with Some _ => Some data | None => None end;
         sqlind := match sqlind s with Some _ => Some ind | None => None end;
         aliasname := aliasname s; aliasname_length := aliasname_length s |}
      :: fetch_slots row' slots'
  | _, _ => slots
  end.

Definition fetched (r : reply) (da : XSQLDA) : XSQLDA :=
  {| version := version da; sqln := sqln da; sqld := sqld da;
     sqlvar := fetch_slots (rp_row r) (sqlvar da) |}.

(** ** The state of a run *)

Record World := {
  envs : gmap ptr env_data;
  conns : gmap ptr conn_data;
  stmts : gmap ptr stmt_data;
  curs : gmap ptr cur_data;
  registry : gmap (kind * ptr) lua_value;  (* registry[lightuserdata] *)
  stack : list lua_value;                  (* the stack of the running C function *)
  trace : list call                        (* native calls so far, oldest first *)
}.

Definition with_envs (f : gmap ptr env_data -> gmap ptr env_data) (w : World) : World :=
  {| envs := f (envs w); conns := conns w; stmts := stmts w; curs := curs w;
     registry := registry w; stack := stack w; trace := trace w |}.
Definition with_conns (f : gmap ptr conn_data -> gmap ptr conn_data) (w : World) : World :=
  {| envs := envs w; conns := f (conns w); stmts := stmts w; curs := curs w;
     registry := registry w; stack := stack w; trace := trace w |}.
Definition with_stmts (f : gmap ptr stmt_data -> gmap ptr stmt_data) (w : World) : World :=
  {| envs := envs w; conns := conns w; stmts := f (stmts w); curs := curs w;
     registry := registry w; stack := stack w; trace := trace w |}.
Definition with_curs (f : gmap ptr cur_data -> gmap ptr cur_data) (w : World) : World :=
  {| envs := envs w; conns := conns w; stmts := stmts w; curs := f (curs w);
     registry := registry w; stack := stack w; trace := trace w |}.
Definition with_registry (f : gmap (kind * ptr) lua_value -> gmap (kind * ptr) lua_value)
  (w : World) : World :=
  {| envs := envs w; conns := conns w; stmts := stmts w; curs := curs w;
     registry := f (registry w); stack := stack w; trace := trace w |}.
Definition with_stack (f : list lua_value -> list lua_value) (w : World) : World :=
  {| envs := envs w; conns := conns w; stmts := stmts w; curs := curs w;
     registry := registry w; stack := f (stack w); trace := trace w |}.
Definition with_trace (f : list call -> list call) (w : World) : World :=
  {| envs := envs w; conns := conns w; stmts := stmts w; curs := curs w;
     registry := registry w; stack := stack w; trace := f (trace w) |}.

(** How a C function of the driver ends: it returns, it leaves through
    [lua_error] (luaL_error, luaL_argcheck), or its behaviour is undefined
    (a NULL, freed or stray pointer, a write past a buffer). *)
Inductive outcome (A : Type) :=
| Ret (a : A) (w : World)
| LuaError (msg : string) (w : World)
| Fault (why : string).
Arguments Ret {A} a w.
Arguments LuaError {A} msg w.
Arguments Fault {A} why.

Definition M (A : Type) : Type := World -> outcome A.

Definition ret {A} (a : A) : M A := fun w => Ret a w.

Definition bind {A B} (m : M A) (k : A -> M B) : M B :=
  fun w =>
    match m w with
    | Ret a w' => k a w'
    | LuaError msg w' => LuaError msg w'
    | Fault why => Fault why
    end.

Notation "'let!' x ':=' m 'in' k" := (bind m (fun x => k))
  (at level 10, x pattern, m at level 100, k at level 200).
Notation "'do!' m 'in' k" := (bind m (fun _ => k))
  (at level 10, m at level 100, k at level 200).

Definition fault {A} (why : string) : M A := fun _ => Fault why.
Definition lua_error {A} (msg : string) : M A := fun w => LuaError msg w.
Definition modify (f : World -> World) : M unit := fun w => Ret tt (f w).
Definition gets {A} (f : World -> A) : M A := fun w => Ret (f w) w.

(** Dereferences. *)
Definition deref {A} (what : string) (sel : World -> gmap ptr A) (p : ptr) : M A :=
  fun w => match sel w !! p with
           | Some x => Ret x w
           | None => Fault what
           end.

Definition get_env := deref "env_data" envs.
Definition get_conn := deref "conn_data" conns.
Definition get_stmt := deref "stmt_data" stmts.
Definition get_cur := deref "cur_data" curs.

Definition put_env (p : ptr) (x : env_data) : M unit := modify (with_envs <[p:=x]>).
Definition put_conn (p : ptr) (x : conn_data) : M unit := modify (with_conns <[p:=x]>).
Definition put_stmt (p : ptr) (x : stmt_data) : M unit := modify (with_stmts <[p:=x]>).
Definition put_cur (p : ptr) (x : cur_data) : M unit := modify (with_curs <[p:=x]>).

Definition get_live {A} (what : string) (o : owned A) : M A :=
  match o with
  | Live a => ret a
  | _ => fault what
  end.

(** ** The Lua C API, as far as the driver uses it *)

(** The value at a stack index: positive from the bottom, negative from the
    top; [None] where the index holds nothing. *)
Definition stack_at (st : list lua_value) (i : Z) : option lua_value :=
  if decide (0 < i) then st !! Z.to_nat (i - 1)
  else if decide (i < 0 /\ - i <= Z.of_nat (length st))
       then st !! Z.to_nat (Z.of_nat (length st) + i)
       else None.

Definition lua_gettop : M Z := gets (fun w => Z.of_nat (length (stack w))).
Definition lua_push (v : lua_value) : M unit := modify (with_stack (fun st => st ++ [v])).
Definition lua_pop (n : Z) : M unit :=
  modify (with_stack (fun st => take (length st - Z.to_nat n)%nat st)).
Definition lua_settop (n : Z) : M unit :=
  modify (with_stack (fun st =>
    take (Z.to_nat n) st ++ replicate (Z.to_nat n - length st)%nat LNil)).
Definition lua_value_at (i : Z) : M (option lua_value) := gets (fun w => stack_at (stack w) i).
Definition lua_type (i : Z) : M lua_type_tag :=
  let! v := lua_value_at i in
  ret (match v with Some x => type_of x | None => LUA_TNONE end).

(** [lua_pushvalue]: a copy of the value at the index, nil where there is none. *)
Definition lua_pushvalue (i : Z) : M unit :=
  let! v := lua_value_at i in
  lua_push (match v with Some x => x | None => LNil end).

(** [luaL_checkudata]: the block of a userdata of the given class. *)
Definition luaL_checkudata (i : Z) (k : kind) : M ptr :=
  let! v := lua_value_at i in
  match v with
  | Some (LUserdata k' p) => if decide (k' = k) then ret p else lua_error "bad argument (wrong userdata)"
  | _ => lua_error "bad argument (userdata expected)"
  end.

Definition luaL_argcheck (cond : bool) (extramsg : string) : M unit :=
  if cond then ret tt else lua_error extramsg.

(** The results a C function hands to Lua: the top [n] values of its stack. *)
Definition results (n : Z) (w : World) : list lua_value :=
  drop (length (stack w) - Z.to_nat n)%nat (stack w).

Definition LUASQL_PREFIX : list byte := list_byte_of_string "LuaSQL: ".

(** Modelled from the spec: [luasql_faildirect] of luasql.c, which is not
    among the sources: "returns a null/empty sentinel paired with an error
    message".  It pushes nil and the prefixed message and returns 2. *)
Definition luasql_faildirect (err : string) : M Z :=
  do! lua_push LNil in
  do! lua_push (LString (LUASQL_PREFIX ++ list_byte_of_string err)) in
  ret 2.

(** ** The driver, function by function *)

Section Driver.

Variable engine : Engine.
Variable host : Host.

(** The segment loop of [push_column] runs for as long as the engine says
    that the BLOB goes on.  [fuel] bounds the calls of [isc_get_segment] one
    BLOB is read with; a loop that has not ended by then stands for one that
    does not end, and has no result. *)
Variable fuel : nat.

(** A native call made with the status vector of environment [e]: the
    engine's answer is drawn from the log, the status vector is overwritten
    and the call is logged. *)
Definition answered (e : ptr) (ed : env_data) (c : call) (w : World) : World :=
  with_trace (fun t => t ++ [c])
    (with_envs <[e := {| env_closed := env_closed ed;
                         env_lock := env_lock ed;
                         status_vector := rp_status (isc engine (trace w) c) |}]> w).

Definition native (e : ptr) (c : call) : M reply :=
  fun w =>
    match envs w !! e with
    | None => Fault "env_data"
    | Some ed => Ret (isc engine (trace w) c) (answered e ed c w)
    end.

Definition env_status (e : ptr) : M (list ISC_STATUS) :=
  let! ed := get_env e in ret (status_vector ed).

(** [custom_fb_error]: the five slots it writes. *)
Definition custom_fb_error (pvector : list ISC_STATUS) (msg : string) : list ISC_STATUS :=
  [st_num 1; st_num isc_random; st_num 2; st_str msg; st_num 0] ++ drop 5 pvector.

Definition error_separator : list byte := [x0a; x20; x2a; x20].   (* "\n * " *)

(** [return_db_error]: nil, then the first message with every further one
    appended behind a separator. *)
Definition return_db_error (pvector : list ISC_STATUS) : M Z :=
  do! lua_push LNil in
  let msgs := fb_interpret engine pvector in
  do! lua_push (LString (fold_left (fun acc m => acc ++ error_separator ++ m)
                           (tail msgs) (hd [] msgs))) in
  ret 2.

Definition registry_set (key : kind * ptr) (v : lua_value)
  (r : gmap (kind * ptr) lua_value) : gmap (kind * ptr) lua_value :=
  match v with
  | LNil => delete key r
  | _ => <[key := v]> r
  end.

(** [registerobj]: [registry[obj] = stack[index]]; the stack is as before. *)
Definition registerobj (index : Z) (obj : kind * ptr) : M unit :=
  do! lua_pushvalue index in
  let! v := lua_value_at (-1) in
  do! modify (with_registry (registry_set obj (match v with Some x => x | None => LNil end))) in
  lua_pop 1.

(** [unregisterobj]: [registry[obj] = nil]. *)
Definition unregisterobj (obj : kind * ptr) : M unit :=
  modify (with_registry (registry_set obj LNil)).

Definition zero_var : XSQLVAR :=
  {| sqltype := 0; sqllen := 0; sqldata := None; sqlind := None;
     aliasname := []; aliasname_length := 0 |}.

(** [malloc_xsqlda]: a zeroed descriptor of [len] slots. *)
Definition malloc_xsqlda (len : Z) : XSQLDA :=
  {| version := SQLDA_VERSION1; sqln := len; sqld := 0;
     sqlvar := replicate (Z.to_nat len) zero_var |}.

Definition malloc_zero (len : Z) : list byte := replicate (Z.to_nat len) x00.

(** The body of the loop of [malloc_sqlda_vars] for one slot.  The null
    flag it allocates is not initialised; it is read as 0 here. *)
Definition malloc_sqlda_var (var : XSQLVAR) : XSQLVAR :=
  let t := base_type (sqltype var) in
  let data :=
    if decide (t = SQL_VARYING) then Some (malloc_zero (sqllen var + 2))
    else if decide (t = SQL_TEXT) then Some (malloc_zero (sqllen var))
    else if decide (t = SQL_SHORT) then Some (malloc_zero 2)
    else if decide (t = SQL_LONG) then Some (malloc_zero 4)
    else if decide (t = SQL_INT64) then Some (malloc_zero 8)
    else if decide (t = SQL_FLOAT) then Some (malloc_zero 4)
    else if decide (t = SQL_DOUBLE) then Some (malloc_zero 8)
    else if decide (t = SQL_TYPE_TIME) then Some (malloc_zero 4)
    else if decide (t = SQL_TYPE_DATE) then Some (malloc_zero 4)
    else if decide (t = SQL_TIMESTAMP) then Some (malloc_zero 8)
    else if decide (t = SQL_BLOB) then Some (malloc_zero 8)
    else sqldata var in
  {| sqltype := sqltype var; sqllen := sqllen var;
     sqldata := data;
     sqlind := if Z.testbit (sqltype var) 0 then Some 0 else None;
     aliasname := aliasname var; aliasname_length := aliasname_length var |}.

(** [malloc_sqlda_vars]: the first [sqld] slots get their buffers; a count
    beyond the slots of the descriptor runs off its end. *)
Definition malloc_sqlda_vars (sqlda : XSQLDA) : M XSQLDA :=
  let n := Z.to_nat (sqld sqlda) in
  if decide (sqld sqlda <= Z.of_nat (length (sqlvar sqlda))) then
    ret {| version := version sqlda; sqln := sqln sqlda; sqld := sqld sqlda;
           sqlvar := map malloc_sqlda_var (take n (sqlvar sqlda)) ++ drop n (sqlvar sqlda) |}
  else fault "malloc_sqlda_vars: sqlvar index past the descriptor".

(** [free_xsqlda] (with [free_sqlda_vars]): the block and the buffers of its
    slots are released; the pointer the caller holds is left dangling. *)
Definition free_xsqlda (sqlda : owned XSQLDA) : M (owned XSQLDA) :=
  match sqlda with
  | Null => ret Null
  | Live _ => ret Dangling
  | Dangling => fault "free_xsqlda: block already freed"
  end.

Definition free_stmt (stmt : stmt_data) : M stmt_data :=
  let! da := free_xsqlda (in_sqlda stmt) in
  ret {| stmt_closed := stmt_closed stmt; stmt_lock := stmt_lock stmt;
         stmt_env := stmt_env stmt; stmt_conn := stmt_conn stmt;
         in_sqlda := da; handle := handle stmt; type := type stmt;
         hidden := hidden stmt |}.

Definition free_cur (cur : cur_data) : M cur_data :=
  let! da := free_xsqlda (out_sqlda cur) in
  ret {| cur_closed := cur_closed cur; cur_env := cur_env cur;
         cur_stmt := cur_stmt cur; out_sqlda := da |}.

Definition set_stmt_handle (h : Z) (stmt : stmt_data) : stmt_data :=
  {| stmt_closed := stmt_closed stmt; stmt_lock := stmt_lock stmt;
     stmt_env := stmt_env stmt; stmt_conn := stmt_conn stmt;
     in_sqlda := in_sqlda stmt; handle := h; type := type stmt;
     hidden := hidden stmt |}.
Definition set_stmt_closed (c : Z) (stmt : stmt_data) : stmt_data :=
  {| stmt_closed := c; stmt_lock := stmt_lock stmt;
     stmt_env := stmt_env stmt; stmt_conn := stmt_conn stmt;
     in_sqlda := in_sqlda stmt; handle := handle stmt; type := type stmt;
     hidden := hidden stmt |}.
Definition set_stmt_lock (l : Z) (stmt : stmt_data) : stmt_data :=
  {| stmt_closed := stmt_closed stmt; stmt_lock := l;
     stmt_env := stmt_env stmt; stmt_conn := stmt_conn stmt;
     in_sqlda := in_sqlda stmt; handle := handle stmt; type := type stmt;
     hidden := hidden stmt |}.
Definition set_stmt_type (t : Z) (stmt : stmt_data) : stmt_data :=
  {| stmt_closed := stmt_closed stmt; stmt_lock := stmt_lock stmt;
     stmt_env := stmt_env stmt; stmt_conn := stmt_conn stmt;
     in_sqlda := in_sqlda stmt; handle := handle stmt; type := t;
     hidden := hidden stmt |}.
Definition set_stmt_hidden (x : Z) (stmt : stmt_data) : stmt_data :=
  {| stmt_closed := stmt_closed stmt; stmt_lock := stmt_lock stmt;
     stmt_env := stmt_env stmt; stmt_conn := stmt_conn stmt;
     in_sqlda := in_sqlda stmt; handle := handle stmt; type := type stmt;
     hidden := x |}.
Definition set_in_sqlda (da : owned XSQLDA) (stmt : stmt_data) : stmt_data :=
  {| stmt_closed := stmt_closed stmt; stmt_lock := stmt_lock stmt;
     stmt_env := stmt_env stmt; stmt_conn := stmt_conn stmt;
     in_sqlda := da; handle := handle stmt; type := type stmt;
     hidden := hidden stmt |}.
Definition set_conn_lock (l : Z) (conn : conn_data) : conn_data :=
  {| conn_closed := conn_closed conn; conn_lock := l; conn_env := conn_env conn;
     autocommit := autocommit conn; db := db conn; dpb_buffer := dpb_buffer conn;
     dpb_length := dpb_length conn; transaction := transaction conn;
     dialect := dialect conn |}.
Definition set_conn_closed (c : Z) (conn : conn_data) : conn_data :=
  {| conn_closed := c; conn_lock := conn_lock conn; conn_env := conn_env conn;
     autocommit := autocommit conn; db := db conn; dpb_buffer := dpb_buffer conn;
     dpb_length := dpb_length conn; transaction := transaction conn;
     dialect := dialect conn |}.
Definition set_conn_db (h : Z) (conn : conn_data) : conn_data :=
  {| conn_closed := conn_closed conn; conn_lock := conn_lock conn; conn_env := conn_env conn;
     autocommit := autocommit conn; db := h; dpb_buffer := dpb_buffer conn;
     dpb_length := dpb_length conn; transaction := transaction conn;
     dialect := dialect conn |}.
Definition set_conn_transaction (h : Z) (conn : conn_data) : conn_data :=
  {| conn_closed := conn_closed conn; conn_lock := conn_lock conn; conn_env := conn_env conn;
     autocommit := autocommit conn; db := db conn; dpb_buffer := dpb_buffer conn;
     dpb_length := dpb_length conn; transaction := h;
     dialect := dialect conn |}.
Definition set_conn_autocommit (a : Z) (conn : conn_data) : conn_data :=
  {| conn_closed := conn_closed conn; conn_lock := conn_lock conn; conn_env := conn_env conn;
     autocommit := a; db := db conn; dpb_buffer := dpb_buffer conn;
     dpb_length := dpb_length conn; transaction := transaction conn;
     dialect := dialect conn |}.
Definition set_env_lock (l : Z) (env : env_data) : env_data :=
  {| env_closed := env_closed env; env_lock := l; status_vector := status_vector env |}.
Definition set_env_closed (c : Z) (env : env_data) : env_data :=
  {| env_closed := c; env_lock := env_lock env; status_vector := status_vector env |}.
Definition set_status_vector (sv : list ISC_STATUS) (env : env_data) : env_data :=
  {| env_closed := env_closed env; env_lock := env_lock env; status_vector := sv |}.
Definition set_cur_closed (c : Z) (cur : cur_data) : cur_data :=
  {| cur_closed := c; cur_env := cur_env cur; cur_stmt := cur_stmt cur;
     out_sqlda := out_sqlda cur |}.
Definition set_out_sqlda (da : owned XSQLDA) (cur : cur_data) : cur_data :=
  {| cur_closed := cur_closed cur; cur_env := cur_env cur; cur_stmt := cur_stmt cur;
     out_sqlda := da |}.

(** [stmt_shut]: drops the native statement, frees the input descriptor,
    marks the statement closed and takes it off its connection's lock. *)
Definition stmt_shut (sp : ptr) : M Z :=
  let! stmt := get_stmt sp in
  let! r := native (stmt_env stmt) (isc_dsql_free_statement (handle stmt) DSQL_drop) in
  do! put_stmt sp (set_stmt_handle (rp_handle r) stmt) in
  let! sv := env_status (stmt_env stmt) in
  if CHECK_DB_ERROR sv then return_db_error sv
  else
    let! stmt := get_stmt sp in
    let! stmt := free_stmt stmt in
    do! put_stmt sp (set_stmt_closed 1 stmt) in
    let! conn := get_conn (stmt_conn stmt) in
    do! put_conn (stmt_conn stmt) (set_conn_lock (conn_lock conn - 1) conn) in
    do! (if decide (conn_lock conn - 1 = 0)
         then unregisterobj (KConn, stmt_conn stmt) else ret tt) in
    ret 0.

(** [cur_shut]: closes the native cursor, frees the output descriptor,
    marks the cursor closed, takes it off its statement's lock and shuts a
    hidden statement that has no cursor left. *)
Definition cur_shut (cp : ptr) : M Z :=
  let! cur := get_cur cp in
  let! stmt := get_stmt (cur_stmt cur) in
  let! _ := native (cur_env cur) (isc_dsql_free_statement (handle stmt) DSQL_close) in
  let! sv := env_status (cur_env cur) in
  if CHECK_DB_ERROR sv then return_db_error sv
  else
    let! cur := free_cur cur in
    do! put_cur cp (set_cur_closed 1 cur) in
    let! stmt := get_stmt (cur_stmt cur) in
    do! put_stmt (cur_stmt cur) (set_stmt_lock (stmt_lock stmt - 1) stmt) in
    if decide (stmt_lock stmt - 1 = 0) then
      do! unregisterobj (KStmt, cur_stmt cur) in
      if decide (hidden stmt <> 0) then stmt_shut (cur_stmt cur) else ret 0
    else ret 0.


(** [res_buffer] is a local array of 88 bytes that is not initialised: it
    holds the bytes the engine wrote, here the list [buf], and no other byte
    of it has a value.  [buffer_at] is the byte at [i], as the [char] the
    code compares; reading a byte the engine did not write has no defined
    result. *)
Definition buffer_at (buf : list byte) (i : Z) : M Z :=
  if decide (i < 0) then fault "res_buffer: read before the buffer"
  else
    match buf !! Z.to_nat i with
    | Some b => ret (Z_of_byte b)
    | None => fault "res_buffer: read of a byte the engine did not write"
    end.

Definition buffer_from (buf : list byte) (i : Z) : list byte :=
  drop (Z.to_nat i) buf.

(** [(int) isc_vax_integer(res_buffer + i, n)].  For [n] from 1 to 4 the
    client library reads the [n] bytes at [i], which the engine must have
    written; for any other [n] it reads nothing and gives 0. *)
Definition buffer_integer (buf : list byte) (i n : Z) : M Z :=
  if decide (n <= 0 \/ 4 < n) then ret (to_int (isc_vax_integer (buffer_from buf i) n))
  else if decide (0 <= i /\ i + n <= Z.of_nat (length buf)) then
    ret (to_int (isc_vax_integer (buffer_from buf i) n))
  else fault "res_buffer: read of a byte the engine did not write".

(** [get_statement_type], "check the type of the statement": the type
    item at the head of the result buffer, or -2. *)
Definition read_statement_type (res_buffer : list byte) : M Z :=
  let! item := buffer_at res_buffer 0 in
  if decide (item = isc_info_sql_stmt_type) then
    let! length := buffer_integer res_buffer 1 2 in
    buffer_integer res_buffer 3 length
  else ret (-2).

(** [get_statement_type]: the statement type item of [isc_dsql_sql_info]. *)
Definition get_statement_type (stmt : stmt_data) : M Z :=
  let! r := native (stmt_env stmt)
              (isc_dsql_sql_info (handle stmt) [isc_info_sql_stmt_type] 88) in
  let! sv := env_status (stmt_env stmt) in
  if st_is 1 (sv_at sv 0) && st_positive (sv_at sv 1) then ret (-1)
  else read_statement_type (take 88 (rp_buffer r)).

Record row_counts := {
  del_count : Z; ins_count : Z; upd_count : Z; sel_count : Z
}.

(** One counter of the record loop: [pres++], the two bytes of the length,
    the [length] bytes of the value, and [pres] after them. *)
Definition read_counter (buf : list byte) (pres : Z) : M (Z * Z) :=
  let! length := buffer_integer buf (pres + 1) 2 in
  let! value := buffer_integer buf (pres + 3) length in
  ret (value, pres + 3 + length).

(** The [while] loop of [count_rows_affected], which runs until the byte
    at [pres] is 1.  Every step
    moves [pres]; a [pres] outside the 88 bytes of [res_buffer], or a loop
    that has not ended after [fuel] steps, has no defined result. *)
Fixpoint count_records (fuel : nat) (buf : list byte) (pres : Z) (c : row_counts)
  : M row_counts :=
  match fuel with
  | O => fault "count_rows_affected: the record loop does not end"
  | S fuel' =>
      if decide (pres < 0 \/ 88 <= pres) then
        fault "count_rows_affected: pres outside res_buffer"
      else
        let! item := buffer_at buf pres in
        if decide (item = 1) then ret c
        else if decide (item = isc_info_req_select_count) then
          let! vp := read_counter buf pres in
          count_records fuel' buf (snd vp)
            {| del_count := del_count c; ins_count := ins_count c;
               upd_count := upd_count c; sel_count := fst vp |}
        else if decide (item = isc_info_req_insert_count) then
          let! vp := read_counter buf pres in
          count_records fuel' buf (snd vp)
            {| del_count := del_count c; ins_count := fst vp;
               upd_count := upd_count c; sel_count := sel_count c |}
        else if decide (item = isc_info_req_update_count) then
          let! vp := read_counter buf pres in
          count_records fuel' buf (snd vp)
            {| del_count := del_count c; ins_count := ins_count c;
               upd_count := fst vp; sel_count := sel_count c |}
        else if decide (item = isc_info_req_delete_count) then
          let! vp := read_counter buf pres in
          count_records fuel' buf (snd vp)
            {| del_count := fst vp; ins_count := ins_count c;
               upd_count := upd_count c; sel_count := sel_count c |}
        else count_records fuel' buf (pres + 1) c
  end.

(** [count_rows_affected]: the call is made with the status vector of
    [env], the check reads the one of the cursor's environment. *)
Definition count_rows_affected (env : ptr) (cur : cur_data) : M Z :=
  let! stmt := get_stmt (cur_stmt cur) in
  let! r := native env
              (isc_dsql_sql_info (handle stmt)
                 [isc_info_sql_stmt_type; isc_info_sql_records] 88) in
  let! sv := env_status (cur_env cur) in
  if st_is 1 (sv_at sv 0) && st_positive (sv_at sv 1) then ret (-1)
  else
    let res_buffer := take 88 (rp_buffer r) in
    let! item := buffer_at res_buffer 0 in
    if decide (item = isc_info_sql_stmt_type) then
      let! length := buffer_integer res_buffer 1 2 in
      let! type := buffer_integer res_buffer 3 length in
      let pres := 3 + length in
      if decide (type > 4) then ret 0
      else if decide (pres < 0 \/ 88 <= pres) then
        fault "count_rows_affected: pres outside res_buffer"
      else
        let! item := buffer_at res_buffer pres in
        if decide (item = isc_info_sql_records) then
          let! _ := buffer_integer res_buffer (pres + 1) 2 in
          let! c := count_records 89 res_buffer (pres + 3)
                      {| del_count := 0; ins_count := 0; upd_count := 0; sel_count := 0 |} in
          ret (if decide (type = isc_info_sql_stmt_select) then sel_count c
               else if decide (type = isc_info_sql_stmt_delete) then del_count c
               else if decide (type = isc_info_sql_stmt_update) then upd_count c
               else if decide (type = isc_info_sql_stmt_insert) then ins_count c
               else 0)
        else ret (-3)
    else ret (-2).

(** [malloc(len)] for a [len] that was a negative short asks for more than
    any allocator gives: NULL.  Otherwise the block of [len] bytes. *)
Definition malloc_copy (data : list byte) (len : Z) : option (list byte) :=
  if decide (len < 0) then None else Some (take (Z.to_nat len) data).

(** [fill_param]: [data] is the memory at the pointer passed, [len] the
    ISC_SHORT the caller's length was converted to. *)
Definition fill_param (var : XSQLVAR) (type : Z) (data : list byte) (len : Z)
  : M XSQLVAR :=
  match sqlind var with
  | None => fault "fill_param: *var->sqlind with sqlind NULL"
  | Some _ =>
      ret {| sqltype := type;
             sqlind := Some 0;
             sqllen := if decide (base_type type = SQL_TEXT) then to_short (len - 1) else len;
             sqldata := malloc_copy data len;
             aliasname := aliasname var; aliasname_length := aliasname_length var |}
  end.

(** The [while(len > 10000)] loop of [write_blob] with its early returns;
    [true] when the loop was left through an error. *)
Fixpoint put_full_segments (fuel : nat) (env : ptr) (blob_handle : Z)
  (data : list byte) (len : Z) : M (bool * list byte * Z) :=
  match fuel with
  | O => ret (false, data, len)
  | S fuel' =>
      if decide (len > 10000) then
        let! _ := native env (isc_put_segment blob_handle 10000
                                (take (Z.to_nat 10000) data)) in
        let! sv := env_status env in
        if CHECK_DB_ERROR sv then ret (true, data, len)
        else put_full_segments fuel' env blob_handle
               (drop (Z.to_nat 10000) data) (len - 10000)
      else ret (false, data, len)
  end.

(** [write_blob]: returns the blob id left in [*blob_id]. *)
Definition write_blob (stmt : stmt_data) (data : list byte) (len : Z) : M (list byte) :=
  let! conn := get_conn (stmt_conn stmt) in
  let! r := native (stmt_env stmt) (isc_create_blob2 (db conn) (transaction conn)) in
  let blob_handle := rp_handle r in
  let blob_id := rp_quad r in
  let! sv := env_status (stmt_env stmt) in
  if CHECK_DB_ERROR sv then ret blob_id
  else
    let! (failed, data, len) :=
      put_full_segments (Z.to_nat (len / 10000)) (stmt_env stmt) blob_handle data len in
    if failed : bool then ret blob_id
    else
      let! _ := native (stmt_env stmt)
                  (isc_put_segment blob_handle len (take (Z.to_nat len) data)) in
      let! sv := env_status (stmt_env stmt) in
      if CHECK_DB_ERROR sv then ret blob_id
      else
        let! _ := native (stmt_env stmt) (isc_close_blob blob_handle) in
        ret blob_id.

(** [lua_tostring]: the bytes at the pointer it returns, with the
    terminator; NULL for a value that is neither string nor number. *)
Definition lua_tostring (v : lua_value) : option (list byte) :=
  match v with
  | LString s => Some (cstr s ++ [x00])
  | LInteger _ | LFloat _ => Some (cstr (number_tostring host v) ++ [x00])
  | _ => None
  end.

Definition c_strlen (mem : list byte) : Z := strlen mem.

Definition is_text_column (t : Z) : bool :=
  bool_decide (t = SQL_VARYING \/ t = SQL_BLOB \/ t = SQL_TEXT).
Definition is_integer_column (t : Z) : bool :=
  bool_decide (t = SQL_INT64 \/ t = SQL_LONG \/ t = SQL_SHORT).
Definition is_float_column (t : Z) : bool :=
  bool_decide (t = SQL_DOUBLE \/ t = SQL_D_FLOAT \/ t = SQL_FLOAT).
Definition is_time_column (t : Z) : bool :=
  bool_decide (t = SQL_TIMESTAMP \/ t = SQL_TYPE_TIME \/ t = SQL_TYPE_DATE).

Definition set_sqlind (i : option Z) (var : XSQLVAR) : XSQLVAR :=
  {| sqltype := sqltype var; sqllen := sqllen var; sqldata := sqldata var;
     sqlind := i; aliasname := aliasname var; aliasname_length := aliasname_length var |}.

(** [set_param]: binds the value on top of the stack to the slot. *)
Definition set_param (stmt : stmt_data) (var : XSQLVAR) : M XSQLVAR :=
  let var := match sqlind var with
             | None => set_sqlind (Some 0) var
             | Some _ => var
             end in
  let! top := lua_value_at (-1) in
  match top with
  | None => fault "set_param: empty stack"
  | Some LNil => ret (set_sqlind (Some (-1)) var)
  | Some v =>
      let t := base_type (sqltype var) in
      let! var :=
        if is_text_column t then
          match lua_tostring v with
          | None => fault "set_param: strlen(NULL)"
          | Some str =>
              if decide (c_strlen str > 32752) then
                let! blob_id := write_blob stmt str (c_strlen str) in
                fill_param var (SQL_BLOB + 1) blob_id 8
              else
                fill_param var (SQL_TEXT + 1) str (to_short (c_strlen str + 1))
          end
        else if is_integer_column t then
          fill_param var (SQL_INT64 + 1)
            (le_bytes 8 (tonumber_int64 host v)) 8
        else if is_float_column t then
          fill_param var (SQL_DOUBLE + 1) (tonumber_double host v) 8
        else if is_time_column t then
          match type_of v with
          | LUA_TNUMBER =>
              fill_param var (SQL_TIMESTAMP + 1) (tointeger_timestamp host v) 8
          | LUA_TSTRING =>
              match lua_tostring v with
              | None => fault "set_param: strlen(NULL)"
              | Some str =>
                  fill_param var (SQL_TEXT + 1) str (to_short (c_strlen str + 1))
              end
          | _ => fill_param var (SQL_TEXT + 1) [x00] 1
          end
        else ret var in
      match sqldata var with
      | Some _ => ret var
      | None =>
          let! conn := get_conn (stmt_conn stmt) in
          let! env := get_env (conn_env conn) in
          do! put_env (conn_env conn)
                (set_status_vector
                   (custom_fb_error (status_vector env)
                      "Problem allocating SQL param memory") env) in
          ret var
      end
  end.


(** The two loops of [parse_params] share their body: a value is pushed,
    bound to slot [i] and popped. *)
Fixpoint parse_params_loop (n : nat) (i : Z) (push_value : Z -> M unit)
  (stmt : stmt_data) (vars : list XSQLVAR) : M (list XSQLVAR) :=
  match n with
  | O => ret vars
  | S n' =>
      do! push_value i in
      match vars !! Z.to_nat i with
      | None => fault "parse_params: sqlvar index past the descriptor"
      | Some var =>
          let! var := set_param stmt var in
          do! lua_pop 1 in
          parse_params_loop n' (i + 1) push_value stmt (<[Z.to_nat i := var]> vars)
      end
  end.

(** [parse_params]: one value per declared slot ([sqln]), from the table at
    [params] or from the arguments starting at [params]. *)
Definition parse_params (stmt : stmt_data) (params : Z) : M stmt_data :=
  let! sqlda := get_live "parse_params: in_sqlda" (in_sqlda stmt) in
  let! arg := lua_value_at params in
  let! vars :=
    match arg with
    | Some (LTable _) =>
        parse_params_loop (Z.to_nat (sqln sqlda)) 0
          (fun i =>
             let! t := lua_value_at params in
             lua_push (match t with
                       | Some (LTable t) => table_get t (KeyNum (i + 1))
                       | _ => LNil
                       end))
          stmt (sqlvar sqlda)
    | _ =>
        let! ltop := lua_gettop in
        parse_params_loop (Z.to_nat (sqln sqlda)) 0
          (fun i => if decide (params + i > ltop) then lua_push LNil
                    else lua_pushvalue (params + i))
          stmt (sqlvar sqlda)
    end in
  ret (set_in_sqlda (Live {| version := version sqlda; sqln := sqln sqlda;
                             sqld := sqld sqlda; sqlvar := vars |}) stmt).

(** [getconnection], [getstatement]: the block of an open handle. *)
Definition getconnection (i : Z) : M ptr :=
  let! p := luaL_checkudata i LUASQL_CONNECTION_FIREBIRD in
  let! conn := get_conn p in
  do! luaL_argcheck (bool_decide (conn_closed conn = 0)) "connection is closed" in
  ret p.

Definition getstatement (i : Z) : M ptr :=
  let! p := luaL_checkudata i LUASQL_STATEMENT_FIREBIRD in
  let! stmt := get_stmt p in
  do! luaL_argcheck (bool_decide (stmt_closed stmt = 0)) "statement is closed" in
  ret p.

Definition getenvironment (i : Z) : M ptr :=
  let! p := luaL_checkudata i LUASQL_ENVIRONMENT_FIREBIRD in
  let! env := get_env p in
  do! luaL_argcheck (bool_decide (env_closed env = 0)) "environment is closed" in
  ret p.

(** [luaL_checklstring]: the bytes of a string argument (a number is
    converted); [luaL_optstring] takes the default for an absent or nil one. *)
Definition luaL_checklstring (i : Z) : M (list byte) :=
  let! v := lua_value_at i in
  match v with
  | Some (LString s) => ret s
  | Some (LInteger n) => ret (number_tostring host (LInteger n))
  | Some (LFloat f) => ret (number_tostring host (LFloat f))
  | _ => lua_error "bad argument (string expected)"
  end.

Definition luaL_optstring (i : Z) (def : list byte) : M (list byte) :=
  let! v := lua_value_at i in
  match v with
  | None | Some LNil => ret def
  | _ => luaL_checklstring i
  end.

(** The outcome of sizing a descriptor: ready, or the describe call failed
    with the descriptor still to be freed by the caller. *)
Inductive sizing :=
| Sized (da : XSQLDA)
| DescribeFailed (da : XSQLDA).

(** [conn_prepare], "bind the input parameters" up to "resize the
    parameter set if needed": one slot, describe, and a second round with
    the reported count when that is more than the slots at hand. *)
Definition size_in_sqlda (env : ptr) (h : Z) : M sizing :=
  let in_sqlda := malloc_xsqlda 1 in
  let! r := native env (isc_dsql_describe_bind h in_sqlda) in
  let in_sqlda := described r in_sqlda in
  let! sv := env_status env in
  if CHECK_DB_ERROR sv then ret (DescribeFailed in_sqlda)
  else if decide (sqld in_sqlda > sqln in_sqlda) then
    let n := sqld in_sqlda in
    let! _ := free_xsqlda (Live in_sqlda) in
    let in_sqlda := malloc_xsqlda n in
    let! r := native env (isc_dsql_describe_bind h in_sqlda) in
    let in_sqlda := described r in_sqlda in
    let! sv := env_status env in
    if CHECK_DB_ERROR sv then ret (DescribeFailed in_sqlda)
    else ret (Sized in_sqlda)
  else ret (Sized in_sqlda).

(** [raw_execute], "size the result, set if needed": as above for the
    output columns, but the first describe call is not checked. *)
Definition size_out_sqlda (env : ptr) (h : Z) : M sizing :=
  let out_sqlda := malloc_xsqlda 1 in
  let! r := native env (isc_dsql_describe h out_sqlda) in
  let out_sqlda := described r out_sqlda in
  if decide (sqld out_sqlda > sqln out_sqlda) then
    let n := sqld out_sqlda in
    let! _ := free_xsqlda (Live out_sqlda) in
    let out_sqlda := malloc_xsqlda n in
    let! r := native env (isc_dsql_describe h out_sqlda) in
    let out_sqlda := described r out_sqlda in
    let! sv := env_status env in
    if CHECK_DB_ERROR sv then ret (DescribeFailed out_sqlda)
    else ret (Sized out_sqlda)
  else ret (Sized out_sqlda).

Definition supported_statement (t : Z) : bool :=
  bool_decide (t = isc_info_sql_stmt_select \/ t = isc_info_sql_stmt_insert \/
               t = isc_info_sql_stmt_update \/ t = isc_info_sql_stmt_delete \/
               t = isc_info_sql_stmt_ddl \/ t = isc_info_sql_stmt_exec_procedure).

(** [lua_newuserdata] with [luasql_setmeta] and the [memcpy] that fills the
    block: a block at a fresh address, its userdata on the stack. *)
Definition new_stmt (stmt : stmt_data) : M ptr :=
  let! p := gets (fun w => fresh (dom (stmts w))) in
  do! put_stmt p stmt in
  do! lua_push (LUserdata LUASQL_STATEMENT_FIREBIRD p) in
  ret p.

Definition new_cur (cur : cur_data) : M ptr :=
  let! p := gets (fun w => fresh (dom (curs w))) in
  do! put_cur p cur in
  do! lua_push (LUserdata LUASQL_CURSOR_FIREBIRD p) in
  ret p.

Definition new_conn (conn : conn_data) : M ptr :=
  let! p := gets (fun w => fresh (dom (conns w))) in
  do! put_conn p conn in
  do! lua_push (LUserdata LUASQL_CONNECTION_FIREBIRD p) in
  ret p.

Definition new_env (env : env_data) : M ptr :=
  let! p := gets (fun w => fresh (dom (envs w))) in
  do! put_env p env in
  do! lua_push (LUserdata LUASQL_ENVIRONMENT_FIREBIRD p) in
  ret p.

(** [conn_prepare] *)
Definition conn_prepare : M Z :=
  let! cp := getconnection 1 in
  let! statement := luaL_checklstring 2 in
  let! conn := get_conn cp in
  let stmt := {| stmt_closed := 0; stmt_lock := 0; stmt_env := conn_env conn;
                 stmt_conn := cp; in_sqlda := Null; handle := 0; type := 0;
                 hidden := 0 |} in
  (* create a statement to handle the query *)
  let! r := native (conn_env conn) (isc_dsql_allocate_statement (db conn) (handle stmt)) in
  let stmt := set_stmt_handle (rp_handle r) stmt in
  let! sv := env_status (conn_env conn) in
  if CHECK_DB_ERROR sv then return_db_error sv
  else
  (* process the SQL ready to run the query *)
  let! _ := native (conn_env conn)
              (isc_dsql_prepare (transaction conn) (handle stmt) (cstr statement)
                 (dialect conn)) in
  let! sv := env_status (conn_env conn) in
  if CHECK_DB_ERROR sv then
    let! _ := free_stmt stmt in return_db_error sv
  else
  (* what type of SQL statement is it? *)
  let! t := get_statement_type stmt in
  let stmt := set_stmt_type t stmt in
  if decide (type stmt < 0) then
    let! _ := free_stmt stmt in
    let! sv := env_status (stmt_env stmt) in
    return_db_error sv
  else
  (* an unsupported SQL statement (something like COMMIT) *)
  if negb (supported_statement (type stmt)) then
    let! _ := free_stmt stmt in
    luasql_faildirect "unsupported SQL statement"
  else
  (* bind the input parameters *)
  let! sz := size_in_sqlda (conn_env conn) (handle stmt) in
  match sz with
  | DescribeFailed da =>
      let! _ := free_stmt (set_in_sqlda (Live da) stmt) in
      let! sv := env_status (conn_env conn) in
      return_db_error sv
  | Sized da =>
      let! da := malloc_sqlda_vars da in
      let stmt := set_in_sqlda (Live da) stmt in
      (* are there any input params *)
      let! bound :=
        if decide (sqld da > 0) then
          let! stmt := parse_params stmt 3 in
          let! sv := env_status (conn_env conn) in
          if CHECK_DB_ERROR sv then
            let! _ := free_stmt stmt in
            let! n := return_db_error sv in
            ret (inl n)
          else ret (inr stmt)
        else ret (inr stmt) in
      match bound with
      | inl n => ret n
      | inr stmt =>
          (* copy the statement into a new lua userdata object *)
          let! _ := new_stmt stmt in
          (* add statement to the lock count *)
          do! registerobj 1 (KConn, cp) in
          let! conn := get_conn cp in
          do! put_conn cp (set_conn_lock (conn_lock conn + 1) conn) in
          ret 1
      end
  end.


(** [raw_execute] *)
Definition raw_execute (stmt_indx : Z) : M Z :=
  let! top := lua_gettop in
  let stmt_indx := if decide (stmt_indx < 0) then top + stmt_indx + 1 else stmt_indx in
  let! sp := getstatement stmt_indx in
  let! stmt := get_stmt sp in
  (* is there already a cursor open *)
  if decide (stmt_lock stmt > 0) then
    luasql_faildirect "statement already has an open cursor"
  else
  let cur := {| cur_closed := 0; cur_env := stmt_env stmt; cur_stmt := sp;
                out_sqlda := Null |} in
  (* size the result, set if needed *)
  let! sz := size_out_sqlda (cur_env cur) (handle stmt) in
  match sz with
  | DescribeFailed da =>
      let! _ := free_cur (set_out_sqlda (Live da) cur) in
      let! sv := env_status (cur_env cur) in
      return_db_error sv
  | Sized da =>
      let! da := malloc_sqlda_vars da in
      let cur := set_out_sqlda (Live da) cur in
      (* does the statment return data? allocate a cursor *)
      let! named :=
        if decide (sqld da > 0) then
          let! _ := native (cur_env cur) (isc_dsql_set_cursor_name (handle stmt) sp) in
          let! sv := env_status (cur_env cur) in
          ret (negb (CHECK_DB_ERROR sv))
        else ret true in
      if negb named then
        do! lua_pop 1 in
        let! _ := free_cur cur in
        let! sv := env_status (cur_env cur) in
        return_db_error sv
      else
      (* run the query *)
      let! conn := get_conn (stmt_conn stmt) in
      let! _ := native (stmt_env stmt)
                  (isc_dsql_execute (transaction conn) (handle stmt) (in_sqlda stmt)) in
      let! sv := env_status (stmt_env stmt) in
      if CHECK_DB_ERROR sv then
        let! _ := free_cur cur in
        let! sv := env_status (cur_env cur) in
        return_db_error sv
      else
      (* what do we return? a cursor or a count *)
      if decide (sqld da > 0) then
        let! _ := new_cur cur in
        do! registerobj stmt_indx (KStmt, sp) in
        let! stmt := get_stmt sp in
        do! put_stmt sp (set_stmt_lock (stmt_lock stmt + 1) stmt) in
        ret 1
      else
        let! committed :=
          if decide (autocommit conn <> 0) then
            let! _ := native (cur_env cur) (isc_commit_retaining (transaction conn)) in
            let! sv := env_status (cur_env cur) in
            ret (negb (CHECK_DB_ERROR sv))
          else ret true in
        if negb committed then
          let! _ := free_cur cur in
          let! sv := env_status (cur_env cur) in
          return_db_error sv
        else
        let! count := count_rows_affected (cur_env cur) cur in
        if decide (count < 0) then
          let! _ := free_cur cur in
          let! sv := env_status (cur_env cur) in
          return_db_error sv
        else
          do! lua_push (LInteger count) in
          (* totaly finished with the cursor *)
          let! _ := native (cur_env cur) (isc_dsql_free_statement (handle stmt) DSQL_close) in
          let! _ := free_cur cur in
          ret 1
  end.

(** [lua_remove]: the value at a valid index is taken out of the stack. *)
Definition lua_remove (i : Z) : M unit :=
  modify (with_stack (fun st =>
    let k := if decide (0 < i) then Z.to_nat (i - 1)
             else Z.to_nat (Z.of_nat (length st) + i) in
    take k st ++ drop (S k) st)).

(** [luaL_testudata]: the block of a userdata of the class, or NULL. *)
Definition luaL_testudata (i : Z) (k : kind) : M (option ptr) :=
  let! v := lua_value_at i in
  ret (match v with
       | Some (LUserdata k' p) => if decide (k' = k) then Some p else None
       | _ => None
       end).

(** [conn_execute] *)
Definition conn_execute : M Z :=
  (* prepare the statement *)
  let! ret1 := conn_prepare in
  if decide (ret1 <> 1) then ret ret1
  else
  (* execute and check result *)
  let! ret2 := raw_execute (-1) in
  if decide (ret2 <> 1) then ret ret2
  else
  (* for neatness, remove stmt from stack *)
  let! sp := getstatement (- (ret2 + 1)) in
  do! lua_remove (- (ret2 + 1)) in
  (* this will be an internal, hidden statment *)
  let! stmt := get_stmt sp in
  do! put_stmt sp (set_stmt_hidden 1 stmt) in
  (* if statement doesn't return a cursor, close it *)
  let! c := luaL_testudata (-1) LUASQL_CURSOR_FIREBIRD in
  match c with
  | None =>
      let! ret3 := stmt_shut sp in
      if decide (ret3 <> 0) then ret ret3 else ret 1
  | Some _ => ret 1
  end.

(** [conn_setautocommit] *)
Definition lua_toboolean (v : option lua_value) : bool :=
  match v with
  | None | Some LNil | Some (LBoolean false) => false
  | _ => true
  end.

Definition conn_setautocommit : M Z :=
  let! cp := getconnection 1 in
  let! conn := get_conn cp in
  let! v := lua_value_at 2 in
  do! put_conn cp (set_conn_autocommit (if lua_toboolean v then 1 else 0) conn) in
  do! lua_push (LBoolean true) in
  ret 1.

(** [conn_close] *)
Definition conn_close : M Z :=
  let! cp := luaL_checkudata 1 LUASQL_CONNECTION_FIREBIRD in
  let! conn := get_conn cp in
  (* already closed *)
  if decide (conn_closed conn <> 0) then
    do! lua_push (LBoolean false) in ret 1
  else
  (* are all related statements closed? *)
  if decide (conn_lock conn > 0) then
    luasql_faildirect "there are still open statements/cursors"
  else
  let! r := native (conn_env conn)
              (if decide (autocommit conn <> 0)
               then isc_commit_transaction (transaction conn)
               else isc_rollback_transaction (transaction conn)) in
  let conn := set_conn_transaction (rp_handle r) conn in
  do! put_conn cp conn in
  let! sv := env_status (conn_env conn) in
  if CHECK_DB_ERROR sv then return_db_error sv
  else
  let! r := native (conn_env conn) (isc_detach_database (db conn)) in
  let conn := set_conn_db (rp_handle r) conn in
  do! put_conn cp conn in
  let! sv := env_status (conn_env conn) in
  if CHECK_DB_ERROR sv then return_db_error sv
  else
  do! put_conn cp (set_conn_closed 1 conn) in
  let! env := get_env (conn_env conn) in
  do! put_env (conn_env conn) (set_env_lock (env_lock env - 1) env) in
  (* check environment can be GC'd *)
  do! (if decide (env_lock env - 1 = 0)
       then unregisterobj (KEnv, conn_env conn) else ret tt) in
  do! lua_push (LBoolean true) in
  ret 1.

(** A store through a moving pointer into a buffer of [cap] bytes of which
    [buf] are written so far; nothing where the buffer is full. *)
Definition store (cap : Z) (buf : list byte) (c : byte) : option (list byte) :=
  if decide (Z.of_nat (length buf) < cap) then Some (buf ++ [c]) else None.

(** The [while] loop of [conn_escape] over the memory at [from]. *)
Fixpoint escape_loop (cap : Z) (from : list byte) (res : list byte)
  : option (list byte) :=
  match from with
  | [] => None
  | c :: from' =>
      if Byte.eqb c x00 then Some res
      else
        res ← store cap res c;
        res ← (if Byte.eqb c x27 then store cap res c else Some res);
        escape_loop cap from' res
  end.

(** [conn_escape]; [res_allocated] tells whether its [malloc] gave a block. *)
Definition conn_escape (res_allocated : bool) : M Z :=
  let! from := luaL_checklstring 2 in
  let len := Z.of_nat (length from) in
  let cap := len * 2 + 1 in
  if res_allocated then
    match escape_loop cap (from ++ [x00]) [] ≫= (fun res => store cap res x00) with
    | None => fault "conn_escape: write past res"
    | Some res =>
        do! lua_push (LString (cstr res)) in
        ret 1
    end
  else lua_error "could not allocate escaped string".


(** The segment loop of [push_column].  [isc_get_segment] is called once,
    and again for as long as the call before returned 0 or left
    [isc_segment] in the status vector; each such call has stored a segment,
    which is added to the buffer.  The answer that ends the loop adds
    nothing.  [n] is what is left of the bound on the calls. *)
Fixpoint get_segments (n : nat) (e : ptr) (bh : Z) (b : list byte) : M (list byte) :=
  match n with
  | O => fault "push_column: the segment loop does not end"
  | S n' =>
      let! r := native e (isc_get_segment bh) in
      let! sv := env_status e in
      if Z.eqb (rp_value r) 0 || st_is isc_segment (sv_at sv 1)
      then get_segments n' e bh (b ++ rp_buffer r)
      else ret b
  end.

(** Reads of [n] bytes at an offset of a column buffer, clipped to the
    buffer. *)
Definition read_bytes (data : list byte) (off n : Z) : list byte :=
  take (Z.to_nat n) (drop (Z.to_nat off) data).

Definition read_signed (data : list byte) (n : Z) : Z :=
  wrap_signed (8 * n) (vax_unsigned (read_bytes data 0 n)).

Definition unsupported_data_type : list byte :=
  list_byte_of_string "<unsupported data type>".

(** [push_column]: the value of column [i] of the current row. *)
Definition push_column (i : Z) (cur : cur_data) : M unit :=
  let! da := get_live "push_column: out_sqlda" (out_sqlda cur) in
  match sqlvar da !! Z.to_nat i with
  | None => fault "push_column: sqlvar index past the descriptor"
  | Some var =>
      if (match sqlind var with
          | Some ind => negb (Z.eqb ind 0)
          | None => false
          end) then
        (* a null field? *)
        lua_push LNil
      else
        let t := base_type (sqltype var) in
        let with_data (k : list byte -> M unit) : M unit :=
          match sqldata var with
          | None => fault "push_column: sqldata NULL"
          | Some data => k data
          end in
        if decide (t = SQL_VARYING) then
          with_data (fun data =>
            let varcharlen := to_int (isc_vax_integer data 2) in
            lua_push (LString (read_bytes data 2 varcharlen)))
        else if decide (t = SQL_TEXT) then
          with_data (fun data => lua_push (LString (read_bytes data 0 (sqllen var))))
        else if decide (t = SQL_SHORT) then
          with_data (fun data => lua_push (LInteger (read_signed data 2)))
        else if decide (t = SQL_LONG) then
          with_data (fun data => lua_push (LInteger (read_signed data 4)))
        else if decide (t = SQL_INT64) then
          with_data (fun data => lua_push (LInteger (read_signed data 8)))
        else if decide (t = SQL_FLOAT) then
          with_data (fun data => lua_push (float_number host (read_bytes data 0 4)))
        else if decide (t = SQL_DOUBLE) then
          with_data (fun data => lua_push (LFloat (read_bytes data 0 8)))
        else if decide (t = SQL_TYPE_TIME) then
          with_data (fun data =>
            lua_push (LString (cstr (time_string host (read_bytes data 0 4)))))
        else if decide (t = SQL_TYPE_DATE) then
          with_data (fun data =>
            lua_push (LString (cstr (date_string host (read_bytes data 0 4)))))
        else if decide (t = SQL_TIMESTAMP) then
          with_data (fun data =>
            lua_push (LString (cstr (timestamp_string host (read_bytes data 0 8)))))
        else if decide (t = SQL_BLOB) then
          with_data (fun data =>
            (* get the BLOB ID and open it *)
            let blob_id := read_bytes data 0 8 in
            let! stmt := get_stmt (cur_stmt cur) in
            let! conn := get_conn (stmt_conn stmt) in
            let! r := native (cur_env cur)
                        (isc_open_blob2 (db conn) (transaction conn) blob_id) in
            let blob_handle := rp_handle r in
            (* fetch the blob data *)
            let! b := get_segments fuel (cur_env cur) blob_handle [] in
            (* finnished, close the BLOB *)
            let! _ := native (cur_env cur) (isc_close_blob blob_handle) in
            lua_push (LString b))
        else lua_push (LString unsupported_data_type)
  end.

(** [stmt_execute] *)
Definition stmt_execute : M Z :=
  let! sp := getstatement 1 in
  let! stmt := get_stmt sp in
  let! da := get_live "stmt_execute: in_sqlda" (in_sqlda stmt) in
  (* are there input params *)
  let! bound :=
    if decide (sqld da > 0) then
      let! stmt := parse_params stmt 2 in
      do! put_stmt sp stmt in
      let! conn := get_conn (stmt_conn stmt) in
      let! sv := env_status (conn_env conn) in
      if CHECK_DB_ERROR sv then
        let! n := return_db_error sv in ret (Some n)
      else ret None
    else ret None in
  match bound with
  | Some n => ret n
  | None => raw_execute 1
  end.

(** [stmt_close] *)
Definition stmt_close : M Z :=
  let! sp := luaL_checkudata 1 LUASQL_STATEMENT_FIREBIRD in
  let! stmt := get_stmt sp in
  if decide (stmt_lock stmt > 0) then
    luasql_faildirect "there are still open cursors"
  else if decide (stmt_closed stmt = 0) then
    let! res := stmt_shut sp in
    if decide (res <> 0) then ret res
    else
      (* return sucsess *)
      do! lua_push (LBoolean true) in ret 1
  else
    do! lua_push (LBoolean false) in ret 1.

(** [lua_settable] on the table held at stack index [idx]: the value and
    the key are popped from the top and the field is set. *)
Definition key_of (k : lua_value) : option lua_key :=
  match k with
  | LInteger n => Some (KeyNum n)
  | LString s => Some (KeyStr s)
  | _ => None
  end.

Definition lua_settable (idx : Z) : M unit :=
  let! v := lua_value_at (-1) in
  let! k := lua_value_at (-2) in
  let! t := lua_value_at idx in
  match k, v, t with
  | Some k, Some v, Some (LTable t) =>
      match key_of k with
      | Some key =>
          do! lua_pop 2 in
          modify (with_stack (fun st =>
                    <[Z.to_nat (idx - 1) := LTable (table_assign t key v)]> st))
      | None => fault "lua_settable: key"
      end
  | _, _, _ => fault "lua_settable: stack"
  end.

(** [strchr(opts, c) != NULL] *)
Definition has_char (opts : list byte) (c : byte) : bool :=
  bool_decide (c ∈ cstr opts).

(** The column loops of [cur_fetch]; the descriptor is read through the
    cursor block at each step. *)
Fixpoint fetch_into_table (n : nat) (i : Z) (cp : ptr) (num alpha : bool) : M unit :=
  match n with
  | O => ret tt
  | S n' =>
      let! cur := get_cur cp in
      do! push_column i cur in
      do! (if num then
             (* a float of integer value: the same key as the integer *)
             do! lua_push (LInteger (i + 1)) in
             do! lua_pushvalue (-2) in
             lua_settable 2
           else ret tt) in
      do! (if alpha then
             let! da := get_live "cur_fetch: out_sqlda" (out_sqlda cur) in
             match sqlvar da !! Z.to_nat i with
             | None => fault "cur_fetch: sqlvar index past the descriptor"
             | Some var =>
                 do! lua_push (LString (read_bytes (aliasname var) 0 (aliasname_length var))) in
                 do! lua_pushvalue (-2) in
                 lua_settable 2
             end
           else ret tt) in
      do! lua_pop 1 in
      fetch_into_table n' (i + 1) cp num alpha
  end.

Fixpoint fetch_into_list (n : nat) (i : Z) (cp : ptr) : M unit :=
  match n with
  | O => ret tt
  | S n' =>
      let! cur := get_cur cp in
      do! push_column i cur in
      fetch_into_list n' (i + 1) cp
  end.

(** [cur_fetch], the two branches for a fetched row: the columns go into
    the table at index 2, or onto the stack. *)
Definition fetch_columns (cp : ptr) (sqld : Z) (num alpha : bool) : M Z :=
  let! arg2 := lua_type 2 in
  match arg2 with
  | LUA_TTABLE =>
      (* remove the option string *)
      do! lua_settop 2 in
      (* loop through the columns *)
      do! fetch_into_table (Z.to_nat sqld) 0 cp num alpha in
      (* returning given table *)
      ret 1
  | _ =>
      do! fetch_into_list (Z.to_nat sqld) 0 cp in
      (* returning a list of values *)
      ret sqld
  end.

(** [cur_fetch] *)
Definition cur_fetch : M Z :=
  let! cp := luaL_checkudata 1 LUASQL_CURSOR_FIREBIRD in
  let! opts := luaL_optstring 3 [x6e] in
  let num := has_char opts x6e in
  let alpha := has_char opts x61 in
  (* check cursor status *)
  let! cur := get_cur cp in
  if decide (cur_closed cur <> 0) then ret 0
  else
  let! stmt := get_stmt (cur_stmt cur) in
  let! da := get_live "cur_fetch: out_sqlda" (out_sqlda cur) in
  let! r := native (cur_env cur) (isc_dsql_fetch (handle stmt) da) in
  let fetch_stat := rp_value r in
  let da := fetched r da in
  do! put_cur cp (set_out_sqlda (Live da) cur) in
  if decide (fetch_stat = 0) then
    let! res := fetch_columns cp (sqld da) num alpha in
    (* close cursor for procedures/returnings as they (currently) only
       return one result, and error on subsequent fetches *)
    let! stmt := get_stmt (cur_stmt cur) in
    do! (if decide (type stmt = isc_info_sql_stmt_exec_procedure)
         then let! _ := cur_shut cp in ret tt
         else ret tt) in
    ret res
  else
  (* isc_dsql_fetch returns 100 if no more rows remain to be retrieved
     so this can be ignored *)
  if decide (fetch_stat <> 100) then
    let! sv := env_status (cur_env cur) in
    return_db_error sv
  else
  (* shut cursor *)
  cur_shut cp.

(** [cur_close] *)
Definition cur_close : M Z :=
  let! cp := luaL_checkudata 1 LUASQL_CURSOR_FIREBIRD in
  let! cur := get_cur cp in
  if decide (cur_closed cur = 0) then
    let! res := cur_shut cp in
    if decide (res <> 0) then ret res
    else
      (* return sucsess *)
      do! lua_push (LBoolean true) in ret 1
  else
    do! lua_push (LBoolean false) in ret 1.

(** [create_environment] *)
Definition create_environment : M Z :=
  let! _ := new_env {| env_closed := 0; env_lock := 0;
                       status_vector := replicate 20 (st_num 0) |} in
  ret 1.

(** The copy loops of [env_connect]: [for(i=0; i<(int)strlen(s); i++) *dpb++ = s[i]]. *)
Definition store_string (cap : Z) (dpb : list byte) (s : list byte) : option (list byte) :=
  foldl (fun acc c => acc ≫= (fun buf => store cap buf c)) (Some dpb)
        (take (Z.to_nat (to_int (strlen s))) (cstr s)).

(** [env_connect], "Construct a database parameter buffer": the bytes
    stored into [char dpb_buffer[1024]], nothing when a store runs past it. *)
Definition construct_dpb (username password : list byte) : option (list byte) :=
  let cap := 1024 in
  dpb ← store cap [] (byte_of_Z isc_dpb_version1);
  dpb ← store cap dpb (byte_of_Z isc_dpb_num_buffers);
  dpb ← store cap dpb (byte_of_Z 1);
  dpb ← store cap dpb (byte_of_Z 90);
  (* add the user name and password *)
  dpb ← store cap dpb (byte_of_Z isc_dpb_user_name);
  dpb ← store cap dpb (byte_of_Z (strlen username));
  dpb ← store_string cap dpb username;
  dpb ← store cap dpb (byte_of_Z isc_dpb_password);
  dpb ← store cap dpb (byte_of_Z (strlen password));
  store_string cap dpb password.

Definition isc_tpb : list byte := [byte_of_Z isc_tpb_version3; byte_of_Z isc_tpb_write].

(** [env_connect] *)
Definition env_connect : M Z :=
  let! ep := getenvironment 1 in
  let! sourcename := luaL_checklstring 2 in
  let! username := luaL_optstring 3 [] in
  let! password := luaL_optstring 4 [] in
  match construct_dpb username password with
  | None => fault "env_connect: write past dpb_buffer"
  | Some dpb =>
      let conn := {| conn_closed := 0; conn_lock := 0; conn_env := ep;
                     autocommit := 0; db := 0; dpb_buffer := dpb;
                     (* the length of the dpb *)
                     dpb_length := to_short (Z.of_nat (length dpb));
                     transaction := 0; dialect := 3 |} in
      (* do the job *)
      let! r := native ep (isc_attach_database (to_short (strlen sourcename))
                             (cstr sourcename) (dpb_length conn) (dpb_buffer conn)) in
      let conn := set_conn_db (rp_handle r) conn in
      (* an error? *)
      let! sv := env_status ep in
      if CHECK_DB_ERROR sv then return_db_error sv
      else
      (* open up the transaction handle *)
      let! r := native ep (isc_start_transaction (db conn) isc_tpb) in
      let conn := set_conn_transaction (rp_handle r) conn in
      (* an error? *)
      let! sv := env_status ep in
      if CHECK_DB_ERROR sv then return_db_error sv
      else
      (* create the lua object and add the connection to the lock *)
      let! _ := new_conn conn in
      (* register the connection *)
      do! registerobj 1 (KEnv, ep) in
      let! env := get_env ep in
      do! put_env ep (set_env_lock (env_lock env + 1) env) in
      ret 1
  end.

(** [env_close] *)
Definition env_close : M Z :=
  let! ep := luaL_checkudata 1 LUASQL_ENVIRONMENT_FIREBIRD in
  let! env := get_env ep in
  (* already closed? *)
  if decide (env_closed env = 1) then
    do! lua_push (LBoolean false) in ret 1
  else
  (* check the lock *)
  if decide (env_lock env > 0) then
    luasql_faildirect "there are still open connections"
  else
  (* unregister *)
  do! unregisterobj (KEnv, ep) in
  (* mark as closed *)
  let! env := get_env ep in
  do! put_env ep (set_env_closed 1 env) in
  do! lua_push (LBoolean true) in
  ret 1.

(** ** The remaining methods *)

(** [getcursor]: the block of an open cursor. *)
Definition getcursor (i : Z) : M ptr :=
  let! p := luaL_checkudata i LUASQL_CURSOR_FIREBIRD in
  let! cur := get_cur p in
  do! luaL_argcheck (bool_decide (cur_closed cur = 0)) "cursor is closed" in
  ret p.

Definition lua_newtable : M unit := lua_push (LTable TEmpty).

(** [lua_absindex]: the position from the bottom that an index names.
    [lua_settable(L, -3)] is [lua_settable] at that position. *)
Definition lua_absindex (idx : Z) : M Z :=
  let! top := lua_gettop in
  ret (if decide (idx < 0) then top + idx + 1 else idx).

(** The [switch] of [dump_xsqlda_types], as compiled for Lua 5.3 and later
    (where [luasql_pushinteger] is [lua_pushinteger]): the integer types have
    a case of their own. *)
Definition type_name (t : Z) : list byte :=
  if bool_decide (t = SQL_VARYING \/ t = SQL_TEXT \/ t = SQL_TYPE_TIME \/
                  t = SQL_TYPE_DATE \/ t = SQL_TIMESTAMP \/ t = SQL_BLOB)
  then list_byte_of_string "string"
  else if bool_decide (t = SQL_SHORT \/ t = SQL_LONG \/ t = SQL_INT64)
  then list_byte_of_string "integer"
  else if bool_decide (t = SQL_FLOAT \/ t = SQL_DOUBLE)
  then list_byte_of_string "number"
  else list_byte_of_string "unknown".

(** The loop of [dump_xsqlda_types], [i] running from 1 to [sqld] with
    [var] at slot [i - 1]; the key is a float of integer value, which a
    table takes as the integer. *)
Fixpoint dump_types_loop (n : nat) (i : Z) (vars : list XSQLVAR) : M unit :=
  match n with
  | O => ret tt
  | S n' =>
      do! lua_push (LInteger i) in
      match vars !! Z.to_nat (i - 1) with
      | None => fault "dump_xsqlda_types: sqlvar index past the descriptor"
      | Some var =>
          do! lua_push (LString (type_name (base_type (sqltype var)))) in
          let! t := lua_absindex (-3) in
          do! lua_settable t in
          dump_types_loop n' (i + 1) vars
      end
  end.

(** [dump_xsqlda_types] *)
Definition dump_xsqlda_types (sqlda : owned XSQLDA) : M Z :=
  let! da := get_live "dump_xsqlda_types: sqlda" sqlda in
  do! lua_newtable in
  do! dump_types_loop (Z.to_nat (sqld da)) 1 (sqlvar da) in
  ret 1.

(** [conn_commit] *)
Definition conn_commit : M Z :=
  let! cp := getconnection 1 in
  let! conn := get_conn cp in
  let! _ := native (conn_env conn) (isc_commit_retaining (transaction conn)) in
  let! sv := env_status (conn_env conn) in
  if CHECK_DB_ERROR sv then return_db_error sv
  else
    do! lua_push (LBoolean true) in
    ret 1.

(** [conn_rollback] *)
Definition conn_rollback : M Z :=
  let! cp := getconnection 1 in
  let! conn := get_conn cp in
  let! _ := native (conn_env conn) (isc_rollback_retaining (transaction conn)) in
  let! sv := env_status (conn_env conn) in
  if CHECK_DB_ERROR sv then return_db_error sv
  else
    do! lua_push (LBoolean true) in
    ret 1.

(** [conn_gc]: what [conn_close] does, with neither the lock test nor a
    look at the status vector. *)
Definition conn_gc : M Z :=
  let! cp := luaL_checkudata 1 LUASQL_CONNECTION_FIREBIRD in
  let! conn := get_conn cp in
  if decide (conn_closed conn = 0) then
    let! r := native (conn_env conn)
                (if decide (autocommit conn <> 0)
                 then isc_commit_transaction (transaction conn)
                 else isc_rollback_transaction (transaction conn)) in
    let conn := set_conn_transaction (rp_handle r) conn in
    do! put_conn cp conn in
    let! r := native (conn_env conn) (isc_detach_database (db conn)) in
    let conn := set_conn_db (rp_handle r) conn in
    do! put_conn cp (set_conn_closed 1 conn) in
    let! env := get_env (conn_env conn) in
    do! put_env (conn_env conn) (set_env_lock (env_lock env - 1) env) in
    (* check environment can be GC'd *)
    do! (if decide (env_lock env - 1 = 0)
         then unregisterobj (KEnv, conn_env conn) else ret tt) in
    ret 0
  else ret 0.

(** [stmt_get_params] *)
Definition stmt_get_params : M Z :=
  let! sp := getstatement 1 in
  let! stmt := get_stmt sp in
  dump_xsqlda_types (in_sqlda stmt).

(** [stmt_gc] *)
Definition stmt_gc : M Z :=
  let! sp := luaL_checkudata 1 LUASQL_STATEMENT_FIREBIRD in
  let! stmt := get_stmt sp in
  if decide (stmt_closed stmt = 0) then
    let! res := stmt_shut sp in
    if decide (res <> 0) then ret 1 else ret 0
  else ret 0.

(** The loop of [cur_colnames]. *)
Fixpoint colnames_loop (n : nat) (i : Z) (vars : list XSQLVAR) : M unit :=
  match n with
  | O => ret tt
  | S n' =>
      do! lua_push (LInteger i) in
      match vars !! Z.to_nat (i - 1) with
      | None => fault "cur_colnames: sqlvar index past the descriptor"
      | Some var =>
          do! lua_push (LString (read_bytes (aliasname var) 0 (aliasname_length var))) in
          let! t := lua_absindex (-3) in
          do! lua_settable t in
          colnames_loop n' (i + 1) vars
      end
  end.

(** [cur_colnames] *)
Definition cur_colnames : M Z :=
  let! cp := getcursor 1 in
  let! cur := get_cur cp in
  let! da := get_live "cur_colnames: out_sqlda" (out_sqlda cur) in
  do! lua_newtable in
  do! colnames_loop (Z.to_nat (sqld da)) 1 (sqlvar da) in
  ret 1.

(** [cur_coltypes] *)
Definition cur_coltypes : M Z :=
  let! cp := getcursor 1 in
  let! cur := get_cur cp in
  dump_xsqlda_types (out_sqlda cur).

(** [cur_gc] *)
Definition cur_gc : M Z :=
  let! cp := luaL_checkudata 1 LUASQL_CURSOR_FIREBIRD in
  let! cur := get_cur cp in
  if decide (cur_closed cur = 0) then
    let! res := cur_shut cp in
    if decide (res <> 0) then ret 1 else ret 0
  else ret 0.

(** [env_gc]: nothing to be done for the environment. *)
Definition env_gc : M Z := ret 0.

(** A call from Lua: the function runs on a stack that holds its
    arguments, and its results are the top values of that stack. *)
Definition call_from_lua (f : M Z) (args : list lua_value) : M (list lua_value) :=
  do! modify (with_stack (fun _ => args)) in
  let! n := f in
  let! rs := gets (results n) in
  do! modify (with_stack (fun _ => [])) in
  ret rs.

End Driver.

(** ** Reference definitions and fixtures *)

(** Escaping in the words of the specification: every single quote of the
    string doubled, every other byte as it is. *)
Definition double_quotes (s : list byte) : list byte :=
  flat_map (fun c => if Byte.eqb c x27 then [c; c] else [c]) s.

Definition bytes (s : string) : list byte := list_byte_of_string s.

(** A host whose conversions are trivial, for running the model. *)
Definition plain_host : Host :=
  {| number_tostring := fun _ => [];
     tonumber_int64 := fun v => match v with LInteger n => n | _ => 0 end;
     tonumber_double := fun _ => replicate 8 x00;
     tointeger_timestamp := fun _ => replicate 8 x00;
     float_number := fun b => LFloat (b ++ replicate 4 x00);
     time_string := fun _ => [];
     date_string := fun _ => [];
     timestamp_string := fun _ => [] |}.

Definition empty_world : World :=
  {| envs := ∅; conns := ∅; stmts := ∅; curs := ∅; registry := ∅;
     stack := []; trace := [] |}.

(** An answer that reports success and carries nothing. *)
Definition ok_status : list ISC_STATUS := replicate 20 (st_num 0).

Definition ok_reply : reply :=
  {| rp_status := ok_status; rp_value := 0; rp_handle := 0; rp_quad := replicate 8 x00;
     rp_buffer := []; rp_sqld := 0; rp_columns := []; rp_row := [] |}.

(** An engine that answers every call with success. *)
Definition quiet_engine : Engine :=
  {| isc := fun _ _ => ok_reply; fb_interpret := fun _ => [] |}.

Definition open_env : env_data :=
  {| env_closed := 0; env_lock := 0; status_vector := ok_status |}.

(** A world with one open environment, at address 1. *)
Definition one_env_world : World :=
  {| envs := {[ 1%positive := open_env ]}; conns := ∅; stmts := ∅; curs := ∅;
     registry := ∅; stack := []; trace := [] |}.

(** A user name of 1017 bytes: with the 8 bytes of tags and lengths, one
    more than [dpb_buffer] holds. *)
Definition long_user_name : list byte := replicate (Z.to_nat 1017) x61.

(** One handle of each kind, each at address 1 of its class: an open
    environment, a connection on it, a prepared SELECT without parameters
    and a cursor over one nullable SMALLINT column. *)
Definition held_env : env_data :=
  {| env_closed := 0; env_lock := 1; status_vector := ok_status |}.

Definition held_conn : conn_data :=
  {| conn_closed := 0; conn_lock := 1; conn_env := 1%positive; autocommit := 0;
     db := 11; dpb_buffer := []; dpb_length := 0; transaction := 12; dialect := 3 |}.

Definition select_stmt : stmt_data :=
  {| stmt_closed := 0; stmt_lock := 1; stmt_env := 1%positive; stmt_conn := 1%positive;
     in_sqlda := Live {| version := 1; sqln := 1; sqld := 0;
                         sqlvar := [{| sqltype := 0; sqllen := 0; sqldata := None;
                                       sqlind := None; aliasname := [];
                                       aliasname_length := 0 |}] |};
     handle := 13; type := isc_info_sql_stmt_select; hidden := 0 |}.

Definition smallint_column : XSQLVAR :=
  {| sqltype := SQL_SHORT + 1; sqllen := 2; sqldata := Some [x00; x00];
     sqlind := Some 0; aliasname := list_byte_of_string "N"; aliasname_length := 1 |}.

Definition open_cur : cur_data :=
  {| cur_closed := 0; cur_env := 1%positive; cur_stmt := 1%positive;
     out_sqlda := Live {| version := 1; sqln := 1; sqld := 1;
                          sqlvar := [smallint_column] |} |}.

Definition chain_world : World :=
  {| envs := {[ 1%positive := held_env ]};
     conns := {[ 1%positive := held_conn ]};
     stmts := {[ 1%positive := select_stmt ]};
     curs := {[ 1%positive := open_cur ]};
     registry := ∅; stack := []; trace := [] |}.

(** A nullable VARCHAR(10) parameter slot as [malloc_sqlda_vars] leaves it. *)
Definition varchar_slot : XSQLVAR :=
  {| sqltype := SQL_VARYING + 1; sqllen := 10; sqldata := Some (replicate 12 x00);
     sqlind := Some 0; aliasname := []; aliasname_length := 0 |}.

(** A string of 40,000 bytes: longer than the inline threshold. *)
Definition long_text : list byte := replicate (Z.to_nat 40000) x61.

(** A status vector that reports an error. *)
Definition error_status : list ISC_STATUS :=
  [st_num 1; st_num 335544329] ++ replicate 18 (st_num 0).

Definition error_reply : reply :=
  {| rp_status := error_status; rp_value := 335544329; rp_handle := 0;
     rp_quad := replicate 8 x00; rp_buffer := []; rp_sqld := 0; rp_columns := [];
     rp_row := [] |}.

Definition is_put_segment (c : call) : bool :=
  match c with isc_put_segment _ _ _ => true | _ => false end.

Definition is_close_blob (c : call) : bool :=
  match c with isc_close_blob _ => true | _ => false end.

(** An engine that creates blob 21 and refuses the write of segment number
    [n] (counted from 0); every other call succeeds. *)
Definition put_refusing_engine (n : nat) : Engine :=
  {| isc := fun tr c =>
       match c with
       | isc_create_blob2 _ _ =>
           {| rp_status := ok_status; rp_value := 0; rp_handle := 21;
              rp_quad := [x01; x00; x00; x00; x07; x00; x00; x00];
              rp_buffer := []; rp_sqld := 0; rp_columns := []; rp_row := [] |}
       | isc_put_segment _ _ _ =>
           if decide (length (filter (fun c => is_put_segment c = true) tr) = n)
           then error_reply else ok_reply
       | _ => ok_reply
       end;
     fb_interpret := fun _ => [] |}.

(** The names of the calls of a log. *)
Definition call_name (c : call) : string :=
  match c with
  | isc_attach_database _ _ _ _ => "isc_attach_database"
  | isc_start_transaction _ _ => "isc_start_transaction"
  | isc_detach_database _ => "isc_detach_database"
  | isc_commit_transaction _ => "isc_commit_transaction"
  | isc_rollback_transaction _ => "isc_rollback_transaction"
  | isc_commit_retaining _ => "isc_commit_retaining"
  | isc_rollback_retaining _ => "isc_rollback_retaining"
  | isc_dsql_allocate_statement _ _ => "isc_dsql_allocate_statement"
  | isc_dsql_prepare _ _ _ _ => "isc_dsql_prepare"
  | isc_dsql_sql_info _ _ _ => "isc_dsql_sql_info"
  | isc_dsql_describe_bind _ _ => "isc_dsql_describe_bind"
  | isc_dsql_describe _ _ => "isc_dsql_describe"
  | isc_dsql_set_cursor_name _ _ => "isc_dsql_set_cursor_name"
  | isc_dsql_execute _ _ _ => "isc_dsql_execute"
  | isc_dsql_fetch _ _ => "isc_dsql_fetch"
  | isc_dsql_free_statement _ _ => "isc_dsql_free_statement"
  | isc_create_blob2 _ _ => "isc_create_blob2"
  | isc_put_segment _ _ _ => "isc_put_segment"
  | isc_open_blob2 _ _ _ => "isc_open_blob2"
  | isc_get_segment _ => "isc_get_segment"
  | isc_close_blob _ => "isc_close_blob"
  end.

(** The same connection with its statement prepared and no cursor open,
    and with no statement at all. *)
Definition idle_stmt : stmt_data := set_stmt_lock 0 select_stmt.

Definition prepared_world : World :=
  {| envs := {[ 1%positive := held_env ]};
     conns := {[ 1%positive := held_conn ]};
     stmts := {[ 1%positive := idle_stmt ]};
     curs := ∅; registry := ∅; stack := []; trace := [] |}.

Definition idle_conn : conn_data := set_conn_lock 0 held_conn.

Definition idle_world : World :=
  {| envs := {[ 1%positive := held_env ]};
     conns := {[ 1%positive := idle_conn ]};
     stmts := ∅; curs := ∅; registry := ∅; stack := []; trace := [] |}.

(** One handle of each kind, all closed. *)
Definition shut_env : env_data :=
  {| env_closed := 1; env_lock := 0; status_vector := ok_status |}.
Definition shut_conn : conn_data := set_conn_closed 1 idle_conn.
Definition shut_stmt : stmt_data :=
  set_in_sqlda Dangling (set_stmt_closed 1 idle_stmt).
Definition shut_cur : cur_data :=
  {| cur_closed := 1; cur_env := 1%positive; cur_stmt := 1%positive;
     out_sqlda := Dangling |}.

Definition shut_world : World :=
  {| envs := {[ 1%positive := shut_env ]};
     conns := {[ 1%positive := shut_conn ]};
     stmts := {[ 1%positive := shut_stmt ]};
     curs := {[ 1%positive := shut_cur ]};
     registry := ∅; stack := []; trace := [] |}.

(** An engine that reports [N] columns at every describe call. *)
Definition columns_reply (N : Z) : reply :=
  {| rp_status := ok_status; rp_value := 0; rp_handle := 0; rp_quad := [];
     rp_buffer := []; rp_sqld := N; rp_columns := []; rp_row := [] |}.

Definition columns_engine (N : Z) : Engine :=
  {| isc := fun _ c =>
       match c with
       | isc_dsql_describe_bind _ _ | isc_dsql_describe _ _ => columns_reply N
       | _ => ok_reply
       end;
     fb_interpret := fun _ => [] |}.

(** An engine that allocates statement 31 and classifies every statement
    as of type [t]. *)
Definition classifying_engine (t : Z) : Engine :=
  {| isc := fun _ c =>
       match c with
       | isc_dsql_allocate_statement _ _ =>
           {| rp_status := ok_status; rp_value := 0; rp_handle := 31; rp_quad := [];
              rp_buffer := []; rp_sqld := 0; rp_columns := []; rp_row := [] |}
       | isc_dsql_sql_info _ _ _ =>
           {| rp_status := ok_status; rp_value := 0; rp_handle := 0; rp_quad := [];
              rp_buffer := [byte_of_Z isc_info_sql_stmt_type; x04; x00] ++ le_bytes 4 t
                           ++ [x01];
              rp_sqld := 0; rp_columns := []; rp_row := [] |}
       | _ => ok_reply
       end;
     fb_interpret := fun _ => [] |}.

(** The type code of a COMMIT statement in ibase.h. *)
Definition isc_info_sql_stmt_commit : Z := 10.

Definition is_free_statement (c : call) : bool :=
  match c with isc_dsql_free_statement _ _ => true | _ => false end.

Definition unsupported_statement : list lua_value :=
  [LNil; LString (LUASQL_PREFIX ++ bytes "unsupported SQL statement")].

(** ** Vocabulary of the cursor properties *)

Definition is_fetch (h : Z) (c : call) : bool :=
  match c with isc_dsql_fetch h' _ => Z.eqb h' h | _ => false end.

Definition is_blob_call (c : call) : bool :=
  match c with
  | isc_open_blob2 _ _ _ | isc_get_segment _ | isc_close_blob _ => true
  | _ => false
  end.

(** The number of fetch calls on statement handle [h] in a log. *)
Definition fetches (tr : list call) (h : Z) : Z :=
  Z.of_nat (length (filter (fun c => is_fetch h c = true) tr)).

(** The result behind handle [h] has [K] rows of which [done] have been
    fetched: the engine answers 0 to a fetch until [done + K] fetches are
    in the log, and 100 (no more rows) to the one after them. *)
Definition result_of_rows (engine : Engine) (h : Z) (done K : Z) : Prop :=
  forall tr da,
    (done <= fetches tr h < done + K ->
       rp_value (isc engine tr (isc_dsql_fetch h da)) = 0)
    /\ (fetches tr h = done + K ->
       rp_value (isc engine tr (isc_dsql_fetch h da)) = 100).

(** The engine accepts the call that closes the cursor of the statement
    behind [h]. *)
Definition closes_cursor (engine : Engine) (h : Z) : Prop :=
  forall tr,
    CHECK_DB_ERROR (rp_status (isc engine tr (isc_dsql_free_statement h DSQL_close)))
    = false.

(** The engine accepts the call that drops the statement behind [h]. *)
Definition drops_statement (engine : Engine) (h : Z) : Prop :=
  forall tr,
    CHECK_DB_ERROR (rp_status (isc engine tr (isc_dsql_free_statement h DSQL_drop)))
    = false.

(** The statement goes with its last cursor: [cur_shut] drops a hidden
    statement (one that [execute] on a connection made) when it takes the
    last lock off it, and that takes the engine accepting the drop. *)
Definition drops_hidden (engine : Engine) (stmt : stmt_data) : Prop :=
  hidden stmt <> 0 -> stmt_lock stmt = 1 -> drops_statement engine (handle stmt).

(** An answer of [isc_get_segment] that keeps the segment loop of
    [push_column] going: the call returned 0, or left [isc_segment] in the
    status vector. *)
Definition segment_goes_on (r : reply) : bool :=
  Z.eqb (rp_value r) 0 || st_is isc_segment (sv_at (rp_status r) 1).

(** Reading the BLOB behind handle [bh] from log [tr] on, one of the first
    [n] calls of [isc_get_segment] ends the loop. *)
Fixpoint segments_end (engine : Engine) (n : nat) (bh : Z) (tr : list call) : bool :=
  match n with
  | O => false
  | S n' =>
      negb (segment_goes_on (isc engine tr (isc_get_segment bh)))
      || segments_end engine n' bh (tr ++ [isc_get_segment bh])
  end.

(** The engine ends every BLOB within [n] calls of [isc_get_segment]. *)
Definition blobs_end (engine : Engine) (n : nat) : Prop :=
  forall bh tr, segments_end engine n bh tr = true.

Definition known_type (t : Z) : bool :=
  bool_decide (t = SQL_VARYING \/ t = SQL_TEXT \/ t = SQL_SHORT \/ t = SQL_LONG \/
               t = SQL_INT64 \/ t = SQL_FLOAT \/ t = SQL_DOUBLE \/ t = SQL_TYPE_TIME \/
               t = SQL_TYPE_DATE \/ t = SQL_TIMESTAMP \/ t = SQL_BLOB).

(** A column of a known type has the buffer [malloc_sqlda_vars] gave it. *)
Definition column_ok (var : XSQLVAR) : Prop :=
  known_type (base_type (sqltype var)) = true -> sqldata var <> None.

(** Cursor [cp] is open over [n] columns on statement [stmt] at [sp], and
    the blocks it points to are in place. *)
Definition fetch_ready (w : World) (cp sp : ptr) (stmt : stmt_data) (n : Z) : Prop :=
  exists cur conn env da,
    curs w !! cp = Some cur /\ cur_closed cur = 0 /\ cur_stmt cur = sp
    /\ stmts w !! sp = Some stmt /\ cur_env cur = stmt_env stmt
    /\ conns w !! stmt_conn stmt = Some conn
    /\ envs w !! stmt_env stmt = Some env
    /\ in_sqlda stmt <> Dangling
    /\ out_sqlda cur = Live da /\ sqld da = n
    /\ 0 < n <= Z.of_nat (length (sqlvar da))
    /\ Forall column_ok (sqlvar da).

Definition cursor_closed (w : World) (cp : ptr) : Prop :=
  exists cur, curs w !! cp = Some cur /\ cur_closed cur = 1.

Definition cursor_open (w : World) (cp : ptr) : Prop :=
  exists cur, curs w !! cp = Some cur /\ cur_closed cur = 0.

(** The arguments a fetch call may have behind the cursor: anything in
    the place of the table; nothing, nil, a number or a string in the place
    of the options. *)
Definition fetch_args (args : list lua_value) : Prop :=
  match args !! 1%nat with
  | None | Some LNil | Some (LString _) | Some (LInteger _) | Some (LFloat _) => True
  | _ => False
  end.

(** What a fetch that finds a row returns: the table it was given, or as
    many values as the cursor has columns. *)
Definition row_shape (n : Z) (args row : list lua_value) : Prop :=
  match args !! 0%nat with
  | Some (LTable _) => exists t, row = [LTable t]
  | _ => Z.of_nat (length row) = n
  end.

(** Fetching repeatedly: one call of [cur:fetch(...)] per argument list,
    and what each returns. *)
Fixpoint fetch_times (engine : Engine) (host : Host) (fuel : nat)
  (argss : list (list lua_value)) (cp : ptr) : M (list (list lua_value)) :=
  match argss with
  | [] => ret []
  | args :: rest =>
      let! row := call_from_lua (cur_fetch engine host fuel) (LUserdata KCur cp :: args) in
      let! rows := fetch_times engine host fuel rest cp in
      ret (row :: rows)
  end.

(** The value [isc_get_segment] returns for a read past the last segment
    (isc_segstr_eof in ibase.h). *)
Definition isc_segstr_eof : Z := 335544367.

(** The answer to a segment read that finds the BLOB at its end. *)
Definition end_of_blob : reply :=
  {| rp_status := ok_status; rp_value := isc_segstr_eof; rp_handle := 0;
     rp_quad := []; rp_buffer := []; rp_sqld := 0; rp_columns := []; rp_row := [] |}.

(** An engine whose every result has [K] rows of one SMALLINT 7, and whose
    every BLOB is empty. *)
Definition rows_engine (K : nat) : Engine :=
  {| isc := fun tr c =>
       match c with
       | isc_get_segment _ => end_of_blob
       | isc_dsql_fetch h _ =>
           if decide (length (filter (fun c => is_fetch h c = true) tr) < K)%nat
           then {| rp_status := ok_status; rp_value := 0; rp_handle := 0;
                   rp_quad := []; rp_buffer := []; rp_sqld := 0; rp_columns := [];
                   rp_row := [(0, [x07; x00])] |}
           else {| rp_status := ok_status; rp_value := 100; rp_handle := 0;
                   rp_quad := []; rp_buffer := []; rp_sqld := 0; rp_columns := [];
                   rp_row := [] |}
       | _ => ok_reply
       end;
     fb_interpret := fun _ => [] |}.

(** An engine over results of [K] rows, as [rows_engine], that refuses to
    free a statement with option [refused] (DSQL_close or DSQL_drop). *)
Definition stubborn_engine (K : nat) (refused : Z) : Engine :=
  {| isc := fun tr c =>
       match c with
       | isc_dsql_free_statement _ option =>
           if decide (option = refused) then error_reply else ok_reply
       | _ => isc (rows_engine K) tr c
       end;
     fb_interpret := fun _ => [bytes "refused"] |}.

(** An engine over results of [K] rows of one BLOB, which it serves in
    segments of one byte without end. *)
Definition endless_blob_engine (K : nat) : Engine :=
  {| isc := fun tr c =>
       match c with
       | isc_dsql_fetch h _ =>
           if decide (length (filter (fun c => is_fetch h c = true) tr) < K)%nat
           then {| rp_status := ok_status; rp_value := 0; rp_handle := 0;
                   rp_quad := []; rp_buffer := []; rp_sqld := 0; rp_columns := [];
                   rp_row := [(0, [x01; x00; x00; x00; x07; x00; x00; x00])] |}
           else {| rp_status := ok_status; rp_value := 100; rp_handle := 0;
                   rp_quad := []; rp_buffer := []; rp_sqld := 0; rp_columns := [];
                   rp_row := [] |}
       | isc_get_segment _ =>
           {| rp_status := ok_status; rp_value := 0; rp_handle := 0;
              rp_quad := []; rp_buffer := [x61]; rp_sqld := 0; rp_columns := [];
              rp_row := [] |}
       | _ => ok_reply
       end;
     fb_interpret := fun _ => [] |}.

(** The chain of handles with the cursor over one nullable BLOB column. *)
Definition blob_column : XSQLVAR :=
  {| sqltype := SQL_BLOB + 1; sqllen := 8; sqldata := Some (replicate 8 x00);
     sqlind := Some 0; aliasname := list_byte_of_string "B"; aliasname_length := 1 |}.

Definition blob_cur : cur_data :=
  {| cur_closed := 0; cur_env := 1%positive; cur_stmt := 1%positive;
     out_sqlda := Live {| version := 1; sqln := 1; sqld := 1;
                          sqlvar := [blob_column] |} |}.

Definition blob_world : World :=
  with_curs (fun _ => {[ 1%positive := blob_cur ]}) chain_world.

(** The chain of handles over the BLOB column with the statement an
    EXECUTE PROCEDURE. *)
Definition blob_procedure_world : World :=
  with_stmts (fun _ => {[ 1%positive :=
                set_stmt_type isc_info_sql_stmt_exec_procedure select_stmt ]}) blob_world.

(** The chain of handles with the statement an EXECUTE PROCEDURE. *)
Definition procedure_stmt : stmt_data :=
  set_stmt_type isc_info_sql_stmt_exec_procedure select_stmt.

Definition procedure_world : World :=
  with_stmts (fun _ => {[ 1%positive := procedure_stmt ]}) chain_world.

(** What decoding a row may change between [w] and [w']: the status
    vector of environment [e], and the log, by blob calls only. *)
Definition blob_traffic (e : ptr) (w w' : World) : Prop :=
  curs w' = curs w /\ stmts w' = stmts w /\ conns w' = conns w
  /\ registry w' = registry w
  /\ (exists env', envs w' = <[e := env']> (envs w))
  /\ (exists t, trace w' = trace w ++ t /\ Forall (fun c => is_blob_call c = true) t).

(** The slot a string leaves behind: its type, its length field and the
    bytes of its buffer; the null flag is cleared and the name kept. *)
Definition bound_slot (var : XSQLVAR) (t len : Z) (data : list byte) : XSQLVAR :=
  {| sqltype := t; sqllen := len; sqldata := Some data; sqlind := Some 0;
     aliasname := aliasname var; aliasname_length := aliasname_length var |}.

(** The connection as a successful close leaves it: closed, with the
    handles the two native calls handed back. *)
Definition closed_conn (conn : conn_data) (tr dbh : Z) : conn_data :=
  {| conn_closed := 1; conn_lock := conn_lock conn; conn_env := conn_env conn;
     autocommit := autocommit conn; db := dbh; dpb_buffer := dpb_buffer conn;
     dpb_length := dpb_length conn; transaction := tr; dialect := dialect conn |}.

Definition still_open_statements : list lua_value :=
  [LNil; LString (LUASQL_PREFIX ++ bytes "there are still open statements/cursors")].

(** The call that ends the transaction of a connection on close. *)
Definition end_transaction (conn : conn_data) : call :=
  if decide (autocommit conn <> 0)
  then isc_commit_transaction (transaction conn)
  else isc_rollback_transaction (transaction conn).

(** The segments of 10,000 bytes that the loop of [write_blob] sends
    before the last one, for a value of [len] bytes. *)
Fixpoint slices (k : nat) (data : list byte) : list (list byte) :=
  match k with
  | O => []
  | S k' => take (Z.to_nat 10000) data :: slices k' (drop (Z.to_nat 10000) data)
  end.

Definition full_segments (len : Z) : nat := Z.to_nat ((len - 1) / 10000).

(** ** Vocabulary of the further properties *)

(** The message [return_db_error] makes of a status vector, and the two
    values it returns. *)
Definition error_text (engine : Engine) (sv : list ISC_STATUS) : list byte :=
  let msgs := fb_interpret engine sv in
  fold_left (fun acc m => acc ++ error_separator ++ m) (tail msgs) (hd [] msgs).

Definition db_error (engine : Engine) (sv : list ISC_STATUS) : list lua_value :=
  [LNil; LString (error_text engine sv)].

(** The two values of a failure the driver reports itself. *)
Definition failure (msg : string) : list lua_value :=
  [LNil; LString (LUASQL_PREFIX ++ bytes msg)].

(** What a call from Lua leaves of an error raised in it: the stack holds
    the arguments of the call, nothing else has changed. *)
Definition raised (msg : string) (args : list lua_value) (w : World)
  : outcome (list lua_value) :=
  LuaError msg (with_stack (fun _ => args) w).

(** An engine that refuses the call it is asked when [n] calls are in the
    log, and accepts every other. *)
Definition refusing_engine (n : nat) : Engine :=
  {| isc := fun tr _ => if decide (length tr = n) then error_reply else ok_reply;
     fb_interpret := fun _ => [bytes "refused"] |}.

(** The parameter buffer for user [u] and password [p]. *)
Definition small_dpb : list byte :=
  [x01; x05; x01; x5a; x1c; x01; x75; x1d; x01; x70].

(** A cursor as a successful close leaves it. *)
Definition closed_cur (cur : cur_data) : cur_data :=
  {| cur_closed := 1; cur_env := cur_env cur; cur_stmt := cur_stmt cur;
     out_sqlda := Dangling |}.

(** The descriptor pointer after [free_xsqlda]. *)
Definition freed (o : owned XSQLDA) : owned XSQLDA :=
  match o with
  | Null => Null
  | _ => Dangling
  end.

(** A statement as a successful drop leaves it: closed, its descriptor
    freed, with the handle the engine handed back. *)
Definition dropped_stmt (stmt : stmt_data) (h : Z) : stmt_data :=
  {| stmt_closed := 1; stmt_lock := stmt_lock stmt; stmt_env := stmt_env stmt;
     stmt_conn := stmt_conn stmt; in_sqlda := freed (in_sqlda stmt); handle := h;
     type := type stmt; hidden := hidden stmt |}.

(** A registry without the entry of a parent whose lock count came to 0. *)
Definition released (lock : Z) (key : kind * ptr)
  (r : gmap (kind * ptr) lua_value) : gmap (kind * ptr) lua_value :=
  if decide (lock = 0) then delete key r else r.

(** The chain of handles with the statement a hidden one, as [execute] on
    a connection leaves it. *)
Definition hidden_stmt : stmt_data := set_stmt_hidden 1 select_stmt.

Definition hidden_world : World :=
  with_stmts (fun _ => {[ 1%positive := hidden_stmt ]}) chain_world.

(** An item of an information buffer: its code, the length of its value
    in two bytes, and the value in that many bytes, least significant
    first. *)
Definition info_item (code : byte) (n : nat) (value : Z) : list byte :=
  [code] ++ le_bytes 2 (Z.of_nat n) ++ le_bytes n value.

(** An engine that answers every information request with [buf]. *)
Definition informing_engine (buf : list byte) : Engine :=
  {| isc := fun _ c =>
       match c with
       | isc_dsql_sql_info _ _ _ =>
           {| rp_status := ok_status; rp_value := 0; rp_handle := 0; rp_quad := [];
              rp_buffer := buf; rp_sqld := 0; rp_columns := []; rp_row := [] |}
       | _ => ok_reply
       end;
     fb_interpret := fun _ => [] |}.

(** A parameter slot bound to NULL: its null indicator is -1, the rest is
    as it was. *)
Definition null_slot (var : XSQLVAR) : XSQLVAR := set_sqlind (Some (-1)) var.

(** The message [set_param] leaves in the status vector. *)
Definition param_memory_error : string := "Problem allocating SQL param memory".

(** A parameter slot of a type the driver has no case for, as
    [malloc_sqlda_vars] leaves it: no buffer. *)
Definition boolean_slot : XSQLVAR :=
  {| sqltype := 32764 + 1; sqllen := 1; sqldata := None; sqlind := Some 0;
     aliasname := []; aliasname_length := 0 |}.

(** An engine that reports no error, whatever it is asked. *)
Definition accepting (engine : Engine) : Prop :=
  forall tr c, CHECK_DB_ERROR (rp_status (isc engine tr c)) = false.

(** The statement behind handle [h] has [N] output columns. *)
Definition describes (engine : Engine) (h N : Z) : Prop :=
  forall tr da, rp_sqld (isc engine tr (isc_dsql_describe h da)) = N.

Definition is_describe (c : call) : bool :=
  match c with isc_dsql_describe _ _ => true | _ => false end.

(** An engine whose every statement is a query over one SMALLINT column
    with [K] rows, each holding 7. *)
Definition query_engine (K : nat) : Engine :=
  {| isc := fun tr c =>
       match c with
       | isc_dsql_describe _ _ =>
           {| rp_status := ok_status; rp_value := 0; rp_handle := 0; rp_quad := [];
              rp_buffer := []; rp_sqld := 1; rp_columns := [smallint_column];
              rp_row := [] |}
       | _ => isc (rows_engine K) tr c
       end;
     fb_interpret := fun _ => [] |}.

(** The index [raw_execute] works with: a negative one is counted from the
    top. *)
Definition statement_index (w : World) (idx : Z) : Z :=
  if decide (idx < 0) then Z.of_nat (length (stack w)) + idx + 1 else idx.

(** The record counts of an information buffer: one item of four bytes
    per counter, in any order and number. *)
Fixpoint record_items (l : list (byte * Z)) : list byte :=
  match l with
  | [] => []
  | (code, v) :: l' => info_item code 4 v ++ record_items l'
  end.

(** A counter item read into the four counts. *)
Definition update_count (c : row_counts) (item : byte * Z) : row_counts :=
  let code := Z_of_byte (fst item) in
  let v := snd item in
  if decide (code = isc_info_req_select_count) then
    {| del_count := del_count c; ins_count := ins_count c; upd_count := upd_count c;
       sel_count := v |}
  else if decide (code = isc_info_req_insert_count) then
    {| del_count := del_count c; ins_count := v; upd_count := upd_count c;
       sel_count := sel_count c |}
  else if decide (code = isc_info_req_update_count) then
    {| del_count := del_count c; ins_count := ins_count c; upd_count := v;
       sel_count := sel_count c |}
  else if decide (code = isc_info_req_delete_count) then
    {| del_count := v; ins_count := ins_count c; upd_count := upd_count c;
       sel_count := sel_count c |}
  else c.

Definition no_counts : row_counts :=
  {| del_count := 0; ins_count := 0; upd_count := 0; sel_count := 0 |}.

(** The count that belongs to a statement type. *)
Definition count_of (t : Z) (c : row_counts) : Z :=
  if decide (t = isc_info_sql_stmt_select) then sel_count c
  else if decide (t = isc_info_sql_stmt_delete) then del_count c
  else if decide (t = isc_info_sql_stmt_update) then upd_count c
  else if decide (t = isc_info_sql_stmt_insert) then ins_count c
  else 0.

(** The codes of the four counters: select, insert, update, delete. *)
Definition counter_codes : list byte := [x0d; x0e; x0f; x10].

(** A well-formed counter item: a known code and a value of 32 bits. *)
Definition counter_item (item : byte * Z) : Prop :=
  fst item ∈ counter_codes /\ - 2 ^ 31 <= snd item < 2 ^ 31.

(** The answer to the information request of [count_rows_affected]: the
    statement type, the header of the record counts, the counts and the
    terminator. *)
Definition counts_buffer (t : Z) (l : list (byte * Z)) : list byte :=
  info_item x15 4 t ++ [x17; x1d; x00] ++ record_items l ++ [x01].

(** The engine reports type [t] and the counts [l] for the statement behind
    handle [h]. *)
Definition reports_counts (engine : Engine) (h t : Z) (l : list (byte * Z)) : Prop :=
  forall tr,
    rp_buffer (isc engine tr
                 (isc_dsql_sql_info h [isc_info_sql_stmt_type; isc_info_sql_records] 88))
    = counts_buffer t l.

(** What the engine is asked when a statement without result columns is
    run, behind the describe calls: execute, commit when the connection
    commits by itself, the counts, close. *)
Definition count_calls (conn : conn_data) (stmt : stmt_data) : list call :=
  [isc_dsql_execute (transaction conn) (handle stmt) (in_sqlda stmt)]
  ++ (if decide (autocommit conn <> 0) then [isc_commit_retaining (transaction conn)]
      else [])
  ++ [isc_dsql_sql_info (handle stmt) [isc_info_sql_stmt_type; isc_info_sql_records] 88;
      isc_dsql_free_statement (handle stmt) DSQL_close].

(** The engine classifies every statement as of type [t]. *)
Definition classifies (engine : Engine) (t : Z) : Prop :=
  forall tr h, exists rest,
    rp_buffer (isc engine tr (isc_dsql_sql_info h [isc_info_sql_stmt_type] 88))
    = info_item x15 4 t ++ rest.

(** The engine reports [N] input parameters for every statement. *)
Definition binds (engine : Engine) (N : Z) : Prop :=
  forall tr h da, rp_sqld (isc engine tr (isc_dsql_describe_bind h da)) = N.

Definition is_describe_bind (c : call) : bool :=
  match c with isc_dsql_describe_bind _ _ => true | _ => false end.

(** An engine that classifies every statement as a SELECT over one
    SMALLINT column with [K] rows. *)
Definition select_engine (K : nat) : Engine :=
  {| isc := fun tr c =>
       match c with
       | isc_dsql_sql_info _ _ _ => isc (classifying_engine isc_info_sql_stmt_select) tr c
       | _ => isc (query_engine K) tr c
       end;
     fb_interpret := fun _ => [] |}.

(** A key is in a table; a table holds no key twice. *)
Fixpoint table_has (t : lua_table) (k : lua_key) : bool :=
  match t with
  | TEmpty => false
  | TField k' _ rest => lua_key_eqb k' k || table_has rest k
  end.

Fixpoint table_nodup (t : lua_table) : bool :=
  match t with
  | TEmpty => true
  | TField k _ rest => negb (table_has rest k) && table_nodup rest
  end.

(** The name of a column: the bytes of its alias. *)
Definition column_name (var : XSQLVAR) : list byte :=
  read_bytes (aliasname var) 0 (aliasname_length var).

(** The keys column [j] (counted from 0) of a row is stored under. *)
Definition column_keys (num alpha : bool) (j : Z) (name : list byte) : list lua_key :=
  (if num then [KeyNum (j + 1)] else []) ++ (if alpha then [KeyStr name] else []).

(** The table after the columns from [i] on have been stored in it. *)
Fixpoint store_columns (num alpha : bool) (i : Z) (vars : list XSQLVAR)
  (vals : list lua_value) (t : lua_table) : lua_table :=
  match vars, vals with
  | var :: vars', v :: vals' =>
      let t1 := if num then table_assign t (KeyNum (i + 1)) v else t in
      let t2 := if alpha then table_assign t1 (KeyStr (column_name var)) v else t1 in
      store_columns num alpha (i + 1) vars' vals' t2
  | _, _ => t
  end.

(** * Properties *)

(** Reduction of the state record and of the monad, leaving maps alone. *)
Ltac world_simpl :=
  cbn [envs conns stmts curs registry stack trace
       with_envs with_conns with_stmts with_curs with_registry with_stack with_trace
       answered
       env_closed env_lock status_vector
       conn_closed conn_lock conn_env autocommit db dpb_buffer dpb_length transaction dialect
       stmt_closed stmt_lock stmt_env stmt_conn in_sqlda handle type hidden
       cur_closed cur_env cur_stmt out_sqlda
       set_stmt_handle set_stmt_closed set_stmt_lock set_stmt_type set_stmt_hidden
       set_in_sqlda set_conn_lock set_conn_closed set_conn_db set_conn_transaction
       set_conn_autocommit set_env_lock set_env_closed set_status_vector
       set_cur_closed set_out_sqlda] in *.

Create HintDb monad.
#[global] Hint Unfold bind ret gets modify fault lua_error lua_push lua_pop
  lua_value_at lua_gettop lua_pushvalue luaL_argcheck lua_type
  get_env get_conn get_stmt get_cur put_env put_conn put_stmt put_cur
  deref env_status native get_live : monad.

Ltac monad_simpl := repeat autounfold with monad in *; world_simpl.

(** One round of evaluation: records, matches on known outcomes, lookups
    of a key that was just written. *)
Ltac crunch :=
  repeat (progress (world_simpl; cbn beta iota; rewrite ?lookup_insert_eq)).


Section EscapeFacts.

Lemma cstr_no_nul (s : list byte) : x00 ∉ cstr s.
Proof.
  induction s as [|c s IH]; simpl.
  - apply not_elem_of_nil.
  - destruct (Byte.eqb c x00) eqn:E.
    + apply not_elem_of_nil.
    + apply not_elem_of_cons. split; [|exact IH].
      intros Heq. rewrite <- Heq in E. discriminate E.
Qed.

Lemma cstr_of_terminated (l : list byte) : x00 ∉ l -> cstr (l ++ [x00]) = l.
Proof.
  induction l as [|c l IH]; simpl; intros H.
  - reflexivity.
  - apply not_elem_of_cons in H as [Hc Hl].
    destruct (Byte.eqb c x00) eqn:E.
    + apply Byte.byte_dec_bl in E. congruence.
    + f_equal. auto.
Qed.

Lemma cstr_id (l : list byte) : x00 ∉ l -> cstr l = l.
Proof.
  induction l as [|c l IH]; simpl; intros H; [reflexivity|].
  apply not_elem_of_cons in H as [Hc Hl].
  destruct (Byte.eqb c x00) eqn:E.
  - apply Byte.byte_dec_bl in E. congruence.
  - f_equal. auto.
Qed.

Lemma double_quotes_no_nul (l : list byte) : x00 ∉ l -> x00 ∉ double_quotes l.
Proof.
  induction l as [|c l IH]; simpl; intros H; [exact H|].
  apply not_elem_of_cons in H as [Hc Hl].
  apply not_elem_of_app. split; [|auto].
  destruct (Byte.eqb c x27); repeat (apply not_elem_of_cons; split; auto);
    apply not_elem_of_nil.
Qed.

Lemma double_quotes_length (l : list byte) :
  (length (double_quotes l) <= 2 * length l)%nat.
Proof.
  induction l as [|c l IH]; simpl; [lia|].
  rewrite length_app. destruct (Byte.eqb c x27); simpl; lia.
Qed.

Lemma cstr_length (s : list byte) : (length (cstr s) <= length s)%nat.
Proof.
  induction s as [|c s IH]; simpl; [lia|].
  destruct (Byte.eqb c x00); simpl; lia.
Qed.

Lemma store_room (cap : Z) (buf : list byte) (c : byte) :
  Z.of_nat (length buf) < cap -> store cap buf c = Some (buf ++ [c]).
Proof. intros H. unfold store. destruct (decide _); [reflexivity | lia]. Qed.

Lemma store_full (cap : Z) (buf : list byte) (c : byte) :
  cap <= Z.of_nat (length buf) -> store cap buf c = None.
Proof. intros H. unfold store. destruct (decide _); [lia | reflexivity]. Qed.

(** The loop writes the doubled C string behind what is already in the
    buffer, provided the buffer has room for two bytes per byte of input. *)
Lemma escape_loop_spec (cap : Z) (s res : list byte) :
  Z.of_nat (length res) + 2 * Z.of_nat (length s) < cap ->
  escape_loop cap (s ++ [x00]) res = Some (res ++ double_quotes (cstr s)).
Proof.
  revert res. induction s as [|c s IH]; intros res Hcap; simpl.
  - rewrite app_nil_r. reflexivity.
  - destruct (Byte.eqb c x00) eqn:E0.
    + simpl. rewrite app_nil_r. reflexivity.
    + simpl in Hcap. rewrite store_room by lia. simpl.
      destruct (Byte.eqb c x27) eqn:E1.
      * rewrite store_room by (rewrite length_app; simpl; lia). simpl.
        rewrite IH by (rewrite !length_app; simpl; lia).
        rewrite <- !app_assoc. reflexivity.
      * simpl. rewrite IH by (rewrite !length_app; simpl; lia).
        rewrite <- !app_assoc. reflexivity.
Qed.

End EscapeFacts.

(** Unfolding of the monad's plumbing. *)
Ltac unfold_monad :=
  unfold bind, ret, gets, modify, fault, lua_error, lua_push, lua_pop,
    lua_value_at, lua_gettop, lua_pushvalue, luaL_argcheck in *.

Section Escape.

Variable host : Host.

(** C4 (amended).  [escape] returns the C string held by its argument (the
    bytes before the first NUL, all of them when there is none) with every
    single quote doubled and every other byte unchanged; for a string
    without NUL that is the whole string so treated.  In particular
    [escape("a'b")] is ["a''b"] and [escape("")] is [""]. *)
Theorem conn_escape_doubles_quotes (w : World) (self : lua_value) (s : list byte) :
  call_from_lua (conn_escape host true) [self; LString s] w
    = Ret [LString (double_quotes (cstr s))] (with_stack (fun _ => []) w)
  /\ (x00 ∉ s -> double_quotes (cstr s) = double_quotes s)
  /\ call_from_lua (conn_escape host true) [self; LString (bytes "a'b")] w
       = Ret [LString (bytes "a''b")] (with_stack (fun _ => []) w)
  /\ call_from_lua (conn_escape host true) [self; LString (bytes "")] w
       = Ret [LString (bytes "")] (with_stack (fun _ => []) w).
Proof.
  assert (Hgen : forall t,
    call_from_lua (conn_escape host true) [self; LString t] w
      = Ret [LString (double_quotes (cstr t))] (with_stack (fun _ => []) w)).
  { intros t. unfold call_from_lua, conn_escape, luaL_checklstring.
    unfold_monad. cbn [stack with_stack stack_at]. simpl.
    rewrite escape_loop_spec by (simpl; lia). simpl.
    rewrite store_room.
    2:{ pose proof (double_quotes_length (cstr t)). pose proof (cstr_length t).
        simpl. lia. }
    simpl. rewrite cstr_of_terminated
      by (apply double_quotes_no_nul, cstr_no_nul).
    unfold results. simpl. reflexivity. }
  split; [apply Hgen|]. split.
  - intros Hs. rewrite cstr_id by exact Hs. reflexivity.
  - split; rewrite Hgen; reflexivity.
Qed.

End Escape.

(** When [malloc] gives no block, [escape] leaves through [luaL_error]. *)
Lemma conn_escape_no_memory (host : Host) (w : World) (self : lua_value) (s : list byte) :
  call_from_lua (conn_escape host false) [self; LString s] w
    = LuaError "could not allocate escaped string"
        (with_stack (fun _ => [self; LString s]) w).
Proof. reflexivity. Qed.

(** C4 as stated, for every input string, fails on a Lua string with an
    embedded NUL: of the three bytes [a], NUL, ['] only the [a] comes back,
    and the quote behind the NUL is not doubled. *)
Lemma conn_escape_stops_at_nul :
  call_from_lua (conn_escape plain_host true) [LNil; LString [x61; x00; x27]] empty_world
    = Ret [LString [x61]] empty_world
  /\ double_quotes [x61; x00; x27] = [x61; x00; x27; x27]
  /\ [LString [x61]] <> [LString (double_quotes [x61; x00; x27])].
Proof.
  split; [reflexivity|]. split; [reflexivity|]. simpl. intros H. discriminate H.
Qed.

Section DatabaseParameterBuffer.

Lemma store_string_room (cap : Z) (s dpb : list byte) :
  strlen s < 2 ^ 31 ->
  Z.of_nat (length dpb) + strlen s <= cap ->
  store_string cap dpb s = Some (dpb ++ cstr s).
Proof.
  unfold store_string, strlen. intros Hint Hroom.
  replace (to_int (Z.of_nat (length (cstr s)))) with (Z.of_nat (length (cstr s))).
  2:{ unfold to_int, wrap_signed. change (2 ^ (32 - 1)) with (2 ^ 31).
      rewrite Z.mod_small by (change (2 ^ 32) with (2 * 2 ^ 31); lia). lia. }
  rewrite Nat2Z.id, firstn_all. clear Hint.
  revert dpb Hroom. induction (cstr s) as [|c l IH]; intros dpb Hroom; simpl.
  - rewrite app_nil_r. reflexivity.
  - simpl in Hroom. rewrite store_room by lia. simpl.
    rewrite IH by (rewrite length_app; simpl; lia).
    rewrite <- app_assoc. reflexivity.
Qed.

(** Within the buffer, the bytes are the ones the interface names: the
    version tag, the buffer count triplet, then tag, length byte and bytes
    for the user name and for the password; 8 bytes and the two names. *)
Lemma construct_dpb_layout (username password : list byte) :
  8 + strlen username + strlen password <= 1024 ->
  exists dpb,
    construct_dpb username password = Some dpb
    /\ dpb = [byte_of_Z isc_dpb_version1;
              byte_of_Z isc_dpb_num_buffers; byte_of_Z 1; byte_of_Z 90;
              byte_of_Z isc_dpb_user_name; byte_of_Z (strlen username)]
             ++ cstr username
             ++ [byte_of_Z isc_dpb_password; byte_of_Z (strlen password)]
             ++ cstr password
    /\ Z.of_nat (length dpb) = 8 + strlen username + strlen password.
Proof.
  intros Hfit. eexists. split; [|split; [reflexivity|]].
  - unfold construct_dpb.
    assert (0 <= strlen username) by (unfold strlen; lia).
    assert (0 <= strlen password) by (unfold strlen; lia).
    repeat (rewrite store_room by (simpl; lia); simpl).
    rewrite store_string_room by (simpl; lia). simpl.
    rewrite store_room by (rewrite ?length_app; simpl; unfold strlen in *; lia). simpl.
    rewrite store_room
      by (rewrite ?length_app; simpl; rewrite ?length_app; simpl; unfold strlen in *; lia).
    simpl.
    rewrite store_string_room.
    + f_equal. simpl. rewrite <- !app_assoc. reflexivity.
    + lia.
    + rewrite ?length_app; simpl; rewrite ?length_app; simpl; unfold strlen in *; lia.
  - simpl. rewrite length_app. simpl. unfold strlen. lia.
Qed.

(** C9, at a user name of 1017 bytes and an empty password: the code stores
    byte number 1025 past the end of [dpb_buffer[1024]], for any engine and
    host; the claimed length, 8 + 1017 + 0, exceeds the cap. *)
Theorem env_connect_overruns_dpb_buffer (engine : Engine) (host : Host) :
  strlen long_user_name = 1017
  /\ 8 + strlen long_user_name + strlen [] = 1025
  /\ construct_dpb long_user_name [] = None
  /\ call_from_lua (env_connect engine host)
       [LUserdata KEnv 1%positive; LString (bytes "db"); LString long_user_name] one_env_world
     = Fault "env_connect: write past dpb_buffer".
Proof.
  assert (H : construct_dpb long_user_name [] = None) by (vm_compute; reflexivity).
  split; [vm_compute; reflexivity|]. split; [vm_compute; reflexivity|].
  split; [exact H|].
  vm_compute. reflexivity.
Qed.

End DatabaseParameterBuffer.

Section BindingStrings.

Variable engine : Engine.
Variable host : Host.

Lemma to_short_small (z : Z) : -32768 <= z < 32768 -> to_short z = z.
Proof.
  intros H. unfold to_short, wrap_signed.
  change (2 ^ (16 - 1)) with 32768. change (2 ^ 16) with 65536.
  rewrite Z.mod_small by lia. lia.
Qed.

Lemma strlen_nonneg (s : list byte) : 0 <= strlen s.
Proof. unfold strlen. lia. Qed.

Lemma strlen_cstr (s : list byte) : strlen (cstr s ++ [x00]) = strlen s.
Proof.
  unfold strlen. rewrite cstr_of_terminated by apply cstr_no_nul. reflexivity.
Qed.

(** C6 (amended).  A string bound to a text-typed parameter column is
    encoded inline as text exactly when its length is at most 32,752: the
    slot becomes a text slot whose length field is the string's length
    (strlen, not strlen+1) and whose buffer holds the strlen+1 bytes of the
    string and its terminator, and no native call is made.  A longer string
    goes through [write_blob], and the slot becomes a blob slot holding the
    8 bytes of the blob id. *)
Theorem set_param_string_inline_or_blob
  (stmt : stmt_data) (var : XSQLVAR) (w : World) (s : list byte) :
  stack_at (stack w) (-1) = Some (LString s) ->
  is_text_column (base_type (sqltype var)) = true ->
  (strlen s <= 32752 ->
     set_param engine host stmt var w
       = Ret (bound_slot var (SQL_TEXT + 1) (strlen s) (cstr s ++ [x00])) w
     /\ Z.of_nat (length (cstr s ++ [x00])) = strlen s + 1)
  /\ (strlen s > 32752 ->
     set_param engine host stmt var w
       = match write_blob engine stmt (cstr s ++ [x00]) (strlen s) w with
         | Ret blob_id w' => Ret (bound_slot var (SQL_BLOB + 1) 8 (take 8 blob_id)) w'
         | LuaError msg w' => LuaError msg w'
         | Fault why => Fault why
         end).
Proof.
  intros Htop Htext.
  pose proof (strlen_nonneg s) as Hpos.
  assert (Hset : forall v : XSQLVAR,
            sqlind (match sqlind v with
                    | None => set_sqlind (Some 0) v
                    | Some _ => v
                    end) <> None).
  { intros v. destruct (sqlind v) eqn:E; simpl; congruence. }
  assert (Hty : sqltype (match sqlind var with
                         | None => set_sqlind (Some 0) var
                         | Some _ => var
                         end) = sqltype var)
    by (destruct (sqlind var); reflexivity).
  assert (Hnames : forall v : XSQLVAR,
            aliasname (match sqlind v with
                       | None => set_sqlind (Some 0) v
                       | Some _ => v
                       end) = aliasname v
            /\ aliasname_length (match sqlind v with
                                 | None => set_sqlind (Some 0) v
                                 | Some _ => v
                                 end) = aliasname_length v)
    by (intros v; destruct (sqlind v); split; reflexivity).
  destruct (Hnames var) as [Hn1 Hn2].
  specialize (Hset var).
  split; intros Hlen.
  - split; [|rewrite length_app; simpl; unfold strlen; lia].
    unfold set_param, bind, lua_value_at, gets. rewrite Htop.
    rewrite Hty, Htext. cbn [lua_tostring]. unfold c_strlen.
    rewrite strlen_cstr.
    destruct (decide (strlen s > 32752)) as [Hgt|_]; [lia|].
    unfold fill_param.
    destruct (sqlind (match sqlind var with
                      | None => set_sqlind (Some 0) var
                      | Some _ => var
                      end)) eqn:Eind; [|congruence].
    unfold ret. cbn [sqldata]. unfold malloc_copy.
    rewrite to_short_small by lia.
    destruct (decide (strlen s + 1 < 0)) as [Hneg|_]; [lia|].
    cbn [sqldata]. unfold bound_slot. rewrite Hn1, Hn2.
    destruct (decide (base_type (SQL_TEXT + 1) = SQL_TEXT)) as [_|Hne];
      [|exfalso; apply Hne; reflexivity].
    replace (strlen s + 1 - 1) with (strlen s) by lia.
    rewrite to_short_small by lia.
    rewrite firstn_all2; [reflexivity|].
    rewrite length_app. simpl. unfold strlen. lia.
  - unfold set_param, bind, lua_value_at, gets. rewrite Htop.
    rewrite Hty, Htext. cbn [lua_tostring]. unfold c_strlen.
    rewrite strlen_cstr.
    destruct (decide (strlen s > 32752)) as [_|Hle]; [|lia].
    destruct (write_blob engine stmt (cstr s ++ [x00]) (strlen s) w)
      as [blob_id w'| |]; try reflexivity.
    unfold fill_param.
    destruct (sqlind (match sqlind var with
                      | None => set_sqlind (Some 0) var
                      | Some _ => var
                      end)) eqn:Eind; [|congruence].
    unfold ret. cbn [sqldata]. unfold malloc_copy.
    destruct (decide (8 < 0)) as [Hneg|_]; [lia|].
    cbn [sqldata]. unfold bound_slot. rewrite Hn1, Hn2.
    destruct (decide (base_type (SQL_BLOB + 1) = SQL_TEXT)) as [Heq|_];
      [discriminate Heq|].
    reflexivity.
Qed.

End BindingStrings.

Lemma set_param_string_inline_or_blob_witness :
  let w1 := with_stack (fun _ => [LString (bytes "abc")]) chain_world in
  let w2 := with_stack (fun _ => [LString long_text]) chain_world in
  (stack_at (stack w1) (-1) = Some (LString (bytes "abc"))
   /\ is_text_column (base_type (sqltype varchar_slot)) = true
   /\ strlen (bytes "abc") <= 32752
   /\ set_param quiet_engine plain_host select_stmt varchar_slot w1
      = Ret (bound_slot varchar_slot (SQL_TEXT + 1) 3 (bytes "abc" ++ [x00])) w1)
  /\ (stack_at (stack w2) (-1) = Some (LString long_text)
      /\ strlen long_text > 32752
      /\ set_param quiet_engine plain_host select_stmt varchar_slot w2
         = match write_blob quiet_engine select_stmt (cstr long_text ++ [x00])
                   (strlen long_text) w2 with
           | Ret blob_id w' =>
               Ret (bound_slot varchar_slot (SQL_BLOB + 1) 8 (take 8 blob_id)) w'
           | LuaError msg w' => LuaError msg w'
           | Fault why => Fault why
           end).
Proof.
  intros w1 w2. split.
  - split; [reflexivity|]. split; [reflexivity|]. split; [vm_compute; discriminate|].
    apply (set_param_string_inline_or_blob quiet_engine plain_host select_stmt
             varchar_slot w1 (bytes "abc") eq_refl eq_refl).
    vm_compute; discriminate.
  - split; [reflexivity|]. split; [vm_compute; reflexivity|].
    apply (set_param_string_inline_or_blob quiet_engine plain_host select_stmt
             varchar_slot w2 long_text eq_refl eq_refl).
    vm_compute; reflexivity.
Defined.

(** C6 as stated fails on its length field: binding the three bytes of
    "abc" to a VARCHAR parameter leaves 3 in [sqllen], where strlen+1 is 4;
    the buffer is the one with 4 bytes. *)
Lemma set_param_text_length_is_strlen :
  exists var',
    set_param quiet_engine plain_host select_stmt varchar_slot
      (with_stack (fun _ => [LString (bytes "abc")]) chain_world)
      = Ret var' (with_stack (fun _ => [LString (bytes "abc")]) chain_world)
    /\ sqltype var' = SQL_TEXT + 1
    /\ sqllen var' = 3
    /\ strlen (bytes "abc") + 1 = 4
    /\ sqllen var' <> strlen (bytes "abc") + 1
    /\ sqldata var' = Some [x61; x62; x63; x00].
Proof.
  eexists. split; [vm_compute; reflexivity|].
  repeat split; try reflexivity. vm_compute. discriminate.
Qed.

Section BlobWriter.

Variable engine : Engine.

Lemma slices_length (k : nat) : forall data, length (slices k data) = k.
Proof. induction k as [|k IH]; intros data; simpl; [reflexivity|]. rewrite IH. reflexivity. Qed.

Lemma slices_bounded (k : nat) :
  forall data, Forall (fun seg => Z.of_nat (length seg) <= 10000) (slices k data).
Proof.
  induction k as [|k IH]; intros data; simpl; constructor; [|apply IH].
  rewrite length_take. lia.
Qed.

Lemma slices_concat (k : nat) :
  forall data, concat (slices k data) = take (k * Z.to_nat 10000) data.
Proof.
  induction k as [|k IH]; intros data; simpl; [reflexivity|].
  rewrite IH, take_take_drop. reflexivity.
Qed.

(** The loop, with an engine that takes every segment: it sends the full
    segments in order and leaves the last [len - 10000 * k] bytes. *)
Lemma put_full_segments_sends (e : ptr) (bh : Z) (fuel : nat) :
  forall (data : list byte) (len : Z) (w : World) (env : env_data),
    envs w !! e = Some env ->
    (forall tr n seg,
       CHECK_DB_ERROR (rp_status (isc engine tr (isc_put_segment bh n seg))) = false) ->
    0 <= len -> len / 10000 <= Z.of_nat fuel ->
    let k := full_segments len in
    exists w' env',
      put_full_segments engine fuel e bh data len w
        = Ret (false, drop (k * Z.to_nat 10000) data, len - 10000 * Z.of_nat k) w'
      /\ trace w' = trace w ++ map (fun seg => isc_put_segment bh 10000 seg) (slices k data)
      /\ envs w' !! e = Some env'
      /\ conns w' = conns w /\ stmts w' = stmts w /\ curs w' = curs w
      /\ stack w' = stack w.
Proof.
  induction fuel as [|fuel IH]; intros data len w env He Hok Hlen Hfuel k.
  - assert (Hsmall : len < 10000).
    { destruct (Z.lt_ge_cases len 10000) as [H|H]; [exact H|].
      pose proof (Z.div_le_mono 10000 len 10000 ltac:(lia) H) as Hd.
      change (10000 / 10000) with 1 in Hd. simpl in Hfuel. lia. }
    assert (Hk : k = O).
    { unfold k, full_segments.
      destruct (Z.eq_dec len 0) as [->|Hne]; [reflexivity|].
      rewrite Z.div_small by lia. reflexivity. }
    rewrite Hk. simpl. exists w, env.
    rewrite Z.sub_0_r, app_nil_r. unfold ret. repeat split. exact He.
  - cbn [put_full_segments].
    destruct (decide (len > 10000)) as [Hbig|Hsmall].
    + monad_simpl. rewrite He. crunch. rewrite Hok. crunch.
      set (w1 := answered engine e env _ w).
      assert (Hk : k = S (full_segments (len - 10000))).
      { unfold k, full_segments.
        replace (len - 1) with ((len - 10000 - 1) + 1 * 10000) by lia.
        rewrite Z.div_add by lia.
        rewrite Z2Nat.inj_add; [simpl; lia| |lia].
        apply Z.div_pos; lia. }
      destruct (IH (drop (Z.to_nat 10000) data) (len - 10000) w1
                  {| env_closed := env_closed env; env_lock := env_lock env;
                     status_vector :=
                       rp_status (isc engine (trace w)
                                    (isc_put_segment bh 10000 (take (Z.to_nat 10000) data))) |})
        as (w' & env' & Hrun & Ht & He' & Hc & Hs & Hcu & Hst).
      { apply lookup_insert_eq. }
      { exact Hok. }
      { lia. }
      { replace len with ((len - 10000) + 1 * 10000) in Hfuel by lia.
        rewrite Z.div_add in Hfuel by lia. lia. }
      exists w', env'. rewrite Hrun, Hk. split.
      { replace (drop (S (full_segments (len - 10000)) * Z.to_nat 10000) data)
          with (drop (full_segments (len - 10000) * Z.to_nat 10000)
                  (drop (Z.to_nat 10000) data))
          by (rewrite drop_drop; f_equal; simpl; lia).
        replace (len - 10000 * Z.of_nat (S (full_segments (len - 10000))))
          with (len - 10000 - 10000 * Z.of_nat (full_segments (len - 10000))) by lia.
        reflexivity. }
      split.
      { rewrite Ht. subst w1. crunch. rewrite <- app_assoc. reflexivity. }
      repeat split; assumption.
    + assert (Hk : k = O).
      { unfold k, full_segments.
        destruct (Z.eq_dec len 0) as [->|Hne]; [reflexivity|].
        destruct (Z.eq_dec len 10000) as [->|Hne2]; [reflexivity|].
        rewrite Z.div_small by lia. reflexivity. }
      rewrite Hk. simpl. exists w, env.
      rewrite Z.sub_0_r, app_nil_r. unfold ret. repeat split. exact He.
Qed.

(** With an engine that refuses nothing, [write_blob] creates a blob on the
    transaction of the connection, sends the first [len] bytes of the value
    in segments of at most 10,000 bytes, and closes the handle. *)
Lemma write_blob_streams (stmt : stmt_data) (conn : conn_data) (env : env_data)
  (data : list byte) (len : Z) (w : World) :
  conns w !! stmt_conn stmt = Some conn ->
  envs w !! stmt_env stmt = Some env ->
  (forall tr c, CHECK_DB_ERROR (rp_status (isc engine tr c)) = false) ->
  0 <= len ->
  let c0 := isc_create_blob2 (db conn) (transaction conn) in
  let bh := rp_handle (isc engine (trace w) c0) in
  let k := full_segments len in
  let last := len - 10000 * Z.of_nat k in
  let tail := take (Z.to_nat last) (drop (k * Z.to_nat 10000) data) in
  exists w',
    write_blob engine stmt data len w = Ret (rp_quad (isc engine (trace w) c0)) w'
    /\ trace w' = trace w ++ [c0]
                   ++ map (fun seg => isc_put_segment bh 10000 seg) (slices k data)
                   ++ [isc_put_segment bh last tail; isc_close_blob bh]
    /\ 0 <= last <= 10000
    /\ Forall (fun seg => Z.of_nat (length seg) <= 10000) (slices k data ++ [tail])
    /\ concat (slices k data ++ [tail]) = take (Z.to_nat len) data.
Proof.
  intros Hc He Hok Hlen c0 bh k last tail.
  assert (Hlast : 0 <= last <= 10000).
  { unfold last, k, full_segments.
    destruct (Z.eq_dec len 0) as [->|Hne];
      [change ((0 - 1) / 10000) with (-1); simpl; lia|].
    rewrite Z2Nat.id by (apply Z.div_pos; lia).
    pose proof (Z.div_mod (len - 1) 10000 ltac:(lia)) as Hdm.
    pose proof (Z.mod_pos_bound (len - 1) 10000 ltac:(lia)) as Hm. lia. }
  unfold write_blob. monad_simpl. rewrite Hc. crunch. rewrite He. crunch.
  rewrite Hok. crunch. fold c0. fold bh.
  set (w1 := answered engine (stmt_env stmt) env c0 w).
  destruct (put_full_segments_sends (stmt_env stmt) bh (Z.to_nat (len / 10000))
              data len w1
              {| env_closed := env_closed env; env_lock := env_lock env;
                 status_vector := rp_status (isc engine (trace w) c0) |})
    as (w2 & env2 & Hrun & Ht & He2 & _).
  { apply lookup_insert_eq. }
  { intros tr n seg. apply Hok. }
  { exact Hlen. }
  { rewrite Z2Nat.id; [lia|]. apply Z.div_pos; lia. }
  rewrite Hrun. crunch. fold k. fold last. rewrite He2. crunch. rewrite Hok. crunch.
  eexists. split; [reflexivity|]. crunch. split.
  { rewrite Ht. subst w1. crunch. rewrite <- !app_assoc. reflexivity. }
  split; [exact Hlast|]. split.
  - apply Forall_app. split; [apply slices_bounded|].
    repeat constructor. unfold tail. rewrite length_take. lia.
  - rewrite concat_app, slices_concat. simpl. rewrite app_nil_r.
    unfold tail. rewrite take_take_drop. f_equal. unfold last. lia.
Qed.

(** C5, at a 40,000-byte value whose write the engine refuses.  The blob
    handle is created (the create call reports success), the write of the
    first segment fails inside the loop, and [write_blob] returns at once:
    the log ends with the failed [isc_put_segment] and holds no
    [isc_close_blob].  The same happens when the last segment, written
    behind the loop, is the one refused. *)
Theorem write_blob_leaves_handle_open_on_error :
  (exists blob_id w',
     write_blob (put_refusing_engine 0) select_stmt long_text 40000 chain_world
       = Ret blob_id w'
     /\ CHECK_DB_ERROR (rp_status (isc (put_refusing_engine 0) [] (isc_create_blob2 11 12)))
        = false
     /\ map call_name (trace w') = ["isc_create_blob2"; "isc_put_segment"]%string
     /\ filter (fun c => is_close_blob c = true) (trace w') = [])
  /\ (exists blob_id w',
     write_blob (put_refusing_engine 3) select_stmt long_text 40000 chain_world
       = Ret blob_id w'
     /\ map call_name (trace w')
        = ["isc_create_blob2"; "isc_put_segment"; "isc_put_segment";
           "isc_put_segment"; "isc_put_segment"]%string
     /\ filter (fun c => is_close_blob c = true) (trace w') = []).
Proof.
  split.
  - eexists _, _. split; [vm_compute; reflexivity|].
    split; [reflexivity|]. split; vm_compute; reflexivity.
  - eexists _, _. split; [vm_compute; reflexivity|].
    split; vm_compute; reflexivity.
Qed.

(** With an engine that refuses nothing the same value goes out in four
    segments of 10,000 bytes and the handle is closed. *)
Lemma write_blob_closes_handle_on_success :
  exists blob_id w',
    write_blob quiet_engine select_stmt long_text 40000 chain_world = Ret blob_id w'
    /\ trace w' = [isc_create_blob2 11 12;
                   isc_put_segment 0 10000 (replicate (Z.to_nat 10000) x61);
                   isc_put_segment 0 10000 (replicate (Z.to_nat 10000) x61);
                   isc_put_segment 0 10000 (replicate (Z.to_nat 10000) x61);
                   isc_put_segment 0 10000 (replicate (Z.to_nat 10000) x61);
                   isc_close_blob 0].
Proof. eexists _, _. split; vm_compute; reflexivity. Qed.

End BlobWriter.

Section ClosingHandles.

Variable engine : Engine.

Lemma stack_at_first (v : lua_value) (rest : list lua_value) :
  stack_at (v :: rest) 1 = Some v.
Proof. reflexivity. Qed.

(** C10.  Close on a handle that is already closed (and, for a statement,
    has no open cursor) returns the boolean false and leaves the whole
    state as it was: every field of every handle, so every lock count too. *)
Theorem close_of_closed_handle_is_noop (w : World) (p : ptr) :
  (forall env, envs w !! p = Some env -> env_closed env = 1 ->
     call_from_lua env_close [LUserdata KEnv p] w
       = Ret [LBoolean false] (with_stack (fun _ => []) w))
  /\ (forall conn, conns w !! p = Some conn -> conn_closed conn <> 0 ->
     call_from_lua (conn_close engine) [LUserdata KConn p] w
       = Ret [LBoolean false] (with_stack (fun _ => []) w))
  /\ (forall stmt, stmts w !! p = Some stmt -> stmt_closed stmt <> 0 ->
     stmt_lock stmt <= 0 ->
     call_from_lua (stmt_close engine) [LUserdata KStmt p] w
       = Ret [LBoolean false] (with_stack (fun _ => []) w))
  /\ (forall cur, curs w !! p = Some cur -> cur_closed cur <> 0 ->
     call_from_lua (cur_close engine) [LUserdata KCur p] w
       = Ret [LBoolean false] (with_stack (fun _ => []) w)).
Proof.
  repeat split.
  - intros env Hp Hc.
    unfold call_from_lua, env_close, luaL_checkudata. monad_simpl.
    rewrite stack_at_first. simpl. rewrite Hp. simpl.
    destruct (decide (env_closed env = 1)) as [_|Hn]; [|contradiction].
    reflexivity.
  - intros conn Hp Hc.
    unfold call_from_lua, conn_close, luaL_checkudata. monad_simpl.
    rewrite stack_at_first. simpl. rewrite Hp. simpl.
    destruct (decide (conn_closed conn <> 0)) as [_|Hn]; [|contradiction].
    reflexivity.
  - intros stmt Hp Hc Hl.
    unfold call_from_lua, stmt_close, luaL_checkudata. monad_simpl.
    rewrite stack_at_first. simpl. rewrite Hp. simpl.
    destruct (decide (stmt_lock stmt > 0)) as [Hgt|_]; [lia|].
    destruct (decide (stmt_closed stmt = 0)) as [Hz|_]; [contradiction|].
    reflexivity.
  - intros cur Hp Hc.
    unfold call_from_lua, cur_close, luaL_checkudata. monad_simpl.
    rewrite stack_at_first. simpl. rewrite Hp. simpl.
    destruct (decide (cur_closed cur = 0)) as [Hz|_]; [contradiction|].
    reflexivity.
Qed.

(** Dropping a registry entry, or not, touches the registry alone. *)
Lemma unregister_if (P : Prop) `{Decision P} (key : kind * ptr) (w0 : World) :
  exists w1,
    (if decide P then unregisterobj key else fun w2 => Ret tt w2) w0 = Ret tt w1
    /\ trace w1 = trace w0 /\ conns w1 = conns w0 /\ envs w1 = envs w0
    /\ stmts w1 = stmts w0 /\ curs w1 = curs w0 /\ stack w1 = stack w0.
Proof.
  destruct (decide P); eexists; (split; [reflexivity|]); repeat split.
Qed.

(** C3 (amended).  Close on an open connection whose lock count is at
    least 1 fails with the still-open-statements error and changes nothing.
    With the count at 0, and the engine accepting the call that ends the
    transaction and the call that detaches the database, close succeeds: it
    commits the transaction when autocommit is set and rolls it back
    otherwise, detaches the database, marks the connection closed and takes
    it off its environment's count.  Closing a statement of the connection,
    the engine accepting the drop of the statement, lowers the count by
    one, so the count is 0 once the last is closed. *)
Theorem conn_close_waits_for_statements (w : World) (p : ptr) (conn : conn_data) :
  conns w !! p = Some conn ->
  conn_closed conn = 0 ->
  (1 <= conn_lock conn ->
     call_from_lua (conn_close engine) [LUserdata KConn p] w
       = Ret still_open_statements (with_stack (fun _ => []) w))
  /\ (conn_lock conn <= 0 ->
      forall env, envs w !! conn_env conn = Some env ->
      let c1 := end_transaction conn in
      let r1 := isc engine (trace w) c1 in
      let c2 := isc_detach_database (db conn) in
      let r2 := isc engine (trace w ++ [c1]) c2 in
      CHECK_DB_ERROR (rp_status r1) = false ->
      CHECK_DB_ERROR (rp_status r2) = false ->
      exists w',
        call_from_lua (conn_close engine) [LUserdata KConn p] w = Ret [LBoolean true] w'
        /\ trace w' = trace w ++ [c1; c2]
        /\ conns w' = <[p := closed_conn conn (rp_handle r1) (rp_handle r2)]> (conns w)
        /\ envs w' = <[conn_env conn :=
                         {| env_closed := env_closed env; env_lock := env_lock env - 1;
                            status_vector := rp_status r2 |}]> (envs w)
        /\ stmts w' = stmts w /\ curs w' = curs w)
  /\ (forall sp stmt env,
      stmts w !! sp = Some stmt -> stmt_conn stmt = p ->
      envs w !! stmt_env stmt = Some env ->
      stmt_closed stmt = 0 -> stmt_lock stmt <= 0 -> in_sqlda stmt <> Dangling ->
      let c := isc_dsql_free_statement (handle stmt) DSQL_drop in
      CHECK_DB_ERROR (rp_status (isc engine (trace w) c)) = false ->
      exists w' stmt',
        call_from_lua (stmt_close engine) [LUserdata KStmt sp] w = Ret [LBoolean true] w'
        /\ trace w' = trace w ++ [c]
        /\ conns w' = <[p := set_conn_lock (conn_lock conn - 1) conn]> (conns w)
        /\ stmts w' !! sp = Some stmt' /\ stmt_closed stmt' = 1).
Proof.
  intros Hp Hopen. split; [|split].
  - intros Hlock.
    unfold call_from_lua, conn_close, luaL_checkudata. monad_simpl.
    rewrite stack_at_first. simpl. rewrite Hp. simpl.
    destruct (decide (conn_closed conn <> 0)) as [Hn|_]; [contradiction|].
    destruct (decide (conn_lock conn > 0)) as [_|Hn]; [|lia].
    reflexivity.
  - intros Hlock env He c1 r1 c2 r2 Hr1 Hr2.
    unfold call_from_lua, conn_close, luaL_checkudata. monad_simpl.
    rewrite stack_at_first. simpl. rewrite Hp. simpl.
    destruct (decide (conn_closed conn <> 0)) as [Hn|_]; [contradiction|].
    destruct (decide (conn_lock conn > 0)) as [Hn|_]; [lia|].
    subst r2 c2 r1 c1. unfold end_transaction in *.
    crunch. rewrite He. crunch. rewrite Hr1. crunch. rewrite Hr2. crunch.
    match goal with
    | |- context [ (if decide (env_lock env - 1 = 0) then _ else _) ?w0 ] =>
        destruct (unregister_if (env_lock env - 1 = 0) (KEnv, conn_env conn) w0)
          as (w1 & Hrun & Ht & Hc & Hen & Hs & Hcu & Hst)
    end.
    rewrite Hrun. crunch. unfold results. crunch. rewrite Hst. crunch.
    eexists. split; [reflexivity|]. crunch.
    rewrite Ht, Hc, Hen, Hs, Hcu. crunch.
    rewrite <- app_assoc, !insert_insert_eq. repeat split.
  - intros sp stmt env Hs Hconn He Hsopen Hslock Hlive c Hr. subst c.
    unfold call_from_lua, stmt_close, luaL_checkudata. monad_simpl.
    rewrite stack_at_first. simpl. rewrite Hs. simpl.
    destruct (decide (stmt_lock stmt > 0)) as [Hn|_]; [lia|].
    destruct (decide (stmt_closed stmt = 0)) as [_|Hn]; [|contradiction].
    unfold stmt_shut, free_stmt, free_xsqlda. monad_simpl.
    crunch. rewrite Hs. crunch. rewrite He. crunch. rewrite Hr. crunch.
    destruct (in_sqlda stmt) as [|da0|] eqn:Eda; [| |contradiction];
    ( crunch; rewrite Hconn, Hp; crunch;
      match goal with
      | |- context [ (if decide (conn_lock conn - 1 = 0) then _ else _) ?w0 ] =>
          destruct (unregister_if (conn_lock conn - 1 = 0) (KConn, p) w0)
            as (w1 & Hrun & Ht & Hc & Hen & Hst & Hcu & Hsk)
      end;
      rewrite Hrun; crunch;
      destruct (decide (0 <> 0)) as [Hn|_]; [contradiction|];
      crunch; unfold results; crunch; rewrite Hsk; crunch;
      eexists _, _; (split; [reflexivity|]); crunch;
      rewrite Ht, Hc, Hst; crunch;
      repeat split; apply lookup_insert_eq ).
Qed.

End ClosingHandles.

Lemma close_of_closed_handle_is_noop_witness :
  (envs shut_world !! 1%positive = Some shut_env /\ env_closed shut_env = 1
   /\ call_from_lua env_close [LUserdata KEnv 1%positive] shut_world
      = Ret [LBoolean false] (with_stack (fun _ => []) shut_world))
  /\ (conns shut_world !! 1%positive = Some shut_conn /\ conn_closed shut_conn <> 0
   /\ call_from_lua (conn_close quiet_engine) [LUserdata KConn 1%positive] shut_world
      = Ret [LBoolean false] (with_stack (fun _ => []) shut_world))
  /\ (stmts shut_world !! 1%positive = Some shut_stmt /\ stmt_closed shut_stmt <> 0
   /\ stmt_lock shut_stmt <= 0
   /\ call_from_lua (stmt_close quiet_engine) [LUserdata KStmt 1%positive] shut_world
      = Ret [LBoolean false] (with_stack (fun _ => []) shut_world))
  /\ (curs shut_world !! 1%positive = Some shut_cur /\ cur_closed shut_cur <> 0
   /\ call_from_lua (cur_close quiet_engine) [LUserdata KCur 1%positive] shut_world
      = Ret [LBoolean false] (with_stack (fun _ => []) shut_world)).
Proof.
  pose proof (close_of_closed_handle_is_noop quiet_engine shut_world 1%positive)
    as (He & Hc & Hs & Hcu).
  assert (H10 : (1 : Z) <> 0) by discriminate.
  assert (H00 : (0 : Z) <= 0) by discriminate.
  split; [|split; [|split]].
  - split; [reflexivity|]. split; [reflexivity|]. apply (He shut_env); reflexivity.
  - split; [reflexivity|]. split; [exact H10|]. apply (Hc shut_conn); [reflexivity|exact H10].
  - split; [reflexivity|]. split; [exact H10|]. split; [exact H00|].
    apply (Hs shut_stmt); [reflexivity|exact H10|exact H00].
  - split; [reflexivity|]. split; [exact H10|].
    apply (Hcu shut_cur); [reflexivity|exact H10].
Defined.

Lemma conn_close_waits_for_statements_witness :
  (conns chain_world !! 1%positive = Some held_conn /\ conn_closed held_conn = 0
   /\ 1 <= conn_lock held_conn
   /\ call_from_lua (conn_close quiet_engine) [LUserdata KConn 1%positive] chain_world
      = Ret still_open_statements (with_stack (fun _ => []) chain_world))
  /\ (conns idle_world !! 1%positive = Some idle_conn /\ conn_closed idle_conn = 0
   /\ conn_lock idle_conn <= 0
   /\ envs idle_world !! conn_env idle_conn = Some held_env
   /\ CHECK_DB_ERROR (rp_status (isc quiet_engine [] (isc_rollback_transaction 12))) = false
   /\ CHECK_DB_ERROR (rp_status (isc quiet_engine [isc_rollback_transaction 12]
                                   (isc_detach_database 11))) = false
   /\ exists w',
        call_from_lua (conn_close quiet_engine) [LUserdata KConn 1%positive] idle_world
          = Ret [LBoolean true] w'
        /\ trace w' = [isc_rollback_transaction 12; isc_detach_database 11]
        /\ conns w' = <[1%positive := closed_conn idle_conn 0 0]> (conns idle_world))
  /\ (stmts prepared_world !! 1%positive = Some idle_stmt
   /\ conns prepared_world !! 1%positive = Some held_conn
   /\ envs prepared_world !! stmt_env idle_stmt = Some held_env
   /\ stmt_closed idle_stmt = 0 /\ stmt_lock idle_stmt <= 0
   /\ in_sqlda idle_stmt <> Dangling
   /\ exists w' stmt',
        call_from_lua (stmt_close quiet_engine) [LUserdata KStmt 1%positive] prepared_world
          = Ret [LBoolean true] w'
        /\ trace w' = [isc_dsql_free_statement 13 DSQL_drop]
        /\ conns w' = <[1%positive := idle_conn]> (conns prepared_world)
        /\ stmts w' !! 1%positive = Some stmt' /\ stmt_closed stmt' = 1).
Proof.
  assert (H00 : (0 : Z) <= 0) by discriminate.
  assert (H11 : (1 : Z) <= 1) by discriminate.
  split; [|split].
  - split; [reflexivity|]. split; [reflexivity|]. split; [exact H11|].
    apply (conn_close_waits_for_statements quiet_engine chain_world 1%positive held_conn
             eq_refl eq_refl). exact H11.
  - split; [reflexivity|]. split; [reflexivity|]. split; [exact H00|].
    split; [reflexivity|]. split; [reflexivity|]. split; [reflexivity|].
    destruct (conn_close_waits_for_statements quiet_engine idle_world 1%positive idle_conn
                eq_refl eq_refl) as (_ & Hb & _).
    destruct (Hb H00 held_env eq_refl eq_refl eq_refl) as (w' & Hrun & Ht & Hc & _).
    exists w'. split; [exact Hrun|]. split; [exact Ht|exact Hc].
  - split; [reflexivity|]. split; [reflexivity|]. split; [reflexivity|].
    split; [reflexivity|]. split; [exact H00|]. split; [discriminate|].
    destruct (conn_close_waits_for_statements quiet_engine prepared_world 1%positive
                held_conn eq_refl eq_refl) as (_ & _ & Hc).
    apply (Hc 1%positive idle_stmt held_env eq_refl eq_refl eq_refl eq_refl H00).
    + discriminate.
    + reflexivity.
Defined.

(** C3 as stated, for every engine, fails when the engine refuses a call.
    A connection without autocommit and without a statement left is asked
    to close.  When the engine refuses the rollback, [close] returns nil and
    the engine's message, and the connection stays open.  When the engine
    accepts the rollback and refuses the detach, [close] returns nil and the
    message as well, and the connection stays open with its transaction
    gone.  And a statement that the engine refuses to drop is not closed:
    its [close] returns nil and the message, the connection keeps the lock,
    and its [close] goes on failing with the still-open-statements error. *)
Lemma conn_close_fails_when_engine_refuses :
  (conns idle_world !! 1%positive = Some idle_conn
   /\ conn_closed idle_conn = 0 /\ conn_lock idle_conn <= 0
   /\ exists w' conn',
        call_from_lua (conn_close (refusing_engine 0)) [LUserdata KConn 1%positive]
          idle_world
        = Ret (db_error (refusing_engine 0) error_status) w'
        /\ trace w' = [isc_rollback_transaction 12]
        /\ conns w' !! 1%positive = Some conn' /\ conn_closed conn' = 0)
  /\ (exists w' conn',
        call_from_lua (conn_close (refusing_engine 1)) [LUserdata KConn 1%positive]
          idle_world
        = Ret (db_error (refusing_engine 1) error_status) w'
        /\ trace w' = [isc_rollback_transaction 12; isc_detach_database 11]
        /\ conns w' !! 1%positive = Some conn' /\ conn_closed conn' = 0)
  /\ (stmts prepared_world !! 1%positive = Some idle_stmt
   /\ stmt_conn idle_stmt = 1%positive
   /\ stmt_closed idle_stmt = 0 /\ stmt_lock idle_stmt <= 0
   /\ exists w' stmt' conn',
        call_from_lua (stmt_close (refusing_engine 0)) [LUserdata KStmt 1%positive]
          prepared_world
        = Ret (db_error (refusing_engine 0) error_status) w'
        /\ stmts w' !! 1%positive = Some stmt' /\ stmt_closed stmt' = 0
        /\ conns w' !! 1%positive = Some conn' /\ conn_lock conn' = 1
        /\ call_from_lua (conn_close (refusing_engine 0)) [LUserdata KConn 1%positive] w'
           = Ret still_open_statements (with_stack (fun _ => []) w')).
Proof.
  assert (H00 : (0 : Z) <= 0) by discriminate.
  split; [|split].
  - split; [reflexivity|]. split; [reflexivity|]. split; [exact H00|].
    eexists _, _. split; [vm_compute; reflexivity|].
    split; [reflexivity|]. split; vm_compute; reflexivity.
  - eexists _, _. split; [vm_compute; reflexivity|].
    split; [reflexivity|]. split; vm_compute; reflexivity.
  - split; [reflexivity|]. split; [reflexivity|]. split; [reflexivity|].
    split; [exact H00|].
    eexists _, _, _. split; [vm_compute; reflexivity|].
    split; [vm_compute; reflexivity|]. split; [reflexivity|].
    split; [vm_compute; reflexivity|]. split; [reflexivity|].
    vm_compute. reflexivity.
Qed.

Section Fetching.

Variable engine : Engine.
Variable host : Host.
Variable fuel : nat.

Lemma blob_traffic_refl (e : ptr) (w : World) (env : env_data) :
  envs w !! e = Some env -> blob_traffic e w w.
Proof.
  intros He. repeat split.
  - exists env. symmetry. apply insert_id. exact He.
  - exists []. split; [symmetry; apply app_nil_r | constructor].
Qed.

Lemma blob_traffic_trans (e : ptr) (w1 w2 w3 : World) :
  blob_traffic e w1 w2 -> blob_traffic e w2 w3 -> blob_traffic e w1 w3.
Proof.
  intros (Hc1 & Hs1 & Hn1 & Hr1 & [e1 He1] & [t1 [Ht1 Hf1]])
         (Hc2 & Hs2 & Hn2 & Hr2 & [e2 He2] & [t2 [Ht2 Hf2]]).
  repeat split; try congruence.
  - exists e2. rewrite He2, He1. apply insert_insert_eq.
  - exists (t1 ++ t2). split.
    + rewrite Ht2, Ht1. symmetry. apply app_assoc.
    + apply Forall_app. split; assumption.
Qed.

Lemma blob_traffic_env (e : ptr) (w w' : World) :
  blob_traffic e w w' -> is_Some (envs w' !! e).
Proof.
  intros (_ & _ & _ & _ & [env' He] & _). rewrite He, lookup_insert_eq. eauto.
Qed.

Lemma blob_traffic_with_stack (e : ptr) (w w' : World) (f : list lua_value -> list lua_value) :
  blob_traffic e w w' -> blob_traffic e w (with_stack f w').
Proof. intros H. exact H. Qed.

(** A native blob call is blob traffic. *)
Lemma native_blob_call (e : ptr) (c : call) (w : World) :
  is_Some (envs w !! e) -> is_blob_call c = true ->
  exists w', native engine e c w = Ret (isc engine (trace w) c) w'
             /\ stack w' = stack w /\ blob_traffic e w w'.
Proof.
  intros [env He] Hc. unfold native. rewrite He.
  eexists. split; [reflexivity|]. split; [reflexivity|].
  repeat split.
  - eexists. reflexivity.
  - exists [c]. split; [reflexivity|]. repeat constructor. exact Hc.
Qed.

Lemma get_segments_traffic (e : ptr) (bh : Z) (n : nat) :
  forall (b : list byte) (w : World),
    is_Some (envs w !! e) ->
    segments_end engine n bh (trace w) = true ->
    exists b' w', get_segments engine n e bh b w = Ret b' w'
                  /\ stack w' = stack w /\ blob_traffic e w w'.
Proof.
  induction n as [|n IH]; intros b w [env He] Hend; [discriminate Hend|].
  cbn [get_segments segments_end] in *. unfold segment_goes_on in Hend.
  monad_simpl. rewrite He. crunch.
  set (c := isc_get_segment bh) in *.
  set (w1 := answered engine e env c w).
  assert (Hstep : blob_traffic e w w1 /\ stack w1 = stack w).
  { split; [|reflexivity]. repeat split.
    - eexists. reflexivity.
    - exists [c]. split; [reflexivity|]. repeat constructor. }
  destruct Hstep as [Hstep Hstack].
  destruct (Z.eqb (rp_value (isc engine (trace w) c)) 0
            || st_is isc_segment (sv_at (rp_status (isc engine (trace w) c)) 1)).
  - destruct (IH (b ++ rp_buffer (isc engine (trace w) c)) w1
                (blob_traffic_env _ _ _ Hstep) Hend)
      as (b' & w' & Hrun & Hst & Htr).
    exists b', w'. split; [exact Hrun|]. split; [congruence|].
    eapply blob_traffic_trans; eassumption.
  - exists b, w1. split; [reflexivity|]. split; [exact Hstack|exact Hstep].
Qed.

(** The columns of a row are handed over when the engine ends the BLOBs
    among them. *)
Section EndingBlobs.

Hypothesis Hblobs : blobs_end engine fuel.

Lemma push_column_runs (i : Z) (cur : cur_data) (w : World)
  (stmt : stmt_data) (conn : conn_data) (da : XSQLDA) (var : XSQLVAR) :
  out_sqlda cur = Live da ->
  sqlvar da !! Z.to_nat i = Some var ->
  column_ok var ->
  stmts w !! cur_stmt cur = Some stmt ->
  conns w !! stmt_conn stmt = Some conn ->
  is_Some (envs w !! cur_env cur) ->
  exists v w', push_column engine host fuel i cur w = Ret tt w'
               /\ stack w' = stack w ++ [v]
               /\ blob_traffic (cur_env cur) w w'.
Proof.
  intros Hda Hvar Hok Hs Hc [env He].
  assert (Hpush : forall v, exists v' w',
            Ret tt (with_stack (fun st => st ++ [v]) w) = Ret tt w'
            /\ stack w' = stack w ++ [v'] /\ blob_traffic (cur_env cur) w w').
  { intros v. eexists _, _. split; [reflexivity|]. split; [reflexivity|].
    apply blob_traffic_with_stack. eapply blob_traffic_refl. exact He. }
  unfold push_column. monad_simpl. rewrite Hda. crunch. rewrite Hvar.
  destruct (match sqlind var with
            | Some ind => negb (Z.eqb ind 0)
            | None => false
            end); [apply Hpush|].
  destruct (sqldata var) as [data|] eqn:Edata.
  - repeat (destruct (decide _) as [?|?]; [apply Hpush|]).
    destruct (decide (base_type (sqltype var) = SQL_BLOB)) as [_|_];
      [|apply Hpush].
    rewrite Hs. crunch. rewrite Hc. crunch. rewrite He. crunch.
    set (c1 := isc_open_blob2 _ _ _).
    set (w1 := answered engine (cur_env cur) env c1 w).
    assert (H1 : blob_traffic (cur_env cur) w w1 /\ stack w1 = stack w).
    { split; [|reflexivity]. repeat split.
      - eexists. reflexivity.
      - exists [c1]. split; [reflexivity|]. repeat constructor. }
    destruct H1 as [H1 Hst1].
    destruct (get_segments_traffic (cur_env cur) (rp_handle (isc engine (trace w) c1))
                fuel [] w1 (blob_traffic_env _ _ _ H1) (Hblobs _ _))
      as (b & w2 & Hrun & Hst2 & H2).
    rewrite Hrun. crunch.
    destruct (blob_traffic_env _ _ _ H2) as [env2 He2]. rewrite He2. crunch.
    eexists _, _. split; [reflexivity|]. split.
    + crunch. rewrite Hst2, Hst1. reflexivity.
    + eapply blob_traffic_trans; [exact H1|].
      eapply blob_traffic_trans; [exact H2|].
      repeat split.
      * eexists. reflexivity.
      * eexists [_]. split; [reflexivity|]. repeat constructor.
  - assert (Hunk : known_type (base_type (sqltype var)) = false).
    { destruct (known_type (base_type (sqltype var))) eqn:E; [|reflexivity].
      exfalso. apply (Hok E). exact Edata. }
    unfold known_type in Hunk. apply bool_decide_eq_false in Hunk.
    repeat (destruct (decide _) as [Heq|?]; [exfalso; apply Hunk; tauto|]).
    apply Hpush.
Qed.

Lemma fetch_slots_length (row : list (Z * list byte)) :
  forall slots, length (fetch_slots row slots) = length slots.
Proof.
  induction row as [|[ind data] row IH]; intros [|s slots]; simpl; auto.
Qed.

Lemma fetch_slots_column_ok (row : list (Z * list byte)) :
  forall slots, Forall column_ok slots -> Forall column_ok (fetch_slots row slots).
Proof.
  induction row as [|[ind data] row IH]; intros [|s slots] H; simpl; auto.
  apply Forall_cons in H as [Hs Hrest]. constructor; [|auto].
  unfold column_ok in *. simpl. intros Hk. specialize (Hs Hk).
  destruct (sqldata s); congruence.
Qed.

Lemma fetch_into_list_runs (cp : ptr) (cur : cur_data) (stmt : stmt_data)
  (conn : conn_data) (da : XSQLDA) (n : nat) :
  forall (i : Z) (w : World),
    curs w !! cp = Some cur ->
    out_sqlda cur = Live da ->
    Forall column_ok (sqlvar da) ->
    0 <= i -> i + Z.of_nat n <= Z.of_nat (length (sqlvar da)) ->
    stmts w !! cur_stmt cur = Some stmt ->
    conns w !! stmt_conn stmt = Some conn ->
    is_Some (envs w !! cur_env cur) ->
    exists vals w',
      fetch_into_list engine host fuel n i cp w = Ret tt w'
      /\ stack w' = stack w ++ vals /\ length vals = n
      /\ blob_traffic (cur_env cur) w w'.
Proof.
  induction n as [|n IH]; intros i w Hcur Hda Hok Hi Hn Hs Hc He.
  - exists [], w. split; [reflexivity|]. split; [symmetry; apply app_nil_r|].
    split; [reflexivity|]. destruct He as [env He].
    eapply blob_traffic_refl. exact He.
  - cbn [fetch_into_list]. monad_simpl. rewrite Hcur. crunch.
    destruct (lookup_lt_is_Some_2 (sqlvar da) (Z.to_nat i)) as [var Hvar]; [lia|].
    destruct (push_column_runs i cur w stmt conn da var Hda Hvar
                (proj1 (Forall_lookup _ _) Hok _ _ Hvar) Hs Hc He)
      as (v & w1 & Hrun & Hst1 & H1).
    rewrite Hrun. crunch.
    pose proof H1 as (Hc1 & Hs1 & Hn1 & _).
    destruct (IH (i + 1) w1) as (vals & w2 & Hrun2 & Hst2 & Hlen & H2);
      try congruence; try lia.
    { eapply blob_traffic_env. exact H1. }
    exists (v :: vals), w2. split; [exact Hrun2|]. split.
    + rewrite Hst2, Hst1, <- app_assoc. reflexivity.
    + split; [simpl; congruence|]. eapply blob_traffic_trans; eassumption.
Qed.

(** [cur_shut] with an engine that accepts the close: the cursor is closed
    and its statement has one lock less, whatever becomes of the drop of a
    hidden statement; when that is accepted too, or not called for,
    [cur_shut] returns 0 and leaves the stack as it was. *)
Lemma cur_shut_closes (w : World) (cp : ptr) (cur : cur_data) (stmt : stmt_data)
  (conn : conn_data) (env : env_data) (da : XSQLDA) :
  curs w !! cp = Some cur ->
  stmts w !! cur_stmt cur = Some stmt ->
  cur_env cur = stmt_env stmt ->
  conns w !! stmt_conn stmt = Some conn ->
  envs w !! stmt_env stmt = Some env ->
  in_sqlda stmt <> Dangling ->
  out_sqlda cur = Live da ->
  closes_cursor engine (handle stmt) ->
  exists res w' stmt',
    cur_shut engine cp w = Ret res w'
    /\ curs w' = <[cp := {| cur_closed := 1; cur_env := cur_env cur;
                            cur_stmt := cur_stmt cur; out_sqlda := Dangling |}]> (curs w)
    /\ stmts w' !! cur_stmt cur = Some stmt'
    /\ stmt_lock stmt' = stmt_lock stmt - 1
    /\ (drops_hidden engine stmt -> res = 0 /\ stack w' = stack w).
Proof.
  intros Hcur Hs Henv Hc He Hlive Hda Hclose.
  unfold cur_shut, free_cur, free_xsqlda. monad_simpl.
  rewrite Hcur. crunch. rewrite Hs. crunch. rewrite Henv, He. crunch.
  rewrite Hclose. crunch. rewrite Hda. crunch. rewrite Hs. crunch.
  destruct (decide (stmt_lock stmt - 1 = 0)) as [Hlast|Hmore].
  - unfold unregisterobj. monad_simpl.
    destruct (decide (hidden stmt <> 0)) as [Hhid|Hvis].
    + unfold stmt_shut, free_stmt, free_xsqlda, return_db_error. monad_simpl. crunch.
      match goal with
      | |- context [ CHECK_DB_ERROR (rp_status (isc engine ?tr ?c)) ] =>
          destruct (CHECK_DB_ERROR (rp_status (isc engine tr c))) eqn:Edrop
      end.
      * crunch. eexists _, _, _. split; [reflexivity|]. crunch.
        split; [reflexivity|]. split; [reflexivity|].
        split; [reflexivity|].
        intros Hdrop. rewrite (Hdrop Hhid ltac:(lia)) in Edrop. discriminate Edrop.
      * crunch.
        destruct (in_sqlda stmt) as [|da0|] eqn:Eda; [| |contradiction];
        ( crunch; rewrite Hc; crunch;
          destruct (decide (conn_lock conn - 1 = 0)); crunch;
          eexists _, _, _; (split; [reflexivity|]); crunch;
          repeat split; rewrite ?insert_insert_eq; reflexivity ).
    + eexists _, _, _. split; [reflexivity|]. crunch. repeat split.
  - eexists _, _, _. split; [reflexivity|]. crunch. repeat split.
Qed.

Lemma fetches_app (tr t : list call) (h : Z) :
  fetches (tr ++ t) h = fetches tr h + fetches t h.
Proof. unfold fetches. rewrite filter_app, length_app. lia. Qed.

Lemma fetches_blob_calls (t : list call) (h : Z) :
  Forall (fun c => is_blob_call c = true) t -> fetches t h = 0.
Proof.
  unfold fetches. induction 1 as [|c t Hc _ IH]; [reflexivity|].
  rewrite filter_cons. destruct (decide (is_fetch h c = true)) as [Hf|_]; [|exact IH].
  destruct c; discriminate.
Qed.

Lemma fetches_one (h : Z) (da : XSQLDA) : fetches [isc_dsql_fetch h da] h = 1.
Proof.
  unfold fetches. rewrite filter_cons. simpl. rewrite Z.eqb_refl.
  destruct (decide (true = true)) as [_|Hx]; [reflexivity|contradiction].
Qed.

Lemma results_top (w : World) (pre vals : list lua_value) (n : Z) :
  stack w = pre ++ vals -> n = Z.of_nat (length vals) -> results n w = vals.
Proof.
  intros Hst ->. unfold results. rewrite Hst, Nat2Z.id, length_app.
  replace (length pre + length vals - length vals)%nat with (length pre) by lia.
  apply drop_app_length.
Qed.

Lemma stack_at_second (ud : lua_value) (args : list lua_value) :
  stack_at (ud :: args) 2 = args !! 0%nat.
Proof. reflexivity. Qed.

Lemma stack_at_third (ud : lua_value) (args : list lua_value) :
  stack_at (ud :: args) 3 = args !! 1%nat.
Proof. reflexivity. Qed.

(** The options of a fetch call are read without a change of state. *)
Lemma optstring_runs (def : list byte) (ud : lua_value) (args : list lua_value)
  (w : World) :
  fetch_args args -> stack w = ud :: args ->
  exists opts, luaL_optstring host 3 def w = Ret opts w.
Proof.
  intros Hargs Hst. unfold luaL_optstring, luaL_checklstring. monad_simpl.
  rewrite Hst, stack_at_third. unfold fetch_args in Hargs.
  destruct (args !! 1%nat) as [[]|] eqn:E; try contradiction; monad_simpl;
    rewrite ?Hst, ?stack_at_third, ?E; eexists; reflexivity.
Qed.

(** Storing the value on top of the stack under a key in the table at
    index 2: the three calls of the column loop. *)
Lemma set_field_runs (w : World) (ud v k : lua_value) (t : lua_table) (key : lua_key) :
  stack w = [ud; LTable t; v] ->
  key_of k = Some key ->
  (do! lua_push k in do! lua_pushvalue (-2) in lua_settable 2) w
    = Ret tt (with_stack (fun _ => [ud; LTable (table_assign t key v); v]) w).
Proof.
  intros Hst Hkey. unfold lua_settable. monad_simpl. rewrite Hst. simpl.
  rewrite Hkey. unfold with_stack. cbn [stack envs conns stmts curs registry trace].
  rewrite Hst. reflexivity.
Qed.

Lemma fetch_into_table_runs (cp : ptr) (cur : cur_data) (stmt : stmt_data)
  (conn : conn_data) (da : XSQLDA) (num alpha : bool) (ud : lua_value) (n : nat) :
  forall (i : Z) (w : World) (t : lua_table),
    curs w !! cp = Some cur ->
    out_sqlda cur = Live da ->
    Forall column_ok (sqlvar da) ->
    0 <= i -> i + Z.of_nat n <= Z.of_nat (length (sqlvar da)) ->
    stmts w !! cur_stmt cur = Some stmt ->
    conns w !! stmt_conn stmt = Some conn ->
    is_Some (envs w !! cur_env cur) ->
    stack w = [ud; LTable t] ->
    exists t' w',
      fetch_into_table engine host fuel n i cp num alpha w = Ret tt w'
      /\ stack w' = [ud; LTable t']
      /\ blob_traffic (cur_env cur) w w'.
Proof.
  induction n as [|n IH]; intros i w t Hcur Hda Hok Hi Hn Hs Hc He Hst.
  - exists t, w. split; [reflexivity|]. split; [exact Hst|].
    destruct He as [env He]. eapply blob_traffic_refl. exact He.
  - cbn [fetch_into_table]. unfold bind at 1. unfold get_cur, deref. rewrite Hcur.
    destruct (lookup_lt_is_Some_2 (sqlvar da) (Z.to_nat i)) as [var Hvar]; [lia|].
    destruct (push_column_runs i cur w stmt conn da var Hda Hvar
                (proj1 (Forall_lookup _ _) Hok _ _ Hvar) Hs Hc He)
      as (v & w1 & Hrun & Hst1 & H1).
    unfold bind at 1. rewrite Hrun. rewrite Hst in Hst1. simpl in Hst1.
    (* the numeric key *)
    assert (Hnum : exists t1,
              (if num
               then do! lua_push (LInteger (i + 1)) in
                    do! lua_pushvalue (-2) in lua_settable 2
               else ret tt) w1
              = Ret tt (with_stack (fun _ => [ud; LTable t1; v]) w1)).
    { destruct num.
      - eexists. apply set_field_runs; [exact Hst1|reflexivity].
      - exists t. unfold ret. rewrite <- Hst1. destruct w1; reflexivity. }
    destruct Hnum as [t1 Hnum]. unfold bind at 1. rewrite Hnum.
    set (w2 := with_stack (fun _ => [ud; LTable t1; v]) w1).
    (* the column name *)
    assert (Halpha : exists t2,
              (if alpha
               then let! da0 := get_live "cur_fetch: out_sqlda" (out_sqlda cur) in
                    match sqlvar da0 !! Z.to_nat i with
                    | None => fault "cur_fetch: sqlvar index past the descriptor"
                    | Some var0 =>
                        do! lua_push (LString (read_bytes (aliasname var0) 0
                                                 (aliasname_length var0))) in
                        do! lua_pushvalue (-2) in lua_settable 2
                    end
               else ret tt) w2
              = Ret tt (with_stack (fun _ => [ud; LTable t2; v]) w2)).
    { destruct alpha.
      - rewrite Hda. unfold get_live, bind at 1, ret. rewrite Hvar.
        eexists. apply set_field_runs; reflexivity.
      - exists t1. reflexivity. }
    destruct Halpha as [t2 Halpha]. unfold bind at 1. rewrite Halpha.
    unfold bind at 1, lua_pop, modify.
    set (w3 := with_stack _ _).
    assert (H13 : blob_traffic (cur_env cur) w1 w3).
    { destruct (blob_traffic_env _ _ _ H1) as [env1 He1].
      exact (blob_traffic_refl _ _ _ He1). }
    pose proof H1 as (Hc1 & Hs1 & Hn1 & _).
    destruct (IH (i + 1) w3 t2) as (t' & w4 & Hrun4 & Hst4 & H4);
      try (subst w3 w2; cbn; congruence); try lia.
    { eapply blob_traffic_env. exact H1. }
    { reflexivity. }
    exists t', w4. split; [exact Hrun4|]. split; [exact Hst4|].
    eapply blob_traffic_trans; [exact H1|].
    eapply blob_traffic_trans; [exact H13|exact H4].
Qed.

(** The columns of a fetched row are handed over: in the table given, or
    as values on the stack; the cursor and its statement are untouched. *)
Lemma fetch_columns_runs (w : World) (cp : ptr) (cur : cur_data) (stmt : stmt_data)
  (conn : conn_data) (da : XSQLDA) (ud : lua_value) (args : list lua_value)
  (num alpha : bool) :
  curs w !! cp = Some cur ->
  out_sqlda cur = Live da ->
  Forall column_ok (sqlvar da) ->
  0 < sqld da <= Z.of_nat (length (sqlvar da)) ->
  stmts w !! cur_stmt cur = Some stmt ->
  conns w !! stmt_conn stmt = Some conn ->
  is_Some (envs w !! cur_env cur) ->
  stack w = ud :: args ->
  exists res row w',
    fetch_columns engine host fuel cp (sqld da) num alpha w = Ret res w'
    /\ (forall w'', stack w'' = stack w' -> results res w'' = row)
    /\ row_shape (sqld da) args row /\ row <> []
    /\ blob_traffic (cur_env cur) w w'.
Proof.
  intros Hcur Hda Hok Hn Hs Hc He Hst.
  assert (Hlist : (match args !! 0%nat with
                   | Some (LTable _) => False
                   | _ => True
                   end) ->
            exists res row w',
              (let! _ := fetch_into_list engine host fuel (Z.to_nat (sqld da)) 0 cp in
               ret (sqld da)) w = Ret res w'
              /\ (forall w'', stack w'' = stack w' -> results res w'' = row)
              /\ row_shape (sqld da) args row /\ row <> []
              /\ blob_traffic (cur_env cur) w w').
  { intros Hmode.
    destruct (fetch_into_list_runs cp cur stmt conn da (Z.to_nat (sqld da)) 0 w)
      as (vals & w2 & Hrun & Hst2 & Hvals & Htr); try assumption; try lia.
    exists (sqld da), vals, w2. unfold bind. rewrite Hrun. split; [reflexivity|].
    split.
    { intros w'' Hw. eapply results_top; [rewrite Hw; exact Hst2|]. lia. }
    split.
    { unfold row_shape. destruct (args !! 0%nat) as [[]|]; try contradiction; lia. }
    split; [|exact Htr].
    intros ->. simpl in Hvals. lia. }
  unfold fetch_columns. unfold bind at 1. unfold lua_type, bind at 1, lua_value_at, gets.
  rewrite Hst, stack_at_second. unfold ret at 1.
  destruct args as [|a2 rest]; [apply Hlist; exact I|].
  cbn [lookup list_lookup].
  destruct a2; try (apply Hlist; exact I).
  cbn [type_of]. unfold bind at 1, lua_settop, modify.
  set (w0 := with_stack _ w).
  assert (Hst0 : stack w0 = [ud; LTable t]).
  { subst w0. cbn [stack with_stack]. rewrite Hst. reflexivity. }
  destruct (fetch_into_table_runs cp cur stmt conn da num alpha ud
              (Z.to_nat (sqld da)) 0 w0 t)
    as (t' & w' & Hrun & Hst' & Htr); try assumption; try lia.
  exists 1, [LTable t'], w'. unfold bind. rewrite Hrun. split; [reflexivity|].
  split.
  { intros w'' Hw. apply (results_top w'' [ud] [LTable t']); [|reflexivity].
    rewrite Hw. exact Hst'. }
  split; [exists t'; reflexivity|]. split; [discriminate|exact Htr].
Qed.

End EndingBlobs.

(** A fetch that the engine answers with a row, the BLOBs of which it
    ends.  On a statement that is not an EXECUTE PROCEDURE the row comes
    back, the cursor stays ready and the log has one more fetch.  On an
    EXECUTE PROCEDURE whose cursor the engine lets go, the cursor is closed
    and its statement has one lock less; the row comes back unless the
    statement is hidden, goes with the cursor, and the engine refuses to
    drop it. *)
Lemma cur_fetch_row (w : World) (cp sp : ptr) (stmt : stmt_data) (n : Z)
  (args : list lua_value) :
  blobs_end engine fuel ->
  fetch_ready w cp sp stmt n ->
  fetch_args args ->
  (forall da, rp_value (isc engine (trace w) (isc_dsql_fetch (handle stmt) da)) = 0) ->
  (type stmt = isc_info_sql_stmt_exec_procedure -> closes_cursor engine (handle stmt)) ->
  exists row w',
    call_from_lua (cur_fetch engine host fuel) (LUserdata KCur cp :: args) w = Ret row w'
    /\ (type stmt <> isc_info_sql_stmt_exec_procedure ->
        row_shape n args row /\ row <> []
        /\ fetch_ready w' cp sp stmt n
        /\ fetches (trace w') (handle stmt) = fetches (trace w) (handle stmt) + 1)
    /\ (type stmt = isc_info_sql_stmt_exec_procedure ->
        cursor_closed w' cp
        /\ (exists stmt', stmts w' !! sp = Some stmt'
                          /\ stmt_lock stmt' = stmt_lock stmt - 1)
        /\ (drops_hidden engine stmt -> row_shape n args row /\ row <> [])).
Proof.
  intros Hblobs
         (cur & conn & env & da & Hcur & Hopen & Hsp & Hs & Henv & Hc & He & Hlive
          & Hda & Hn & Hlen & Hok) Hargs Hrow Hkind.
  subst sp.
  unfold call_from_lua, cur_fetch, luaL_checkudata. monad_simpl.
  rewrite stack_at_first. simpl.
  set (w0 := with_stack (fun _ => LUserdata KCur cp :: args) w).
  destruct (optstring_runs [x6e] (LUserdata KCur cp) args w0 Hargs eq_refl)
    as [opts Hopt].
  rewrite Hopt. subst w0. crunch. rewrite Hcur. crunch.
  destruct (decide (cur_closed cur <> 0)) as [Hx|_]; [congruence|]. crunch.
  rewrite Hs. crunch. rewrite Hda. crunch. rewrite Henv, He. crunch.
  rewrite Hrow.
  destruct (decide (0 = 0)) as [_|Hx]; [|contradiction]. crunch.
  set (c := isc_dsql_fetch (handle stmt) da).
  set (da' := fetched (isc engine (trace w) c) da).
  set (cur' := set_out_sqlda (Live da') cur).
  set (w1 := with_curs _ _).
  assert (Hlen' : length (sqlvar da') = length (sqlvar da))
    by apply fetch_slots_length.
  assert (Hce : cur_env cur' = stmt_env stmt) by exact Henv.
  destruct (fetch_columns_runs Hblobs w1 cp cur' stmt conn da' (LUserdata KCur cp) args
              (has_char opts x6e) (has_char opts x61))
    as (res & row & w2 & Hrun & Hres & Hshape & Hne & Htr).
  { apply lookup_insert_eq. }
  { reflexivity. }
  { apply fetch_slots_column_ok. exact Hok. }
  { rewrite Hlen'. cbn [sqld fetched da']. lia. }
  { exact Hs. }
  { exact Hc. }
  { subst w1. crunch. rewrite Hce, lookup_insert_eq. eauto. }
  { reflexivity. }
  change (sqld da') with (sqld da) in Hrun. rewrite Hrun. crunch.
  pose proof Htr as (Hcu2 & Hs2 & Hc2 & _ & [env2 He2] & [t [Ht2 Hblob]]).
  rewrite Hs2. subst w1. crunch. rewrite Hs. crunch.
  change (sqld da') with (sqld da) in Hshape. rewrite Hn in Hshape.
  destruct (decide (type stmt = isc_info_sql_stmt_exec_procedure)) as [Hproc|Hother].
  - crunch.
    destruct (cur_shut_closes w2 cp cur' stmt conn env2 da')
      as (res3 & w3 & stmt' & Hshut & Hcu3 & Hs3 & Hlock & Hdrop).
    { rewrite Hcu2. apply lookup_insert_eq. }
    { rewrite Hs2. exact Hs. }
    { exact Henv. }
    { rewrite Hc2. exact Hc. }
    { rewrite He2, Hce. apply lookup_insert_eq. }
    { exact Hlive. }
    { reflexivity. }
    { apply Hkind. exact Hproc. }
    rewrite Hshut. crunch.
    eexists _, _. split; [reflexivity|].
    split; [intros Hx; contradiction|].
    intros _. split; [|split].
    + eexists. split; [crunch; rewrite Hcu3; apply lookup_insert_eq|reflexivity].
    + exists stmt'. split; [exact Hs3|exact Hlock].
    + intros Hd. destruct (Hdrop Hd) as [_ Hst3].
      rewrite (Hres w3 Hst3). split; [exact Hshape|exact Hne].
  - crunch. exists row. eexists. split; [rewrite (Hres w2 eq_refl); reflexivity|].
    split; [|intros Hx; contradiction].
    intros _. split; [exact Hshape|]. split; [exact Hne|]. split.
    + exists cur', conn, env2, da'. crunch.
      rewrite Hcu2, Hs2, Hc2, He2. crunch.
      rewrite Hce, lookup_insert_eq.
      repeat split; try assumption; try reflexivity; try lia.
      apply fetch_slots_column_ok. exact Hok.
    + crunch. rewrite Ht2. subst c. crunch.
      rewrite !fetches_app, fetches_one, (fetches_blob_calls t) by exact Hblob. lia.
Qed.

(** A fetch that the engine answers with "no more rows", when it lets the
    cursor go, and the statement with it where that is called for: nothing
    comes back, the cursor is closed and its statement has one lock less. *)
Lemma cur_fetch_end (w : World) (cp sp : ptr) (stmt : stmt_data) (n : Z)
  (args : list lua_value) :
  fetch_ready w cp sp stmt n ->
  fetch_args args ->
  (forall da, rp_value (isc engine (trace w) (isc_dsql_fetch (handle stmt) da)) = 100) ->
  closes_cursor engine (handle stmt) ->
  drops_hidden engine stmt ->
  exists w',
    call_from_lua (cur_fetch engine host fuel) (LUserdata KCur cp :: args) w = Ret [] w'
    /\ cursor_closed w' cp
    /\ with_stack (fun _ => []) w' = w'
    /\ exists stmt', stmts w' !! sp = Some stmt'
                     /\ stmt_lock stmt' = stmt_lock stmt - 1.
Proof.
  intros (cur & conn & env & da & Hcur & Hopen & Hsp & Hs & Henv & Hc & He & Hlive
          & Hda & Hn & Hlen & Hok) Hargs Hrow Hclose Hdrop.
  subst sp.
  unfold call_from_lua, cur_fetch, luaL_checkudata. monad_simpl.
  rewrite stack_at_first. simpl.
  set (w0 := with_stack (fun _ => LUserdata KCur cp :: args) w).
  destruct (optstring_runs [x6e] (LUserdata KCur cp) args w0 Hargs eq_refl)
    as [opts Hopt].
  rewrite Hopt. subst w0. crunch. rewrite Hcur. crunch.
  destruct (decide (cur_closed cur <> 0)) as [Hx|_]; [congruence|]. crunch.
  rewrite Hs. crunch. rewrite Hda. crunch. rewrite Henv, He. crunch.
  rewrite Hrow.
  destruct (decide (100 = 0)) as [Hx|_]; [discriminate Hx|]. crunch.
  destruct (decide (100 <> 100)) as [Hx|_]; [contradiction|]. crunch.
  set (c := isc_dsql_fetch (handle stmt) da).
  set (da' := fetched (isc engine (trace w) c) da).
  set (cur' := set_out_sqlda (Live da') cur).
  set (w1 := with_curs _ _).
  destruct (cur_shut_closes w1 cp cur' stmt conn
              {| env_closed := env_closed env; env_lock := env_lock env;
                 status_vector := rp_status (isc engine (trace w) c) |} da')
    as (res3 & w3 & stmt' & Hshut & Hcu3 & Hs3 & Hlock & Hd);
    try assumption; try reflexivity; try apply lookup_insert_eq.
  destruct (Hd Hdrop) as [-> Hst3].
  rewrite Hshut. crunch.
  eexists. split.
  { f_equal. unfold results. rewrite Hst3. subst w1. crunch.
    rewrite Nat.sub_0_r. apply drop_all. }
  split; [|split; [reflexivity|]].
  - eexists. split; [crunch; rewrite Hcu3; apply lookup_insert_eq|reflexivity].
  - exists stmt'. split; [exact Hs3|exact Hlock].
Qed.

(** A BLOB that the engine does not end: the segment loop has no result,
    whatever the bound on its calls. *)
Lemma get_segments_endless (e : ptr) (bh : Z) (n : nat) :
  (forall tr, segment_goes_on (isc engine tr (isc_get_segment bh)) = true) ->
  forall (b : list byte) (w : World),
    is_Some (envs w !! e) ->
    exists why, get_segments engine n e bh b w = Fault why.
Proof.
  intros Hgo. induction n as [|n IH]; intros b w [env He]; [eexists; reflexivity|].
  cbn [get_segments]. monad_simpl. rewrite He. crunch.
  pose proof (Hgo (trace w)) as Hon. unfold segment_goes_on in Hon. rewrite Hon.
  apply IH. unfold answered. crunch. eauto.
Qed.

Section EndlessBlob.

Variable cur : cur_data.
Variable da : XSQLDA.
Variable var : XSQLVAR.
Variable data : list byte.

Hypothesis Hda : out_sqlda cur = Live da.
Hypothesis Hvar : sqlvar da !! 0%nat = Some var.
Hypothesis Hind : sqlind var = Some 0.
Hypothesis Hblob : base_type (sqltype var) = SQL_BLOB.
Hypothesis Hdata : sqldata var = Some data.
Hypothesis Hgo : forall tr bh, segment_goes_on (isc engine tr (isc_get_segment bh)) = true.

Lemma push_column_never_returns (w : World) (stmt : stmt_data) (conn : conn_data) :
  stmts w !! cur_stmt cur = Some stmt ->
  conns w !! stmt_conn stmt = Some conn ->
  is_Some (envs w !! cur_env cur) ->
  exists why, push_column engine host fuel 0 cur w = Fault why.
Proof.
  intros Hs Hc [env He].
  unfold push_column. monad_simpl. rewrite Hda. crunch.
  change (Z.to_nat 0) with 0%nat. rewrite Hvar, Hind, Hblob, Hdata.
  cbn [Z.eqb negb].
  repeat (destruct (decide _) as [Hx|_]; [discriminate Hx|]).
  destruct (decide (SQL_BLOB = SQL_BLOB)) as [_|Hx]; [|contradiction].
  rewrite Hs. crunch. rewrite Hc. crunch. rewrite He. crunch.
  match goal with
  | |- context [ get_segments engine fuel ?e ?bh ?b ?w1 ] =>
      destruct (get_segments_endless e bh fuel (fun tr => Hgo tr bh) b w1) as [why Hwhy]
  end.
  { unfold answered. crunch. eauto. }
  rewrite Hwhy. eexists. reflexivity.
Qed.

Lemma fetch_columns_never_returns (w : World) (cp : ptr) (stmt : stmt_data)
  (conn : conn_data) (ud : lua_value) (args : list lua_value) (num alpha : bool) :
  curs w !! cp = Some cur ->
  stmts w !! cur_stmt cur = Some stmt ->
  conns w !! stmt_conn stmt = Some conn ->
  is_Some (envs w !! cur_env cur) ->
  0 < sqld da ->
  stack w = ud :: args ->
  match args !! 0%nat with Some (LTable _) => False | _ => True end ->
  exists why, fetch_columns engine host fuel cp (sqld da) num alpha w = Fault why.
Proof.
  intros Hcur Hs Hc He Hn Hst Hmode.
  assert (Hlist : exists why,
            (let! _ := fetch_into_list engine host fuel (Z.to_nat (sqld da)) 0 cp in
             ret (sqld da)) w = Fault why).
  { destruct (Z.to_nat (sqld da)) as [|k] eqn:Ek; [lia|].
    cbn [fetch_into_list]. monad_simpl. rewrite Hcur. crunch.
    destruct (push_column_never_returns w stmt conn Hs Hc He) as [why Hwhy].
    rewrite Hwhy. eexists. reflexivity. }
  unfold fetch_columns. unfold bind at 1. unfold lua_type, bind at 1, lua_value_at, gets.
  rewrite Hst, stack_at_second. unfold ret at 1.
  destruct args as [|a2 rest]; [exact Hlist|].
  cbn [lookup list_lookup] in *.
  destruct a2; try exact Hlist. contradiction.
Qed.

End EndlessBlob.

(** A fetch that the engine answers with a row whose first column is a
    BLOB it does not end has no result, whatever the bound on the calls of
    the segment loop. *)
Lemma cur_fetch_never_returns (w : World) (cp sp : ptr) (stmt : stmt_data) (n : Z)
  (cur : cur_data) (da : XSQLDA) (var : XSQLVAR) (data : list byte)
  (args : list lua_value) :
  fetch_ready w cp sp stmt n ->
  fetch_args args ->
  match args !! 0%nat with Some (LTable _) => False | _ => True end ->
  curs w !! cp = Some cur ->
  out_sqlda cur = Live da ->
  let r := isc engine (trace w) (isc_dsql_fetch (handle stmt) da) in
  rp_value r = 0 ->
  sqlvar (fetched r da) !! 0%nat = Some var ->
  sqlind var = Some 0 ->
  base_type (sqltype var) = SQL_BLOB ->
  sqldata var = Some data ->
  (forall tr bh, segment_goes_on (isc engine tr (isc_get_segment bh)) = true) ->
  exists why,
    call_from_lua (cur_fetch engine host fuel) (LUserdata KCur cp :: args) w = Fault why.
Proof.
  intros (cur0 & conn & env & da0 & Hcur0 & Hopen & Hsp & Hs & Henv & Hc & He & Hlive
          & Hda0 & Hn & Hlen & Hok) Hargs Hmode Hcur Hda r Hrow Hvar Hind Hblob Hdata Hgo.
  rewrite Hcur in Hcur0. injection Hcur0 as <-.
  rewrite Hda in Hda0. injection Hda0 as <-.
  subst sp.
  unfold call_from_lua, cur_fetch, luaL_checkudata. monad_simpl.
  rewrite stack_at_first. simpl.
  set (w0 := with_stack (fun _ => LUserdata KCur cp :: args) w).
  destruct (optstring_runs [x6e] (LUserdata KCur cp) args w0 Hargs eq_refl)
    as [opts Hopt].
  rewrite Hopt. subst w0. crunch. rewrite Hcur. crunch.
  destruct (decide (cur_closed cur <> 0)) as [Hx|_]; [congruence|]. crunch.
  rewrite Hs. crunch. rewrite Hda. crunch. rewrite Henv, He. crunch.
  fold r. rewrite Hrow.
  destruct (decide (0 = 0)) as [_|Hx]; [|contradiction]. crunch.
  set (cur' := set_out_sqlda (Live (fetched r da)) cur).
  set (w1 := with_curs _ _).
  destruct (fetch_columns_never_returns cur' (fetched r da) var data eq_refl Hvar Hind
              Hblob Hdata Hgo w1 cp stmt conn (LUserdata KCur cp) args
              (has_char opts x6e) (has_char opts x61))
    as [why Hwhy].
  { apply lookup_insert_eq. }
  { exact Hs. }
  { exact Hc. }
  { subst w1. crunch. change (cur_env cur') with (cur_env cur).
    rewrite Henv, lookup_insert_eq. eauto. }
  { cbn [sqld fetched]. lia. }
  { reflexivity. }
  { exact Hmode. }
  change (sqld (fetched r da)) with (sqld da) in Hwhy. rewrite Hwhy.
  eexists. reflexivity.
Qed.

(** A fetch on a closed cursor: nothing comes back and nothing changes. *)
Lemma cur_fetch_closed (w : World) (cp : ptr) (args : list lua_value) :
  cursor_closed w cp ->
  fetch_args args ->
  call_from_lua (cur_fetch engine host fuel) (LUserdata KCur cp :: args) w
    = Ret [] (with_stack (fun _ => []) w).
Proof.
  intros (cur & Hcur & Hclosed) Hargs.
  unfold call_from_lua, cur_fetch, luaL_checkudata. monad_simpl.
  rewrite stack_at_first. simpl.
  set (w0 := with_stack (fun _ => LUserdata KCur cp :: args) w).
  destruct (optstring_runs [x6e] (LUserdata KCur cp) args w0 Hargs eq_refl)
    as [opts Hopt].
  rewrite Hopt. subst w0. crunch. rewrite Hcur. crunch.
  destruct (decide (cur_closed cur <> 0)) as [_|Hx].
  - crunch. f_equal. unfold results. crunch. rewrite Nat.sub_0_r. apply drop_all.
  - exfalso. apply Hx. rewrite Hclosed. discriminate.
Qed.

Lemma result_of_rows_next (h done : Z) (K : nat) :
  result_of_rows engine h done (Z.of_nat (S K)) ->
  result_of_rows engine h (done + 1) (Z.of_nat K).
Proof.
  intros H tr da. destruct (H tr da) as [H0 H100]. split; intros Hf.
  - apply H0. lia.
  - apply H100. lia.
Qed.

(** C2 (amended).  On a cursor of a statement that is not an EXECUTE
    PROCEDURE, over a result of K rows, with an engine that ends the BLOBs
    it serves, accepts the call that closes the cursor and, where the
    statement is hidden and the cursor its last, the call that drops the
    statement: K fetches (whatever their table and option arguments) return
    a row each, the table given or as many values as the cursor has
    columns, and leave the cursor open; the next fetch returns no value,
    not an error, and closes the cursor; a fetch on the closed cursor
    returns no value and changes nothing. *)
Theorem cursor_exhaustion (argss : list (list lua_value)) :
  forall (w : World) (cp sp : ptr) (stmt : stmt_data) (n : Z)
         (args1 args2 : list lua_value),
    fetch_ready w cp sp stmt n ->
    type stmt <> isc_info_sql_stmt_exec_procedure ->
    result_of_rows engine (handle stmt) (fetches (trace w) (handle stmt))
      (Z.of_nat (length argss)) ->
    blobs_end engine fuel ->
    closes_cursor engine (handle stmt) ->
    drops_hidden engine stmt ->
    Forall fetch_args argss -> fetch_args args1 -> fetch_args args2 ->
    exists rows w1 w2,
      fetch_times engine host fuel argss cp w = Ret rows w1
      /\ Forall2 (fun args row => row_shape n args row /\ row <> []) argss rows
      /\ cursor_open w1 cp
      /\ call_from_lua (cur_fetch engine host fuel) (LUserdata KCur cp :: args1) w1
         = Ret [] w2
      /\ cursor_closed w2 cp
      /\ call_from_lua (cur_fetch engine host fuel) (LUserdata KCur cp :: args2) w2
         = Ret [] w2.
Proof.
  induction argss as [|args argss IH];
    intros w cp sp stmt n args1 args2 Hready Hkind Hrows Hblobs Hclose Hdrop Hall Ha1 Ha2.
  - destruct (cur_fetch_end w cp sp stmt n args1 Hready Ha1)
      as (w2 & Hend & Hclosed & Hw2 & _).
    { intros da. apply (Hrows (trace w) da). simpl. lia. }
    { exact Hclose. }
    { exact Hdrop. }
    exists [], w, w2. split; [reflexivity|]. split; [constructor|]. split.
    { destruct Hready as (cur & _ & _ & _ & Hcur & Hopen & _). exists cur. auto. }
    split; [exact Hend|]. split; [exact Hclosed|].
    rewrite cur_fetch_closed by assumption. rewrite Hw2. reflexivity.
  - apply Forall_cons in Hall as [Ha Hall].
    destruct (cur_fetch_row w cp sp stmt n args Hblobs Hready Ha)
      as (row & w' & Hrow & Hnext & _).
    { intros da. apply (Hrows (trace w) da). simpl length. lia. }
    { intros Hx. contradiction. }
    destruct (Hnext Hkind) as (Hshape & Hne & Hready' & Hcount).
    destruct (IH w' cp sp stmt n args1 args2 Hready' Hkind)
      as (rows & w1 & w2 & Hrun & Hshapes & Ho & He & Hc & Hf); try assumption.
    { rewrite Hcount. apply result_of_rows_next. exact Hrows. }
    exists (row :: rows), w1, w2.
    split.
    { cbn [fetch_times]. unfold bind at 1. rewrite Hrow.
      unfold bind at 1. rewrite Hrun. reflexivity. }
    split; [constructor; [split; assumption|exact Hshapes]|].
    auto.
Qed.

(** C8 (amended).  A fetch that the engine answers with a row, the BLOBs
    of which it ends.  On an EXECUTE PROCEDURE statement whose cursor the
    engine lets be closed, the fetch closes the cursor at once and takes one
    lock off the statement, whatever the engine would answer to later
    fetches; what it returns is the row, unless the statement is hidden and
    goes with the cursor and the engine refuses to drop it.  On any other
    statement the fetch returns the row and leaves the cursor open and the
    statement as it was. *)
Theorem procedure_cursor_closes_after_first_row
  (w : World) (cp sp : ptr) (stmt : stmt_data) (n : Z) (args : list lua_value) :
  fetch_ready w cp sp stmt n ->
  fetch_args args ->
  (forall da, rp_value (isc engine (trace w) (isc_dsql_fetch (handle stmt) da)) = 0) ->
  blobs_end engine fuel ->
  (type stmt = isc_info_sql_stmt_exec_procedure ->
   closes_cursor engine (handle stmt) ->
   exists row w' stmt',
     call_from_lua (cur_fetch engine host fuel) (LUserdata KCur cp :: args) w = Ret row w'
     /\ cursor_closed w' cp
     /\ stmts w' !! sp = Some stmt' /\ stmt_lock stmt' = stmt_lock stmt - 1
     /\ (drops_hidden engine stmt -> row_shape n args row /\ row <> []))
  /\ (type stmt <> isc_info_sql_stmt_exec_procedure ->
     exists row w',
       call_from_lua (cur_fetch engine host fuel) (LUserdata KCur cp :: args) w = Ret row w'
       /\ row_shape n args row /\ row <> []
       /\ cursor_open w' cp
       /\ stmts w' !! sp = Some stmt).
Proof.
  intros Hready Hargs Hrow Hblobs. split.
  - intros Hproc Hclose.
    destruct (cur_fetch_row w cp sp stmt n args Hblobs Hready Hargs Hrow (fun _ => Hclose))
      as (row & w' & Hrun & _ & Hp).
    destruct (Hp Hproc) as (Hclosed & (stmt' & Hs & Hlock) & Hshape).
    exists row, w', stmt'. auto 10.
  - intros Hother.
    destruct (cur_fetch_row w cp sp stmt n args Hblobs Hready Hargs Hrow)
      as (row & w' & Hrun & Ho & _).
    { intros Hx. contradiction. }
    destruct (Ho Hother)
      as (Hshape & Hne & (cur & conn & env & da & Hcur & Hopen & _ & Hs & _) & _).
    exists row, w'. split; [exact Hrun|]. split; [exact Hshape|]. split; [exact Hne|].
    split; [|exact Hs]. exists cur. auto.
Qed.

End Fetching.

Section FetchingFixtures.

Lemma smallint_column_ok : Forall column_ok [smallint_column].
Proof. repeat constructor. intros _. discriminate. Qed.

Lemma chain_world_ready : fetch_ready chain_world 1%positive 1%positive select_stmt 1.
Proof.
  exists open_cur, held_conn, held_env.
  eexists. repeat split; try reflexivity; try discriminate.
  exact smallint_column_ok.
Qed.

Lemma hidden_world_ready : fetch_ready hidden_world 1%positive 1%positive hidden_stmt 1.
Proof.
  exists open_cur, held_conn, held_env.
  eexists. repeat split; try reflexivity; try discriminate.
  exact smallint_column_ok.
Qed.

Lemma procedure_world_ready :
  fetch_ready procedure_world 1%positive 1%positive procedure_stmt 1.
Proof.
  exists open_cur, held_conn, held_env.
  eexists. repeat split; try reflexivity; try discriminate.
  exact smallint_column_ok.
Qed.

Lemma blob_world_ready : fetch_ready blob_world 1%positive 1%positive select_stmt 1.
Proof.
  exists blob_cur, held_conn, held_env.
  eexists. repeat split; try reflexivity; try discriminate.
  repeat constructor. intros _. discriminate.
Qed.

Lemma blob_procedure_world_ready :
  fetch_ready blob_procedure_world 1%positive 1%positive procedure_stmt 1.
Proof.
  exists blob_cur, held_conn, held_env.
  eexists. repeat split; try reflexivity; try discriminate.
  repeat constructor. intros _. discriminate.
Qed.

Lemma rows_engine_rows (K : nat) (h : Z) :
  result_of_rows (rows_engine K) h 0 (Z.of_nat K).
Proof.
  intros tr da. unfold fetches. split; intros Hf; simpl;
    destruct (decide _) as [Hlt|Hge]; try reflexivity; lia.
Qed.

Lemma rows_engine_closes (K : nat) (h : Z) : closes_cursor (rows_engine K) h.
Proof. intros tr. reflexivity. Qed.

Lemma rows_engine_drops (K : nat) (h : Z) : drops_statement (rows_engine K) h.
Proof. intros tr. reflexivity. Qed.

Lemma rows_engine_ends_blobs (K : nat) : blobs_end (rows_engine K) 1.
Proof. intros bh tr. reflexivity. Qed.

(** A statement that is not hidden is not dropped with its cursor. *)
Lemma visible_drops_hidden (engine : Engine) (stmt : stmt_data) :
  hidden stmt = 0 -> drops_hidden engine stmt.
Proof. intros Hvis Hhid. contradiction. Qed.

Lemma stubborn_engine_rows (K : nat) (refused h : Z) :
  result_of_rows (stubborn_engine K refused) h 0 (Z.of_nat K).
Proof. exact (rows_engine_rows K h). Qed.

Lemma endless_blob_engine_rows (K : nat) (h : Z) :
  result_of_rows (endless_blob_engine K) h 0 (Z.of_nat K).
Proof.
  intros tr da. unfold fetches. split; intros Hf; simpl;
    destruct (decide _) as [Hlt|Hge]; try reflexivity; lia.
Qed.

End FetchingFixtures.

(** Three ways of calling fetch: [cur:fetch()], [cur:fetch({}, "a")] and
    [cur:fetch(nil, "n")]. *)
Lemma fetch_call_forms :
  fetch_args [] /\ fetch_args [LTable TEmpty; LString (bytes "a")]
  /\ fetch_args [LNil; LString (bytes "n")].
Proof. repeat split. Qed.

Lemma cursor_exhaustion_witness :
  let argss := [[]; [LTable TEmpty; LString (bytes "a")]] in
  fetch_ready hidden_world 1%positive 1%positive hidden_stmt 1
  /\ type hidden_stmt <> isc_info_sql_stmt_exec_procedure
  /\ result_of_rows (rows_engine 2) (handle hidden_stmt)
       (fetches (trace hidden_world) (handle hidden_stmt)) (Z.of_nat (length argss))
  /\ blobs_end (rows_engine 2) 1
  /\ closes_cursor (rows_engine 2) (handle hidden_stmt)
  /\ drops_hidden (rows_engine 2) hidden_stmt
  /\ Forall fetch_args argss /\ fetch_args [] /\ fetch_args [LNil; LString (bytes "n")]
  /\ exists rows w1 w2,
      fetch_times (rows_engine 2) plain_host 1 argss 1%positive hidden_world = Ret rows w1
      /\ Forall2 (fun args row => row_shape 1 args row /\ row <> []) argss rows
      /\ cursor_open w1 1%positive
      /\ call_from_lua (cur_fetch (rows_engine 2) plain_host 1) [LUserdata KCur 1%positive] w1
         = Ret [] w2
      /\ cursor_closed w2 1%positive
      /\ call_from_lua (cur_fetch (rows_engine 2) plain_host 1)
           [LUserdata KCur 1%positive; LNil; LString (bytes "n")] w2
         = Ret [] w2.
Proof.
  intros argss.
  assert (Hkind : type hidden_stmt <> isc_info_sql_stmt_exec_procedure) by discriminate.
  assert (Hall : Forall fetch_args argss) by (repeat constructor).
  assert (Hdrop : drops_hidden (rows_engine 2) hidden_stmt)
    by (intros _ _; exact (rows_engine_drops 2 13)).
  split; [exact hidden_world_ready|]. split; [exact Hkind|].
  split; [exact (rows_engine_rows 2 13)|].
  split; [exact (rows_engine_ends_blobs 2)|].
  split; [exact (rows_engine_closes 2 13)|]. split; [exact Hdrop|].
  split; [exact Hall|]. split; [exact I|]. split; [exact I|].
  exact (cursor_exhaustion (rows_engine 2) plain_host 1 argss hidden_world 1%positive
           1%positive hidden_stmt 1 [] [LNil; LString (bytes "n")]
           hidden_world_ready Hkind (rows_engine_rows 2 13) (rows_engine_ends_blobs 2)
           (rows_engine_closes 2 13) Hdrop Hall I I).
Defined.

(** C2 as stated, for every cursor and every engine, fails in four ways.
    First, on the cursor of an EXECUTE PROCEDURE: over a result of two rows
    the first fetch returns a row and closes the cursor, so the second
    returns no value and there are not two row-producing fetches; over a
    result of one row the cursor is closed by the fetch that returns the
    row, not by an end-of-data signal, and the engine is never asked for a
    second row.  Second, when the engine refuses the call that closes the
    cursor: the fetch that meets the end of the data returns nil and the
    engine's message, an error, and the cursor stays open.  Third, on the
    last cursor of a hidden statement, when the engine closes the cursor and
    refuses to drop the statement: that fetch returns nil and the message
    as well.  Fourth, when the engine does not end a BLOB of the row: the
    fetch of the row has no result, however many segments are allowed. *)
Lemma fetching_to_the_end_fails :
  (fetch_ready procedure_world 1%positive 1%positive procedure_stmt 1
   /\ result_of_rows (rows_engine 2) (handle procedure_stmt)
        (fetches (trace procedure_world) (handle procedure_stmt)) (Z.of_nat 2)
   /\ blobs_end (rows_engine 2) 1
   /\ closes_cursor (rows_engine 2) (handle procedure_stmt)
   /\ drops_hidden (rows_engine 2) procedure_stmt
   /\ forall fuel,
        (exists w', fetch_times (rows_engine 2) plain_host fuel [[]; []] 1%positive
                      procedure_world
                    = Ret [[LInteger 7]; []] w')
        /\ ~ (exists rows w1,
                fetch_times (rows_engine 2) plain_host fuel [[]; []] 1%positive
                  procedure_world
                = Ret rows w1
                /\ Forall (fun row => row <> []) rows)
        /\ (exists w1 w2,
              fetch_times (rows_engine 1) plain_host fuel [[]] 1%positive procedure_world
                = Ret [[LInteger 7]] w1
              /\ cursor_closed w1 1%positive
              /\ call_from_lua (cur_fetch (rows_engine 1) plain_host fuel)
                   [LUserdata KCur 1%positive] w1
                 = Ret [] w2
              /\ fetches (trace w2) 13 = 1))
  /\ (fetch_ready chain_world 1%positive 1%positive select_stmt 1
   /\ type select_stmt <> isc_info_sql_stmt_exec_procedure
   /\ result_of_rows (stubborn_engine 0 DSQL_close) (handle select_stmt)
        (fetches (trace chain_world) (handle select_stmt)) (Z.of_nat 0)
   /\ blobs_end (stubborn_engine 0 DSQL_close) 1
   /\ drops_hidden (stubborn_engine 0 DSQL_close) select_stmt
   /\ forall fuel, exists w',
        call_from_lua (cur_fetch (stubborn_engine 0 DSQL_close) plain_host fuel)
          [LUserdata KCur 1%positive] chain_world
        = Ret (db_error (stubborn_engine 0 DSQL_close) error_status) w'
        /\ cursor_open w' 1%positive)
  /\ (fetch_ready hidden_world 1%positive 1%positive hidden_stmt 1
   /\ type hidden_stmt <> isc_info_sql_stmt_exec_procedure
   /\ result_of_rows (stubborn_engine 0 DSQL_drop) (handle hidden_stmt)
        (fetches (trace hidden_world) (handle hidden_stmt)) (Z.of_nat 0)
   /\ blobs_end (stubborn_engine 0 DSQL_drop) 1
   /\ closes_cursor (stubborn_engine 0 DSQL_drop) (handle hidden_stmt)
   /\ forall fuel, exists w',
        call_from_lua (cur_fetch (stubborn_engine 0 DSQL_drop) plain_host fuel)
          [LUserdata KCur 1%positive] hidden_world
        = Ret (db_error (stubborn_engine 0 DSQL_drop) error_status) w')
  /\ (fetch_ready blob_world 1%positive 1%positive select_stmt 1
   /\ type select_stmt <> isc_info_sql_stmt_exec_procedure
   /\ result_of_rows (endless_blob_engine 1) (handle select_stmt)
        (fetches (trace blob_world) (handle select_stmt)) (Z.of_nat 1)
   /\ closes_cursor (endless_blob_engine 1) (handle select_stmt)
   /\ drops_hidden (endless_blob_engine 1) select_stmt
   /\ forall fuel, exists why,
        call_from_lua (cur_fetch (endless_blob_engine 1) plain_host fuel)
          [LUserdata KCur 1%positive] blob_world
        = Fault why).
Proof.
  assert (Hkind : type select_stmt <> isc_info_sql_stmt_exec_procedure) by discriminate.
  split; [|split; [|split]].
  - split; [exact procedure_world_ready|].
    split; [exact (rows_engine_rows 2 13)|]. split; [exact (rows_engine_ends_blobs 2)|].
    split; [exact (rows_engine_closes 2 13)|].
    split; [exact (visible_drops_hidden _ procedure_stmt eq_refl)|].
    intros fuel.
    assert (Hrun : exists w', fetch_times (rows_engine 2) plain_host fuel [[]; []]
                                1%positive procedure_world = Ret [[LInteger 7]; []] w').
    { eexists. vm_compute. reflexivity. }
    split; [exact Hrun|]. split.
    + destruct Hrun as [w' Hrun]. intros (rows & w1 & Hrows & Hall).
      rewrite Hrun in Hrows. injection Hrows as <- _.
      apply Forall_cons in Hall as [_ Hall]. apply Forall_cons in Hall as [Hne _].
      apply Hne. reflexivity.
    + eexists _, _. split; [vm_compute; reflexivity|]. split.
      * eexists. split; vm_compute; reflexivity.
      * split; vm_compute; reflexivity.
  - split; [exact chain_world_ready|]. split; [exact Hkind|].
    split; [exact (stubborn_engine_rows 0 DSQL_close 13)|].
    split; [intros bh tr; reflexivity|].
    split; [exact (visible_drops_hidden _ select_stmt eq_refl)|].
    intros fuel. eexists. split; [vm_compute; reflexivity|].
    eexists. split; vm_compute; reflexivity.
  - split; [exact hidden_world_ready|]. split; [discriminate|].
    split; [exact (stubborn_engine_rows 0 DSQL_drop 13)|].
    split; [intros bh tr; reflexivity|].
    split; [intros tr; reflexivity|].
    intros fuel. eexists. vm_compute. reflexivity.
  - split; [exact blob_world_ready|]. split; [exact Hkind|].
    split; [exact (endless_blob_engine_rows 1 13)|].
    split; [intros tr; reflexivity|].
    split; [exact (visible_drops_hidden _ select_stmt eq_refl)|].
    intros fuel.
    apply (cur_fetch_never_returns (endless_blob_engine 1) plain_host fuel blob_world
             1%positive 1%positive select_stmt 1 blob_cur _ 
             {| sqltype := SQL_BLOB + 1; sqllen := 8;
                sqldata := Some [x01; x00; x00; x00; x07; x00; x00; x00];
                sqlind := Some 0; aliasname := list_byte_of_string "B";
                aliasname_length := 1 |}
             [x01; x00; x00; x00; x07; x00; x00; x00] []
             blob_world_ready I I eq_refl eq_refl eq_refl);
      reflexivity.
Qed.

Lemma procedure_cursor_closes_after_first_row_witness :
  (fetch_ready procedure_world 1%positive 1%positive procedure_stmt 1
   /\ fetch_args []
   /\ (forall da, rp_value (isc (rows_engine 2) (trace procedure_world)
                              (isc_dsql_fetch (handle procedure_stmt) da)) = 0)
   /\ blobs_end (rows_engine 2) 1
   /\ type procedure_stmt = isc_info_sql_stmt_exec_procedure
   /\ closes_cursor (rows_engine 2) (handle procedure_stmt)
   /\ exists row w' stmt',
        call_from_lua (cur_fetch (rows_engine 2) plain_host 1) [LUserdata KCur 1%positive]
          procedure_world = Ret row w'
        /\ cursor_closed w' 1%positive
        /\ stmts w' !! 1%positive = Some stmt'
        /\ stmt_lock stmt' = stmt_lock procedure_stmt - 1
        /\ (drops_hidden (rows_engine 2) procedure_stmt ->
            row_shape 1 [] row /\ row <> []))
  /\ (fetch_ready chain_world 1%positive 1%positive select_stmt 1
   /\ fetch_args [LTable TEmpty; LString (bytes "a")]
   /\ (forall da, rp_value (isc (rows_engine 2) (trace chain_world)
                              (isc_dsql_fetch (handle select_stmt) da)) = 0)
   /\ type select_stmt <> isc_info_sql_stmt_exec_procedure
   /\ exists row w',
        call_from_lua (cur_fetch (rows_engine 2) plain_host 1)
          [LUserdata KCur 1%positive; LTable TEmpty; LString (bytes "a")]
          chain_world = Ret row w'
        /\ row_shape 1 [LTable TEmpty; LString (bytes "a")] row /\ row <> []
        /\ cursor_open w' 1%positive
        /\ stmts w' !! 1%positive = Some select_stmt).
Proof.
  assert (Hkind : type select_stmt <> isc_info_sql_stmt_exec_procedure) by discriminate.
  assert (Hrow1 : forall da, rp_value (isc (rows_engine 2) (trace procedure_world)
                    (isc_dsql_fetch (handle procedure_stmt) da)) = 0)
    by (intros da; reflexivity).
  assert (Hrow2 : forall da, rp_value (isc (rows_engine 2) (trace chain_world)
                    (isc_dsql_fetch (handle select_stmt) da)) = 0)
    by (intros da; reflexivity).
  split.
  - split; [exact procedure_world_ready|]. split; [exact I|]. split; [exact Hrow1|].
    split; [exact (rows_engine_ends_blobs 2)|].
    split; [reflexivity|]. split; [exact (rows_engine_closes 2 13)|].
    exact (proj1 (procedure_cursor_closes_after_first_row (rows_engine 2) plain_host 1
                    procedure_world 1%positive 1%positive procedure_stmt 1 []
                    procedure_world_ready I Hrow1 (rows_engine_ends_blobs 2))
             eq_refl (rows_engine_closes 2 13)).
  - split; [exact chain_world_ready|]. split; [exact I|]. split; [exact Hrow2|].
    split; [exact Hkind|].
    exact (proj2 (procedure_cursor_closes_after_first_row (rows_engine 2) plain_host 1
                    chain_world 1%positive 1%positive select_stmt 1
                    [LTable TEmpty; LString (bytes "a")]
                    chain_world_ready I Hrow2 (rows_engine_ends_blobs 2)) Hkind).
Defined.

(** C8 as stated, for every engine, fails in two ways.  First, when the
    engine refuses the call that closes the cursor: the fetch on the cursor
    of an EXECUTE PROCEDURE for which the engine delivers a row leaves the
    cursor open and the statement's lock count as it was, and returns the
    engine's message where the row was to be.  Second, when the engine does
    not end a BLOB of the row: the fetch has no result, however many
    segments are allowed, and the cursor is never closed. *)
Lemma procedure_cursor_stays_open :
  (fetch_ready procedure_world 1%positive 1%positive procedure_stmt 1
   /\ type procedure_stmt = isc_info_sql_stmt_exec_procedure
   /\ (forall da, rp_value (isc (stubborn_engine 2 DSQL_close) (trace procedure_world)
                              (isc_dsql_fetch (handle procedure_stmt) da)) = 0)
   /\ blobs_end (stubborn_engine 2 DSQL_close) 1
   /\ forall fuel, exists w',
        call_from_lua (cur_fetch (stubborn_engine 2 DSQL_close) plain_host fuel)
          [LUserdata KCur 1%positive] procedure_world
        = Ret [LString (error_text (stubborn_engine 2 DSQL_close) error_status)] w'
        /\ cursor_open w' 1%positive
        /\ stmts w' !! 1%positive = Some procedure_stmt)
  /\ (fetch_ready blob_procedure_world 1%positive 1%positive procedure_stmt 1
   /\ type procedure_stmt = isc_info_sql_stmt_exec_procedure
   /\ (forall da, rp_value (isc (endless_blob_engine 1) (trace blob_procedure_world)
                              (isc_dsql_fetch (handle procedure_stmt) da)) = 0)
   /\ closes_cursor (endless_blob_engine 1) (handle procedure_stmt)
   /\ forall fuel, exists why,
        call_from_lua (cur_fetch (endless_blob_engine 1) plain_host fuel)
          [LUserdata KCur 1%positive] blob_procedure_world
        = Fault why).
Proof.
  split.
  - split; [exact procedure_world_ready|]. split; [reflexivity|].
    split; [intros da; reflexivity|]. split; [intros bh tr; reflexivity|].
    intros fuel. eexists. split; [vm_compute; reflexivity|]. split.
    + eexists. split; vm_compute; reflexivity.
    + vm_compute. reflexivity.
  - split; [exact blob_procedure_world_ready|]. split; [reflexivity|].
    split; [intros da; reflexivity|]. split; [intros tr; reflexivity|].
    intros fuel.
    apply (cur_fetch_never_returns (endless_blob_engine 1) plain_host fuel
             blob_procedure_world 1%positive 1%positive procedure_stmt 1 blob_cur _
             {| sqltype := SQL_BLOB + 1; sqllen := 8;
                sqldata := Some [x01; x00; x00; x00; x07; x00; x00; x00];
                sqlind := Some 0; aliasname := list_byte_of_string "B";
                aliasname_length := 1 |}
             [x01; x00; x00; x00; x07; x00; x00; x00] []
             blob_procedure_world_ready I I eq_refl eq_refl eq_refl);
      reflexivity.
Qed.

Section Preparing.

Variable engine : Engine.

(** C1 (amended).  When the engine reports N columns, for parameters or
    for output, the sizing protocol ends with a descriptor whose declared
    capacity is max(1, N): exactly N when N is at least 1, and the one slot
    of the first allocation when N is 0.  Its slots are as many. *)
Theorem sizing_ends_with_reported_count (w : World) (e : ptr) (env : env_data) (h N : Z) :
  envs w !! e = Some env ->
  (forall tr da,
     rp_sqld (isc engine tr (isc_dsql_describe_bind h da)) = N
     /\ CHECK_DB_ERROR (rp_status (isc engine tr (isc_dsql_describe_bind h da))) = false) ->
  (forall tr da,
     rp_sqld (isc engine tr (isc_dsql_describe h da)) = N
     /\ CHECK_DB_ERROR (rp_status (isc engine tr (isc_dsql_describe h da))) = false) ->
  (exists da w',
     size_in_sqlda engine e h w = Ret (Sized da) w'
     /\ sqln da = Z.max 1 N /\ sqld da = N
     /\ length (sqlvar da) = Z.to_nat (sqln da)
     /\ (1 <= N -> sqln da = N))
  /\ (exists da w',
     size_out_sqlda engine e h w = Ret (Sized da) w'
     /\ sqln da = Z.max 1 N /\ sqld da = N
     /\ length (sqlvar da) = Z.to_nat (sqln da)
     /\ (1 <= N -> sqln da = N)).
Proof.
  intros He Hbind Hout.
  assert (Hslots : forall cols slots,
            length (describe_slots cols slots) = length slots).
  { induction cols as [|c cols IH]; intros [|s slots]; simpl; auto. }
  split.
  - unfold size_in_sqlda, free_xsqlda. monad_simpl. rewrite He. crunch.
    destruct (Hbind (trace w) (malloc_xsqlda 1)) as [Hn1 Hs1].
    rewrite Hs1. cbn [described sqld sqln]. rewrite Hn1. cbn [malloc_xsqlda sqln].
    destruct (decide (N > 1)) as [Hbig|Hsmall].
    + crunch.
      destruct (Hbind (trace w ++ [isc_dsql_describe_bind h (malloc_xsqlda 1)])
                  (malloc_xsqlda N)) as [Hn2 Hs2].
      rewrite Hs2.
      eexists _, _. split; [reflexivity|].
      cbn [described sqld sqln sqlvar malloc_xsqlda]. rewrite Hn2.
      rewrite Hslots, length_replicate. repeat split; lia.
    + eexists _, _. split; [reflexivity|].
      cbn [described sqld sqln sqlvar malloc_xsqlda].
      rewrite Hslots, length_replicate. repeat split; lia.
  - unfold size_out_sqlda, free_xsqlda. monad_simpl. rewrite He. crunch.
    destruct (Hout (trace w) (malloc_xsqlda 1)) as [Hn1 Hs1].
    cbn [described sqld sqln]. rewrite Hn1. cbn [malloc_xsqlda sqln].
    destruct (decide (N > 1)) as [Hbig|Hsmall].
    + crunch.
      destruct (Hout (trace w ++ [isc_dsql_describe h (malloc_xsqlda 1)])
                  (malloc_xsqlda N)) as [Hn2 Hs2].
      rewrite Hs2.
      eexists _, _. split; [reflexivity|].
      cbn [described sqld sqln sqlvar malloc_xsqlda]. rewrite Hn2.
      rewrite Hslots, length_replicate. repeat split; lia.
    + eexists _, _. split; [reflexivity|].
      cbn [described sqld sqln sqlvar malloc_xsqlda].
      rewrite Hslots, length_replicate. repeat split; lia.
Qed.

End Preparing.

Lemma sizing_ends_with_reported_count_witness :
  envs one_env_world !! 1%positive = Some open_env
  /\ (forall tr da,
        rp_sqld (isc (columns_engine 3) tr (isc_dsql_describe_bind 13 da)) = 3
        /\ CHECK_DB_ERROR (rp_status (isc (columns_engine 3) tr (isc_dsql_describe_bind 13 da)))
           = false)
  /\ (forall tr da,
        rp_sqld (isc (columns_engine 3) tr (isc_dsql_describe 13 da)) = 3
        /\ CHECK_DB_ERROR (rp_status (isc (columns_engine 3) tr (isc_dsql_describe 13 da)))
           = false)
  /\ (exists da w',
        size_in_sqlda (columns_engine 3) 1%positive 13 one_env_world = Ret (Sized da) w'
        /\ sqln da = Z.max 1 3 /\ sqld da = 3
        /\ length (sqlvar da) = Z.to_nat (sqln da)
        /\ (1 <= 3 -> sqln da = 3))
  /\ (exists da w',
        size_out_sqlda (columns_engine 3) 1%positive 13 one_env_world = Ret (Sized da) w'
        /\ sqln da = Z.max 1 3 /\ sqld da = 3
        /\ length (sqlvar da) = Z.to_nat (sqln da)
        /\ (1 <= 3 -> sqln da = 3)).
Proof.
  assert (H1 : forall tr da,
             rp_sqld (isc (columns_engine 3) tr (isc_dsql_describe_bind 13 da)) = 3
             /\ CHECK_DB_ERROR
                  (rp_status (isc (columns_engine 3) tr (isc_dsql_describe_bind 13 da)))
                = false) by (intros; split; reflexivity).
  assert (H2 : forall tr da,
             rp_sqld (isc (columns_engine 3) tr (isc_dsql_describe 13 da)) = 3
             /\ CHECK_DB_ERROR
                  (rp_status (isc (columns_engine 3) tr (isc_dsql_describe 13 da)))
                = false) by (intros; split; reflexivity).
  split; [reflexivity|]. split; [exact H1|]. split; [exact H2|].
  exact (sizing_ends_with_reported_count (columns_engine 3) one_env_world 1%positive
           open_env 13 3 eq_refl H1 H2).
Defined.

(** C1 as stated, for every count N, fails at N = 0: a statement without
    parameters, or without output columns, keeps the one-slot descriptor of
    the first allocation. *)
Lemma sizing_keeps_one_slot_for_no_column :
  (exists da w',
     size_in_sqlda (columns_engine 0) 1%positive 13 one_env_world = Ret (Sized da) w'
     /\ sqld da = 0 /\ sqln da = 1 /\ sqln da <> sqld da)
  /\ (exists da w',
     size_out_sqlda (columns_engine 0) 1%positive 13 one_env_world = Ret (Sized da) w'
     /\ sqld da = 0 /\ sqln da = 1 /\ sqln da <> sqld da).
Proof.
  split; eexists _, _; (split; [vm_compute; reflexivity|]);
    repeat split; discriminate.
Qed.

Section Rejecting.

Variable engine : Engine.
Variable host : Host.

(** Whatever the engine, a statement it classifies outside the supported
    kinds is rejected after three native calls (allocate, prepare, info):
    the error comes back, no Statement is made, and connections, locks and
    registry are as before.  None of the three calls frees the handle. *)
Lemma conn_prepare_rejects (w : World) (cp : ptr) (conn : conn_data) (env : env_data)
  (sql : list byte) (t : Z) :
  conns w !! cp = Some conn ->
  conn_closed conn = 0 ->
  envs w !! conn_env conn = Some env ->
  let c1 := isc_dsql_allocate_statement (db conn) 0 in
  let r1 := isc engine (trace w) c1 in
  let c2 := isc_dsql_prepare (transaction conn) (rp_handle r1) (cstr sql) (dialect conn) in
  let r2 := isc engine (trace w ++ [c1]) c2 in
  let c3 := isc_dsql_sql_info (rp_handle r1) [isc_info_sql_stmt_type] 88 in
  let r3 := isc engine (trace w ++ [c1; c2]) c3 in
  (forall w0, read_statement_type (take 88 (rp_buffer r3)) w0 = Ret t w0) ->
  CHECK_DB_ERROR (rp_status r1) = false ->
  CHECK_DB_ERROR (rp_status r2) = false ->
  st_is 1 (sv_at (rp_status r3) 0) && st_positive (sv_at (rp_status r3) 1) = false ->
  0 <= t ->
  supported_statement t = false ->
  exists w',
    call_from_lua (conn_prepare engine host) [LUserdata KConn cp; LString sql] w
      = Ret unsupported_statement w'
    /\ trace w' = trace w ++ [c1; c2; c3]
    /\ conns w' = conns w /\ stmts w' = stmts w /\ curs w' = curs w
    /\ registry w' = registry w.
Proof.
  intros Hc Hopen He c1 r1 c2 r2 c3 r3 Hread Hr1 Hr2 Hr3 Ht Hsup.
  subst r3 c3 r2 c2 r1 c1.
  unfold call_from_lua, conn_prepare, getconnection, luaL_checkudata, luaL_checklstring,
    get_statement_type, free_stmt, free_xsqlda, luasql_faildirect.
  monad_simpl. rewrite stack_at_first. simpl. rewrite Hc. crunch.
  rewrite bool_decide_eq_true_2 by exact Hopen. crunch.
  replace (stack_at [LUserdata KConn cp; LString sql] 2) with (Some (LString sql))
    by reflexivity.
  crunch. rewrite Hc. crunch.
  rewrite He. crunch. rewrite Hr1. crunch.
  rewrite Hr2. crunch.
  assert (Htr : forall a b : call, trace w ++ [a; b] = (trace w ++ [a]) ++ [b])
    by (intros a b; rewrite <- app_assoc; reflexivity).
  rewrite Htr in Hr3, Hread.
  rewrite Hr3. crunch. rewrite Hread. crunch.
  destruct (decide (_ < 0)) as [Hneg|_]; [lia|].
  rewrite Hsup. crunch.
  eexists. split; [reflexivity|]. crunch.
  rewrite <- !app_assoc. repeat split.
Qed.

End Rejecting.

(** C7, at the statement COMMIT.  The engine allocates a statement handle
    and classifies the statement as a commit; [conn_prepare] reports the
    unsupported statement, creates no Statement and leaves the connection
    and its lock count as they were, but returns without a call that frees
    the statement handle it allocated. *)
Theorem conn_prepare_keeps_handle_of_rejected_statement :
  let engine := classifying_engine isc_info_sql_stmt_commit in
  let c := isc_dsql_allocate_statement (db idle_conn) 0 in
  exists w',
    call_from_lua (conn_prepare engine plain_host)
      [LUserdata KConn 1%positive; LString (bytes "COMMIT")] idle_world
      = Ret unsupported_statement w'
    /\ supported_statement isc_info_sql_stmt_commit = false
    /\ CHECK_DB_ERROR (rp_status (isc engine [] c)) = false
    /\ rp_handle (isc engine [] c) = 31
    /\ trace w' = [c;
                   isc_dsql_prepare 12 31 (bytes "COMMIT") 3;
                   isc_dsql_sql_info 31 [isc_info_sql_stmt_type] 88]
    /\ filter (fun c => is_free_statement c = true) (trace w') = []
    /\ conns w' = conns idle_world
    /\ stmts w' = stmts idle_world.
Proof.
  eexists. split; [vm_compute; reflexivity|].
  repeat split; vm_compute; reflexivity.
Qed.

(** * Further properties *)

(** The arguments of a call, by their index. *)
Lemma stack_at_2 (a b : lua_value) (rest : list lua_value) :
  stack_at (a :: b :: rest) 2 = Some b.
Proof. reflexivity. Qed.

Lemma stack_at_3 (a b c : lua_value) (rest : list lua_value) :
  stack_at (a :: b :: c :: rest) 3 = Some c.
Proof. reflexivity. Qed.

Lemma stack_at_4 (a b c d : lua_value) (rest : list lua_value) :
  stack_at (a :: b :: c :: d :: rest) 4 = Some d.
Proof. reflexivity. Qed.

(** The value on top of a stack. *)
Lemma stack_at_top (l : list lua_value) (v : lua_value) :
  stack_at (l ++ [v]) (-1) = Some v.
Proof.
  unfold stack_at. destruct (decide (0 < -1)) as [Hx|_]; [lia|].
  rewrite length_app. simpl.
  destruct (decide (-1 < 0 /\ - -1 <= Z.of_nat (length l + 1))) as [_|Hx]; [|lia].
  replace (Z.to_nat (Z.of_nat (length l + 1) + -1)) with (length l + 0)%nat by lia.
  rewrite lookup_app_r by lia. replace (length l + 0 - length l)%nat with 0%nat by lia.
  reflexivity.
Qed.

(** Two worlds are the same when their seven components are. *)
Lemma world_ext (a b : World) :
  envs a = envs b -> conns a = conns b -> stmts a = stmts b -> curs a = curs b ->
  registry a = registry b -> stack a = stack b -> trace a = trace b -> a = b.
Proof. destruct a, b; simpl; intros; subst; reflexivity. Qed.

Ltac world_eq :=
  apply world_ext; crunch; rewrite <- ?app_assoc, ?insert_insert_eq; try reflexivity.

Ltac args_simpl :=
  repeat (progress (rewrite ?stack_at_first, ?stack_at_2, ?stack_at_3, ?stack_at_4,
                      ?stack_at_top; crunch)).

Section ClosedHandles.

Variable engine : Engine.
Variable host : Host.

(** X1.  Every method that works on an open handle refuses a closed one
    with a Lua error, before any native call and without a change to any
    handle: [connect] on a closed environment; [prepare], [execute],
    [commit], [rollback] and [setautocommit] on a closed connection;
    [execute] and [getparamtypes] on a closed statement; [getcolnames] and
    [getcoltypes] on a closed cursor. *)
Theorem methods_of_closed_handle_raise (w : World) (p : ptr) (args : list lua_value) :
  (forall env, envs w !! p = Some env -> env_closed env <> 0 ->
     call_from_lua (env_connect engine host) (LUserdata KEnv p :: args) w
       = raised "environment is closed" (LUserdata KEnv p :: args) w)
  /\ (forall conn f, conns w !! p = Some conn -> conn_closed conn <> 0 ->
      f ∈ [conn_prepare engine host; conn_execute engine host; conn_commit engine;
           conn_rollback engine; conn_setautocommit] ->
      call_from_lua f (LUserdata KConn p :: args) w
        = raised "connection is closed" (LUserdata KConn p :: args) w)
  /\ (forall stmt f, stmts w !! p = Some stmt -> stmt_closed stmt <> 0 ->
      f ∈ [stmt_execute engine host; stmt_get_params] ->
      call_from_lua f (LUserdata KStmt p :: args) w
        = raised "statement is closed" (LUserdata KStmt p :: args) w)
  /\ (forall cur f, curs w !! p = Some cur -> cur_closed cur <> 0 ->
      f ∈ [cur_colnames; cur_coltypes] ->
      call_from_lua f (LUserdata KCur p :: args) w
        = raised "cursor is closed" (LUserdata KCur p :: args) w).
Proof.
  split; [|split; [|split]].
  - intros env Hp Hc.
    unfold raised, call_from_lua, env_connect, getenvironment, luaL_checkudata.
    monad_simpl. rewrite stack_at_first. simpl. rewrite Hp. simpl.
    rewrite bool_decide_eq_false_2 by exact Hc. reflexivity.
  - intros conn f Hp Hc Hf.
    repeat (apply elem_of_cons in Hf as [->|Hf]); [..|apply elem_of_nil in Hf; contradiction];
      unfold raised, call_from_lua, conn_execute, conn_prepare, conn_commit, conn_rollback,
        conn_setautocommit, getconnection, luaL_checkudata;
      monad_simpl; rewrite stack_at_first; simpl; rewrite Hp; simpl;
      rewrite bool_decide_eq_false_2 by exact Hc; reflexivity.
  - intros stmt f Hp Hc Hf.
    repeat (apply elem_of_cons in Hf as [->|Hf]); [..|apply elem_of_nil in Hf; contradiction];
      unfold raised, call_from_lua, stmt_execute, stmt_get_params, getstatement,
        luaL_checkudata;
      monad_simpl; rewrite stack_at_first; simpl; rewrite Hp; simpl;
      rewrite bool_decide_eq_false_2 by exact Hc; reflexivity.
  - intros cur f Hp Hc Hf.
    repeat (apply elem_of_cons in Hf as [->|Hf]); [..|apply elem_of_nil in Hf; contradiction];
      unfold raised, call_from_lua, cur_colnames, cur_coltypes, getcursor, luaL_checkudata;
      monad_simpl; rewrite stack_at_first; simpl; rewrite Hp; simpl;
      rewrite bool_decide_eq_false_2 by exact Hc; reflexivity.
Qed.

End ClosedHandles.

Lemma methods_of_closed_handle_raise_witness :
  (envs shut_world !! 1%positive = Some shut_env /\ env_closed shut_env <> 0
   /\ call_from_lua (env_connect quiet_engine plain_host)
        [LUserdata KEnv 1%positive; LString (bytes "db")] shut_world
      = raised "environment is closed" [LUserdata KEnv 1%positive; LString (bytes "db")]
          shut_world)
  /\ (conns shut_world !! 1%positive = Some shut_conn /\ conn_closed shut_conn <> 0
   /\ call_from_lua (conn_commit quiet_engine)
        [LUserdata KConn 1%positive; LString (bytes "db")] shut_world
      = raised "connection is closed" [LUserdata KConn 1%positive; LString (bytes "db")]
          shut_world)
  /\ (stmts shut_world !! 1%positive = Some shut_stmt /\ stmt_closed shut_stmt <> 0
   /\ call_from_lua stmt_get_params
        [LUserdata KStmt 1%positive; LString (bytes "db")] shut_world
      = raised "statement is closed" [LUserdata KStmt 1%positive; LString (bytes "db")]
          shut_world)
  /\ (curs shut_world !! 1%positive = Some shut_cur /\ cur_closed shut_cur <> 0
   /\ call_from_lua cur_colnames
        [LUserdata KCur 1%positive; LString (bytes "db")] shut_world
      = raised "cursor is closed" [LUserdata KCur 1%positive; LString (bytes "db")]
          shut_world).
Proof.
  pose proof (methods_of_closed_handle_raise quiet_engine plain_host shut_world 1%positive
                [LString (bytes "db")]) as (He & Hc & Hs & Hcu).
  assert (H10 : (1 : Z) <> 0) by discriminate.
  split; [|split; [|split]].
  - split; [reflexivity|]. split; [exact H10|]. apply (He shut_env); [reflexivity|exact H10].
  - split; [reflexivity|]. split; [exact H10|].
    apply (Hc shut_conn); [reflexivity|exact H10|].
    do 2 apply list_elem_of_further. apply list_elem_of_here.
  - split; [reflexivity|]. split; [exact H10|].
    apply (Hs shut_stmt); [reflexivity|exact H10|].
    apply list_elem_of_further. apply list_elem_of_here.
  - split; [reflexivity|]. split; [exact H10|].
    apply (Hcu shut_cur); [reflexivity|exact H10|]. apply list_elem_of_here.
Defined.

Section Transactions.

Variable engine : Engine.

(** X2.  [commit] and [rollback] on an open connection make one native
    call, [isc_commit_retaining] or [isc_rollback_retaining] on the
    connection's transaction.  They return true when the status vector
    reports no error, nil and the engine's message when it does; either way
    the connection keeps its transaction handle and its lock count, and no
    statement or cursor is touched. *)
Theorem commit_and_rollback_keep_the_transaction
  (w : World) (p : ptr) (conn : conn_data) (env : env_data) (args : list lua_value) :
  conns w !! p = Some conn ->
  conn_closed conn = 0 ->
  envs w !! conn_env conn = Some env ->
  let ends (f : M Z) (c : call) :=
    let r := isc engine (trace w) c in
    exists w',
      call_from_lua f (LUserdata KConn p :: args) w
        = Ret (if CHECK_DB_ERROR (rp_status r) then db_error engine (rp_status r)
               else [LBoolean true]) w'
      /\ trace w' = trace w ++ [c]
      /\ envs w' = <[conn_env conn := set_status_vector (rp_status r) env]> (envs w)
      /\ conns w' = conns w /\ stmts w' = stmts w /\ curs w' = curs w
      /\ registry w' = registry w in
  ends (conn_commit engine) (isc_commit_retaining (transaction conn))
  /\ ends (conn_rollback engine) (isc_rollback_retaining (transaction conn)).
Proof.
  intros Hp Hopen He ends. subst ends. cbv beta zeta.
  split.
  - unfold call_from_lua, conn_commit, getconnection, return_db_error, luaL_checkudata.
    monad_simpl. rewrite stack_at_first. simpl. rewrite Hp. simpl.
    rewrite bool_decide_eq_true_2 by exact Hopen. crunch. rewrite Hp. crunch.
    rewrite He. crunch.
    destruct (CHECK_DB_ERROR (rp_status (isc engine (trace w)
                (isc_commit_retaining (transaction conn))))); crunch;
      eexists; (split; [f_equal; unfold results; crunch; simpl;
                        rewrite ?length_app; simpl;
                        match goal with
                        | |- drop ?n _ = _ =>
                            replace n with (S (length args)) by lia
                        end; simpl; rewrite <- ?app_assoc; apply drop_app_length
                       |repeat split]).
  - unfold call_from_lua, conn_rollback, getconnection, return_db_error, luaL_checkudata.
    monad_simpl. rewrite stack_at_first. simpl. rewrite Hp. simpl.
    rewrite bool_decide_eq_true_2 by exact Hopen. crunch. rewrite Hp. crunch.
    rewrite He. crunch.
    destruct (CHECK_DB_ERROR (rp_status (isc engine (trace w)
                (isc_rollback_retaining (transaction conn))))); crunch;
      eexists; (split; [f_equal; unfold results; crunch; simpl;
                        rewrite ?length_app; simpl;
                        match goal with
                        | |- drop ?n _ = _ =>
                            replace n with (S (length args)) by lia
                        end; simpl; rewrite <- ?app_assoc; apply drop_app_length
                       |repeat split]).
Qed.

End Transactions.

Lemma commit_and_rollback_keep_the_transaction_witness :
  conns chain_world !! 1%positive = Some held_conn
  /\ conn_closed held_conn = 0
  /\ envs chain_world !! conn_env held_conn = Some held_env
  /\ (exists w', call_from_lua (conn_commit quiet_engine) [LUserdata KConn 1%positive]
                   chain_world = Ret [LBoolean true] w'
                 /\ trace w' = [isc_commit_retaining 12]
                 /\ conns w' = conns chain_world)
  /\ (exists w', call_from_lua (conn_rollback quiet_engine) [LUserdata KConn 1%positive]
                   chain_world = Ret [LBoolean true] w'
                 /\ trace w' = [isc_rollback_retaining 12]
                 /\ conns w' = conns chain_world).
Proof.
  destruct (commit_and_rollback_keep_the_transaction quiet_engine chain_world 1%positive
              held_conn held_env [] eq_refl eq_refl eq_refl)
    as [(w1 & H1 & Ht1 & _ & Hc1 & _) (w2 & H2 & Ht2 & _ & Hc2 & _)].
  split; [reflexivity|]. split; [reflexivity|]. split; [reflexivity|]. split.
  - exists w1. split; [exact H1|]. split; [exact Ht1|exact Hc1].
  - exists w2. split; [exact H2|]. split; [exact Ht2|exact Hc2].
Defined.

Section Environments.

Variable engine : Engine.
Variable host : Host.

(** X3.  [close] on an open environment that still has connections (a
    lock count above 0) fails with the still-open-connections error and
    changes nothing.  With no connection left it succeeds without a native
    call: the environment is marked closed and taken out of the registry. *)
Theorem env_close_waits_for_connections (w : World) (p : ptr) (env : env_data) :
  envs w !! p = Some env ->
  env_closed env <> 1 ->
  (0 < env_lock env ->
     call_from_lua env_close [LUserdata KEnv p] w
       = Ret (failure "there are still open connections") (with_stack (fun _ => []) w))
  /\ (env_lock env <= 0 ->
     call_from_lua env_close [LUserdata KEnv p] w
       = Ret [LBoolean true]
           (with_stack (fun _ => [])
              (with_envs <[p := set_env_closed 1 env]>
                 (with_registry (delete (KEnv, p)) w)))).
Proof.
  intros Hp Hopen. split; intros Hlock;
    unfold call_from_lua, env_close, luaL_checkudata, unregisterobj; monad_simpl;
    rewrite stack_at_first; simpl; rewrite Hp; simpl;
    (destruct (decide (env_closed env = 1)) as [Hx|_]; [contradiction|]).
  - destruct (decide (env_lock env > 0)) as [_|Hx]; [|lia]. reflexivity.
  - destruct (decide (env_lock env > 0)) as [Hx|_]; [lia|]. crunch. rewrite Hp.
    reflexivity.
Qed.

(** X4.  [connect] on an open environment, with names that fit the
    parameter buffer and an engine that accepts the attachment and the
    start of a transaction: the call returns a new connection, open,
    unlocked, with autocommit off and dialect 3, holding the database and
    transaction handles the engine gave; the environment counts one
    connection more and is anchored in the registry. *)
Theorem env_connect_opens_connection
  (w : World) (p : ptr) (env : env_data) (source user pass dpb : list byte) :
  envs w !! p = Some env ->
  env_closed env = 0 ->
  construct_dpb user pass = Some dpb ->
  let c1 := isc_attach_database (to_short (strlen source)) (cstr source)
              (to_short (Z.of_nat (length dpb))) dpb in
  let r1 := isc engine (trace w) c1 in
  let c2 := isc_start_transaction (rp_handle r1) isc_tpb in
  let r2 := isc engine (trace w ++ [c1]) c2 in
  CHECK_DB_ERROR (rp_status r1) = false ->
  CHECK_DB_ERROR (rp_status r2) = false ->
  let cp := fresh (dom (conns w)) in
  exists w',
    call_from_lua (env_connect engine host)
      [LUserdata KEnv p; LString source; LString user; LString pass] w
      = Ret [LUserdata KConn cp] w'
    /\ trace w' = trace w ++ [c1; c2]
    /\ conns w !! cp = None
    /\ conns w' = <[cp := {| conn_closed := 0; conn_lock := 0; conn_env := p;
                             autocommit := 0; db := rp_handle r1; dpb_buffer := dpb;
                             dpb_length := to_short (Z.of_nat (length dpb));
                             transaction := rp_handle r2; dialect := 3 |}]> (conns w)
    /\ envs w' = <[p := {| env_closed := env_closed env; env_lock := env_lock env + 1;
                           status_vector := rp_status r2 |}]> (envs w)
    /\ registry w' = <[(KEnv, p) := LUserdata KEnv p]> (registry w)
    /\ stmts w' = stmts w /\ curs w' = curs w.
Proof.
  intros Hp Hopen Hdpb c1 r1 c2 r2 Hr1 Hr2 cp.
  unfold call_from_lua, env_connect, getenvironment, luaL_optstring, luaL_checklstring,
    luaL_checkudata, new_conn, registerobj.
  monad_simpl. rewrite stack_at_first. simpl. rewrite Hp. simpl.
  rewrite bool_decide_eq_true_2 by exact Hopen. args_simpl. rewrite Hdpb. crunch.
  rewrite Hp. crunch. fold c1. fold r1. rewrite Hr1. crunch. fold c2. fold r2.
  rewrite Hr2. crunch. fold cp.
  eexists. split; [reflexivity|]. crunch.
  split; [rewrite <- app_assoc; reflexivity|].
  split; [apply not_elem_of_dom, is_fresh|].
  rewrite !insert_insert_eq. repeat split.
Qed.

(** X5.  When the engine refuses the attachment, [connect] returns nil
    and the engine's message after that one call; when it refuses the start
    of the transaction, after the two, with no call that detaches the
    database just attached.  Either way no connection exists, and the
    environment keeps its lock count and its place, or absence, in the
    registry. *)
Theorem env_connect_failure_leaves_no_connection
  (w : World) (p : ptr) (env : env_data) (source user pass dpb : list byte) :
  envs w !! p = Some env ->
  env_closed env = 0 ->
  construct_dpb user pass = Some dpb ->
  let c1 := isc_attach_database (to_short (strlen source)) (cstr source)
              (to_short (Z.of_nat (length dpb))) dpb in
  let r1 := isc engine (trace w) c1 in
  let c2 := isc_start_transaction (rp_handle r1) isc_tpb in
  let r2 := isc engine (trace w ++ [c1]) c2 in
  let fails (r : reply) (calls : list call) :=
    exists w',
      call_from_lua (env_connect engine host)
        [LUserdata KEnv p; LString source; LString user; LString pass] w
        = Ret (db_error engine (rp_status r)) w'
      /\ trace w' = trace w ++ calls
      /\ conns w' = conns w
      /\ envs w' = <[p := set_status_vector (rp_status r) env]> (envs w)
      /\ registry w' = registry w in
  (CHECK_DB_ERROR (rp_status r1) = true -> fails r1 [c1])
  /\ (CHECK_DB_ERROR (rp_status r1) = false -> CHECK_DB_ERROR (rp_status r2) = true ->
      fails r2 [c1; c2]).
Proof.
  intros Hp Hopen Hdpb c1 r1 c2 r2 fails. subst fails. cbv beta.
  split.
  - intros Hr1.
    unfold call_from_lua, env_connect, getenvironment, luaL_optstring, luaL_checklstring,
      luaL_checkudata, return_db_error.
    monad_simpl. rewrite stack_at_first. simpl. rewrite Hp. simpl.
    rewrite bool_decide_eq_true_2 by exact Hopen. args_simpl. rewrite Hdpb. crunch.
    rewrite Hp. crunch. fold c1. fold r1. rewrite Hr1. crunch.
    eexists. split; [reflexivity|]. crunch. repeat split.
  - intros Hr1 Hr2.
    unfold call_from_lua, env_connect, getenvironment, luaL_optstring, luaL_checklstring,
      luaL_checkudata, return_db_error.
    monad_simpl. rewrite stack_at_first. simpl. rewrite Hp. simpl.
    rewrite bool_decide_eq_true_2 by exact Hopen. args_simpl. rewrite Hdpb. crunch.
    rewrite Hp. crunch. fold c1. fold r1. rewrite Hr1. crunch. fold c2. fold r2.
    rewrite Hr2. crunch.
    eexists. split; [reflexivity|]. crunch.
    split; [rewrite <- app_assoc; reflexivity|].
    rewrite insert_insert_eq. repeat split.
Qed.

End Environments.

Lemma env_close_waits_for_connections_witness :
  (envs chain_world !! 1%positive = Some held_env /\ env_closed held_env <> 1
   /\ 0 < env_lock held_env
   /\ call_from_lua env_close [LUserdata KEnv 1%positive] chain_world
      = Ret (failure "there are still open connections")
          (with_stack (fun _ => []) chain_world))
  /\ (envs one_env_world !! 1%positive = Some open_env /\ env_closed open_env <> 1
   /\ env_lock open_env <= 0
   /\ call_from_lua env_close [LUserdata KEnv 1%positive] one_env_world
      = Ret [LBoolean true]
          (with_stack (fun _ => [])
             (with_envs <[1%positive := set_env_closed 1 open_env]>
                (with_registry (delete (KEnv, 1%positive)) one_env_world)))).
Proof.
  assert (H01 : (0 : Z) <> 1) by discriminate.
  assert (H0 : (0 : Z) < 1) by reflexivity.
  assert (H00 : (0 : Z) <= 0) by discriminate.
  split.
  - split; [reflexivity|]. split; [exact H01|]. split; [exact H0|].
    apply (proj1 (env_close_waits_for_connections chain_world 1%positive held_env
                    eq_refl H01) H0).
  - split; [reflexivity|]. split; [exact H01|]. split; [exact H00|].
    apply (proj2 (env_close_waits_for_connections one_env_world 1%positive open_env
                    eq_refl H01) H00).
Defined.

Lemma env_connect_opens_connection_witness :
  envs one_env_world !! 1%positive = Some open_env
  /\ env_closed open_env = 0
  /\ construct_dpb (bytes "u") (bytes "p") = Some small_dpb
  /\ exists w',
      call_from_lua (env_connect quiet_engine plain_host)
        [LUserdata KEnv 1%positive; LString (bytes "db"); LString (bytes "u");
         LString (bytes "p")] one_env_world
      = Ret [LUserdata KConn 1%positive] w'
      /\ trace w' = [isc_attach_database 2 (bytes "db") 10 small_dpb;
                     isc_start_transaction 0 isc_tpb]
      /\ envs w' = <[1%positive := {| env_closed := 0; env_lock := 1;
                                      status_vector := ok_status |}]> (envs one_env_world)
      /\ registry w' = <[(KEnv, 1%positive) := LUserdata KEnv 1%positive]>
                         (registry one_env_world).
Proof.
  assert (Hdpb : construct_dpb (bytes "u") (bytes "p") = Some small_dpb)
    by (vm_compute; reflexivity).
  split; [reflexivity|]. split; [reflexivity|]. split; [exact Hdpb|].
  destruct (env_connect_opens_connection quiet_engine plain_host one_env_world 1%positive
              open_env (bytes "db") (bytes "u") (bytes "p") small_dpb
              eq_refl eq_refl Hdpb eq_refl eq_refl)
    as (w' & Hrun & Ht & _ & _ & He & Hr & _).
  exists w'. split; [exact Hrun|]. split; [exact Ht|]. split; [exact He|exact Hr].
Defined.

Lemma env_connect_failure_leaves_no_connection_witness :
  envs one_env_world !! 1%positive = Some open_env
  /\ env_closed open_env = 0
  /\ construct_dpb (bytes "u") (bytes "p") = Some small_dpb
  /\ (exists w',
        call_from_lua (env_connect (refusing_engine 0) plain_host)
          [LUserdata KEnv 1%positive; LString (bytes "db"); LString (bytes "u");
           LString (bytes "p")] one_env_world
        = Ret [LNil; LString (bytes "refused")] w'
        /\ trace w' = [isc_attach_database 2 (bytes "db") 10 small_dpb]
        /\ conns w' = conns one_env_world)
  /\ (exists w',
        call_from_lua (env_connect (refusing_engine 1) plain_host)
          [LUserdata KEnv 1%positive; LString (bytes "db"); LString (bytes "u");
           LString (bytes "p")] one_env_world
        = Ret [LNil; LString (bytes "refused")] w'
        /\ trace w' = [isc_attach_database 2 (bytes "db") 10 small_dpb;
                       isc_start_transaction 0 isc_tpb]
        /\ conns w' = conns one_env_world).
Proof.
  assert (Hdpb : construct_dpb (bytes "u") (bytes "p") = Some small_dpb)
    by (vm_compute; reflexivity).
  split; [reflexivity|]. split; [reflexivity|]. split; [exact Hdpb|]. split.
  - destruct (proj1 (env_connect_failure_leaves_no_connection (refusing_engine 0)
                       plain_host one_env_world 1%positive open_env (bytes "db")
                       (bytes "u") (bytes "p") small_dpb eq_refl eq_refl Hdpb) eq_refl)
      as (w' & Hrun & Ht & Hc & _).
    exists w'. split; [exact Hrun|]. split; [exact Ht|exact Hc].
  - destruct (proj2 (env_connect_failure_leaves_no_connection (refusing_engine 1)
                       plain_host one_env_world 1%positive open_env (bytes "db")
                       (bytes "u") (bytes "p") small_dpb eq_refl eq_refl Hdpb)
                eq_refl eq_refl)
      as (w' & Hrun & Ht & Hc & _).
    exists w'. split; [exact Hrun|]. split; [exact Ht|exact Hc].
Defined.

Section Shutting.

Variable engine : Engine.

(** [stmt_shut] with an engine that accepts the drop. *)
Lemma stmt_shut_runs (w : World) (sp : ptr) (stmt : stmt_data) (env : env_data)
  (conn : conn_data) :
  stmts w !! sp = Some stmt ->
  envs w !! stmt_env stmt = Some env ->
  conns w !! stmt_conn stmt = Some conn ->
  in_sqlda stmt <> Dangling ->
  let c := isc_dsql_free_statement (handle stmt) DSQL_drop in
  let r := isc engine (trace w) c in
  CHECK_DB_ERROR (rp_status r) = false ->
  stmt_shut engine sp w
    = Ret 0 (with_registry (released (conn_lock conn - 1) (KConn, stmt_conn stmt))
               (with_conns <[stmt_conn stmt := set_conn_lock (conn_lock conn - 1) conn]>
                  (with_stmts <[sp := dropped_stmt stmt (rp_handle r)]>
                     (answered engine (stmt_env stmt) env c w)))).
Proof.
  intros Hs He Hc Hlive c r Hr.
  unfold stmt_shut, free_stmt, free_xsqlda, unregisterobj, released. monad_simpl.
  rewrite Hs. crunch. rewrite He. crunch. fold c. fold r. rewrite Hr. crunch.
  destruct (in_sqlda stmt) as [|da|] eqn:Eda; [| |contradiction];
    crunch; rewrite Hc; crunch;
    destruct (decide (conn_lock conn - 1 = 0)); crunch;
    unfold dropped_stmt; rewrite Eda; f_equal; world_eq.
Qed.

(** [stmt_shut] with an engine that refuses the drop. *)
Lemma stmt_shut_refused (w : World) (sp : ptr) (stmt : stmt_data) (env : env_data) :
  stmts w !! sp = Some stmt ->
  envs w !! stmt_env stmt = Some env ->
  let c := isc_dsql_free_statement (handle stmt) DSQL_drop in
  let r := isc engine (trace w) c in
  CHECK_DB_ERROR (rp_status r) = true ->
  stmt_shut engine sp w
    = Ret 2 (with_stack (fun st => st ++ db_error engine (rp_status r))
               (with_stmts <[sp := set_stmt_handle (rp_handle r) stmt]>
                  (answered engine (stmt_env stmt) env c w))).
Proof.
  intros Hs He c r Hr.
  unfold stmt_shut, return_db_error, db_error, error_text. monad_simpl.
  rewrite Hs. crunch. rewrite He. crunch. fold c. fold r. rewrite Hr. crunch.
  f_equal. world_eq.
Qed.

(** [cur_shut] with an engine that accepts the close, on a cursor whose
    statement stays: it has other cursors or is not hidden. *)
Lemma cur_shut_runs_visible (w : World) (cp : ptr) (cur : cur_data) (stmt : stmt_data)
  (env : env_data) (da : XSQLDA) :
  curs w !! cp = Some cur ->
  stmts w !! cur_stmt cur = Some stmt ->
  envs w !! cur_env cur = Some env ->
  out_sqlda cur = Live da ->
  let c := isc_dsql_free_statement (handle stmt) DSQL_close in
  let r := isc engine (trace w) c in
  CHECK_DB_ERROR (rp_status r) = false ->
  stmt_lock stmt - 1 <> 0 \/ hidden stmt = 0 ->
  cur_shut engine cp w
    = Ret 0 (with_registry (released (stmt_lock stmt - 1) (KStmt, cur_stmt cur))
               (with_stmts <[cur_stmt cur := set_stmt_lock (stmt_lock stmt - 1) stmt]>
                  (with_curs <[cp := closed_cur cur]>
                     (answered engine (cur_env cur) env c w)))).
Proof.
  intros Hcur Hs He Hda c r Hr Hstays.
  unfold cur_shut, free_cur, free_xsqlda, unregisterobj, released. monad_simpl.
  rewrite Hcur. crunch. rewrite Hs. crunch. rewrite He. crunch. fold c. fold r.
  rewrite Hr. crunch. rewrite Hda. crunch. rewrite Hs. crunch.
  destruct (decide (stmt_lock stmt - 1 = 0)) as [Hlast|Hmore]; crunch; [|reflexivity].
  destruct (decide (hidden stmt <> 0)) as [Hhid|_]; [|reflexivity].
  destruct Hstays; contradiction.
Qed.

(** [cur_shut] with an engine that refuses the close. *)
Lemma cur_shut_refused (w : World) (cp : ptr) (cur : cur_data) (stmt : stmt_data)
  (env : env_data) :
  curs w !! cp = Some cur ->
  stmts w !! cur_stmt cur = Some stmt ->
  envs w !! cur_env cur = Some env ->
  let c := isc_dsql_free_statement (handle stmt) DSQL_close in
  let r := isc engine (trace w) c in
  CHECK_DB_ERROR (rp_status r) = true ->
  cur_shut engine cp w
    = Ret 2 (with_stack (fun st => st ++ db_error engine (rp_status r))
               (answered engine (cur_env cur) env c w)).
Proof.
  intros Hcur Hs He c r Hr.
  unfold cur_shut, return_db_error, db_error, error_text. monad_simpl.
  rewrite Hcur. crunch. rewrite Hs. crunch. rewrite He. crunch. fold c. fold r.
  rewrite Hr. crunch. f_equal. world_eq.
Qed.

(** What a call from Lua makes of a function that returns. *)
Lemma call_returns (f : M Z) (args : list lua_value) (w w1 : World) (n : Z) :
  f (with_stack (fun _ => args) w) = Ret n w1 ->
  call_from_lua f args w = Ret (results n w1) (with_stack (fun _ => []) w1).
Proof.
  intros H. unfold call_from_lua. monad_simpl. rewrite H. reflexivity.
Qed.

(** X6.  [close] on a statement with an open cursor (a lock count above
    0) fails with the still-open-cursors error and changes nothing.  Without
    one, the statement is dropped: when the engine refuses, [close] returns
    nil and its message and the statement stays open, its descriptor in
    place and its connection locked; when it accepts, [close] returns true,
    the statement is closed, its descriptor freed, its connection has one
    lock less and leaves the registry when that was the last. *)
Theorem stmt_close_waits_for_cursors
  (w : World) (sp : ptr) (stmt : stmt_data) (env : env_data) :
  stmts w !! sp = Some stmt ->
  envs w !! stmt_env stmt = Some env ->
  let c := isc_dsql_free_statement (handle stmt) DSQL_drop in
  let r := isc engine (trace w) c in
  (0 < stmt_lock stmt ->
     call_from_lua (stmt_close engine) [LUserdata KStmt sp] w
       = Ret (failure "there are still open cursors") (with_stack (fun _ => []) w))
  /\ (stmt_lock stmt <= 0 -> stmt_closed stmt = 0 ->
      CHECK_DB_ERROR (rp_status r) = true ->
      call_from_lua (stmt_close engine) [LUserdata KStmt sp] w
        = Ret (db_error engine (rp_status r))
            (with_stack (fun _ => [])
               (with_stmts <[sp := set_stmt_handle (rp_handle r) stmt]>
                  (answered engine (stmt_env stmt) env c w))))
  /\ (stmt_lock stmt <= 0 -> stmt_closed stmt = 0 ->
      CHECK_DB_ERROR (rp_status r) = false ->
      in_sqlda stmt <> Dangling ->
      forall conn, conns w !! stmt_conn stmt = Some conn ->
      call_from_lua (stmt_close engine) [LUserdata KStmt sp] w
        = Ret [LBoolean true]
            (with_stack (fun _ => [])
               (with_registry (released (conn_lock conn - 1) (KConn, stmt_conn stmt))
                  (with_conns
                     <[stmt_conn stmt := set_conn_lock (conn_lock conn - 1) conn]>
                     (with_stmts <[sp := dropped_stmt stmt (rp_handle r)]>
                        (answered engine (stmt_env stmt) env c w)))))).
Proof.
  intros Hs He c r. split; [|split].
  - intros Hlock.
    unfold call_from_lua, stmt_close, luaL_checkudata. monad_simpl.
    rewrite stack_at_first. simpl. rewrite Hs. simpl.
    destruct (decide (stmt_lock stmt > 0)) as [_|Hx]; [|lia]. reflexivity.
  - intros Hlock Hopen Hr.
    erewrite call_returns.
    2:{ unfold stmt_close, luaL_checkudata. monad_simpl.
        rewrite stack_at_first. simpl. rewrite Hs. simpl.
        destruct (decide (stmt_lock stmt > 0)) as [Hx|_]; [lia|].
        destruct (decide (stmt_closed stmt = 0)) as [_|Hx]; [|contradiction].
        rewrite (stmt_shut_refused (with_stack (fun _ => [LUserdata KStmt sp]) w) sp stmt env Hs He Hr).
        destruct (decide (2 <> 0)) as [_|Hx]; [|exfalso; apply Hx; discriminate]. reflexivity. }
    reflexivity.
  - intros Hlock Hopen Hr Hlive conn Hc.
    erewrite call_returns.
    2:{ unfold stmt_close, luaL_checkudata. monad_simpl.
        rewrite stack_at_first. simpl. rewrite Hs. simpl.
        destruct (decide (stmt_lock stmt > 0)) as [Hx|_]; [lia|].
        destruct (decide (stmt_closed stmt = 0)) as [_|Hx]; [|contradiction].
        rewrite (stmt_shut_runs (with_stack (fun _ => [LUserdata KStmt sp]) w) sp stmt env conn Hs He Hc Hlive Hr).
        destruct (decide (0 <> 0)) as [Hx|_]; [contradiction|]. reflexivity. }
    reflexivity.
Qed.

(** X7.  [close] on an open cursor closes the native cursor.  When the
    engine refuses, [close] returns nil and its message and the cursor
    stays open.  When it accepts, the cursor is closed and its descriptor
    freed, and its statement has one lock less and leaves the registry when
    that was the last; [close] returns true, unless the statement is to be
    dropped and the engine refuses that.  A hidden statement (one that
    [execute] on a connection made) is dropped with its last cursor: when
    the engine accepts the drop, the statement is closed too, its
    connection has one lock less and [close] returns true; when the engine
    refuses the drop, [close] returns nil and the engine's message, the
    cursor is closed all the same, and the statement stays open with its
    connection locked. *)
Theorem cur_close_releases_statement
  (w : World) (cp : ptr) (cur : cur_data) (stmt : stmt_data) (env : env_data)
  (da : XSQLDA) :
  curs w !! cp = Some cur ->
  cur_closed cur = 0 ->
  stmts w !! cur_stmt cur = Some stmt ->
  envs w !! cur_env cur = Some env ->
  out_sqlda cur = Live da ->
  let sp := cur_stmt cur in
  let c := isc_dsql_free_statement (handle stmt) DSQL_close in
  let r := isc engine (trace w) c in
  (CHECK_DB_ERROR (rp_status r) = true ->
     call_from_lua (cur_close engine) [LUserdata KCur cp] w
       = Ret (db_error engine (rp_status r))
           (with_stack (fun _ => []) (answered engine (cur_env cur) env c w)))
  /\ (CHECK_DB_ERROR (rp_status r) = false ->
      stmt_lock stmt - 1 <> 0 \/ hidden stmt = 0 ->
      call_from_lua (cur_close engine) [LUserdata KCur cp] w
        = Ret [LBoolean true]
            (with_stack (fun _ => [])
               (with_registry (released (stmt_lock stmt - 1) (KStmt, sp))
                  (with_stmts <[sp := set_stmt_lock (stmt_lock stmt - 1) stmt]>
                     (with_curs <[cp := closed_cur cur]>
                        (answered engine (cur_env cur) env c w))))))
  /\ (CHECK_DB_ERROR (rp_status r) = false ->
      stmt_lock stmt = 1 -> hidden stmt <> 0 ->
      stmt_env stmt = cur_env cur -> in_sqlda stmt <> Dangling ->
      forall conn, conns w !! stmt_conn stmt = Some conn ->
      let c2 := isc_dsql_free_statement (handle stmt) DSQL_drop in
      let r2 := isc engine (trace w ++ [c]) c2 in
      CHECK_DB_ERROR (rp_status r2) = false ->
      exists w',
        call_from_lua (cur_close engine) [LUserdata KCur cp] w = Ret [LBoolean true] w'
        /\ trace w' = trace w ++ [c; c2]
        /\ curs w' = <[cp := closed_cur cur]> (curs w)
        /\ stmts w' = <[sp := dropped_stmt (set_stmt_lock 0 stmt) (rp_handle r2)]> (stmts w)
        /\ conns w' = <[stmt_conn stmt := set_conn_lock (conn_lock conn - 1) conn]> (conns w)
        /\ registry w' = released (conn_lock conn - 1) (KConn, stmt_conn stmt)
                           (delete (KStmt, sp) (registry w)))
  /\ (CHECK_DB_ERROR (rp_status r) = false ->
      stmt_lock stmt = 1 -> hidden stmt <> 0 ->
      stmt_env stmt = cur_env cur ->
      let c2 := isc_dsql_free_statement (handle stmt) DSQL_drop in
      let r2 := isc engine (trace w ++ [c]) c2 in
      CHECK_DB_ERROR (rp_status r2) = true ->
      exists w',
        call_from_lua (cur_close engine) [LUserdata KCur cp] w
          = Ret (db_error engine (rp_status r2)) w'
        /\ trace w' = trace w ++ [c; c2]
        /\ curs w' = <[cp := closed_cur cur]> (curs w)
        /\ stmts w' = <[sp := set_stmt_handle (rp_handle r2) (set_stmt_lock 0 stmt)]>
                        (stmts w)
        /\ conns w' = conns w
        /\ registry w' = delete (KStmt, sp) (registry w)).
Proof.
  intros Hcur Hopen Hs He Hda sp c r. split; [|split; [|split]].
  - intros Hr.
    erewrite call_returns.
    2:{ unfold cur_close, luaL_checkudata. monad_simpl.
        rewrite stack_at_first. simpl. rewrite Hcur. simpl.
        destruct (decide (cur_closed cur = 0)) as [_|Hx]; [|contradiction].
        rewrite (cur_shut_refused (with_stack (fun _ => [LUserdata KCur cp]) w) cp cur stmt env Hcur Hs He Hr).
        destruct (decide (2 <> 0)) as [_|Hx]; [|exfalso; apply Hx; discriminate]. reflexivity. }
    reflexivity.
  - intros Hr Hstays.
    erewrite call_returns.
    2:{ unfold cur_close, luaL_checkudata. monad_simpl.
        rewrite stack_at_first. simpl. rewrite Hcur. simpl.
        destruct (decide (cur_closed cur = 0)) as [_|Hx]; [|contradiction].
        rewrite (cur_shut_runs_visible (with_stack (fun _ => [LUserdata KCur cp]) w) cp cur stmt env da Hcur Hs He Hda Hr Hstays).
        destruct (decide (0 <> 0)) as [Hx|_]; [contradiction|]. reflexivity. }
    reflexivity.
  - intros Hr Hlast Hhid Henv Hlive conn Hc c2 r2 Hr2.
    erewrite call_returns.
    2:{ unfold cur_close, luaL_checkudata. monad_simpl.
        rewrite stack_at_first. simpl. rewrite Hcur. simpl.
        destruct (decide (cur_closed cur = 0)) as [_|Hx]; [|contradiction].
        unfold cur_shut, free_cur, free_xsqlda, unregisterobj. monad_simpl.
        rewrite Hcur. crunch. rewrite Hs. crunch. rewrite He. crunch.
        fold c. fold r. rewrite Hr. crunch. rewrite Hda. crunch. rewrite Hs. crunch.
        rewrite Hlast.
        destruct (decide (1 - 1 = 0)) as [_|Hx]; [|contradiction]. crunch.
        destruct (decide (hidden stmt <> 0)) as [_|Hx]; [|contradiction].
        erewrite (stmt_shut_runs _ (cur_stmt cur) (set_stmt_lock 0 stmt) _ conn).
        - destruct (decide (0 <> 0)) as [Hx|_]; [contradiction|]. reflexivity.
        - crunch. reflexivity.
        - crunch. rewrite Henv. apply lookup_insert_eq.
        - exact Hc.
        - exact Hlive.
        - exact Hr2. }
    eexists. split; [reflexivity|]. crunch.
    rewrite <- app_assoc, !insert_insert_eq. unfold registry_set. repeat split.
  - intros Hr Hlast Hhid Henv c2 r2 Hr2.
    erewrite call_returns.
    2:{ unfold cur_close, luaL_checkudata. monad_simpl.
        rewrite stack_at_first. simpl. rewrite Hcur. simpl.
        destruct (decide (cur_closed cur = 0)) as [_|Hx]; [|contradiction].
        unfold cur_shut, free_cur, free_xsqlda, unregisterobj. monad_simpl.
        rewrite Hcur. crunch. rewrite Hs. crunch. rewrite He. crunch.
        fold c. fold r. rewrite Hr. crunch. rewrite Hda. crunch. rewrite Hs. crunch.
        rewrite Hlast.
        destruct (decide (1 - 1 = 0)) as [_|Hx]; [|contradiction]. crunch.
        destruct (decide (hidden stmt <> 0)) as [_|Hx]; [|contradiction].
        erewrite (stmt_shut_refused _ (cur_stmt cur) (set_stmt_lock 0 stmt)).
        - destruct (decide (2 <> 0)) as [_|Hx]; [|exfalso; apply Hx; discriminate].
          reflexivity.
        - crunch. reflexivity.
        - crunch. rewrite Henv. apply lookup_insert_eq.
        - exact Hr2. }
    eexists. split; [reflexivity|]. crunch.
    rewrite <- app_assoc, !insert_insert_eq. unfold registry_set. repeat split.
Qed.

(** X8.  Collection of a handle.  A closed connection, statement or
    cursor, and any environment, is left as it is.  An open connection is
    closed whatever its lock count and whatever the engine answers: its
    transaction is ended by autocommit, its database detached, and its
    environment has one lock less.  An open statement is dropped whatever
    its lock count, when the engine accepts the drop. *)
Theorem collection_ignores_locks (w : World) (p : ptr) :
  (forall conn, conns w !! p = Some conn -> conn_closed conn <> 0 ->
     call_from_lua (conn_gc engine) [LUserdata KConn p] w
       = Ret [] (with_stack (fun _ => []) w))
  /\ (forall stmt, stmts w !! p = Some stmt -> stmt_closed stmt <> 0 ->
     call_from_lua (stmt_gc engine) [LUserdata KStmt p] w
       = Ret [] (with_stack (fun _ => []) w))
  /\ (forall cur, curs w !! p = Some cur -> cur_closed cur <> 0 ->
     call_from_lua (cur_gc engine) [LUserdata KCur p] w
       = Ret [] (with_stack (fun _ => []) w))
  /\ (forall v, call_from_lua env_gc [v] w = Ret [] (with_stack (fun _ => []) w))
  /\ (forall conn env, conns w !! p = Some conn -> conn_closed conn = 0 ->
      envs w !! conn_env conn = Some env ->
      let c1 := end_transaction conn in
      let r1 := isc engine (trace w) c1 in
      let c2 := isc_detach_database (db conn) in
      let r2 := isc engine (trace w ++ [c1]) c2 in
      call_from_lua (conn_gc engine) [LUserdata KConn p] w
        = Ret []
            (with_stack (fun _ => [])
               (with_registry (released (env_lock env - 1) (KEnv, conn_env conn))
                  (with_envs <[conn_env conn :=
                                 {| env_closed := env_closed env;
                                    env_lock := env_lock env - 1;
                                    status_vector := rp_status r2 |}]>
                     (with_conns <[p := closed_conn conn (rp_handle r1) (rp_handle r2)]>
                        (with_trace (fun t => t ++ [c1; c2]) w))))))
  /\ (forall stmt env conn, stmts w !! p = Some stmt -> stmt_closed stmt = 0 ->
      envs w !! stmt_env stmt = Some env ->
      conns w !! stmt_conn stmt = Some conn ->
      in_sqlda stmt <> Dangling ->
      let c := isc_dsql_free_statement (handle stmt) DSQL_drop in
      let r := isc engine (trace w) c in
      CHECK_DB_ERROR (rp_status r) = false ->
      call_from_lua (stmt_gc engine) [LUserdata KStmt p] w
        = Ret []
            (with_stack (fun _ => [])
               (with_registry (released (conn_lock conn - 1) (KConn, stmt_conn stmt))
                  (with_conns
                     <[stmt_conn stmt := set_conn_lock (conn_lock conn - 1) conn]>
                     (with_stmts <[p := dropped_stmt stmt (rp_handle r)]>
                        (answered engine (stmt_env stmt) env c w)))))).
Proof.
  split; [|split; [|split; [|split; [|split]]]].
  - intros conn Hp Hc.
    unfold call_from_lua, conn_gc, luaL_checkudata. monad_simpl.
    rewrite stack_at_first. simpl. rewrite Hp. simpl.
    destruct (decide (conn_closed conn = 0)) as [Hx|_]; [contradiction|]. reflexivity.
  - intros stmt Hp Hc.
    unfold call_from_lua, stmt_gc, luaL_checkudata. monad_simpl.
    rewrite stack_at_first. simpl. rewrite Hp. simpl.
    destruct (decide (stmt_closed stmt = 0)) as [Hx|_]; [contradiction|]. reflexivity.
  - intros cur Hp Hc.
    unfold call_from_lua, cur_gc, luaL_checkudata. monad_simpl.
    rewrite stack_at_first. simpl. rewrite Hp. simpl.
    destruct (decide (cur_closed cur = 0)) as [Hx|_]; [contradiction|]. reflexivity.
  - intros v. reflexivity.
  - intros conn env Hp Hopen He c1 r1 c2 r2.
    unfold call_from_lua, conn_gc, luaL_checkudata, unregisterobj, released. monad_simpl.
    rewrite stack_at_first. simpl. rewrite Hp. simpl.
    destruct (decide (conn_closed conn = 0)) as [_|Hx]; [|contradiction].
    subst r2 c2 r1 c1. unfold end_transaction.
    crunch. rewrite He. crunch.
    destruct (decide (env_lock env - 1 = 0)); crunch; f_equal; world_eq.
  - intros stmt env conn Hp Hopen He Hc Hlive c r Hr.
    erewrite call_returns.
    2:{ unfold stmt_gc, luaL_checkudata. monad_simpl.
        rewrite stack_at_first. simpl. rewrite Hp. simpl.
        destruct (decide (stmt_closed stmt = 0)) as [_|Hx]; [|contradiction].
        rewrite (stmt_shut_runs (with_stack (fun _ => [LUserdata KStmt p]) w) p stmt env conn Hp He Hc Hlive Hr).
        destruct (decide (0 <> 0)) as [Hx|_]; [contradiction|]. reflexivity. }
    reflexivity.
Qed.

End Shutting.

Lemma stmt_close_waits_for_cursors_witness :
  (stmts chain_world !! 1%positive = Some select_stmt
   /\ envs chain_world !! stmt_env select_stmt = Some held_env
   /\ 0 < stmt_lock select_stmt
   /\ call_from_lua (stmt_close quiet_engine) [LUserdata KStmt 1%positive] chain_world
      = Ret (failure "there are still open cursors") (with_stack (fun _ => []) chain_world))
  /\ (stmts prepared_world !! 1%positive = Some idle_stmt
   /\ envs prepared_world !! stmt_env idle_stmt = Some held_env
   /\ stmt_lock idle_stmt <= 0 /\ stmt_closed idle_stmt = 0
   /\ CHECK_DB_ERROR (rp_status (isc (refusing_engine 0) (trace prepared_world)
                                   (isc_dsql_free_statement 13 DSQL_drop))) = true
   /\ exists w',
        call_from_lua (stmt_close (refusing_engine 0)) [LUserdata KStmt 1%positive]
          prepared_world = Ret [LNil; LString (bytes "refused")] w'
        /\ stmts w' = <[1%positive := set_stmt_handle 0 idle_stmt]> (stmts prepared_world)
        /\ conns w' = conns prepared_world)
  /\ (stmts prepared_world !! 1%positive = Some idle_stmt
   /\ envs prepared_world !! stmt_env idle_stmt = Some held_env
   /\ stmt_lock idle_stmt <= 0 /\ stmt_closed idle_stmt = 0
   /\ CHECK_DB_ERROR (rp_status (isc quiet_engine (trace prepared_world)
                                   (isc_dsql_free_statement 13 DSQL_drop))) = false
   /\ in_sqlda idle_stmt <> Dangling
   /\ conns prepared_world !! stmt_conn idle_stmt = Some held_conn
   /\ exists w',
        call_from_lua (stmt_close quiet_engine) [LUserdata KStmt 1%positive]
          prepared_world = Ret [LBoolean true] w'
        /\ conns w' = <[1%positive := idle_conn]> (conns prepared_world)
        /\ trace w' = [isc_dsql_free_statement 13 DSQL_drop]).
Proof.
  assert (H0 : (0 : Z) < 1) by reflexivity.
  assert (H00 : (0 : Z) <= 0) by discriminate.
  assert (Hlive : in_sqlda idle_stmt <> Dangling) by discriminate.
  split; [|split].
  - split; [reflexivity|]. split; [reflexivity|]. split; [exact H0|].
    apply (proj1 (stmt_close_waits_for_cursors quiet_engine chain_world 1%positive
                    select_stmt held_env eq_refl eq_refl) H0).
  - split; [reflexivity|]. split; [reflexivity|]. split; [exact H00|].
    split; [reflexivity|]. split; [reflexivity|].
    eexists. split.
    + apply (proj1 (proj2 (stmt_close_waits_for_cursors (refusing_engine 0)
                             prepared_world 1%positive idle_stmt held_env
                             eq_refl eq_refl)) H00 eq_refl eq_refl).
    + split; vm_compute; reflexivity.
  - split; [reflexivity|]. split; [reflexivity|]. split; [exact H00|].
    split; [reflexivity|]. split; [reflexivity|]. split; [exact Hlive|].
    split; [reflexivity|].
    eexists. split.
    + apply (proj2 (proj2 (stmt_close_waits_for_cursors quiet_engine
                             prepared_world 1%positive idle_stmt held_env
                             eq_refl eq_refl)) H00 eq_refl eq_refl Hlive held_conn eq_refl).
    + split; vm_compute; reflexivity.
Defined.

Lemma cur_close_releases_statement_witness :
  (curs chain_world !! 1%positive = Some open_cur /\ cur_closed open_cur = 0
   /\ stmts chain_world !! cur_stmt open_cur = Some select_stmt
   /\ envs chain_world !! cur_env open_cur = Some held_env
   /\ CHECK_DB_ERROR (rp_status (isc (refusing_engine 0) (trace chain_world)
                                   (isc_dsql_free_statement 13 DSQL_close))) = true
   /\ exists w',
        call_from_lua (cur_close (refusing_engine 0)) [LUserdata KCur 1%positive]
          chain_world = Ret [LNil; LString (bytes "refused")] w'
        /\ curs w' = curs chain_world /\ stmts w' = stmts chain_world)
  /\ (CHECK_DB_ERROR (rp_status (isc quiet_engine (trace chain_world)
                                   (isc_dsql_free_statement 13 DSQL_close))) = false
   /\ (stmt_lock select_stmt - 1 <> 0 \/ hidden select_stmt = 0)
   /\ exists w',
        call_from_lua (cur_close quiet_engine) [LUserdata KCur 1%positive] chain_world
          = Ret [LBoolean true] w'
        /\ curs w' = <[1%positive := shut_cur]> (curs chain_world)
        /\ stmts w' = <[1%positive := idle_stmt]> (stmts chain_world)
        /\ conns w' = conns chain_world)
  /\ (curs hidden_world !! 1%positive = Some open_cur
   /\ stmts hidden_world !! cur_stmt open_cur = Some hidden_stmt
   /\ stmt_lock hidden_stmt = 1 /\ hidden hidden_stmt <> 0
   /\ stmt_env hidden_stmt = cur_env open_cur /\ in_sqlda hidden_stmt <> Dangling
   /\ conns hidden_world !! stmt_conn hidden_stmt = Some held_conn
   /\ exists w',
        call_from_lua (cur_close quiet_engine) [LUserdata KCur 1%positive] hidden_world
          = Ret [LBoolean true] w'
        /\ trace w' = [isc_dsql_free_statement 13 DSQL_close;
                       isc_dsql_free_statement 13 DSQL_drop]
        /\ conns w' = <[1%positive := idle_conn]> (conns hidden_world))
  /\ (CHECK_DB_ERROR (rp_status (isc (stubborn_engine 0 DSQL_drop) (trace hidden_world)
                                   (isc_dsql_free_statement 13 DSQL_close))) = false
   /\ CHECK_DB_ERROR (rp_status (isc (stubborn_engine 0 DSQL_drop)
                                   [isc_dsql_free_statement 13 DSQL_close]
                                   (isc_dsql_free_statement 13 DSQL_drop))) = true
   /\ exists w',
        call_from_lua (cur_close (stubborn_engine 0 DSQL_drop)) [LUserdata KCur 1%positive]
          hidden_world
        = Ret [LNil; LString (bytes "refused")] w'
        /\ curs w' = <[1%positive := shut_cur]> (curs hidden_world)
        /\ stmts w' = <[1%positive := set_stmt_handle 0 (set_stmt_lock 0 hidden_stmt)]>
                        (stmts hidden_world)
        /\ conns w' = conns hidden_world).
Proof.
  assert (H10 : (1 : Z) <> 0) by discriminate.
  assert (Hlive : in_sqlda hidden_stmt <> Dangling) by discriminate.
  assert (Hstays : stmt_lock select_stmt - 1 <> 0 \/ hidden select_stmt = 0)
    by (right; reflexivity).
  split; [|split; [|split]].
  - split; [reflexivity|]. split; [reflexivity|]. split; [reflexivity|].
    split; [reflexivity|]. split; [reflexivity|].
    eexists. split.
    + apply (proj1 (cur_close_releases_statement (refusing_engine 0) chain_world
                      1%positive open_cur select_stmt held_env _
                      eq_refl eq_refl eq_refl eq_refl eq_refl) eq_refl).
    + split; vm_compute; reflexivity.
  - split; [reflexivity|]. split; [exact Hstays|].
    eexists. split.
    + apply (proj1 (proj2 (cur_close_releases_statement quiet_engine chain_world
                             1%positive open_cur select_stmt held_env _
                             eq_refl eq_refl eq_refl eq_refl eq_refl)) eq_refl Hstays).
    + split; [|split]; vm_compute; reflexivity.
  - split; [reflexivity|]. split; [reflexivity|]. split; [reflexivity|].
    split; [exact H10|]. split; [reflexivity|]. split; [exact Hlive|].
    split; [reflexivity|].
    destruct (proj1 (proj2 (proj2 (cur_close_releases_statement quiet_engine hidden_world
                                     1%positive open_cur hidden_stmt held_env _
                                     eq_refl eq_refl eq_refl eq_refl eq_refl)))
                eq_refl eq_refl H10 eq_refl Hlive held_conn eq_refl eq_refl)
      as (w' & Hrun & Ht & _ & _ & Hc & _).
    exists w'. split; [exact Hrun|]. split; [exact Ht|exact Hc].
  - split; [reflexivity|]. split; [reflexivity|].
    destruct (proj2 (proj2 (proj2 (cur_close_releases_statement
                                     (stubborn_engine 0 DSQL_drop) hidden_world
                                     1%positive open_cur hidden_stmt held_env _
                                     eq_refl eq_refl eq_refl eq_refl eq_refl)))
                eq_refl eq_refl H10 eq_refl eq_refl)
      as (w' & Hrun & _ & Hcu & Hst & Hc & _).
    exists w'. split; [exact Hrun|]. split; [exact Hcu|]. split; [exact Hst|exact Hc].
Defined.

Lemma collection_ignores_locks_witness :
  (conns shut_world !! 1%positive = Some shut_conn /\ conn_closed shut_conn <> 0
   /\ call_from_lua (conn_gc quiet_engine) [LUserdata KConn 1%positive] shut_world
      = Ret [] (with_stack (fun _ => []) shut_world))
  /\ (stmts shut_world !! 1%positive = Some shut_stmt /\ stmt_closed shut_stmt <> 0
   /\ call_from_lua (stmt_gc quiet_engine) [LUserdata KStmt 1%positive] shut_world
      = Ret [] (with_stack (fun _ => []) shut_world))
  /\ (curs shut_world !! 1%positive = Some shut_cur /\ cur_closed shut_cur <> 0
   /\ call_from_lua (cur_gc quiet_engine) [LUserdata KCur 1%positive] shut_world
      = Ret [] (with_stack (fun _ => []) shut_world))
  /\ (conns chain_world !! 1%positive = Some held_conn /\ conn_closed held_conn = 0
   /\ envs chain_world !! conn_env held_conn = Some held_env
   /\ conn_lock held_conn = 1
   /\ exists w',
        call_from_lua (conn_gc (refusing_engine 0)) [LUserdata KConn 1%positive]
          chain_world = Ret [] w'
        /\ trace w' = [isc_rollback_transaction 12; isc_detach_database 11]
        /\ conns w' = <[1%positive := closed_conn held_conn 0 0]> (conns chain_world))
  /\ (stmts chain_world !! 1%positive = Some select_stmt /\ stmt_closed select_stmt = 0
   /\ envs chain_world !! stmt_env select_stmt = Some held_env
   /\ conns chain_world !! stmt_conn select_stmt = Some held_conn
   /\ in_sqlda select_stmt <> Dangling
   /\ stmt_lock select_stmt = 1
   /\ exists w',
        call_from_lua (stmt_gc quiet_engine) [LUserdata KStmt 1%positive] chain_world
          = Ret [] w'
        /\ stmts w' = <[1%positive := dropped_stmt select_stmt 0]> (stmts chain_world)
        /\ conns w' = <[1%positive := idle_conn]> (conns chain_world)).
Proof.
  assert (H10 : (1 : Z) <> 0) by discriminate.
  assert (Hlive : in_sqlda select_stmt <> Dangling) by discriminate.
  pose proof (collection_ignores_locks quiet_engine shut_world 1%positive)
    as (Hc & Hs & Hcu & _).
  split; [|split; [|split; [|split]]].
  - split; [reflexivity|]. split; [exact H10|]. apply (Hc shut_conn); [reflexivity|exact H10].
  - split; [reflexivity|]. split; [exact H10|]. apply (Hs shut_stmt); [reflexivity|exact H10].
  - split; [reflexivity|]. split; [exact H10|].
    apply (Hcu shut_cur); [reflexivity|exact H10].
  - split; [reflexivity|]. split; [reflexivity|]. split; [reflexivity|].
    split; [reflexivity|].
    pose proof (collection_ignores_locks (refusing_engine 0) chain_world 1%positive)
      as (_ & _ & _ & _ & Hopen & _).
    eexists. split; [apply (Hopen held_conn held_env); reflexivity|].
    split; vm_compute; reflexivity.
  - split; [reflexivity|]. split; [reflexivity|]. split; [reflexivity|].
    split; [reflexivity|]. split; [exact Hlive|]. split; [reflexivity|].
    pose proof (collection_ignores_locks quiet_engine chain_world 1%positive)
      as (_ & _ & _ & _ & _ & Hopen).
    eexists. split.
    + apply (Hopen select_stmt held_env held_conn eq_refl eq_refl eq_refl eq_refl Hlive
               eq_refl).
    + split; vm_compute; reflexivity.
Defined.

Section Codec.

Lemma Z_of_byte_of_Z (z : Z) : Z_of_byte (byte_of_Z z) = z mod 256.
Proof.
  unfold Z_of_byte, byte_of_Z.
  pose proof (Z.mod_pos_bound z 256 ltac:(lia)) as Hb.
  destruct (Byte.of_N (Z.to_N (z mod 256))) as [b|] eqn:E.
  - apply Byte.to_of_N in E. rewrite E, Z2N.id by lia. reflexivity.
  - apply Byte.of_N_None_iff in E. lia.
Qed.

Lemma length_le_bytes (n : nat) : forall z, length (le_bytes n z) = n.
Proof. induction n as [|n IH]; intros z; simpl; [reflexivity|]. rewrite IH. reflexivity. Qed.

Lemma vax_unsigned_le_bytes (n : nat) :
  forall z, vax_unsigned (le_bytes n z) = z mod 256 ^ Z.of_nat n.
Proof.
  induction n as [|n IH]; intros z.
  - simpl. rewrite Z.mod_1_r. reflexivity.
  - cbn [le_bytes vax_unsigned]. rewrite Z_of_byte_of_Z, IH.
    rewrite Nat2Z.inj_succ, Z.pow_succ_r by lia.
    rewrite Z.rem_mul_r by (try apply Z.pow_pos_nonneg; lia). reflexivity.
Qed.

Lemma wrap_signed_mod (b z : Z) : 0 < b -> wrap_signed b (z mod 2 ^ b) = wrap_signed b z.
Proof. intros Hb. unfold wrap_signed. rewrite Zplus_mod_idemp_l. reflexivity. Qed.

Lemma wrap_signed_small (b z : Z) :
  0 < b -> - 2 ^ (b - 1) <= z < 2 ^ (b - 1) -> wrap_signed b z = z.
Proof.
  intros Hb Hz. unfold wrap_signed.
  assert (H2 : 2 ^ b = 2 * 2 ^ (b - 1)).
  { rewrite <- Z.pow_succ_r by lia. f_equal. lia. }
  rewrite Z.mod_small by lia. lia.
Qed.

(** The signed integer that [n] little-endian bytes hold is read back. *)
Lemma wrap_signed_le_bytes (n : nat) (z : Z) :
  (1 <= n)%nat ->
  - 2 ^ (8 * Z.of_nat n - 1) <= z < 2 ^ (8 * Z.of_nat n - 1) ->
  wrap_signed (8 * Z.of_nat n) (vax_unsigned (le_bytes n z)) = z.
Proof.
  intros Hn Hz. rewrite vax_unsigned_le_bytes.
  change 256 with (2 ^ 8). rewrite <- Z.pow_mul_r by lia.
  rewrite wrap_signed_mod by lia. apply wrap_signed_small; lia.
Qed.

Lemma isc_vax_integer_le_bytes (n : nat) (z : Z) (rest : list byte) :
  (1 <= n <= 4)%nat ->
  - 2 ^ (8 * Z.of_nat n - 1) <= z < 2 ^ (8 * Z.of_nat n - 1) ->
  isc_vax_integer (le_bytes n z ++ rest) (Z.of_nat n) = z.
Proof.
  intros Hn Hz. unfold isc_vax_integer.
  destruct (decide (Z.of_nat n <= 0 \/ 4 < Z.of_nat n)) as [Hx|_]; [lia|].
  rewrite Nat2Z.id, take_app_length' by (rewrite length_le_bytes; reflexivity).
  apply wrap_signed_le_bytes; [lia|exact Hz].
Qed.

Lemma to_int_small (z : Z) : - 2 ^ 31 <= z < 2 ^ 31 -> to_int z = z.
Proof. intros Hz. apply wrap_signed_small; [lia|exact Hz]. Qed.

End Codec.

Section Decoding.

Variable engine : Engine.
Variable host : Host.
Variable fuel : nat.

Lemma pow2_le_31 (n : nat) : (n <= 4)%nat -> 2 ^ (8 * Z.of_nat n - 1) <= 2 ^ 31.
Proof. intros Hn. apply Z.pow_le_mono_r; lia. Qed.

(** A written byte is read as it stands. *)
Lemma buffer_at_middle (pre post : list byte) (x : byte) (w : World) :
  buffer_at (pre ++ x :: post) (Z.of_nat (length pre)) w = Ret (Z_of_byte x) w.
Proof.
  unfold buffer_at. destruct (decide _) as [Hx|_]; [lia|].
  rewrite Nat2Z.id, list_lookup_middle by reflexivity. reflexivity.
Qed.

(** No byte of an empty answer can be read. *)
Lemma buffer_at_unwritten (buf : list byte) (i : Z) (w : World) :
  Z.of_nat (length buf) <= i ->
  exists why, buffer_at buf i w = Fault why.
Proof.
  intros Hi. unfold buffer_at. destruct (decide _) as [Hx|_]; [lia|].
  rewrite lookup_ge_None_2 by lia. eexists. reflexivity.
Qed.

Lemma buffer_from_app (pre post : list byte) (k : Z) :
  0 <= k ->
  buffer_from (pre ++ post) (Z.of_nat (length pre) + k) = drop (Z.to_nat k) post.
Proof.
  intros Hk. unfold buffer_from.
  replace (Z.to_nat (Z.of_nat (length pre) + k)) with (length pre + Z.to_nat k)%nat by lia.
  apply drop_app_add.
Qed.

(** An integer of 1 to 4 written bytes is read back as it was written. *)
Lemma buffer_integer_at (pre post : list byte) (n : nat) (z i : Z) (w : World) :
  i = Z.of_nat (length pre) ->
  (1 <= n <= 4)%nat ->
  - 2 ^ (8 * Z.of_nat n - 1) <= z < 2 ^ (8 * Z.of_nat n - 1) ->
  buffer_integer (pre ++ le_bytes n z ++ post) i (Z.of_nat n) w = Ret z w.
Proof.
  intros -> Hn Hz. pose proof (pow2_le_31 n ltac:(lia)) as Hp.
  unfold buffer_integer.
  destruct (decide _) as [Hx|_]; [lia|].
  destruct (decide _) as [_|Hx].
  - replace (Z.of_nat (length pre)) with (Z.of_nat (length pre) + 0) by lia.
    rewrite buffer_from_app by lia. change (drop (Z.to_nat 0) ?l) with l.
    rewrite isc_vax_integer_le_bytes by (lia || exact Hz).
    rewrite to_int_small by lia. reflexivity.
  - exfalso. apply Hx. rewrite !length_app, length_le_bytes. lia.
Qed.

(** The type item at the head of a buffer is read back, whatever follows. *)
Lemma read_statement_type_item (n : nat) (t : Z) (rest : list byte) (w : World) :
  (1 <= n <= 4)%nat ->
  - 2 ^ (8 * Z.of_nat n - 1) <= t < 2 ^ (8 * Z.of_nat n - 1) ->
  read_statement_type (info_item x15 n t ++ rest) w = Ret t w.
Proof.
  intros Hn Ht.
  assert (H0 : buffer_at (info_item x15 n t ++ rest) 0 w = Ret (Z_of_byte x15) w)
    by exact (buffer_at_middle [] _ x15 w).
  assert (H1 : buffer_integer (info_item x15 n t ++ rest) 1 2 w = Ret (Z.of_nat n) w).
  { apply (buffer_integer_at [x15] (le_bytes n t ++ rest) 2 (Z.of_nat n) 1 w);
      [reflexivity|lia|simpl; lia]. }
  assert (H3 : buffer_integer (info_item x15 n t ++ rest) 3 (Z.of_nat n) w = Ret t w).
  { apply (buffer_integer_at ([x15] ++ le_bytes 2 (Z.of_nat n)) rest n t 3 w);
      [reflexivity|lia|exact Ht]. }
  unfold read_statement_type. monad_simpl. rewrite H0.
  destruct (decide _) as [_|Hx]; [|exfalso; apply Hx; reflexivity].
  rewrite H1, H3. reflexivity.
Qed.

(** X9.  [get_statement_type] asks the engine for the type item.  It
    returns -1 when the status vector reports an error, -2 when the first
    byte the engine wrote is not the type item, and otherwise the integer
    the item holds: a value of 1 to 4 bytes, least significant byte first,
    is read back as it was written.  When the engine reports no error and
    writes nothing, the first byte read is one of an array that was never
    initialised, and the result is not defined. *)
Theorem statement_type_is_read_from_the_info_buffer
  (w : World) (stmt : stmt_data) (env : env_data) :
  envs w !! stmt_env stmt = Some env ->
  let c := isc_dsql_sql_info (handle stmt) [isc_info_sql_stmt_type] 88 in
  let r := isc engine (trace w) c in
  let failed := st_is 1 (sv_at (rp_status r) 0) && st_positive (sv_at (rp_status r) 1) in
  let w' := answered engine (stmt_env stmt) env c w in
  (failed = true -> get_statement_type engine stmt w = Ret (-1) w')
  /\ (failed = false ->
      forall (b : byte) (rest : list byte),
        rp_buffer r = b :: rest ->
        Z_of_byte b <> isc_info_sql_stmt_type ->
        get_statement_type engine stmt w = Ret (-2) w')
  /\ (failed = false ->
      forall (n : nat) (t : Z) (rest : list byte),
        (1 <= n <= 4)%nat ->
        - 2 ^ (8 * Z.of_nat n - 1) <= t < 2 ^ (8 * Z.of_nat n - 1) ->
        rp_buffer r = info_item x15 n t ++ rest ->
        get_statement_type engine stmt w = Ret t w')
  /\ (failed = false -> rp_buffer r = [] ->
      exists why, get_statement_type engine stmt w = Fault why).
Proof.
  intros He c r failed w'.
  assert (Hrun : get_statement_type engine stmt w
                 = if failed then Ret (-1) w'
                   else read_statement_type (take 88 (rp_buffer r)) w').
  { unfold get_statement_type. monad_simpl. rewrite He. crunch. fold c. fold r.
    fold failed. destruct failed; reflexivity. }
  split; [|split; [|split]].
  - intros Hf. rewrite Hrun, Hf. reflexivity.
  - intros Hf b rest Hbuf Hhead. rewrite Hrun, Hf, Hbuf.
    assert (H0 : buffer_at (take 88 (b :: rest)) 0 w' = Ret (Z_of_byte b) w')
      by exact (buffer_at_middle [] (take 87 rest) b w').
    unfold read_statement_type. monad_simpl. rewrite H0.
    destruct (decide _) as [Hx|_]; [contradiction|reflexivity].
  - intros Hf n t rest Hn Ht Hbuf. rewrite Hrun, Hf.
    rewrite Hbuf, take_app_ge.
    + apply read_statement_type_item; assumption.
    + unfold info_item. rewrite !length_app, !length_le_bytes. simpl. lia.
  - intros Hf Hbuf. rewrite Hrun, Hf, Hbuf.
    unfold read_statement_type. monad_simpl.
    destruct (buffer_at_unwritten (take 88 []) 0 w' ltac:(simpl; lia)) as [why Hwhy].
    rewrite Hwhy. eexists. reflexivity.
Qed.

(** X10.  An integer bound to a parameter of an integer type is stored as
    an INT64 of 8 bytes, least significant first, with the null flag
    cleared; the driver's own reader of an INT64 column gives the integer
    back from those bytes. *)
Theorem integer_parameter_round_trip
  (stmt : stmt_data) (var : XSQLVAR) (v : lua_value) (pre : list lua_value) (w : World) :
  is_integer_column (base_type (sqltype var)) = true ->
  v <> LNil ->
  stack w = pre ++ [v] ->
  - 2 ^ 63 <= tonumber_int64 host v < 2 ^ 63 ->
  let slot := bound_slot var (SQL_INT64 + 1) 8 (le_bytes 8 (tonumber_int64 host v)) in
  set_param engine host stmt var w = Ret slot w
  /\ forall cur da i w1,
       out_sqlda cur = Live da ->
       sqlvar da !! Z.to_nat i = Some slot ->
       push_column engine host fuel i cur w1
         = Ret tt (with_stack (fun st => st ++ [LInteger (tonumber_int64 host v)]) w1).
Proof.
  intros Hint Hv Hst Hrange slot.
  assert (Htext : is_text_column (base_type (sqltype var)) = false).
  { unfold is_integer_column, is_text_column in *.
    apply bool_decide_eq_true_1 in Hint. apply bool_decide_eq_false_2.
    unfold SQL_INT64, SQL_LONG, SQL_SHORT, SQL_VARYING, SQL_BLOB, SQL_TEXT in *. lia. }
  split.
  - unfold set_param. monad_simpl. rewrite Hst, stack_at_top.
    assert (Hbt : forall i, base_type (sqltype (set_sqlind i var)) = base_type (sqltype var))
      by reflexivity.
    destruct (sqlind var) as [ind|] eqn:Eind;
      destruct v; try contradiction;
      rewrite ?Hbt, Htext, Hint; unfold fill_param; cbn [sqlind set_sqlind];
      rewrite ?Eind; reflexivity.
  - intros cur da i w1 Hda Hslot.
    unfold push_column. monad_simpl. rewrite Hda. crunch. rewrite Hslot.
    cbn [slot bound_slot sqlind sqltype sqldata Z.eqb negb].
    change (base_type (SQL_INT64 + 1)) with SQL_INT64.
    repeat (destruct (decide _) as [Hx|_]; [discriminate Hx|]).
    destruct (decide (SQL_INT64 = SQL_INT64)) as [_|Hx]; [|contradiction].
    unfold read_signed, read_bytes.
    change (take (Z.to_nat 8) (drop (Z.to_nat 0) (le_bytes 8 (tonumber_int64 host v))))
      with (le_bytes 8 (tonumber_int64 host v)).
    change (8 * 8) with (8 * Z.of_nat 8).
    rewrite wrap_signed_le_bytes by (lia || exact Hrange). reflexivity.
Qed.

End Decoding.

Lemma statement_type_is_read_from_the_info_buffer_witness :
  let c := isc_dsql_sql_info 13 [isc_info_sql_stmt_type] 88 in
  envs chain_world !! stmt_env select_stmt = Some held_env
  /\ get_statement_type (refusing_engine 0) select_stmt chain_world
     = Ret (-1) (answered (refusing_engine 0) 1%positive held_env c chain_world)
  /\ get_statement_type (informing_engine [x01]) select_stmt chain_world
     = Ret (-2) (answered (informing_engine [x01]) 1%positive held_env c chain_world)
  /\ get_statement_type (informing_engine (info_item x15 2 (-3) ++ [x01])) select_stmt
       chain_world
     = Ret (-3) (answered (informing_engine (info_item x15 2 (-3) ++ [x01])) 1%positive
                   held_env c chain_world)
  /\ exists why, get_statement_type quiet_engine select_stmt chain_world = Fault why.
Proof.
  assert (Hn : (1 <= 2 <= 4)%nat) by lia.
  assert (Ht : - 2 ^ (8 * Z.of_nat 2 - 1) <= -3 < 2 ^ (8 * Z.of_nat 2 - 1))
    by (split; [discriminate|reflexivity]).
  assert (Hhead : Z_of_byte x01 <> isc_info_sql_stmt_type) by discriminate.
  split; [reflexivity|]. split; [|split; [|split]].
  - apply (proj1 (statement_type_is_read_from_the_info_buffer (refusing_engine 0)
                    chain_world select_stmt held_env eq_refl) eq_refl).
  - apply (proj1 (proj2 (statement_type_is_read_from_the_info_buffer
                           (informing_engine [x01])
                           chain_world select_stmt held_env eq_refl))
             eq_refl x01 [] eq_refl Hhead).
  - apply (proj1 (proj2 (proj2 (statement_type_is_read_from_the_info_buffer
                                  (informing_engine (info_item x15 2 (-3) ++ [x01]))
                                  chain_world select_stmt held_env eq_refl)))
             eq_refl 2%nat (-3) [x01] Hn Ht eq_refl).
  - apply (proj2 (proj2 (proj2 (statement_type_is_read_from_the_info_buffer quiet_engine
                                  chain_world select_stmt held_env eq_refl)))
             eq_refl eq_refl).
Defined.

Lemma integer_parameter_round_trip_witness :
  let w := with_stack (fun _ => [LUserdata KStmt 1%positive; LInteger (-42)]) chain_world in
  let slot := bound_slot smallint_column (SQL_INT64 + 1) 8 (le_bytes 8 (-42)) in
  let cur := set_out_sqlda (Live {| version := 1; sqln := 1; sqld := 1;
                                    sqlvar := [slot] |}) open_cur in
  is_integer_column (base_type (sqltype smallint_column)) = true
  /\ LInteger (-42) <> LNil
  /\ - 2 ^ 63 <= tonumber_int64 plain_host (LInteger (-42)) < 2 ^ 63
  /\ set_param quiet_engine plain_host select_stmt smallint_column w = Ret slot w
  /\ push_column quiet_engine plain_host 1%nat 0 cur chain_world
     = Ret tt (with_stack (fun st => st ++ [LInteger (-42)]) chain_world).
Proof.
  intros w slot cur.
  assert (Hv : LInteger (-42) <> LNil) by discriminate.
  assert (Hr : - 2 ^ 63 <= tonumber_int64 plain_host (LInteger (-42)) < 2 ^ 63)
    by (split; [discriminate|reflexivity]).
  pose proof (integer_parameter_round_trip quiet_engine plain_host 1 select_stmt
                smallint_column (LInteger (-42)) [LUserdata KStmt 1%positive] w
                eq_refl Hv eq_refl Hr) as [Hset Hget].
  split; [reflexivity|]. split; [exact Hv|]. split; [exact Hr|]. split; [exact Hset|].
  apply (Hget cur {| version := 1; sqln := 1; sqld := 1; sqlvar := [slot] |} 0 chain_world);
    reflexivity.
Defined.

Section Executing.

Variable engine : Engine.
Variable host : Host.

(** X11.  A statement has one cursor at a time: [execute] on an open
    statement whose lock count is above 0 (and that has no parameter to
    bind) fails with the open-cursor error before any native call, and
    changes nothing. *)
Theorem execute_refuses_second_cursor
  (w : World) (sp : ptr) (stmt : stmt_data) (da : XSQLDA) (args : list lua_value) :
  stmts w !! sp = Some stmt ->
  stmt_closed stmt = 0 ->
  0 < stmt_lock stmt ->
  in_sqlda stmt = Live da ->
  sqld da <= 0 ->
  call_from_lua (stmt_execute engine host) (LUserdata KStmt sp :: args) w
    = Ret (failure "statement already has an open cursor") (with_stack (fun _ => []) w).
Proof.
  intros Hs Hopen Hlock Hda Hnone.
  erewrite call_returns.
  2:{ unfold stmt_execute, raw_execute, getstatement, luaL_checkudata, luasql_faildirect.
      monad_simpl. rewrite stack_at_first. simpl. rewrite Hs. simpl.
      rewrite bool_decide_eq_true_2 by exact Hopen. crunch. rewrite Hs, Hda. crunch.
      destruct (decide (sqld da > 0)) as [Hx|_]; [lia|]. crunch.
      destruct (decide (1 < 0)) as [Hx|_]; [discriminate Hx|].
      rewrite stack_at_first. simpl. rewrite Hs. simpl.
      rewrite bool_decide_eq_true_2 by exact Hopen. crunch. rewrite Hs. crunch.
      destruct (decide (stmt_lock stmt > 0)) as [_|Hx]; [|lia]. reflexivity. }
  f_equal.
  apply (results_top _ (LUserdata KStmt sp :: args)); [|reflexivity].
  crunch. rewrite <- app_assoc. reflexivity.
Qed.

Lemma describe_slots_length (cols : list XSQLVAR) :
  forall slots, length (describe_slots cols slots) = length slots.
Proof. induction cols as [|c cols IH]; intros [|s slots]; simpl; auto. Qed.

(** Sizing of the output descriptor with an engine that reports [N]
    columns and no error: what it returns and what it leaves alone. *)
Lemma size_out_sqlda_runs (w : World) (e : ptr) (env : env_data) (h N : Z) :
  envs w !! e = Some env ->
  accepting engine ->
  describes engine h N ->
  exists da w' env',
    size_out_sqlda engine e h w = Ret (Sized da) w'
    /\ sqld da = N /\ length (sqlvar da) = Z.to_nat (Z.max 1 N)
    /\ envs w' = <[e := env']> (envs w)
    /\ conns w' = conns w /\ stmts w' = stmts w /\ curs w' = curs w
    /\ registry w' = registry w /\ stack w' = stack w
    /\ exists t, trace w' = trace w ++ t /\ Forall (fun c => is_describe c = true) t.
Proof.
  intros He Hok Hn.
  unfold size_out_sqlda, free_xsqlda. monad_simpl. rewrite He. crunch.
  cbn [described sqld sqln]. rewrite Hn. cbn [malloc_xsqlda sqln].
  destruct (decide (N > 1)) as [Hbig|Hsmall].
  - crunch. rewrite Hok.
    eexists _, _, _. split; [reflexivity|].
    cbn [described sqld sqln sqlvar malloc_xsqlda]. rewrite Hn.
    rewrite describe_slots_length, length_replicate. crunch.
    rewrite insert_insert_eq, <- app_assoc.
    repeat split; try lia. eexists. split; [reflexivity|]. repeat constructor.
  - eexists _, _, _. split; [reflexivity|].
    cbn [described sqld sqln sqlvar malloc_xsqlda]. rewrite Hn.
    rewrite describe_slots_length, length_replicate. crunch.
    repeat split; try lia. eexists. split; [reflexivity|]. repeat constructor.
Qed.

(** A slot that [malloc_sqlda_vars] prepared has a buffer when its type is
    one the reader knows. *)
Lemma malloc_sqlda_var_ok (var : XSQLVAR) : column_ok (malloc_sqlda_var var).
Proof.
  unfold column_ok, malloc_sqlda_var, known_type. cbn [sqltype sqldata].
  intros Hknown. apply bool_decide_eq_true_1 in Hknown.
  repeat (destruct (decide _) as [_|?]; [discriminate|]).
  exfalso. tauto.
Qed.

Lemma stack_at_app_l (st l : list lua_value) (k : Z) (v : lua_value) :
  0 < k -> stack_at st k = Some v -> stack_at (st ++ l) k = Some v.
Proof.
  unfold stack_at. intros Hk. destruct (decide (0 < k)) as [_|Hx]; [|lia].
  apply lookup_app_l_Some.
Qed.

(** [raw_execute] on a statement with [N] result columns (at least one),
    with an engine that reports no error. *)
Lemma raw_execute_opens (w : World) (sp : ptr) (stmt : stmt_data) (env : env_data)
  (conn : conn_data) (N idx : Z) :
  stmts w !! sp = Some stmt ->
  stmt_closed stmt = 0 ->
  stmt_lock stmt <= 0 ->
  envs w !! stmt_env stmt = Some env ->
  conns w !! stmt_conn stmt = Some conn ->
  accepting engine ->
  describes engine (handle stmt) N ->
  1 <= N ->
  0 < statement_index w idx ->
  stack_at (stack w) (statement_index w idx) = Some (LUserdata KStmt sp) ->
  let cp := fresh (dom (curs w)) in
  exists w' t env' out,
    raw_execute engine idx w = Ret 1 w'
    /\ stack w' = stack w ++ [LUserdata KCur cp]
    /\ curs w' = <[cp := {| cur_closed := 0; cur_env := stmt_env stmt; cur_stmt := sp;
                            out_sqlda := Live out |}]> (curs w)
    /\ sqld out = N /\ length (sqlvar out) = Z.to_nat N
    /\ Forall column_ok (sqlvar out)
    /\ stmts w' = <[sp := set_stmt_lock (stmt_lock stmt + 1) stmt]> (stmts w)
    /\ envs w' = <[stmt_env stmt := env']> (envs w)
    /\ conns w' = conns w
    /\ registry w' = <[(KStmt, sp) := LUserdata KStmt sp]> (registry w)
    /\ trace w' = trace w ++ t
                   ++ [isc_dsql_set_cursor_name (handle stmt) sp;
                       isc_dsql_execute (transaction conn) (handle stmt) (in_sqlda stmt)]
    /\ Forall (fun c => is_describe c = true) t.
Proof.
  intros Hs Hopen Hlock He Hc Hok Hn HN Hk Hud cp.
  destruct (size_out_sqlda_runs w (stmt_env stmt) env (handle stmt) N He Hok Hn)
    as (out & w1 & env1 & Hsize & Hsqld & Hlen & He1 & Hc1 & Hs1 & Hcu1 & Hr1 & Hst1
        & t & Ht1 & Hdesc).
  replace (Z.max 1 N) with N in Hlen by lia.
  assert (Hout : Forall column_ok
                   (map malloc_sqlda_var (take (Z.to_nat N) (sqlvar out))
                    ++ drop (Z.to_nat N) (sqlvar out))).
  { rewrite drop_ge by lia. rewrite app_nil_r. apply List.Forall_map, Forall_forall.
    intros x _. apply malloc_sqlda_var_ok. }
  assert (Hlen' : length (map malloc_sqlda_var (take (Z.to_nat N) (sqlvar out))
                          ++ drop (Z.to_nat N) (sqlvar out)) = Z.to_nat N).
  { rewrite length_app, length_map, length_take, length_drop. lia. }
  unfold statement_index in Hk, Hud.
  unfold raw_execute, getstatement, luaL_checkudata, malloc_sqlda_vars.
  monad_simpl. rewrite Hud. simpl. rewrite Hs. simpl.
  rewrite bool_decide_eq_true_2 by exact Hopen. crunch. rewrite Hs. crunch.
  destruct (decide (stmt_lock stmt > 0)) as [Hx|_]; [lia|]. crunch.
  rewrite Hsize. crunch.
  destruct (decide (sqld out <= Z.of_nat (length (sqlvar out)))) as [_|Hx]; [|lia].
  crunch. cbn [sqld]. rewrite ?Hsqld.
  destruct (decide (N > 0)) as [_|Hx]; [|lia]. crunch.
  rewrite He1, lookup_insert_eq. crunch. rewrite Hok. crunch.
  cbn [negb]. crunch.
  rewrite Hc1. crunch. rewrite Hc. crunch. rewrite Hok. crunch.
  cbn [sqld]. rewrite ?Hsqld.
  destruct (decide (N > 0)) as [_|Hx]; [|lia].
  unfold new_cur, registerobj. monad_simpl. crunch.
  rewrite Hs1. crunch. rewrite Hs. crunch.
  rewrite Hst1, Hcu1. fold cp.
  rewrite (stack_at_app_l (stack w) _ _ _ Hk Hud), stack_at_top.
  eexists _, t, _, _. split; [reflexivity|]. crunch.
  rewrite Hst1, Hcu1, Hs1, He1, Hc1, Hr1, Ht1. fold cp.
  split.
  { rewrite length_app. simpl.
    replace (length (stack w ++ [LUserdata LUASQL_CURSOR_FIREBIRD cp]) + 1 - Z.to_nat 1)%nat
      with (length (stack w ++ [LUserdata LUASQL_CURSOR_FIREBIRD cp])) by lia.
    apply take_app_length. }
  split; [reflexivity|]. split; [reflexivity|]. split; [exact Hlen'|].
  split; [exact Hout|]. split; [reflexivity|].
  split; [rewrite !insert_insert_eq; reflexivity|]. split; [reflexivity|].
  split; [reflexivity|].
  split; [rewrite <- !app_assoc; reflexivity|exact Hdesc].
Qed.

(** X12.  [execute] on an open statement without an open cursor and
    without parameters to bind, whose result has [N] columns (at least
    one), with an engine that reports no error: the call returns a new
    cursor that is open and ready to fetch over [N] columns, each of a known
    type with a buffer; the statement has one lock more and is anchored in
    the registry; the cursor is named and the statement executed, and no
    row is fetched yet. *)
Theorem execute_opens_cursor_ready_to_fetch
  (w : World) (sp : ptr) (stmt : stmt_data) (da : XSQLDA) (env : env_data)
  (conn : conn_data) (N : Z) :
  stmts w !! sp = Some stmt ->
  stmt_closed stmt = 0 ->
  stmt_lock stmt <= 0 ->
  in_sqlda stmt = Live da ->
  sqld da <= 0 ->
  envs w !! stmt_env stmt = Some env ->
  conns w !! stmt_conn stmt = Some conn ->
  accepting engine ->
  describes engine (handle stmt) N ->
  1 <= N ->
  let cp := fresh (dom (curs w)) in
  let stmt' := set_stmt_lock (stmt_lock stmt + 1) stmt in
  exists w' t,
    call_from_lua (stmt_execute engine host) [LUserdata KStmt sp] w
      = Ret [LUserdata KCur cp] w'
    /\ curs w !! cp = None
    /\ fetch_ready w' cp sp stmt' N
    /\ registry w' = <[(KStmt, sp) := LUserdata KStmt sp]> (registry w)
    /\ conns w' = conns w
    /\ trace w' = trace w ++ t
                   ++ [isc_dsql_set_cursor_name (handle stmt) sp;
                       isc_dsql_execute (transaction conn) (handle stmt) (Live da)]
    /\ Forall (fun c => is_describe c = true) t.
Proof.
  intros Hs Hopen Hlock Hda Hnone He Hc Hok Hn HN cp stmt'.
  set (w0 := with_stack (fun _ => [LUserdata KStmt sp]) w).
  destruct (raw_execute_opens w0 sp stmt env conn N 1 Hs Hopen Hlock He Hc Hok Hn HN)
    as (w1 & t & env1 & out & Hrun & Hst1 & Hcu1 & Hsqld & Hlen & Hout & Hs1 & He1 & Hc1
        & Hr1 & Ht1 & Hdesc); [reflexivity|reflexivity|].
  subst w0. world_simpl. fold cp in Hst1, Hcu1.
  erewrite call_returns.
  2:{ unfold stmt_execute, getstatement, luaL_checkudata.
      monad_simpl. rewrite stack_at_first. simpl. rewrite Hs. simpl.
      rewrite bool_decide_eq_true_2 by exact Hopen. crunch. rewrite Hs, Hda. crunch.
      destruct (decide (sqld da > 0)) as [Hx|_]; [lia|]. crunch. exact Hrun. }
  exists (with_stack (fun _ => []) w1), t. split; [f_equal|].
  { apply (results_top _ [LUserdata KStmt sp]); [exact Hst1|reflexivity]. }
  split; [apply not_elem_of_dom, is_fresh|].
  split.
  { exists {| cur_closed := 0; cur_env := stmt_env stmt; cur_stmt := sp;
              out_sqlda := Live out |}, conn, env1, out.
    subst stmt'. crunch. rewrite Hcu1, Hs1, Hc1, He1, !lookup_insert_eq.
    repeat split; try assumption; try reflexivity; try lia.
    rewrite Hda. discriminate. }
  crunch. rewrite Hr1, Hc1, Ht1, Hda. repeat split. exact Hdesc.
Qed.

End Executing.

Lemma execute_refuses_second_cursor_witness :
  stmts chain_world !! 1%positive = Some select_stmt
  /\ stmt_closed select_stmt = 0
  /\ 0 < stmt_lock select_stmt
  /\ call_from_lua (stmt_execute quiet_engine plain_host) [LUserdata KStmt 1%positive]
       chain_world
     = Ret (failure "statement already has an open cursor")
         (with_stack (fun _ => []) chain_world).
Proof.
  assert (H0 : (0 : Z) < 1) by reflexivity.
  assert (H00 : (0 : Z) <= 0) by discriminate.
  split; [reflexivity|]. split; [reflexivity|]. split; [exact H0|].
  apply (execute_refuses_second_cursor quiet_engine plain_host chain_world 1%positive
           select_stmt _ [] eq_refl eq_refl H0 eq_refl H00).
Defined.

Section Tables.

Lemma lua_key_eqb_eq (a b : lua_key) : lua_key_eqb a b = true <-> a = b.
Proof.
  destruct a as [x|x], b as [y|y]; simpl; split; intros H;
    try discriminate H; try (injection H as ->).
  - apply Z.eqb_eq in H. subst. reflexivity.
  - apply Z.eqb_refl.
  - apply bool_decide_eq_true_1 in H. subst. reflexivity.
  - apply bool_decide_eq_true_2. reflexivity.
Qed.

Lemma lua_key_eqb_neq (a b : lua_key) : a <> b -> lua_key_eqb a b = false.
Proof.
  intros Hne. destruct (lua_key_eqb a b) eqn:E; [|reflexivity].
  apply lua_key_eqb_eq in E. contradiction.
Qed.

(** A field that was set is read back, and no other field is touched. *)
Lemma table_get_set_same (t : lua_table) (k : lua_key) (v : lua_value) :
  table_get (table_set t k v) k = v.
Proof.
  induction t as [|k0 v0 rest IH]; simpl.
  - rewrite (proj2 (lua_key_eqb_eq k k) eq_refl). reflexivity.
  - destruct (lua_key_eqb k0 k) eqn:E; simpl.
    + rewrite (proj2 (lua_key_eqb_eq k k) eq_refl). reflexivity.
    + rewrite E. exact IH.
Qed.

Lemma table_get_set_other (t : lua_table) (k k' : lua_key) (v : lua_value) :
  k <> k' -> table_get (table_set t k v) k' = table_get t k'.
Proof.
  intros Hne. induction t as [|k0 v0 rest IH]; simpl.
  - rewrite lua_key_eqb_neq by exact Hne. reflexivity.
  - destruct (lua_key_eqb k0 k) eqn:E; simpl.
    + apply lua_key_eqb_eq in E. subst k0.
      rewrite lua_key_eqb_neq by exact Hne. reflexivity.
    + destruct (lua_key_eqb k0 k'); [reflexivity|exact IH].
Qed.

Lemma stack_at_under (l : list lua_value) (k v : lua_value) :
  stack_at ((l ++ [k]) ++ [v]) (-2) = Some k.
Proof.
  unfold stack_at. destruct (decide (0 < -2)) as [Hx|_]; [lia|].
  rewrite !length_app. simpl.
  destruct (decide _) as [_|Hx]; [|lia].
  replace (Z.to_nat (Z.of_nat (length l + 1 + 1) + -2)) with (length l) by lia.
  rewrite lookup_app_l by (rewrite length_app; simpl; lia).
  apply list_lookup_middle. reflexivity.
Qed.

Lemma stack_at_middle (pre rest : list lua_value) (x : lua_value) :
  stack_at (pre ++ x :: rest) (Z.of_nat (length pre) + 1) = Some x.
Proof.
  unfold stack_at. destruct (decide _) as [_|Hx]; [|lia].
  apply list_lookup_middle. lia.
Qed.

(** The three calls that store a string under an integer key in the table
    below them: [lua_pushstring], with the key pushed before it, and
    [lua_settable(L, -3)]. *)
Lemma set_entry_runs {A} (K : M A) (w : World) (pre : list lua_value) (t : lua_table)
  (i : Z) (s : list byte) :
  stack w = (pre ++ [LTable t]) ++ [LInteger i] ->
  (do! lua_push (LString s) in
   let! a := lua_absindex (-3) in
   do! lua_settable a in
   K) w
  = K (with_stack (fun _ => pre ++ [LTable (table_set t (KeyNum i) (LString s))]) w).
Proof.
  intros Hst. unfold lua_absindex, lua_settable. monad_simpl. rewrite Hst.
  destruct (decide (-3 < 0)) as [_|Hx]; [|exfalso; apply Hx; reflexivity].
  rewrite stack_at_top, stack_at_under.
  assert (Hidx : Z.of_nat (length (((pre ++ [LTable t]) ++ [LInteger i]) ++ [LString s]))
                 + -3 + 1 = Z.of_nat (length pre) + 1).
  { rewrite !length_app. simpl. lia. }
  rewrite Hidx. rewrite <- !app_assoc. simpl. rewrite stack_at_middle. simpl.
  f_equal. apply world_ext; crunch; try reflexivity.
  rewrite Hst. rewrite <- !app_assoc. simpl.
  rewrite length_app. simpl.
  replace (length pre + 3 - Z.to_nat 2)%nat with (length pre + 1)%nat by lia.
  rewrite take_app_add. simpl.
  replace (Z.to_nat (Z.of_nat (length pre) + 1 - 1)) with (length pre + 0)%nat by lia.
  rewrite insert_app_r. reflexivity.
Qed.

Lemma dump_types_loop_runs (vars : list XSQLVAR) (pre : list lua_value) (n : nat) :
  forall (i : Z) (t : lua_table) (w : World),
    stack w = pre ++ [LTable t] ->
    1 <= i -> i - 1 + Z.of_nat n <= Z.of_nat (length vars) ->
    exists t',
      dump_types_loop n i vars w = Ret tt (with_stack (fun _ => pre ++ [LTable t']) w)
      /\ (forall j var, i <= j < i + Z.of_nat n -> vars !! Z.to_nat (j - 1) = Some var ->
          table_get t' (KeyNum j) = LString (type_name (base_type (sqltype var))))
      /\ (forall k, (forall j, i <= j < i + Z.of_nat n -> k <> KeyNum j) ->
          table_get t' k = table_get t k).
Proof.
  induction n as [|n IH]; intros i t w Hst Hi Hn.
  - exists t. split; [|split].
    + simpl. unfold ret. f_equal. apply world_ext; crunch; try reflexivity. exact Hst.
    + intros; lia.
    + reflexivity.
  - cbn [dump_types_loop]. unfold bind at 1. unfold lua_push at 1, modify.
    destruct (lookup_lt_is_Some_2 vars (Z.to_nat (i - 1))) as [var Hvar]; [lia|].
    rewrite Hvar.
    rewrite (set_entry_runs _ _ pre t i) by (crunch; rewrite Hst; reflexivity).
    set (t1 := table_set t (KeyNum i) _). set (w1 := with_stack _ _).
    destruct (IH (i + 1) t1 w1) as (t' & Hrun & Hin & Hout); [reflexivity|lia|lia|].
    exists t'. split; [|split].
    + rewrite Hrun. reflexivity.
    + intros j var' Hj Hvar'. destruct (decide (j = i)) as [->|Hne].
      * rewrite Hout by (intros j' Hj' Heq; injection Heq; lia).
        subst t1. rewrite table_get_set_same.
        rewrite Hvar in Hvar'. injection Hvar' as <-. reflexivity.
      * apply Hin; [lia|exact Hvar'].
    + intros k Hk. rewrite Hout by (intros j Hj; apply Hk; lia).
      subst t1. apply table_get_set_other. intros Heq. apply (Hk i); [lia|].
      symmetry. exact Heq.
Qed.

Lemma colnames_loop_runs (vars : list XSQLVAR) (pre : list lua_value) (n : nat) :
  forall (i : Z) (t : lua_table) (w : World),
    stack w = pre ++ [LTable t] ->
    1 <= i -> i - 1 + Z.of_nat n <= Z.of_nat (length vars) ->
    exists t',
      colnames_loop n i vars w = Ret tt (with_stack (fun _ => pre ++ [LTable t']) w)
      /\ (forall j var, i <= j < i + Z.of_nat n -> vars !! Z.to_nat (j - 1) = Some var ->
          table_get t' (KeyNum j)
          = LString (read_bytes (aliasname var) 0 (aliasname_length var)))
      /\ (forall k, (forall j, i <= j < i + Z.of_nat n -> k <> KeyNum j) ->
          table_get t' k = table_get t k).
Proof.
  induction n as [|n IH]; intros i t w Hst Hi Hn.
  - exists t. split; [|split].
    + simpl. unfold ret. f_equal. apply world_ext; crunch; try reflexivity. exact Hst.
    + intros; lia.
    + reflexivity.
  - cbn [colnames_loop]. unfold bind at 1. unfold lua_push at 1, modify.
    destruct (lookup_lt_is_Some_2 vars (Z.to_nat (i - 1))) as [var Hvar]; [lia|].
    rewrite Hvar.
    rewrite (set_entry_runs _ _ pre t i) by (crunch; rewrite Hst; reflexivity).
    set (t1 := table_set t (KeyNum i) _). set (w1 := with_stack _ _).
    destruct (IH (i + 1) t1 w1) as (t' & Hrun & Hin & Hout); [reflexivity|lia|lia|].
    exists t'. split; [|split].
    + rewrite Hrun. reflexivity.
    + intros j var' Hj Hvar'. destruct (decide (j = i)) as [->|Hne].
      * rewrite Hout by (intros j' Hj' Heq; injection Heq; lia).
        subst t1. rewrite table_get_set_same.
        rewrite Hvar in Hvar'. injection Hvar' as <-. reflexivity.
      * apply Hin; [lia|exact Hvar'].
    + intros k Hk. rewrite Hout by (intros j Hj; apply Hk; lia).
      subst t1. apply table_get_set_other. intros Heq. apply (Hk i); [lia|].
      symmetry. exact Heq.
Qed.

(** [dump_xsqlda_types] on a live descriptor. *)
Lemma dump_xsqlda_types_runs (da : XSQLDA) (pre : list lua_value) (w : World) :
  stack w = pre ->
  sqld da <= Z.of_nat (length (sqlvar da)) ->
  exists types,
    dump_xsqlda_types (Live da) w
      = Ret 1 (with_stack (fun _ => pre ++ [LTable types]) w)
    /\ (forall j var, 1 <= j <= sqld da -> sqlvar da !! Z.to_nat (j - 1) = Some var ->
        table_get types (KeyNum j) = LString (type_name (base_type (sqltype var))))
    /\ (forall k, (forall j, 1 <= j <= sqld da -> k <> KeyNum j) ->
        table_get types k = LNil).
Proof.
  intros Hst Hn. unfold dump_xsqlda_types, lua_newtable. monad_simpl.
  destruct (dump_types_loop_runs (sqlvar da) pre (Z.to_nat (sqld da)) 1 TEmpty
              (with_stack (fun st => st ++ [LTable TEmpty]) w))
    as (types & Hrun & Hin & Hout); [crunch; rewrite Hst; reflexivity|lia|lia|].
  rewrite Hrun. exists types. split; [|split].
  - reflexivity.
  - intros j var Hj. apply Hin. lia.
  - intros k Hk. rewrite Hout; [reflexivity|]. intros j Hj. apply Hk. lia.
Qed.

(** X13.  [getcolnames] and [getcoltypes] on an open cursor, and
    [getparamtypes] on an open statement, return a new table and change
    nothing.  The table has one entry per column (per parameter), under the
    integer keys from 1 to the count the descriptor reports: the column's
    alias name, or the name of its type; it has no other entry. *)
Theorem column_tables_hold_names_and_types
  (w : World) (p : ptr) (args : list lua_value) :
  (forall cur da,
     curs w !! p = Some cur -> cur_closed cur = 0 -> out_sqlda cur = Live da ->
     sqld da <= Z.of_nat (length (sqlvar da)) ->
     exists names types,
       call_from_lua cur_colnames (LUserdata KCur p :: args) w
         = Ret [LTable names] (with_stack (fun _ => []) w)
       /\ call_from_lua cur_coltypes (LUserdata KCur p :: args) w
          = Ret [LTable types] (with_stack (fun _ => []) w)
       /\ (forall j var,
             1 <= j <= sqld da -> sqlvar da !! Z.to_nat (j - 1) = Some var ->
             table_get names (KeyNum j)
             = LString (read_bytes (aliasname var) 0 (aliasname_length var))
             /\ table_get types (KeyNum j)
                = LString (type_name (base_type (sqltype var))))
       /\ (forall k, (forall j, 1 <= j <= sqld da -> k <> KeyNum j) ->
           table_get names k = LNil /\ table_get types k = LNil))
  /\ (forall stmt da,
     stmts w !! p = Some stmt -> stmt_closed stmt = 0 -> in_sqlda stmt = Live da ->
     sqld da <= Z.of_nat (length (sqlvar da)) ->
     exists types,
       call_from_lua stmt_get_params (LUserdata KStmt p :: args) w
         = Ret [LTable types] (with_stack (fun _ => []) w)
       /\ (forall j var,
             1 <= j <= sqld da -> sqlvar da !! Z.to_nat (j - 1) = Some var ->
             table_get types (KeyNum j)
             = LString (type_name (base_type (sqltype var))))
       /\ (forall k, (forall j, 1 <= j <= sqld da -> k <> KeyNum j) ->
           table_get types k = LNil)).
Proof.
  split.
  - intros cur da Hcur Hopen Hda Hn.
    set (w0 := with_stack (fun _ => LUserdata KCur p :: args) w).
    destruct (colnames_loop_runs (sqlvar da) (LUserdata KCur p :: args)
                (Z.to_nat (sqld da)) 1 TEmpty
                (with_stack (fun st => st ++ [LTable TEmpty]) w0))
      as (names & Hrun1 & Hin1 & Hout1); [reflexivity|lia|lia|].
    destruct (dump_xsqlda_types_runs da (LUserdata KCur p :: args) w0 eq_refl Hn)
      as (types & Hrun2 & Hin2 & Hout2).
    exists names, types. split; [|split; [|split]].
    + erewrite call_returns.
      2:{ unfold cur_colnames, getcursor, luaL_checkudata, lua_newtable. monad_simpl.
          rewrite stack_at_first. simpl. rewrite Hcur. simpl.
          rewrite bool_decide_eq_true_2 by exact Hopen. crunch. rewrite Hcur, Hda.
          crunch. fold w0. rewrite Hrun1. reflexivity. }
      f_equal. apply (results_top _ (LUserdata KCur p :: args)); reflexivity.
    + erewrite call_returns.
      2:{ unfold cur_coltypes, getcursor, luaL_checkudata. monad_simpl.
          rewrite stack_at_first. simpl. rewrite Hcur. simpl.
          rewrite bool_decide_eq_true_2 by exact Hopen. crunch. rewrite Hcur, Hda.
          fold w0. exact Hrun2. }
      f_equal. apply (results_top _ (LUserdata KCur p :: args)); reflexivity.
    + intros j var Hj Hvar. split; [apply Hin1; [lia|exact Hvar]|apply Hin2; assumption].
    + intros k Hk. split; [|apply Hout2; exact Hk].
      rewrite Hout1; [reflexivity|]. intros j Hj. apply Hk. lia.
  - intros stmt da Hs Hopen Hda Hn.
    set (w0 := with_stack (fun _ => LUserdata KStmt p :: args) w).
    destruct (dump_xsqlda_types_runs da (LUserdata KStmt p :: args) w0 eq_refl Hn)
      as (types & Hrun & Hin & Hout).
    exists types. split; [|split; [exact Hin|exact Hout]].
    erewrite call_returns.
    2:{ unfold stmt_get_params, getstatement, luaL_checkudata. monad_simpl.
        rewrite stack_at_first. simpl. rewrite Hs. simpl.
        rewrite bool_decide_eq_true_2 by exact Hopen. crunch. rewrite Hs, Hda.
        fold w0. exact Hrun. }
    f_equal. apply (results_top _ (LUserdata KStmt p :: args)); reflexivity.
Qed.

End Tables.

Lemma column_tables_hold_names_and_types_witness :
  (curs chain_world !! 1%positive = Some open_cur /\ cur_closed open_cur = 0
   /\ exists names types,
        call_from_lua cur_colnames [LUserdata KCur 1%positive] chain_world
          = Ret [LTable names] (with_stack (fun _ => []) chain_world)
        /\ call_from_lua cur_coltypes [LUserdata KCur 1%positive] chain_world
           = Ret [LTable types] (with_stack (fun _ => []) chain_world)
        /\ table_get names (KeyNum 1) = LString (bytes "N")
        /\ table_get types (KeyNum 1) = LString (bytes "integer")
        /\ table_get names (KeyNum 2) = LNil /\ table_get types (KeyNum 2) = LNil)
  /\ (stmts chain_world !! 1%positive = Some select_stmt /\ stmt_closed select_stmt = 0
   /\ exists types,
        call_from_lua stmt_get_params [LUserdata KStmt 1%positive] chain_world
          = Ret [LTable types] (with_stack (fun _ => []) chain_world)
        /\ table_get types (KeyNum 1) = LNil).
Proof.
  assert (H11 : (1 : Z) <= 1) by discriminate.
  assert (H01 : (0 : Z) <= 1) by discriminate.
  pose proof (column_tables_hold_names_and_types chain_world 1%positive []) as [Hcur Hstmt].
  split.
  - split; [reflexivity|]. split; [reflexivity|].
    destruct (Hcur open_cur _ eq_refl eq_refl eq_refl H11)
      as (names & types & Hn & Ht & Hin & Hout).
    exists names, types. split; [exact Hn|]. split; [exact Ht|].
    destruct (Hin 1 smallint_column (conj H11 H11) eq_refl) as [Hn1 Ht1].
    split; [exact Hn1|]. split; [exact Ht1|].
    apply Hout. intros j Hj Heq. injection Heq as Heq. cbn [sqld] in Hj. lia.
  - split; [reflexivity|]. split; [reflexivity|].
    destruct (Hstmt select_stmt _ eq_refl eq_refl eq_refl H01) as (types & Ht & _ & Hout).
    exists types. split; [exact Ht|].
    apply Hout. intros j Hj Heq. cbn [sqld] in Hj. lia.
Defined.

Section Binding.

Variable engine : Engine.
Variable host : Host.

(** A pop undoes a push. *)
Lemma pop_push (w : World) (v : lua_value) :
  with_stack (fun st => take (length st - Z.to_nat 1) st)
    (with_stack (fun st => st ++ [v]) w) = w.
Proof.
  apply world_ext; crunch; try reflexivity.
  rewrite length_app. simpl.
  replace (length (stack w) + 1 - Z.to_nat 1)%nat with (length (stack w)) by lia.
  apply take_app_length.
Qed.

(** nil on top of the stack is bound as NULL. *)
Lemma set_param_nil (stmt : stmt_data) (var : XSQLVAR) (w : World) (st : list lua_value) :
  stack w = st ++ [LNil] ->
  set_param engine host stmt var w = Ret (null_slot var) w.
Proof.
  intros Hst. unfold set_param. monad_simpl. rewrite Hst, stack_at_top.
  destruct (sqlind var); reflexivity.
Qed.

Lemma parse_params_loop_nulls (stmt : stmt_data) (push_value : Z -> M unit) (w : World)
  (n : nat) :
  (forall j, 0 <= j -> push_value j w = Ret tt (with_stack (fun st => st ++ [LNil]) w)) ->
  forall (k : nat) (vars : list XSQLVAR),
    (k + n <= length vars)%nat ->
    parse_params_loop engine host n (Z.of_nat k) push_value stmt vars w
      = Ret (take k vars ++ map null_slot (take n (drop k vars)) ++ drop (k + n) vars) w.
Proof.
  intros Hpush. induction n as [|n IH]; intros k vars Hlen.
  - simpl. rewrite Nat.add_0_r, take_drop. reflexivity.
  - cbn [parse_params_loop]. unfold bind at 1. rewrite Hpush by lia. rewrite Nat2Z.id.
    destruct (lookup_lt_is_Some_2 vars k) as [var Hvar]; [lia|].
    rewrite Hvar. unfold bind at 1.
    rewrite (set_param_nil stmt var _ (stack w)) by reflexivity.
    unfold bind at 1, lua_pop, modify. rewrite pop_push.
    replace (Z.of_nat k + 1) with (Z.of_nat (S k)) by lia.
    rewrite IH by (rewrite length_insert; lia).
    f_equal.
    rewrite (take_S_r _ k (null_slot var))
      by (apply list_lookup_insert_eq; apply lookup_lt_Some in Hvar; exact Hvar).
    rewrite take_insert_ge by lia.
    rewrite !drop_insert_lt by lia.
    rewrite (drop_S vars var k Hvar). cbn [take map].
    rewrite <- app_assoc. simpl.
    replace (k + S n)%nat with (S (k + n)) by lia. reflexivity.
Qed.

Lemma null_slots_all (vars : list XSQLVAR) :
  take 0 vars ++ map null_slot (take (length vars) (drop 0 vars))
    ++ drop (0 + length vars) vars = map null_slot vars.
Proof. simpl. rewrite firstn_all, drop_all, app_nil_r. reflexivity. Qed.

(** [parse_params] with nothing but nil behind the last argument. *)
Lemma parse_params_no_values (w : World) (stmt : stmt_data) (da : XSQLDA) (params : Z)
  (pre args : list lua_value) :
  in_sqlda stmt = Live da ->
  length (sqlvar da) = Z.to_nat (sqln da) ->
  1 <= params ->
  stack w = pre ++ args -> Z.of_nat (length pre) = params - 1 ->
  Forall (fun v => v = LNil) args ->
  parse_params engine host stmt params w
  = Ret (set_in_sqlda (Live {| version := version da; sqln := sqln da; sqld := sqld da;
                               sqlvar := map null_slot (sqlvar da) |}) stmt) w.
Proof.
  intros Hda Hlen Hparams Hst Hpre Hnil.
  assert (Harg : forall i, 0 <= i ->
            match stack_at (stack w) (params + i) with
            | Some x => x
            | None => LNil
            end = LNil).
  { intros i Hi. unfold stack_at.
    destruct (decide (0 < params + i)) as [_|Hx]; [|lia].
    rewrite Hst, lookup_app_r by lia.
    destruct (args !! (Z.to_nat (params + i - 1) - length pre)%nat) as [x|] eqn:E;
      [|reflexivity].
    apply (proj1 (Forall_lookup _ _) Hnil _ _ E). }
  unfold parse_params. monad_simpl. rewrite Hda. crunch.
  assert (Hmode : match stack_at (stack w) params with
                  | Some (LTable _) => False
                  | _ => True
                  end).
  { specialize (Harg 0 ltac:(lia)). rewrite Z.add_0_r in Harg.
    destruct (stack_at (stack w) params) as [[]|]; try exact I. discriminate Harg. }
  destruct (stack_at (stack w) params) as [[]|] eqn:Earg; try contradiction;
    ( change 0 with (Z.of_nat 0);
      rewrite parse_params_loop_nulls;
      [ rewrite <- Hlen, null_slots_all; reflexivity
      | intros j Hj; destruct (decide _); [reflexivity|];
        unfold lua_pushvalue, lua_push; monad_simpl; rewrite Harg by exact Hj;
        reflexivity
      | lia ] ).
Qed.

(** X14.  Binding without values.  When [execute] (or [prepare]) gets no
    value for the parameters (nothing behind the last argument, nil
    values, or a table without integer keys), every parameter slot is bound
    to NULL: its null indicator is -1 and its type, length and buffer are
    as they were.  No native call is made and nothing else changes. *)
Theorem parameters_without_values_are_null
  (w : World) (stmt : stmt_data) (da : XSQLDA) (params : Z) :
  in_sqlda stmt = Live da ->
  length (sqlvar da) = Z.to_nat (sqln da) ->
  1 <= params ->
  let bound :=
    set_in_sqlda (Live {| version := version da; sqln := sqln da; sqld := sqld da;
                          sqlvar := map null_slot (sqlvar da) |}) stmt in
  (forall pre args,
     stack w = pre ++ args -> Z.of_nat (length pre) = params - 1 ->
     Forall (fun v => v = LNil) args ->
     parse_params engine host stmt params w = Ret bound w)
  /\ (forall t,
     stack_at (stack w) params = Some (LTable t) ->
     (forall j, table_get t (KeyNum j) = LNil) ->
     parse_params engine host stmt params w = Ret bound w).
Proof.
  intros Hda Hlen Hparams bound.
  split.
  - intros pre args Hst Hpre Hnil.
    apply (parse_params_no_values w stmt da params pre args Hda Hlen Hparams Hst Hpre
             Hnil).
  - intros t Harg Hnil.
    unfold parse_params. monad_simpl. rewrite Hda. crunch. rewrite Harg.
    change 0 with (Z.of_nat 0).
    rewrite parse_params_loop_nulls.
    + rewrite <- Hlen, null_slots_all. reflexivity.
    + intros j Hj. unfold lua_push. monad_simpl. rewrite Harg, Hnil. reflexivity.
    + lia.
Qed.

(** X15.  A value for a parameter whose type is none of those the driver
    binds (text, integer, floating point, date and time), and which
    therefore has no buffer, is not bound: the slot keeps its type and has
    no data, and the status vector of the connection's environment gets the
    driver's own error, which the callers' error test finds.  No native call
    is made. *)
Theorem unsupported_parameter_type_is_reported
  (w : World) (stmt : stmt_data) (var : XSQLVAR) (v : lua_value) (pre : list lua_value)
  (conn : conn_data) (env : env_data) :
  stack w = pre ++ [v] ->
  v <> LNil ->
  let t := base_type (sqltype var) in
  is_text_column t = false -> is_integer_column t = false ->
  is_float_column t = false -> is_time_column t = false ->
  sqldata var = None ->
  conns w !! stmt_conn stmt = Some conn ->
  envs w !! conn_env conn = Some env ->
  let sv := custom_fb_error (status_vector env) param_memory_error in
  exists var',
    set_param engine host stmt var w
      = Ret var' (with_envs <[conn_env conn := set_status_vector sv env]> w)
    /\ sqltype var' = sqltype var /\ sqldata var' = None
    /\ CHECK_DB_ERROR sv = true
    /\ take 5 sv = [st_num 1; st_num isc_random; st_num 2; st_str param_memory_error;
                    st_num 0].
Proof.
  intros Hst Hv t Htext Hint Hfloat Htime Hdata Hc He sv.
  assert (Hbt : forall i, base_type (sqltype (set_sqlind i var)) = t) by reflexivity.
  exists (match sqlind var with None => set_sqlind (Some 0) var | Some _ => var end).
  split; [|split; [|split; [|split]]].
  - unfold set_param. monad_simpl. rewrite Hst, stack_at_top.
    destruct (sqlind var) as [ind|] eqn:Eind;
      destruct v; try contradiction;
      rewrite ?Hbt; fold t; rewrite Htext, Hint, Hfloat, Htime;
      cbn [set_sqlind sqldata]; rewrite Hdata, Hc; crunch; rewrite He; reflexivity.
  - destruct (sqlind var); reflexivity.
  - destruct (sqlind var); exact Hdata.
  - reflexivity.
  - reflexivity.
Qed.

End Binding.

Lemma parameters_without_values_are_null_witness :
  let w := with_stack (fun _ => [LUserdata KStmt 1%positive]) chain_world in
  let w2 := with_stack (fun _ => [LUserdata KStmt 1%positive; LTable TEmpty]) chain_world in
  let da := {| version := 1; sqln := 1; sqld := 1; sqlvar := [varchar_slot] |} in
  let stmt := set_in_sqlda (Live da) select_stmt in
  let bound := set_in_sqlda (Live {| version := 1; sqln := 1; sqld := 1;
                                     sqlvar := [null_slot varchar_slot] |}) select_stmt in
  in_sqlda stmt = Live da
  /\ length (sqlvar da) = Z.to_nat (sqln da)
  /\ 1 <= 2
  /\ Forall (fun v => v = LNil) []
  /\ parse_params quiet_engine plain_host stmt 2 w = Ret bound w
  /\ stack_at (stack w2) 2 = Some (LTable TEmpty)
  /\ parse_params quiet_engine plain_host stmt 2 w2 = Ret bound w2.
Proof.
  intros w w2 da stmt bound.
  assert (H12 : (1 : Z) <= 2) by discriminate.
  assert (Hnil : Forall (fun v => v = LNil) []) by constructor.
  split; [reflexivity|]. split; [reflexivity|]. split; [exact H12|]. split; [exact Hnil|].
  split; [|split; [reflexivity|]].
  - apply (proj1 (parameters_without_values_are_null quiet_engine plain_host w stmt da 2
                    eq_refl eq_refl H12) [LUserdata KStmt 1%positive] [] eq_refl eq_refl Hnil).
  - apply (proj2 (parameters_without_values_are_null quiet_engine plain_host w2 stmt da 2
                    eq_refl eq_refl H12) TEmpty eq_refl (fun _ => eq_refl)).
Defined.

Lemma unsupported_parameter_type_is_reported_witness :
  let w := with_stack (fun _ => [LUserdata KStmt 1%positive; LBoolean true]) chain_world in
  stack w = [LUserdata KStmt 1%positive] ++ [LBoolean true]
  /\ LBoolean true <> LNil
  /\ is_text_column (base_type (sqltype boolean_slot)) = false
  /\ is_integer_column (base_type (sqltype boolean_slot)) = false
  /\ is_float_column (base_type (sqltype boolean_slot)) = false
  /\ is_time_column (base_type (sqltype boolean_slot)) = false
  /\ sqldata boolean_slot = None
  /\ conns w !! stmt_conn select_stmt = Some held_conn
  /\ envs w !! conn_env held_conn = Some held_env
  /\ exists var' w',
       set_param quiet_engine plain_host select_stmt boolean_slot w = Ret var' w'
       /\ sqldata var' = None
       /\ (exists env', envs w' !! 1%positive = Some env'
                        /\ CHECK_DB_ERROR (status_vector env') = true)
       /\ trace w' = [].
Proof.
  intros w.
  assert (Hv : LBoolean true <> LNil) by discriminate.
  split; [reflexivity|]. split; [exact Hv|]. split; [reflexivity|]. split; [reflexivity|].
  split; [reflexivity|]. split; [reflexivity|]. split; [reflexivity|]. split; [reflexivity|].
  split; [reflexivity|].
  destruct (unsupported_parameter_type_is_reported quiet_engine plain_host w select_stmt
              boolean_slot (LBoolean true) [LUserdata KStmt 1%positive] held_conn held_env
              eq_refl Hv eq_refl eq_refl eq_refl eq_refl eq_refl eq_refl eq_refl)
    as (var' & Hrun & _ & Hdata & Herr & _).
  eexists var', _. split; [exact Hrun|]. split; [exact Hdata|]. split; [|reflexivity].
  eexists. split; [reflexivity|exact Herr].
Defined.

Lemma columns_engine_accepts (N : Z) : accepting (columns_engine N).
Proof. intros tr c. destruct c; reflexivity. Qed.

Lemma execute_opens_cursor_ready_to_fetch_witness :
  let cp := fresh (dom (curs prepared_world)) in
  stmts prepared_world !! 1%positive = Some idle_stmt
  /\ stmt_closed idle_stmt = 0 /\ stmt_lock idle_stmt <= 0
  /\ envs prepared_world !! stmt_env idle_stmt = Some held_env
  /\ conns prepared_world !! stmt_conn idle_stmt = Some held_conn
  /\ accepting (columns_engine 2)
  /\ describes (columns_engine 2) (handle idle_stmt) 2
  /\ exists w' t,
       call_from_lua (stmt_execute (columns_engine 2) plain_host)
         [LUserdata KStmt 1%positive] prepared_world
       = Ret [LUserdata KCur cp] w'
       /\ fetch_ready w' cp 1%positive (set_stmt_lock 1 idle_stmt) 2
       /\ registry w' = <[(KStmt, 1%positive) := LUserdata KStmt 1%positive]>
                          (registry prepared_world)
       /\ trace w' = trace prepared_world ++ t
                      ++ [isc_dsql_set_cursor_name 13 1%positive;
                          isc_dsql_execute 12 13 (in_sqlda idle_stmt)].
Proof.
  intros cp.
  assert (H00 : (0 : Z) <= 0) by discriminate.
  assert (H12 : (1 : Z) <= 2) by discriminate.
  assert (Hd : describes (columns_engine 2) (handle idle_stmt) 2)
    by (intros tr da; reflexivity).
  split; [reflexivity|]. split; [reflexivity|]. split; [exact H00|].
  split; [reflexivity|]. split; [reflexivity|].
  split; [exact (columns_engine_accepts 2)|]. split; [exact Hd|].
  destruct (execute_opens_cursor_ready_to_fetch (columns_engine 2) plain_host
              prepared_world 1%positive idle_stmt _ held_env held_conn 2
              eq_refl eq_refl H00 eq_refl H00 eq_refl eq_refl
              (columns_engine_accepts 2) Hd H12)
    as (w' & t & Hrun & _ & Hready & Hreg & _ & Ht & _).
  exists w', t. split; [exact Hrun|]. split; [exact Hready|]. split; [exact Hreg|exact Ht].
Defined.

Section QueryCycle.

Variable engine : Engine.
Variable host : Host.
Variable fuel : nat.




End QueryCycle.




Section Counting.

Variable engine : Engine.

Lemma length_info_item (code : byte) (n : nat) (v : Z) :
  length (info_item code n v) = (3 + n)%nat.
Proof. unfold info_item. rewrite !length_app, !length_le_bytes. reflexivity. Qed.

Lemma length_record_items (l : list (byte * Z)) :
  length (record_items l) = (7 * length l)%nat.
Proof.
  induction l as [|[code v] l IH]; [reflexivity|].
  cbn [record_items length]. rewrite length_app, length_info_item, IH. lia.
Qed.

(** A counter item is read back: its value, and [pres] after the item. *)
Lemma read_counter_item (pre post : list byte) (code : byte) (v : Z) (w : World) :
  - 2 ^ 31 <= v < 2 ^ 31 ->
  read_counter (pre ++ info_item code 4 v ++ post) (Z.of_nat (length pre)) w
  = Ret (v, Z.of_nat (length (pre ++ info_item code 4 v))) w.
Proof.
  intros Hv.
  assert (H1 : buffer_integer (pre ++ info_item code 4 v ++ post)
                 (Z.of_nat (length pre) + 1) 2 w = Ret 4 w).
  { replace (pre ++ info_item code 4 v ++ post)
      with ((pre ++ [code]) ++ le_bytes 2 (Z.of_nat 4) ++ (le_bytes 4 v ++ post))
      by (rewrite <- app_assoc; reflexivity).
    apply (buffer_integer_at (pre ++ [code]) (le_bytes 4 v ++ post) 2 (Z.of_nat 4));
      [rewrite length_app; simpl; lia|lia|simpl; lia]. }
  assert (H3 : buffer_integer (pre ++ info_item code 4 v ++ post)
                 (Z.of_nat (length pre) + 3) 4 w = Ret v w).
  { replace (pre ++ info_item code 4 v ++ post)
      with ((pre ++ [code; x04; x00]) ++ le_bytes 4 v ++ post)
      by (rewrite <- app_assoc; reflexivity).
    apply (buffer_integer_at (pre ++ [code; x04; x00]) post 4 v);
      [rewrite length_app; simpl; lia|lia|exact Hv]. }
  unfold read_counter. monad_simpl. rewrite H1. crunch. rewrite H3. crunch.
  f_equal. f_equal. rewrite length_app, length_info_item. lia.
Qed.

(** The loop of [count_rows_affected] reads the counter items up to the
    terminator, the last value of a counter standing. *)
Lemma count_records_reads (l : list (byte * Z)) :
  forall (pre rest : list byte) (c : row_counts) (fuel : nat) (w : World),
    Forall counter_item l ->
    (length l < fuel)%nat ->
    (length pre + 7 * length l < 88)%nat ->
    count_records fuel (pre ++ record_items l ++ [x01] ++ rest)
      (Z.of_nat (length pre)) c w
    = Ret (fold_left update_count l c) w.
Proof.
  induction l as [|[code v] l IH]; intros pre rest c fuel w Hitems Hfuel Hlen.
  - destruct fuel as [|fuel]; [simpl in Hfuel; lia|].
    cbn [count_records record_items app fold_left].
    destruct (decide _) as [Hx|_]; [simpl in Hlen; lia|].
    unfold bind. rewrite buffer_at_middle.
    destruct (decide (Z_of_byte x01 = 1)) as [_|Hx]; [reflexivity|].
    exfalso. apply Hx. reflexivity.
  - destruct fuel as [|fuel]; [simpl in Hfuel; lia|].
    apply Forall_cons in Hitems as [[Hcode Hv] Hitems]. cbn [fst snd] in Hcode, Hv.
    cbn [count_records record_items fold_left].
    destruct (decide _) as [Hx|_]; [simpl in Hlen; lia|].
    rewrite <- app_assoc.
    assert (H0 : buffer_at (pre ++ info_item code 4 v ++ record_items l ++ [x01] ++ rest)
                   (Z.of_nat (length pre)) w = Ret (Z_of_byte code) w)
      by exact (buffer_at_middle pre _ code w).
    assert (Hbuf : pre ++ info_item code 4 v ++ record_items l ++ [x01] ++ rest
                   = (pre ++ info_item code 4 v) ++ record_items l ++ [x01] ++ rest)
      by apply app_assoc.
    assert (Hrec : forall c', count_records fuel
                     ((pre ++ info_item code 4 v) ++ record_items l ++ [x01] ++ rest)
                     (Z.of_nat (length (pre ++ info_item code 4 v))) c' w
                   = Ret (fold_left update_count l c') w).
    { intros c'. apply IH; [exact Hitems|simpl in Hfuel; lia|].
      rewrite length_app, length_info_item. simpl in Hlen. lia. }
    unfold bind. rewrite H0.
    unfold update_count. cbn [fst snd].
    unfold counter_codes in Hcode.
    repeat (apply elem_of_cons in Hcode as [->|Hcode]);
      [ | | | | apply elem_of_nil in Hcode; contradiction ];
      repeat (destruct (decide _) as [Hx|_]; [discriminate Hx|]);
      (destruct (decide _) as [_|Hx]; [|exfalso; apply Hx; reflexivity]);
      rewrite (read_counter_item pre _ _ v w Hv); cbn [fst snd];
      rewrite Hbuf; apply Hrec.
Qed.

(** [count_rows_affected] once the engine has answered without error with
    a buffer that starts with the statement type item. *)
Lemma count_rows_affected_step
  (w : World) (cur : cur_data) (stmt : stmt_data) (env : env_data) (t : Z)
  (X : list byte) :
  stmts w !! cur_stmt cur = Some stmt ->
  envs w !! cur_env cur = Some env ->
  let c := isc_dsql_sql_info (handle stmt)
             [isc_info_sql_stmt_type; isc_info_sql_records] 88 in
  let r := isc engine (trace w) c in
  let w' := answered engine (cur_env cur) env c w in
  st_is 1 (sv_at (rp_status r) 0) && st_positive (sv_at (rp_status r) 1) = false ->
  - 2 ^ 31 <= t < 2 ^ 31 ->
  take 88 (rp_buffer r) = info_item x15 4 t ++ X ->
  count_rows_affected engine (cur_env cur) cur w
  = if decide (t > 4) then Ret 0 w'
    else (let! item := buffer_at (info_item x15 4 t ++ X) 7 in
          if decide (item = isc_info_sql_records) then
            let! _ := buffer_integer (info_item x15 4 t ++ X) 8 2 in
            let! c0 := count_records 89 (info_item x15 4 t ++ X) 10 no_counts in
            ret (count_of t c0)
          else ret (-3)) w'.
Proof.
  intros Hs He c r w' Hfailed Ht Hbuf.
  assert (H0 : buffer_at (info_item x15 4 t ++ X) 0 w' = Ret (Z_of_byte x15) w')
    by exact (buffer_at_middle [] _ x15 w').
  assert (H1 : buffer_integer (info_item x15 4 t ++ X) 1 2 w' = Ret 4 w').
  { apply (buffer_integer_at [x15] (le_bytes 4 t ++ X) 2 (Z.of_nat 4) 1 w');
      [reflexivity|lia|simpl; lia]. }
  assert (H3 : buffer_integer (info_item x15 4 t ++ X) 3 4 w' = Ret t w').
  { apply (buffer_integer_at ([x15] ++ le_bytes 2 (Z.of_nat 4)) X 4 t 3 w');
      [reflexivity|lia|exact Ht]. }
  unfold count_rows_affected. monad_simpl. rewrite Hs. crunch. rewrite He. crunch.
  fold c. fold r. rewrite Hfailed. crunch. rewrite Hbuf. fold w'. rewrite H0.
  destruct (decide _) as [_|Hx]; [|exfalso; apply Hx; reflexivity].
  rewrite H1. crunch. rewrite H3. crunch.
  change (3 + 4) with 7. change (7 + 1) with 8. change (7 + 3) with 10.
  destruct (decide (t > 4)); [reflexivity|].
  destruct (decide (7 < 0 \/ 88 <= 7)) as [Hx|_]; [lia|].
  reflexivity.
Qed.

Lemma take_info_item (t : Z) (X : list byte) :
  take 88 (info_item x15 4 t ++ X) = info_item x15 4 t ++ take 81 X.
Proof.
  rewrite take_app_ge by (rewrite length_info_item; lia).
  rewrite length_info_item. reflexivity.
Qed.

(** [count_rows_affected] on an answer that holds the type and the record
    counts: the count that belongs to the type. *)
Lemma count_rows_affected_counts
  (w : World) (e : ptr) (cur : cur_data) (stmt : stmt_data) (env : env_data) (t : Z)
  (l : list (byte * Z)) (rest : list byte) :
  cur_env cur = e ->
  stmts w !! cur_stmt cur = Some stmt ->
  envs w !! e = Some env ->
  let c := isc_dsql_sql_info (handle stmt)
             [isc_info_sql_stmt_type; isc_info_sql_records] 88 in
  let r := isc engine (trace w) c in
  st_is 1 (sv_at (rp_status r) 0) && st_positive (sv_at (rp_status r) 1) = false ->
  - 2 ^ 31 <= t < 2 ^ 31 ->
  Forall counter_item l -> (length l <= 11)%nat ->
  rp_buffer r = counts_buffer t l ++ rest ->
  count_rows_affected engine e cur w
  = Ret (count_of t (fold_left update_count l no_counts))
      (answered engine e env c w).
Proof.
  intros <- Hs He c r Hfailed Ht Hitems Hlen Hbuf.
  unfold counts_buffer in Hbuf. rewrite <- !app_assoc in Hbuf.
  set (tail := record_items l ++ [x01] ++ take (77 - 7 * length l) rest).
  assert (HX : take 88 (rp_buffer r) = info_item x15 4 t ++ [x17; x1d; x00] ++ tail).
  { rewrite Hbuf, take_info_item. f_equal.
    change ([x17; x1d; x00] ++ record_items l ++ [x01] ++ rest)
      with (x17 :: x1d :: x00 :: (record_items l ++ [x01] ++ rest)).
    change 81%nat with (S (S (S 78))). cbn [take].
    rewrite take_app_ge by (rewrite length_record_items; lia).
    rewrite length_record_items.
    replace (78 - 7 * length l)%nat with (S (77 - 7 * length l)) by lia.
    reflexivity. }
  rewrite (count_rows_affected_step w cur stmt env t _ Hs He Hfailed Ht HX).
  destruct (decide (t > 4)) as [Hbig|_].
  { unfold count_of.
    repeat (destruct (decide _) as [Hx|_];
            [unfold isc_info_sql_stmt_select, isc_info_sql_stmt_delete,
               isc_info_sql_stmt_update, isc_info_sql_stmt_insert in Hx; lia|]).
    reflexivity. }
  fold c. set (w' := answered engine (cur_env cur) env c w).
  assert (H7 : buffer_at (info_item x15 4 t ++ [x17; x1d; x00] ++ tail) 7 w'
               = Ret (Z_of_byte x17) w')
    by exact (buffer_at_middle (info_item x15 4 t) ([x1d; x00] ++ tail) x17 w').
  assert (H8 : buffer_integer (info_item x15 4 t ++ [x17; x1d; x00] ++ tail) 8 2 w'
               = Ret 29 w').
  { replace (info_item x15 4 t ++ [x17; x1d; x00] ++ tail)
      with ((info_item x15 4 t ++ [x17]) ++ le_bytes 2 29 ++ tail)
      by (rewrite <- app_assoc; reflexivity).
    apply (buffer_integer_at (info_item x15 4 t ++ [x17]) tail 2 29 8 w');
      [reflexivity|lia|split; [discriminate|reflexivity]]. }
  assert (H10 : count_records 89 (info_item x15 4 t ++ [x17; x1d; x00] ++ tail) 10
                  no_counts w'
                = Ret (fold_left update_count l no_counts) w').
  { replace (info_item x15 4 t ++ [x17; x1d; x00] ++ tail)
      with ((info_item x15 4 t ++ [x17; x1d; x00]) ++ tail)
      by (rewrite <- app_assoc; reflexivity).
    change 10 with (Z.of_nat (length (info_item x15 4 t ++ [x17; x1d; x00]))).
    apply count_records_reads; [exact Hitems|lia|].
    rewrite length_app, length_info_item. simpl. lia. }
  unfold bind, ret. rewrite H7.
  destruct (decide _) as [_|Hx]; [|exfalso; apply Hx; reflexivity].
  rewrite H8, H10. reflexivity.
Qed.

(** X17.  [count_rows_affected] asks the engine for the statement type
    and the record counts.  For a type above 4 (not a SELECT, INSERT, UPDATE
    or DELETE) it returns 0 without reading further.  Otherwise it reads
    the counter items that follow the type up to the terminator, in
    whatever order they come, and returns the count that belongs to the
    type: selected rows for a SELECT, inserted for an INSERT, updated for an
    UPDATE, deleted for a DELETE; -3 when the record counts are missing. *)
Theorem count_rows_affected_reads_the_counts
  (w : World) (cur : cur_data) (stmt : stmt_data) (env : env_data) (t : Z) :
  stmts w !! cur_stmt cur = Some stmt ->
  envs w !! cur_env cur = Some env ->
  let c := isc_dsql_sql_info (handle stmt)
             [isc_info_sql_stmt_type; isc_info_sql_records] 88 in
  let r := isc engine (trace w) c in
  let w' := answered engine (cur_env cur) env c w in
  st_is 1 (sv_at (rp_status r) 0) && st_positive (sv_at (rp_status r) 1) = false ->
  - 2 ^ 31 <= t < 2 ^ 31 ->
  (4 < t -> forall rest,
     rp_buffer r = info_item x15 4 t ++ rest ->
     count_rows_affected engine (cur_env cur) cur w = Ret 0 w')
  /\ (t <= 4 -> forall l rest,
      Forall counter_item l -> (length l <= 11)%nat ->
      rp_buffer r = counts_buffer t l ++ rest ->
      count_rows_affected engine (cur_env cur) cur w
        = Ret (count_of t (fold_left update_count l no_counts)) w')
  /\ (t <= 4 -> forall b rest,
      Z_of_byte b <> isc_info_sql_records ->
      rp_buffer r = info_item x15 4 t ++ b :: rest ->
      count_rows_affected engine (cur_env cur) cur w = Ret (-3) w').
Proof.
  intros Hs He c r w' Hfailed Ht.
  split; [|split].
  - intros Hbig rest Hbuf.
    assert (HX : take 88 (rp_buffer r) = info_item x15 4 t ++ take 81 rest)
      by (rewrite Hbuf; apply take_info_item).
    rewrite (count_rows_affected_step w cur stmt env t _ Hs He Hfailed Ht HX).
    destruct (decide (t > 4)) as [_|Hx]; [reflexivity|lia].
  - intros Hsmall l rest Hitems Hlen Hbuf.
    apply (count_rows_affected_counts w (cur_env cur) cur stmt env t l rest eq_refl Hs He
             Hfailed Ht Hitems Hlen Hbuf).
  - intros Hsmall b rest Hb Hbuf.
    assert (HX : take 88 (rp_buffer r) = info_item x15 4 t ++ b :: take 80 rest)
      by (rewrite Hbuf; apply take_info_item).
    rewrite (count_rows_affected_step w cur stmt env t _ Hs He Hfailed Ht HX).
    destruct (decide (t > 4)) as [Hx|_]; [lia|].
    assert (H7 : buffer_at (info_item x15 4 t ++ b :: take 80 rest) 7 w'
                 = Ret (Z_of_byte b) w')
      by exact (buffer_at_middle (info_item x15 4 t) (take 80 rest) b w').
    fold c. fold w'. unfold bind, ret. rewrite H7.
    destruct (decide _) as [Hx|_]; [contradiction|reflexivity].
Qed.

End Counting.

Lemma count_rows_affected_reads_the_counts_witness :
  let counts := [(x0e, 0); (x0f, 5); (x10, 2)] in
  let e := informing_engine (counts_buffer 3 counts) in
  let c := isc_dsql_sql_info 13 [isc_info_sql_stmt_type; isc_info_sql_records] 88 in
  stmts chain_world !! cur_stmt open_cur = Some select_stmt
  /\ envs chain_world !! cur_env open_cur = Some held_env
  /\ Forall counter_item counts
  /\ count_rows_affected e 1%positive open_cur chain_world
     = Ret 5 (answered e 1%positive held_env c chain_world)
  /\ count_rows_affected (informing_engine (info_item x15 4 8)) 1%positive open_cur
       chain_world
     = Ret 0 (answered (informing_engine (info_item x15 4 8)) 1%positive held_env c
                chain_world)
  /\ count_rows_affected (informing_engine (info_item x15 4 2 ++ [x01])) 1%positive
       open_cur chain_world
     = Ret (-3) (answered (informing_engine (info_item x15 4 2 ++ [x01])) 1%positive
                   held_env c chain_world).
Proof.
  intros counts e c.
  assert (Hitems : Forall counter_item counts).
  { unfold counts, counter_item, counter_codes.
    repeat (constructor; [split; [cbn [fst]; set_solver | cbn [snd]; lia]|]).
    constructor. }
  assert (H3 : - 2 ^ 31 <= 3 < 2 ^ 31) by lia.
  assert (H8 : - 2 ^ 31 <= 8 < 2 ^ 31) by lia.
  assert (H2 : - 2 ^ 31 <= 2 < 2 ^ 31) by lia.
  assert (Hlen : (length counts <= 11)%nat) by (simpl; lia).
  assert (Hle : 3 <= 4) by lia.
  assert (Hle2 : 2 <= 4) by lia.
  assert (Hgt : 4 < 8) by lia.
  assert (Hb : Z_of_byte x01 <> isc_info_sql_records) by discriminate.
  split; [reflexivity|]. split; [reflexivity|]. split; [exact Hitems|].
  split; [|split].
  - apply (proj1 (proj2 (count_rows_affected_reads_the_counts e chain_world open_cur
                           select_stmt held_env 3 eq_refl eq_refl eq_refl H3))
             Hle counts [] Hitems Hlen eq_refl).
  - apply (proj1 (count_rows_affected_reads_the_counts (informing_engine (info_item x15 4 8))
                    chain_world open_cur select_stmt held_env 8 eq_refl eq_refl eq_refl H8)
             Hgt [] eq_refl).
  - apply (proj2 (proj2 (count_rows_affected_reads_the_counts
                           (informing_engine (info_item x15 4 2 ++ [x01]))
                           chain_world open_cur select_stmt held_env 2 eq_refl eq_refl
                           eq_refl H2))
             Hle2 x01 [] Hb eq_refl).
Defined.

Section RowCounts.

Variable engine : Engine.
Variable host : Host.

Lemma accepted_not_failed (sv : list ISC_STATUS) :
  CHECK_DB_ERROR sv = false ->
  st_is 1 (sv_at sv 0) && st_positive (sv_at sv 1) = false.
Proof.
  unfold CHECK_DB_ERROR. destruct (st_is 1 (sv_at sv 0)); [|reflexivity].
  simpl. destruct (sv_at sv 1) as [n|msg]; simpl; [|discriminate].
  intros H. apply negb_false_iff, Z.eqb_eq in H. subst n. reflexivity.
Qed.

(** [raw_execute] on a statement without result columns, with an engine
    that reports no error and a count that is not negative. *)
Lemma raw_execute_counts (w : World) (sp : ptr) (stmt : stmt_data) (env : env_data)
  (conn : conn_data) (t idx : Z) (l : list (byte * Z)) :
  stmts w !! sp = Some stmt ->
  stmt_closed stmt = 0 ->
  stmt_lock stmt <= 0 ->
  envs w !! stmt_env stmt = Some env ->
  conns w !! stmt_conn stmt = Some conn ->
  accepting engine ->
  describes engine (handle stmt) 0 ->
  reports_counts engine (handle stmt) t l ->
  - 2 ^ 31 <= t < 2 ^ 31 ->
  Forall counter_item l -> (length l <= 11)%nat ->
  0 <= count_of t (fold_left update_count l no_counts) ->
  0 < statement_index w idx ->
  stack_at (stack w) (statement_index w idx) = Some (LUserdata KStmt sp) ->
  exists w' d env',
    raw_execute engine idx w = Ret 1 w'
    /\ stack w' = stack w ++ [LInteger (count_of t (fold_left update_count l no_counts))]
    /\ curs w' = curs w /\ stmts w' = stmts w /\ conns w' = conns w
    /\ registry w' = registry w
    /\ envs w' = <[stmt_env stmt := env']> (envs w)
    /\ trace w' = trace w ++ d ++ count_calls conn stmt
    /\ Forall (fun c => is_describe c = true) d.
Proof.
  intros Hs Hopen Hlock He Hc Hok Hn Hcounts Ht Hitems Hlen Hpos Hk Hud.
  destruct (size_out_sqlda_runs engine w (stmt_env stmt) env (handle stmt) 0 He Hok Hn)
    as (out & w1 & env1 & Hsize & Hsqld & Hlen1 & He1 & Hc1 & Hs1 & Hcu1 & Hr1 & Hst1
        & d & Ht1 & Hdesc).
  unfold statement_index in Hk, Hud.
  unfold raw_execute, getstatement, luaL_checkudata, malloc_sqlda_vars.
  monad_simpl. rewrite Hud. simpl. rewrite Hs. simpl.
  rewrite bool_decide_eq_true_2 by exact Hopen. crunch. rewrite Hs. crunch.
  destruct (decide (stmt_lock stmt > 0)) as [Hx|_]; [lia|]. crunch.
  rewrite Hsize. crunch.
  destruct (decide (sqld out <= Z.of_nat (length (sqlvar out)))) as [_|Hx]; [|lia].
  crunch. cbn [sqld]. rewrite ?Hsqld.
  destruct (decide (0 > 0)) as [Hx|_]; [lia|]. crunch. cbn [negb]. crunch.
  rewrite Hc1. crunch. rewrite Hc. crunch. rewrite He1, lookup_insert_eq. crunch.
  rewrite Hok. crunch. cbn [sqld]. rewrite ?Hsqld.
  destruct (decide (0 > 0)) as [Hx|_]; [lia|]. crunch.
  unfold count_calls.
  destruct (decide (autocommit conn <> 0)) as [Hauto|Hauto]; crunch;
    rewrite ?He1, ?lookup_insert_eq; crunch; rewrite ?Hok; cbn [negb]; crunch.
  all: match goal with
       | |- context [count_rows_affected engine _ ?c ?W] =>
           erewrite (count_rows_affected_counts engine W _ c stmt _ t l [])
       end.
  all: try exact Ht; try exact Hitems; try exact Hlen; try reflexivity.
  all: try (apply accepted_not_failed, Hok).
  all: try (rewrite app_nil_r; apply Hcounts).
  all: try (crunch; rewrite Hs1; exact Hs).
  all: try (crunch; reflexivity).
  all: destruct (decide (count_of t (fold_left update_count l no_counts) < 0))
         as [Hx|_]; [lia|].
  all: crunch.
  all: eexists _, d, _; split; [reflexivity|].
  all: crunch; rewrite Hst1, Hcu1, Hs1, He1, Hc1, Hr1, Ht1, ?insert_insert_eq.
  all: rewrite <- ?app_assoc; repeat split; exact Hdesc.
Qed.

(** X18.  [execute] on an open statement without an open cursor, without
    parameters to bind and without result columns, with an engine that
    reports no error: the statement is executed, committed (retaining the
    transaction) when the connection commits by itself, and the call returns
    the number of rows the engine counts for the type of the statement.  No
    cursor is made, the statement keeps its lock count and stays open, and
    the native cursor is closed at the end. *)
Theorem execute_returns_the_row_count
  (w : World) (sp : ptr) (stmt : stmt_data) (da : XSQLDA) (env : env_data)
  (conn : conn_data) (t : Z) (l : list (byte * Z)) :
  stmts w !! sp = Some stmt ->
  stmt_closed stmt = 0 ->
  stmt_lock stmt <= 0 ->
  in_sqlda stmt = Live da ->
  sqld da <= 0 ->
  envs w !! stmt_env stmt = Some env ->
  conns w !! stmt_conn stmt = Some conn ->
  accepting engine ->
  describes engine (handle stmt) 0 ->
  reports_counts engine (handle stmt) t l ->
  - 2 ^ 31 <= t < 2 ^ 31 ->
  Forall counter_item l -> (length l <= 11)%nat ->
  0 <= count_of t (fold_left update_count l no_counts) ->
  exists w' d,
    call_from_lua (stmt_execute engine host) [LUserdata KStmt sp] w
      = Ret [LInteger (count_of t (fold_left update_count l no_counts))] w'
    /\ stmts w' = stmts w /\ curs w' = curs w /\ conns w' = conns w
    /\ registry w' = registry w
    /\ trace w' = trace w ++ d ++ count_calls conn stmt
    /\ Forall (fun c => is_describe c = true) d.
Proof.
  intros Hs Hopen Hlock Hda Hnone He Hc Hok Hn Hcounts Ht Hitems Hlen Hpos.
  set (w0 := with_stack (fun _ => [LUserdata KStmt sp]) w).
  destruct (raw_execute_counts w0 sp stmt env conn t 1 l Hs Hopen Hlock He Hc Hok Hn
              Hcounts Ht Hitems Hlen Hpos)
    as (w1 & d & env1 & Hrun & Hst1 & Hcu1 & Hs1 & Hc1 & Hr1 & He1 & Ht1 & Hdesc);
    [reflexivity|reflexivity|].
  subst w0. world_simpl.
  erewrite call_returns.
  2:{ unfold stmt_execute, getstatement, luaL_checkudata.
      monad_simpl. rewrite stack_at_first. simpl. rewrite Hs. simpl.
      rewrite bool_decide_eq_true_2 by exact Hopen. crunch. rewrite Hs, Hda. crunch.
      destruct (decide (sqld da > 0)) as [Hx|_]; [lia|]. crunch. exact Hrun. }
  exists (with_stack (fun _ => []) w1), d. split; [f_equal|].
  { apply (results_top _ [LUserdata KStmt sp]); [exact Hst1|reflexivity]. }
  crunch. rewrite Hs1, Hcu1, Hc1, Hr1, Ht1. repeat split. exact Hdesc.
Qed.

End RowCounts.

Lemma informing_engine_accepts (buf : list byte) : accepting (informing_engine buf).
Proof. intros tr c. destruct c; reflexivity. Qed.

Lemma execute_returns_the_row_count_witness :
  let e := informing_engine (counts_buffer 2 [(x0e, 3)]) in
  stmts prepared_world !! 1%positive = Some idle_stmt
  /\ accepting e
  /\ describes e (handle idle_stmt) 0
  /\ reports_counts e (handle idle_stmt) 2 [(x0e, 3)]
  /\ Forall counter_item [(x0e, 3)]
  /\ exists w' d,
       call_from_lua (stmt_execute e plain_host) [LUserdata KStmt 1%positive]
         prepared_world
       = Ret [LInteger 3] w'
       /\ stmts w' = stmts prepared_world /\ curs w' = curs prepared_world
       /\ conns w' = conns prepared_world /\ registry w' = registry prepared_world
       /\ trace w' = trace prepared_world ++ d ++ count_calls held_conn idle_stmt
       /\ Forall (fun c => is_describe c = true) d.
Proof.
  intros e.
  assert (Hok : accepting e) by apply informing_engine_accepts.
  assert (Hn : describes e (handle idle_stmt) 0) by (intros tr da; reflexivity).
  assert (Hcounts : reports_counts e (handle idle_stmt) 2 [(x0e, 3)])
    by (intros tr; reflexivity).
  assert (Hitems : Forall counter_item [(x0e, 3)]).
  { unfold counter_item, counter_codes.
    repeat (constructor; [split; [cbn [fst]; set_solver | cbn [snd]; lia]|]).
    constructor. }
  assert (Ht : - 2 ^ 31 <= 2 < 2 ^ 31) by lia.
  assert (Hlen : (length [(x0e, 3)] <= 11)%nat) by (simpl; lia).
  assert (Hlock : stmt_lock idle_stmt <= 0) by discriminate.
  assert (Hnone : sqld {| version := 1; sqln := 1; sqld := 0;
                          sqlvar := [{| sqltype := 0; sqllen := 0; sqldata := None;
                                        sqlind := None; aliasname := [];
                                        aliasname_length := 0 |}] |} <= 0)
    by discriminate.
  assert (Hpos : 0 <= count_of 2 (fold_left update_count [(x0e, 3)] no_counts))
    by discriminate.
  split; [reflexivity|]. split; [exact Hok|]. split; [exact Hn|].
  split; [exact Hcounts|]. split; [exact Hitems|].
  apply (execute_returns_the_row_count e plain_host prepared_world 1%positive idle_stmt
           _ held_env held_conn 2 [(x0e, 3)] eq_refl eq_refl Hlock eq_refl Hnone eq_refl
           eq_refl Hok Hn Hcounts Ht Hitems Hlen Hpos).
Defined.

Section Statements.

Variable engine : Engine.
Variable host : Host.

(** Sizing of the input descriptor with an engine that reports [N]
    parameters and no error. *)
Lemma size_in_sqlda_runs (w : World) (e : ptr) (env : env_data) (h N : Z) :
  envs w !! e = Some env ->
  accepting engine ->
  binds engine N ->
  exists da w' env',
    size_in_sqlda engine e h w = Ret (Sized da) w'
    /\ sqld da = N /\ sqln da = Z.max 1 N
    /\ length (sqlvar da) = Z.to_nat (Z.max 1 N)
    /\ envs w' = <[e := env']> (envs w)
    /\ CHECK_DB_ERROR (status_vector env') = false
    /\ conns w' = conns w /\ stmts w' = stmts w /\ curs w' = curs w
    /\ registry w' = registry w /\ stack w' = stack w
    /\ exists t, trace w' = trace w ++ t
                 /\ Forall (fun c => is_describe_bind c = true) t.
Proof.
  intros He Hok Hn.
  unfold size_in_sqlda, free_xsqlda. monad_simpl. rewrite He. crunch.
  rewrite Hok. crunch.
  cbn [described sqld sqln]. rewrite Hn. cbn [malloc_xsqlda sqln].
  destruct (decide (N > 1)) as [Hbig|Hsmall].
  - crunch. rewrite Hok.
    eexists _, _, _. split; [reflexivity|].
    cbn [described sqld sqln sqlvar malloc_xsqlda]. rewrite Hn.
    rewrite describe_slots_length, length_replicate. crunch.
    rewrite insert_insert_eq, <- app_assoc.
    repeat split; try lia; try apply Hok. eexists. split; [reflexivity|].
    repeat constructor.
  - eexists _, _, _. split; [reflexivity|].
    cbn [described sqld sqln sqlvar malloc_xsqlda]. rewrite Hn.
    rewrite describe_slots_length, length_replicate. crunch.
    repeat split; try lia; try apply Hok. eexists. split; [reflexivity|].
    repeat constructor.
Qed.

(** [conn_prepare] called with a connection and an SQL text and nothing
    more, with an engine that reports no error, a supported type [t] and
    [N] parameters. *)
Lemma conn_prepare_runs (w : World) (cp : ptr) (conn : conn_data) (env : env_data)
  (sql : list byte) (t N : Z) :
  stack w = [LUserdata KConn cp; LString sql] ->
  conns w !! cp = Some conn ->
  conn_closed conn = 0 ->
  envs w !! conn_env conn = Some env ->
  accepting engine ->
  classifies engine t ->
  supported_statement t = true ->
  binds engine N ->
  0 <= N ->
  let sp := fresh (dom (stmts w)) in
  let h := rp_handle (isc engine (trace w) (isc_dsql_allocate_statement (db conn) 0)) in
  exists w' da env' d,
    conn_prepare engine host w = Ret 1 w'
    /\ stack w' = stack w ++ [LUserdata KStmt sp]
    /\ stmts w' = <[sp := {| stmt_closed := 0; stmt_lock := 0; stmt_env := conn_env conn;
                             stmt_conn := cp; in_sqlda := Live da; handle := h;
                             type := t; hidden := 0 |}]> (stmts w)
    /\ sqld da = N /\ length (sqlvar da) = Z.to_nat (Z.max 1 N)
    /\ Forall (fun v => sqlind v = Some (-1)) (take (Z.to_nat N) (sqlvar da))
    /\ conns w' = <[cp := set_conn_lock (conn_lock conn + 1) conn]> (conns w)
    /\ registry w' = <[(KConn, cp) := LUserdata KConn cp]> (registry w)
    /\ envs w' = <[conn_env conn := env']> (envs w)
    /\ curs w' = curs w
    /\ trace w' = trace w
                   ++ [isc_dsql_allocate_statement (db conn) 0;
                       isc_dsql_prepare (transaction conn) h (cstr sql) (dialect conn);
                       isc_dsql_sql_info h [isc_info_sql_stmt_type] 88]
                   ++ d
    /\ Forall (fun c => is_describe_bind c = true) d.
Proof.
  intros Hst Hc Hopen He Hok Hclass Hsup Hbinds HN sp h.
  assert (Hrange : 1 <= t <= 8).
  { unfold supported_statement in Hsup. apply bool_decide_eq_true_1 in Hsup.
    unfold isc_info_sql_stmt_select, isc_info_sql_stmt_insert, isc_info_sql_stmt_update,
      isc_info_sql_stmt_delete, isc_info_sql_stmt_ddl, isc_info_sql_stmt_exec_procedure
      in Hsup. lia. }
  unfold conn_prepare, getconnection, luaL_checkudata, luaL_checklstring,
    get_statement_type.
  monad_simpl. rewrite Hst, stack_at_first. simpl. rewrite Hc. simpl.
  rewrite bool_decide_eq_true_2 by exact Hopen. crunch. rewrite Hst, stack_at_2.
  crunch. rewrite Hc. crunch.
  rewrite He. crunch. rewrite Hok. crunch. fold h. rewrite Hok. crunch.
  rewrite (accepted_not_failed _ (Hok _ _)).
  destruct (Hclass (trace w ++ [isc_dsql_allocate_statement (db conn) 0]
                      ++ [isc_dsql_prepare (transaction conn) h (cstr sql) (dialect conn)])
              h) as [rest Hbuf].
  rewrite <- ?app_assoc. cbn [app] in Hbuf |- *.
  rewrite Hbuf, take_info_item, (read_statement_type_item 4 t)
    by (lia || (simpl; lia)).
  destruct (decide (t < 0)) as [Hx|_]; [lia|]. rewrite Hsup. cbn [negb].
  match goal with
  | |- context [size_in_sqlda engine _ _ ?W] => remember W as w2 eqn:Hw2
  end.
  assert (He2 : exists env2, envs w2 = <[conn_env conn := env2]> (envs w)
                             /\ envs w2 !! conn_env conn = Some env2).
  { eexists. rewrite Hw2. crunch. rewrite !insert_insert_eq. split; reflexivity. }
  assert (Hc2 : conns w2 = conns w) by (rewrite Hw2; reflexivity).
  assert (Hs2 : stmts w2 = stmts w) by (rewrite Hw2; reflexivity).
  assert (Hcu2 : curs w2 = curs w) by (rewrite Hw2; reflexivity).
  assert (Hr2 : registry w2 = registry w) by (rewrite Hw2; reflexivity).
  assert (Hst2 : stack w2 = stack w) by (rewrite Hw2; reflexivity).
  assert (Ht2 : trace w2 = trace w
                           ++ [isc_dsql_allocate_statement (db conn) 0;
                               isc_dsql_prepare (transaction conn) h (cstr sql)
                                 (dialect conn);
                               isc_dsql_sql_info h [isc_info_sql_stmt_type] 88]).
  { rewrite Hw2. crunch. rewrite <- !app_assoc. reflexivity. }
  clear Hw2. destruct He2 as (env2 & He2 & He2').
  destruct (size_in_sqlda_runs w2 (conn_env conn) env2 h N He2' Hok Hbinds)
    as (da0 & w3 & env3 & Hsize & Hsqld & Hsqln & Hlen & He3 & Hchk & Hc3 & Hs3 & Hcu3
        & Hr3 & Hst3 & d & Ht3 & Hd).
  rewrite Hsize. crunch. unfold malloc_sqlda_vars.
  destruct (decide (sqld da0 <= Z.of_nat (length (sqlvar da0)))) as [_|Hx]; [|lia].
  unfold ret. crunch. cbn [sqld]. rewrite Hsqld.
  destruct (decide (N > 0)) as [Hpos|Hzero].
  - erewrite (parse_params_no_values engine host w3 _ _ 3 [LUserdata KConn cp; LString sql] []).
    2:{ reflexivity. }
    2:{ cbn [sqlvar sqln]. rewrite length_app, length_map, length_take, length_drop. lia. }
    2:{ lia. }
    2:{ rewrite Hst3, Hst2, Hst. reflexivity. }
    2:{ reflexivity. }
    2:{ constructor. }
    crunch. rewrite He3, lookup_insert_eq. crunch. rewrite Hchk. crunch.
    unfold new_stmt, registerobj. monad_simpl. crunch.
    rewrite Hst3, Hst2, Hst, Hs3, Hs2. fold sp.
    change (stack_at ([LUserdata KConn cp; LString sql]
                        ++ [LUserdata LUASQL_STATEMENT_FIREBIRD sp]) 1)
      with (Some (LUserdata KConn cp)).
    rewrite stack_at_top, Hc3, Hc2, Hc. crunch.
    eexists _, _, env3, d. split; [reflexivity|].
    crunch. cbn [version sqln sqld sqlvar registry_set].
    rewrite ?Hst3, ?Hst2, ?Hst, ?Hs3, ?Hs2, ?He3, ?He2, ?Hc3, ?Hc2, ?Hcu3, ?Hcu2,
      ?Hr3, ?Hr2, ?Ht3, ?Ht2, ?insert_insert_eq.
    split; [reflexivity|]. split; [reflexivity|]. split; [reflexivity|].
    split.
    { cbn [sqlvar]. rewrite length_map, length_app, length_map, length_take, length_drop.
      lia. }
    split.
    { cbn [sqlvar]. apply Forall_take, List.Forall_map, Forall_forall.
      intros x _. reflexivity. }
    rewrite <- app_assoc. repeat split. exact Hd.
  - assert (HN0 : N = 0) by lia.
    crunch. unfold new_stmt, registerobj. monad_simpl. crunch.
    rewrite Hst3, Hst2, Hst, Hs3, Hs2. fold sp.
    change (stack_at ([LUserdata KConn cp; LString sql]
                        ++ [LUserdata LUASQL_STATEMENT_FIREBIRD sp]) 1)
      with (Some (LUserdata KConn cp)).
    rewrite stack_at_top, Hc3, Hc2, Hc. crunch.
    eexists _, _, env3, d. split; [reflexivity|].
    crunch. cbn [version sqln sqld sqlvar registry_set].
    rewrite ?Hst3, ?Hst2, ?Hst, ?Hs3, ?Hs2, ?He3, ?He2, ?Hc3, ?Hc2, ?Hcu3, ?Hcu2,
      ?Hr3, ?Hr2, ?Ht3, ?Ht2, ?insert_insert_eq.
    split; [reflexivity|]. split; [reflexivity|]. split; [reflexivity|].
    split.
    { cbn [sqlvar]. rewrite length_app, length_map, length_take, length_drop. lia. }
    split.
    { rewrite HN0. constructor. }
    rewrite <- app_assoc. repeat split. exact Hd.
Qed.

(** X19.  [prepare] on an open connection with an SQL text and no values,
    with an engine that reports no error, a supported statement type and
    [N] parameters: the call returns a new statement that is open, without
    cursors, visible, of the type and with the handle the engine gave, its
    [N] parameters bound to NULL; the connection has one lock more and is
    anchored in the registry.  The engine is asked to allocate the
    statement, to prepare the text up to its first NUL byte in the
    connection's transaction and dialect, for the type, and to describe the
    parameters. *)
Theorem prepare_returns_statement_and_locks_connection
  (w : World) (cp : ptr) (conn : conn_data) (env : env_data) (sql : list byte)
  (t N : Z) :
  conns w !! cp = Some conn ->
  conn_closed conn = 0 ->
  envs w !! conn_env conn = Some env ->
  accepting engine ->
  classifies engine t ->
  supported_statement t = true ->
  binds engine N ->
  0 <= N ->
  let sp := fresh (dom (stmts w)) in
  let h := rp_handle (isc engine (trace w) (isc_dsql_allocate_statement (db conn) 0)) in
  exists w' da d,
    call_from_lua (conn_prepare engine host) [LUserdata KConn cp; LString sql] w
      = Ret [LUserdata KStmt sp] w'
    /\ stmts w !! sp = None
    /\ stmts w' = <[sp := {| stmt_closed := 0; stmt_lock := 0; stmt_env := conn_env conn;
                             stmt_conn := cp; in_sqlda := Live da; handle := h;
                             type := t; hidden := 0 |}]> (stmts w)
    /\ sqld da = N /\ length (sqlvar da) = Z.to_nat (Z.max 1 N)
    /\ Forall (fun v => sqlind v = Some (-1)) (take (Z.to_nat N) (sqlvar da))
    /\ conns w' = <[cp := set_conn_lock (conn_lock conn + 1) conn]> (conns w)
    /\ registry w' = <[(KConn, cp) := LUserdata KConn cp]> (registry w)
    /\ curs w' = curs w
    /\ trace w' = trace w
                   ++ [isc_dsql_allocate_statement (db conn) 0;
                       isc_dsql_prepare (transaction conn) h (cstr sql) (dialect conn);
                       isc_dsql_sql_info h [isc_info_sql_stmt_type] 88]
                   ++ d
    /\ Forall (fun c => is_describe_bind c = true) d.
Proof.
  intros Hc Hopen He Hok Hclass Hsup Hbinds HN sp h.
  set (w0 := with_stack (fun _ => [LUserdata KConn cp; LString sql]) w).
  destruct (conn_prepare_runs w0 cp conn env sql t N eq_refl Hc Hopen He Hok Hclass Hsup
              Hbinds HN)
    as (w1 & da & env1 & d & Hrun & Hst1 & Hs1 & Hsqld & Hlen & Hnull & Hc1 & Hr1 & He1
        & Hcu1 & Ht1 & Hd).
  subst w0. world_simpl. fold sp in Hst1, Hs1. fold h in Hs1, Ht1.
  erewrite call_returns by exact Hrun.
  exists (with_stack (fun _ => []) w1), da, d. split; [f_equal|].
  { apply (results_top _ [LUserdata KConn cp; LString sql]); [exact Hst1|reflexivity]. }
  split; [apply not_elem_of_dom, is_fresh|].
  crunch. rewrite Hs1, Hc1, Hr1, Hcu1, Ht1. repeat split; assumption.
Qed.

(** X20.  [execute] on an open connection with the text of a statement
    without result columns, with an engine that reports no error: the call
    returns the number of rows the engine counts for the type of the
    statement, and the statement it prepared is dropped before the call
    returns: it is hidden and closed, its descriptor freed, and the
    connection is as it was, with the lock count it had. *)
Theorem conn_execute_returns_count_and_drops_statement
  (w : World) (cp : ptr) (conn : conn_data) (env : env_data) (sql : list byte)
  (t N : Z) (l : list (byte * Z)) :
  conns w !! cp = Some conn ->
  conn_closed conn = 0 ->
  envs w !! conn_env conn = Some env ->
  accepting engine ->
  classifies engine t ->
  supported_statement t = true ->
  binds engine N ->
  0 <= N ->
  (forall h, describes engine h 0) ->
  (forall h, reports_counts engine h t l) ->
  Forall counter_item l -> (length l <= 11)%nat ->
  0 <= count_of t (fold_left update_count l no_counts) ->
  let sp := fresh (dom (stmts w)) in
  exists w' st,
    call_from_lua (conn_execute engine host) [LUserdata KConn cp; LString sql] w
      = Ret [LInteger (count_of t (fold_left update_count l no_counts))] w'
    /\ stmts w !! sp = None
    /\ stmts w' = <[sp := st]> (stmts w)
    /\ stmt_closed st = 1 /\ hidden st = 1 /\ in_sqlda st = Dangling
    /\ stmt_conn st = cp /\ type st = t
    /\ conns w' = conns w
    /\ curs w' = curs w
    /\ registry w' = released (conn_lock conn) (KConn, cp)
                       (<[(KConn, cp) := LUserdata KConn cp]> (registry w)).
Proof.
  intros Hc Hopen He Hok Hclass Hsup Hbinds HN Hdesc Hcounts Hitems Hlen Hpos sp.
  assert (Hrange : - 2 ^ 31 <= t < 2 ^ 31).
  { unfold supported_statement in Hsup. apply bool_decide_eq_true_1 in Hsup.
    unfold isc_info_sql_stmt_select, isc_info_sql_stmt_insert, isc_info_sql_stmt_update,
      isc_info_sql_stmt_delete, isc_info_sql_stmt_ddl, isc_info_sql_stmt_exec_procedure
      in Hsup. lia. }
  set (w0 := with_stack (fun _ => [LUserdata KConn cp; LString sql]) w).
  destruct (conn_prepare_runs w0 cp conn env sql t N eq_refl Hc Hopen He Hok Hclass Hsup
              Hbinds HN)
    as (w1 & da & env1 & d & Hrun1 & Hst1 & Hs1 & Hsqld & Hlen1 & Hnull & Hc1 & Hr1 & He1
        & Hcu1 & Ht1 & Hd).
  subst w0. world_simpl. fold sp in Hst1, Hs1.
  set (h := rp_handle (isc engine (trace w) (isc_dsql_allocate_statement (db conn) 0)))
    in *.
  set (stmt1 := {| stmt_closed := 0; stmt_lock := 0; stmt_env := conn_env conn;
                   stmt_conn := cp; in_sqlda := Live da; handle := h; type := t;
                   hidden := 0 |}) in *.
  assert (Hs1' : stmts w1 !! sp = Some stmt1) by (rewrite Hs1; apply lookup_insert_eq).
  assert (He1' : envs w1 !! stmt_env stmt1 = Some env1)
    by (rewrite He1; apply lookup_insert_eq).
  assert (Hc1' : conns w1 !! stmt_conn stmt1
                 = Some (set_conn_lock (conn_lock conn + 1) conn))
    by (rewrite Hc1; apply lookup_insert_eq).
  assert (Hlock : stmt_lock stmt1 <= 0) by (simpl; lia).
  destruct (raw_execute_counts engine w1 sp stmt1 env1 _ t (-1) l Hs1' eq_refl Hlock He1'
              Hc1' Hok (Hdesc _) (Hcounts _) Hrange Hitems Hlen Hpos)
    as (w2 & d2 & env2 & Hrun2 & Hst2 & Hcu2 & Hs2 & Hc2 & Hr2 & He2 & Ht2 & Hd2).
  { unfold statement_index. rewrite Hst1. simpl. lia. }
  { unfold statement_index. rewrite Hst1. reflexivity. }
  erewrite call_returns.
  2:{ unfold conn_execute. unfold bind at 1. rewrite Hrun1.
      destruct (decide (1 <> 1)) as [Hx|_]; [contradiction|].
      unfold bind at 1. rewrite Hrun2.
      destruct (decide (1 <> 1)) as [Hx|_]; [contradiction|].
      unfold getstatement, luaL_checkudata, luaL_testudata, lua_remove.
      monad_simpl. rewrite Hst2, Hst1. simpl. rewrite Hs2, Hs1'. simpl. crunch.
      rewrite Hs2, Hs1'. crunch. rewrite Hst2, Hst1. simpl.
      match goal with
      | |- context [stmt_shut engine sp ?W] =>
          erewrite (stmt_shut_runs engine W sp (set_stmt_hidden 1 stmt1) env2 _)
      end.
      - simpl. reflexivity.
      - crunch. reflexivity.
      - crunch. rewrite He2. apply lookup_insert_eq.
      - crunch. rewrite Hc2. exact Hc1'.
      - discriminate.
      - apply Hok. }
  eexists _, (dropped_stmt (set_stmt_hidden 1 stmt1) _).
  split; [f_equal|].
  { unfold results. crunch. rewrite Hst2, Hst1. reflexivity. }
  split; [apply not_elem_of_dom, is_fresh|].
  crunch. rewrite Hs2, Hs1, Hc2, Hc1, Hcu2, Hcu1, Hr2, Hr1, !insert_insert_eq.
  replace (conn_lock conn + 1 - 1) with (conn_lock conn) by lia.
  repeat split.
  rewrite <- (insert_id (conns w) cp conn Hc) at 2.
  f_equal. destruct conn; reflexivity.
Qed.

(** X21.  [execute] on an open connection with the text of a statement
    that has [K] result columns (at least one), with an engine that reports
    no error: the call returns a new cursor that is open and ready to fetch
    over [K] columns.  The statement behind it is hidden, open and locked
    once by the cursor; it locks the connection once, and both are anchored
    in the registry. *)
Theorem conn_execute_returns_cursor_over_hidden_statement
  (w : World) (cp : ptr) (conn : conn_data) (env : env_data) (sql : list byte)
  (t N K : Z) :
  conns w !! cp = Some conn ->
  conn_closed conn = 0 ->
  envs w !! conn_env conn = Some env ->
  accepting engine ->
  classifies engine t ->
  supported_statement t = true ->
  binds engine N ->
  0 <= N ->
  (forall h, describes engine h K) ->
  1 <= K ->
  let sp := fresh (dom (stmts w)) in
  let cur := fresh (dom (curs w)) in
  exists w' st,
    call_from_lua (conn_execute engine host) [LUserdata KConn cp; LString sql] w
      = Ret [LUserdata KCur cur] w'
    /\ stmts w !! sp = None /\ curs w !! cur = None
    /\ fetch_ready w' cur sp st K
    /\ stmt_closed st = 0 /\ stmt_lock st = 1 /\ hidden st = 1
    /\ stmt_conn st = cp /\ type st = t
    /\ conns w' = <[cp := set_conn_lock (conn_lock conn + 1) conn]> (conns w)
    /\ registry w' = <[(KStmt, sp) := LUserdata KStmt sp]>
                       (<[(KConn, cp) := LUserdata KConn cp]> (registry w)).
Proof.
  intros Hc Hopen He Hok Hclass Hsup Hbinds HN Hdesc HK sp cur.
  set (w0 := with_stack (fun _ => [LUserdata KConn cp; LString sql]) w).
  destruct (conn_prepare_runs w0 cp conn env sql t N eq_refl Hc Hopen He Hok Hclass Hsup
              Hbinds HN)
    as (w1 & da & env1 & d & Hrun1 & Hst1 & Hs1 & Hsqld & Hlen1 & Hnull & Hc1 & Hr1 & He1
        & Hcu1 & Ht1 & Hd).
  subst w0. world_simpl. fold sp in Hst1, Hs1.
  set (h := rp_handle (isc engine (trace w) (isc_dsql_allocate_statement (db conn) 0)))
    in *.
  set (stmt1 := {| stmt_closed := 0; stmt_lock := 0; stmt_env := conn_env conn;
                   stmt_conn := cp; in_sqlda := Live da; handle := h; type := t;
                   hidden := 0 |}) in *.
  assert (Hs1' : stmts w1 !! sp = Some stmt1) by (rewrite Hs1; apply lookup_insert_eq).
  assert (He1' : envs w1 !! stmt_env stmt1 = Some env1)
    by (rewrite He1; apply lookup_insert_eq).
  assert (Hc1' : conns w1 !! stmt_conn stmt1
                 = Some (set_conn_lock (conn_lock conn + 1) conn))
    by (rewrite Hc1; apply lookup_insert_eq).
  assert (Hlock : stmt_lock stmt1 <= 0) by (simpl; lia).
  destruct (raw_execute_opens engine w1 sp stmt1 env1 _ K (-1) Hs1' eq_refl Hlock He1'
              Hc1' Hok (Hdesc _) HK)
    as (w2 & d2 & env2 & out & Hrun2 & Hst2 & Hcu2 & Hsqld2 & Hlen2 & Hout & Hs2 & He2
        & Hc2 & Hr2 & Ht2 & Hd2).
  { unfold statement_index. rewrite Hst1. simpl. lia. }
  { unfold statement_index. rewrite Hst1. reflexivity. }
  rewrite Hcu1 in Hst2, Hcu2. fold cur in Hst2, Hcu2.
  erewrite call_returns.
  2:{ unfold conn_execute. unfold bind at 1. rewrite Hrun1.
      destruct (decide (1 <> 1)) as [Hx|_]; [contradiction|].
      unfold bind at 1. rewrite Hrun2.
      destruct (decide (1 <> 1)) as [Hx|_]; [contradiction|].
      unfold getstatement, luaL_checkudata, luaL_testudata, lua_remove.
      monad_simpl. rewrite Hst2, Hst1. simpl. rewrite Hs2, lookup_insert_eq. simpl. crunch.
      rewrite Hs2, lookup_insert_eq. crunch. rewrite Hst2, Hst1. simpl. reflexivity. }
  eexists _, (set_stmt_hidden 1 (set_stmt_lock (stmt_lock stmt1 + 1) stmt1)).
  split; [f_equal|].
  { unfold results. crunch. rewrite Hst2, Hst1. reflexivity. }
  split; [apply not_elem_of_dom, is_fresh|].
  split; [apply not_elem_of_dom, is_fresh|].
  split.
  { exists {| cur_closed := 0; cur_env := stmt_env stmt1; cur_stmt := sp;
              out_sqlda := Live out |}, (set_conn_lock (conn_lock conn + 1) conn), env2,
      out.
    crunch. rewrite Hcu2, Hc2, He2, !lookup_insert_eq.
    repeat split; try assumption; try reflexivity; try lia.
    discriminate. }
  crunch. rewrite Hc2, Hc1, Hr2, Hr1. repeat split.
Qed.

End Statements.

Section Autocommit.

Variable engine : Engine.
Variable host : Host.

(** X22.  [setautocommit] on an open connection returns true and
    switches the connection to committing by itself exactly when its
    argument is true for Lua: absent, nil and false switch it off,
    everything else (the number 0 too) on.  It asks the engine nothing and
    changes nothing else.  Afterwards, for an open statement of that
    connection without parameters, open cursor or result columns, with an
    engine that reports no error and reports the statement's type with
    well-formed record counts, the count for the type not negative:
    [execute] returns that count, and the execute call is followed by a
    commit that retains the transaction exactly when the switch is on. *)
Theorem autocommit_decides_the_commit
  (w : World) (cp : ptr) (conn : conn_data) (rest : list lua_value) :
  conns w !! cp = Some conn ->
  conn_closed conn = 0 ->
  let on := lua_toboolean (rest !! 0%nat) in
  let w1 := with_stack (fun _ => [])
              (with_conns <[cp := set_conn_autocommit (if on then 1 else 0) conn]> w) in
  call_from_lua conn_setautocommit (LUserdata KConn cp :: rest) w = Ret [LBoolean true] w1
  /\ (on = false <->
      rest !! 0%nat = None \/ rest !! 0%nat = Some LNil
      \/ rest !! 0%nat = Some (LBoolean false))
  /\ forall (sp : ptr) (stmt : stmt_data) (da : XSQLDA) (env : env_data) (t : Z)
            (l : list (byte * Z)),
       stmts w !! sp = Some stmt ->
       stmt_conn stmt = cp ->
       stmt_closed stmt = 0 ->
       stmt_lock stmt <= 0 ->
       in_sqlda stmt = Live da ->
       sqld da <= 0 ->
       envs w !! stmt_env stmt = Some env ->
       accepting engine ->
       describes engine (handle stmt) 0 ->
       reports_counts engine (handle stmt) t l ->
       - 2 ^ 31 <= t < 2 ^ 31 ->
       Forall counter_item l -> (length l <= 11)%nat ->
       0 <= count_of t (fold_left update_count l no_counts) ->
       exists w2 d,
         call_from_lua (stmt_execute engine host) [LUserdata KStmt sp] w1
           = Ret [LInteger (count_of t (fold_left update_count l no_counts))] w2
         /\ trace w2 = trace w ++ d
                        ++ [isc_dsql_execute (transaction conn) (handle stmt) (Live da)]
                        ++ (if on then [isc_commit_retaining (transaction conn)] else [])
                        ++ [isc_dsql_sql_info (handle stmt)
                              [isc_info_sql_stmt_type; isc_info_sql_records] 88;
                            isc_dsql_free_statement (handle stmt) DSQL_close]
         /\ Forall (fun c => is_describe c = true) d.
Proof.
  intros Hc Hcopen on w1.
  set (conn' := set_conn_autocommit (if on then 1 else 0) conn).
  split; [|split].
  { erewrite call_returns.
    2:{ unfold conn_setautocommit, getconnection, luaL_checkudata. monad_simpl.
        rewrite stack_at_first. simpl. rewrite Hc. simpl.
        rewrite bool_decide_eq_true_2 by exact Hcopen. crunch. rewrite Hc. crunch.
        rewrite stack_at_second. fold on. fold conn'. reflexivity. }
    f_equal.
    unfold results. crunch. rewrite drop_app_length'; [reflexivity|].
    rewrite length_app. simpl. lia. }
  { subst on. unfold lua_toboolean.
    destruct (rest !! 0%nat) as [[| [] | | | | |]|]; split; intros H;
      try reflexivity; try discriminate H; try tauto;
      destruct H as [H|[H|H]]; discriminate H. }
  intros sp stmt da env t l Hs Hsc Hopen Hlock Hda Hnone He Hok Hn Hcounts Ht Hitems
         Hlen Hpos.
  set (w0 := with_stack (fun _ => [LUserdata KStmt sp]) w1).
  assert (Hc' : conns w0 !! stmt_conn stmt = Some conn')
    by (rewrite Hsc; apply lookup_insert_eq).
  destruct (raw_execute_counts engine w0 sp stmt env conn' t 1 l Hs Hopen Hlock He Hc'
              Hok Hn Hcounts Ht Hitems Hlen Hpos)
    as (w2 & d & env2 & Hrun & Hst2 & Hcu2 & Hs2 & Hc2 & Hr2 & He2 & Ht2 & Hd);
    [reflexivity|reflexivity|].
  exists (with_stack (fun _ => []) w2), d.
  split.
  { erewrite call_returns.
    2:{ unfold stmt_execute, getstatement, luaL_checkudata.
        subst w0 w1. monad_simpl. rewrite stack_at_first. simpl. rewrite Hs. simpl.
        rewrite bool_decide_eq_true_2 by exact Hopen. crunch. rewrite Hs, Hda. crunch.
        destruct (decide (sqld da > 0)) as [Hx|_]; [lia|]. crunch. exact Hrun. }
    f_equal. apply (results_top _ [LUserdata KStmt sp]); [exact Hst2|reflexivity]. }
  split; [|exact Hd].
  crunch. rewrite Ht2. unfold count_calls. subst conn'. crunch. rewrite Hda.
  destruct on; reflexivity.
Qed.

End Autocommit.

Lemma autocommit_decides_the_commit_witness :
  let e := informing_engine (counts_buffer 2 [(x0e, 3)]) in
  let w1 := with_stack (fun _ => [])
              (with_conns <[1%positive := set_conn_autocommit 1 held_conn]>
                 prepared_world) in
  conns prepared_world !! 1%positive = Some held_conn
  /\ conn_closed held_conn = 0
  /\ call_from_lua conn_setautocommit [LUserdata KConn 1%positive; LInteger 0]
       prepared_world
     = Ret [LBoolean true] w1
  /\ stmts prepared_world !! 1%positive = Some idle_stmt
  /\ accepting e
  /\ describes e (handle idle_stmt) 0
  /\ reports_counts e (handle idle_stmt) 2 [(x0e, 3)]
  /\ Forall counter_item [(x0e, 3)]
  /\ exists w2 d,
       call_from_lua (stmt_execute e plain_host) [LUserdata KStmt 1%positive] w1
       = Ret [LInteger 3] w2
       /\ trace w2 = trace prepared_world ++ d
                      ++ [isc_dsql_execute 12 13 (in_sqlda idle_stmt)]
                      ++ [isc_commit_retaining 12]
                      ++ [isc_dsql_sql_info 13
                            [isc_info_sql_stmt_type; isc_info_sql_records] 88;
                          isc_dsql_free_statement 13 DSQL_close]
       /\ Forall (fun c => is_describe c = true) d.
Proof.
  intros e w1.
  assert (Hok : accepting e) by apply informing_engine_accepts.
  assert (Hn : describes e (handle idle_stmt) 0) by (intros tr da; reflexivity).
  assert (Hcounts : reports_counts e (handle idle_stmt) 2 [(x0e, 3)])
    by (intros tr; reflexivity).
  assert (Hitems : Forall counter_item [(x0e, 3)]).
  { unfold counter_item, counter_codes.
    repeat (constructor; [split; [cbn [fst]; set_solver | cbn [snd]; lia]|]).
    constructor. }
  assert (Ht : - 2 ^ 31 <= 2 < 2 ^ 31) by lia.
  assert (Hlen : (length [(x0e, 3)] <= 11)%nat) by (simpl; lia).
  assert (Hlock : stmt_lock idle_stmt <= 0) by discriminate.
  assert (Hnone : sqld {| version := 1; sqln := 1; sqld := 0;
                          sqlvar := [{| sqltype := 0; sqllen := 0; sqldata := None;
                                        sqlind := None; aliasname := [];
                                        aliasname_length := 0 |}] |} <= 0)
    by discriminate.
  assert (Hpos : 0 <= count_of 2 (fold_left update_count [(x0e, 3)] no_counts))
    by discriminate.
  destruct (autocommit_decides_the_commit e plain_host prepared_world 1%positive
              held_conn [LInteger 0] eq_refl eq_refl) as (Hset & _ & Hexec).
  split; [reflexivity|]. split; [reflexivity|]. split; [exact Hset|].
  split; [reflexivity|]. split; [exact Hok|].
  split; [exact Hn|]. split; [exact Hcounts|]. split; [exact Hitems|].
  exact (Hexec 1%positive idle_stmt _ held_env 2 [(x0e, 3)] eq_refl eq_refl
           eq_refl Hlock eq_refl Hnone eq_refl Hok Hn Hcounts Ht Hitems Hlen Hpos).
Defined.

Section Session.

Variable engine : Engine.
Variable host : Host.

(** X23.  A session from end to end, with an engine that reports no
    error.  The driver's constructor returns a new open environment;
    [connect] on it returns a connection; [close] on the environment is
    then refused, because the connection is open; [close] on the connection
    rolls the transaction back, detaches the database and returns true;
    after that [close] on the environment returns true.  At the end both
    are closed, the environment counts no connection and the registry holds
    what it held at the start. *)
Theorem session_closes_in_order
  (w : World) (args : list lua_value) (source user pass dpb : list byte) :
  construct_dpb user pass = Some dpb ->
  accepting engine ->
  let ep := fresh (dom (envs w)) in
  let cp := fresh (dom (conns w)) in
  let c1 := isc_attach_database (to_short (strlen source)) (cstr source)
              (to_short (Z.of_nat (length dpb))) dpb in
  let dbh := rp_handle (isc engine (trace w) c1) in
  let c2 := isc_start_transaction dbh isc_tpb in
  let trh := rp_handle (isc engine (trace w ++ [c1]) c2) in
  exists w1 w2 w4 w5 env conn,
    call_from_lua create_environment args w = Ret [LUserdata KEnv ep] w1
    /\ call_from_lua (env_connect engine host)
         [LUserdata KEnv ep; LString source; LString user; LString pass] w1
       = Ret [LUserdata KConn cp] w2
    /\ call_from_lua env_close [LUserdata KEnv ep] w2
       = Ret (failure "there are still open connections") w2
    /\ call_from_lua (conn_close engine) [LUserdata KConn cp] w2 = Ret [LBoolean true] w4
    /\ call_from_lua env_close [LUserdata KEnv ep] w4 = Ret [LBoolean true] w5
    /\ envs w5 = <[ep := env]> (envs w)
    /\ env_closed env = 1 /\ env_lock env = 0
    /\ conns w5 = <[cp := conn]> (conns w)
    /\ conn_closed conn = 1 /\ conn_env conn = ep
    /\ registry w5 = delete (KEnv, ep) (registry w)
    /\ stmts w5 = stmts w /\ curs w5 = curs w
    /\ trace w5 = trace w ++ [c1; c2; isc_rollback_transaction trh;
                              isc_detach_database dbh].
Proof.
  intros Hdpb Hok ep cp c1 dbh c2 trh.
  (* the constructor *)
  set (env0 := {| env_closed := 0; env_lock := 0;
                  status_vector := replicate 20 (st_num 0) |}).
  set (w1 := with_stack (fun _ => []) (with_envs <[ep := env0]> w)).
  assert (H1 : call_from_lua create_environment args w = Ret [LUserdata KEnv ep] w1).
  { erewrite call_returns.
    2:{ unfold create_environment, new_env. monad_simpl. reflexivity. }
    f_equal.
    unfold results. crunch. rewrite drop_app_length'; [reflexivity|].
    rewrite length_app. simpl. lia. }
  assert (He1 : envs w1 !! ep = Some env0) by apply lookup_insert_eq.
  assert (He1f : envs w1 = <[ep := env0]> (envs w)) by reflexivity.
  assert (Hc1 : conns w1 = conns w) by reflexivity.
  assert (Hr1 : registry w1 = registry w) by reflexivity.
  assert (Hs1 : stmts w1 = stmts w) by reflexivity.
  assert (Hcu1 : curs w1 = curs w) by reflexivity.
  assert (Ht1 : trace w1 = trace w) by reflexivity.
  clearbody w1.
  (* connect *)
  set (conn0 := {| conn_closed := 0; conn_lock := 0; conn_env := ep; autocommit := 0;
                   db := dbh; dpb_buffer := dpb;
                   dpb_length := to_short (Z.of_nat (length dpb));
                   transaction := trh; dialect := 3 |}).
  assert (H2 : exists w2 sv,
             call_from_lua (env_connect engine host)
               [LUserdata KEnv ep; LString source; LString user; LString pass] w1
             = Ret [LUserdata KConn cp] w2
             /\ trace w2 = trace w ++ [c1; c2]
             /\ conns w2 = <[cp := conn0]> (conns w)
             /\ envs w2 = <[ep := {| env_closed := 0; env_lock := 1;
                                     status_vector := sv |}]> (envs w)
             /\ registry w2 = <[(KEnv, ep) := LUserdata KEnv ep]> (registry w)
             /\ stmts w2 = stmts w /\ curs w2 = curs w /\ stack w2 = []).
  { unfold call_from_lua, env_connect, getenvironment, luaL_optstring, luaL_checklstring,
      luaL_checkudata, new_conn, registerobj.
    monad_simpl. rewrite stack_at_first. simpl. rewrite He1. simpl. args_simpl.
    rewrite Hdpb. crunch. rewrite He1. crunch. rewrite Ht1.
    fold c1. fold dbh. rewrite Hok. crunch. fold c2. fold trh.
    rewrite Hok. crunch. rewrite Hc1. fold cp. fold conn0.
    eexists _, _. split; [reflexivity|]. crunch.
    rewrite Ht1, Hc1, He1f, Hr1, Hs1, Hcu1, <- app_assoc, !insert_insert_eq.
    repeat split. }
  destruct H2 as (w2 & sv2 & H2 & Ht2 & Hc2 & He2 & Hr2 & Hs2 & Hcu2 & Hst2).
  set (env2 := {| env_closed := 0; env_lock := 1; status_vector := sv2 |}) in *.
  assert (He2' : envs w2 !! ep = Some env2) by (rewrite He2; apply lookup_insert_eq).
  assert (Hc2' : conns w2 !! cp = Some conn0) by (rewrite Hc2; apply lookup_insert_eq).
  (* the environment refuses to close *)
  assert (H3 : call_from_lua env_close [LUserdata KEnv ep] w2
               = Ret (failure "there are still open connections") w2).
  { unfold call_from_lua, env_close, luaL_checkudata. monad_simpl.
    rewrite stack_at_first. simpl. rewrite He2'. simpl.
    f_equal. apply world_ext; crunch; try reflexivity. symmetry. exact Hst2. }
  (* the connection closes *)
  assert (H4 : exists w4 sv,
             call_from_lua (conn_close engine) [LUserdata KConn cp] w2
             = Ret [LBoolean true] w4
             /\ trace w4 = trace w2 ++ [isc_rollback_transaction trh;
                                        isc_detach_database dbh]
             /\ (exists conn, conns w4 = <[cp := conn]> (conns w)
                              /\ conn_closed conn = 1 /\ conn_env conn = ep)
             /\ envs w4 = <[ep := {| env_closed := 0; env_lock := 0;
                                     status_vector := sv |}]> (envs w)
             /\ registry w4 = delete (KEnv, ep) (registry w)
             /\ stmts w4 = stmts w /\ curs w4 = curs w).
  { unfold call_from_lua, conn_close, luaL_checkudata, unregisterobj. monad_simpl.
    rewrite stack_at_first. simpl. rewrite Hc2'. simpl. crunch. rewrite He2'. crunch.
    rewrite Hok. crunch. rewrite Hok. crunch.
    eexists _, _. split; [reflexivity|]. crunch.
    rewrite Hc2, He2, Hr2, Hs2, Hcu2, <- app_assoc, !insert_insert_eq.
    split; [reflexivity|]. split.
    { eexists. split; [reflexivity|]. split; reflexivity. }
    split; [reflexivity|]. split; [apply delete_insert_eq|]. split; reflexivity. }
  destruct H4 as (w4 & sv4 & H4 & Ht4 & (conn4 & Hc4 & Hclosed4 & Henv4) & He4 & Hr4
                  & Hs4 & Hcu4).
  set (env4 := {| env_closed := 0; env_lock := 0; status_vector := sv4 |}) in *.
  assert (He4' : envs w4 !! ep = Some env4) by (rewrite He4; apply lookup_insert_eq).
  (* the environment closes *)
  assert (H5 : exists w5,
             call_from_lua env_close [LUserdata KEnv ep] w4 = Ret [LBoolean true] w5
             /\ envs w5 = <[ep := set_env_closed 1 env4]> (envs w)
             /\ conns w5 = conns w4 /\ registry w5 = delete (KEnv, ep) (registry w)
             /\ stmts w5 = stmts w4 /\ curs w5 = curs w4 /\ trace w5 = trace w4).
  { unfold call_from_lua, env_close, luaL_checkudata, unregisterobj. monad_simpl.
    rewrite stack_at_first. simpl. rewrite He4'. simpl. crunch. rewrite He4'. crunch.
    eexists. split; [reflexivity|]. crunch.
    rewrite He4, Hr4, insert_insert_eq. repeat split. apply delete_delete_eq. }
  destruct H5 as (w5 & H5 & He5 & Hc5 & Hr5 & Hs5 & Hcu5 & Ht5).
  exists w1, w2, w4, w5, (set_env_closed 1 env4), conn4.
  split; [exact H1|]. split; [exact H2|]. split; [exact H3|]. split; [exact H4|].
  split; [exact H5|].
  rewrite He5, Hc5, Hc4, Hr5, Hs5, Hs4, Hcu5, Hcu4, Ht5, Ht4, Ht2, <- app_assoc.
  repeat split; assumption.
Qed.

End Session.

Lemma quiet_engine_accepts : accepting quiet_engine.
Proof. intros tr c. reflexivity. Qed.

Lemma session_closes_in_order_witness :
  construct_dpb (bytes "u") (bytes "p") = Some small_dpb
  /\ accepting quiet_engine
  /\ exists w1 w2 w4 w5,
       call_from_lua create_environment [] empty_world = Ret [LUserdata KEnv 1%positive] w1
       /\ call_from_lua (env_connect quiet_engine plain_host)
            [LUserdata KEnv 1%positive; LString (bytes "db"); LString (bytes "u");
             LString (bytes "p")] w1
          = Ret [LUserdata KConn 1%positive] w2
       /\ call_from_lua env_close [LUserdata KEnv 1%positive] w2
          = Ret (failure "there are still open connections") w2
       /\ call_from_lua (conn_close quiet_engine) [LUserdata KConn 1%positive] w2
          = Ret [LBoolean true] w4
       /\ call_from_lua env_close [LUserdata KEnv 1%positive] w4 = Ret [LBoolean true] w5
       /\ registry w5 = delete (KEnv, 1%positive) (registry empty_world)
       /\ trace w5 = [isc_attach_database 2 (bytes "db") 10 small_dpb;
                      isc_start_transaction 0 isc_tpb;
                      isc_rollback_transaction 0; isc_detach_database 0].
Proof.
  assert (Hdpb : construct_dpb (bytes "u") (bytes "p") = Some small_dpb)
    by (vm_compute; reflexivity).
  split; [exact Hdpb|]. split; [exact quiet_engine_accepts|].
  destruct (session_closes_in_order quiet_engine plain_host empty_world []
              (bytes "db") (bytes "u") (bytes "p") small_dpb Hdpb quiet_engine_accepts)
    as (w1 & w2 & w4 & w5 & env & conn & H1 & H2 & H3 & H4 & H5 & _ & _ & _ & _ & _
        & _ & Hr & _ & _ & Ht).
  exists w1, w2, w4, w5.
  split; [exact H1|]. split; [exact H2|]. split; [exact H3|]. split; [exact H4|].
  split; [exact H5|]. split; [exact Hr|exact Ht].
Defined.

Section Columns.

Variable engine : Engine.
Variable host : Host.
Variable fuel : nat.

(** X24.  What [push_column] makes of a column slot, without any native
    call.  A slot whose null indicator is not 0 gives nil, whatever its type
    and buffer.  Otherwise a VARCHAR gives the bytes its two-byte length
    prefix counts, and nothing of what follows them in the buffer; a CHAR
    gives as many bytes as the column is long; a SMALLINT and an INTEGER
    give the signed integer their 2, resp. 4, bytes hold; and a type the
    driver does not know gives the text "<unsupported data type>", not an
    error. *)
Theorem columns_are_decoded_by_type
  (w : World) (cur : cur_data) (da : XSQLDA) (i : Z) (var : XSQLVAR) :
  out_sqlda cur = Live da ->
  sqlvar da !! Z.to_nat i = Some var ->
  let t := base_type (sqltype var) in
  let pushes (v : lua_value) :=
    push_column engine host fuel i cur w = Ret tt (with_stack (fun st => st ++ [v]) w) in
  (forall ind, sqlind var = Some ind -> ind <> 0 -> pushes LNil)
  /\ (sqlind var = None \/ sqlind var = Some 0 ->
      (forall s rest,
         t = SQL_VARYING -> Z.of_nat (length s) < 2 ^ 15 ->
         sqldata var = Some (le_bytes 2 (Z.of_nat (length s)) ++ s ++ rest) ->
         pushes (LString s))
      /\ (forall data,
         t = SQL_TEXT -> sqldata var = Some data ->
         pushes (LString (take (Z.to_nat (sqllen var)) data)))
      /\ (forall v rest,
         t = SQL_SHORT -> - 2 ^ 15 <= v < 2 ^ 15 ->
         sqldata var = Some (le_bytes 2 v ++ rest) -> pushes (LInteger v))
      /\ (forall v rest,
         t = SQL_LONG -> - 2 ^ 31 <= v < 2 ^ 31 ->
         sqldata var = Some (le_bytes 4 v ++ rest) -> pushes (LInteger v))
      /\ (known_type t = false -> pushes (LString unsupported_data_type))).
Proof.
  intros Hda Hvar t pushes. subst pushes. cbv beta.
  split.
  - intros ind Hind Hnz. apply Z.eqb_neq in Hnz.
    unfold push_column, bind. rewrite Hda. cbn [get_live]. unfold ret.
    rewrite Hvar, Hind, Hnz. reflexivity.
  - intros Hnn.
    assert (Hb : (match sqlind var with
                  | Some ind => negb (Z.eqb ind 0)
                  | None => false
                  end) = false)
      by (destruct Hnn as [-> | ->]; reflexivity).
    split; [|split; [|split; [|split]]].
    + intros s rest Ht Hlen Hdata.
      unfold push_column, bind. rewrite Hda. cbn [get_live]. unfold ret.
      rewrite Hvar, Hb. fold t. cbv zeta. rewrite Hdata.
      destruct (decide (t = SQL_VARYING)) as [_|Hx]; [|contradiction].
      rewrite (isc_vax_integer_le_bytes 2 (Z.of_nat (length s))) by (lia || (simpl; lia)).
      rewrite to_int_small by lia.
      unfold read_bytes.
      change (drop (Z.to_nat 2) (le_bytes 2 (Z.of_nat (length s)) ++ s ++ rest))
        with (s ++ rest).
      rewrite Nat2Z.id, take_app_length. reflexivity.
    + intros data Ht Hdata.
      unfold push_column, bind. rewrite Hda. cbn [get_live]. unfold ret.
      rewrite Hvar, Hb. fold t. cbv zeta. rewrite Hdata.
      destruct (decide (t = SQL_VARYING)) as [Hx|_];
        [rewrite Ht in Hx; discriminate Hx|].
      destruct (decide (t = SQL_TEXT)) as [_|Hx]; [|contradiction].
      reflexivity.
    + intros v rest Ht Hv Hdata.
      unfold push_column, bind. rewrite Hda. cbn [get_live]. unfold ret.
      rewrite Hvar, Hb. fold t. cbv zeta. rewrite Hdata.
      destruct (decide (t = SQL_VARYING)) as [Hx|_];
        [rewrite Ht in Hx; discriminate Hx|].
      destruct (decide (t = SQL_TEXT)) as [Hx|_];
        [rewrite Ht in Hx; discriminate Hx|].
      destruct (decide (t = SQL_SHORT)) as [_|Hx]; [|contradiction].
      unfold read_signed, read_bytes.
      change (take (Z.to_nat 2) (drop (Z.to_nat 0) (le_bytes 2 v ++ rest)))
        with (le_bytes 2 v).
      change (8 * 2) with (8 * Z.of_nat 2).
      rewrite wrap_signed_le_bytes by (lia || exact Hv). reflexivity.
    + intros v rest Ht Hv Hdata.
      unfold push_column, bind. rewrite Hda. cbn [get_live]. unfold ret.
      rewrite Hvar, Hb. fold t. cbv zeta. rewrite Hdata.
      destruct (decide (t = SQL_VARYING)) as [Hx|_];
        [rewrite Ht in Hx; discriminate Hx|].
      destruct (decide (t = SQL_TEXT)) as [Hx|_];
        [rewrite Ht in Hx; discriminate Hx|].
      destruct (decide (t = SQL_SHORT)) as [Hx|_];
        [rewrite Ht in Hx; discriminate Hx|].
      destruct (decide (t = SQL_LONG)) as [_|Hx]; [|contradiction].
      unfold read_signed, read_bytes.
      change (take (Z.to_nat 4) (drop (Z.to_nat 0) (le_bytes 4 v ++ rest)))
        with (le_bytes 4 v).
      change (8 * 4) with (8 * Z.of_nat 4).
      rewrite wrap_signed_le_bytes by (lia || exact Hv). reflexivity.
    + intros Hk. apply bool_decide_eq_false_1 in Hk.
      unfold push_column, bind. rewrite Hda. cbn [get_live]. unfold ret.
      rewrite Hvar, Hb. fold t. cbv zeta.
      repeat (destruct (decide _) as [?|?]; [exfalso; tauto|]).
      reflexivity.
Qed.

End Columns.

Lemma columns_are_decoded_by_type_witness :
  let var := {| sqltype := SQL_VARYING + 1; sqllen := 10;
                sqldata := Some (le_bytes 2 2 ++ bytes "hi" ++ replicate 8 x00);
                sqlind := Some 0; aliasname := []; aliasname_length := 0 |} in
  let null := set_sqlind (Some (-1)) var in
  let cur v := {| cur_closed := 0; cur_env := 1%positive; cur_stmt := 1%positive;
                  out_sqlda := Live {| version := 1; sqln := 1; sqld := 1;
                                       sqlvar := [v] |} |} in
  push_column quiet_engine plain_host 1%nat 0 (cur var) chain_world
  = Ret tt (with_stack (fun st => st ++ [LString (bytes "hi")]) chain_world)
  /\ push_column quiet_engine plain_host 1%nat 0 (cur null) chain_world
     = Ret tt (with_stack (fun st => st ++ [LNil]) chain_world).
Proof.
  intros var null cur.
  assert (Hlen : Z.of_nat (length (bytes "hi")) < 2 ^ 15) by reflexivity.
  assert (Hnz : -1 <> 0) by discriminate.
  split.
  - apply (proj1 (proj2 (columns_are_decoded_by_type quiet_engine plain_host 1 chain_world
                           (cur var) _ 0 var eq_refl eq_refl) (or_intror eq_refl))
             (bytes "hi") (replicate 8 x00) eq_refl Hlen eq_refl).
  - apply (proj1 (columns_are_decoded_by_type quiet_engine plain_host 1 chain_world
                    (cur null) _ 0 null eq_refl eq_refl) (-1) eq_refl Hnz).
Defined.

Section Rows.

Variable engine : Engine.
Variable host : Host.
Variable fuel : nat.

Lemma table_has_get (t : lua_table) (k : lua_key) :
  table_has t k = false -> table_get t k = LNil.
Proof.
  induction t as [|k0 v0 rest IH]; simpl; [reflexivity|].
  intros H. apply orb_false_iff in H as [H1 H2]. rewrite H1. exact (IH H2).
Qed.

Lemma table_has_set (t : lua_table) (k k' : lua_key) (v : lua_value) :
  table_has (table_set t k v) k' = lua_key_eqb k k' || table_has t k'.
Proof.
  induction t as [|k0 v0 rest IH]; simpl; [reflexivity|].
  destruct (lua_key_eqb k0 k) eqn:E; simpl.
  - apply lua_key_eqb_eq in E. subst k0. destruct (lua_key_eqb k k'); reflexivity.
  - rewrite IH. destruct (lua_key_eqb k0 k'), (lua_key_eqb k k'); reflexivity.
Qed.

Lemma table_has_remove (t : lua_table) (k k' : lua_key) :
  table_has t k' = false -> table_has (table_remove t k) k' = false.
Proof.
  induction t as [|k0 v0 rest IH]; simpl; [reflexivity|].
  intros H. apply orb_false_iff in H as [H1 H2].
  destruct (lua_key_eqb k0 k); simpl; [exact H2|].
  rewrite H1. exact (IH H2).
Qed.

Lemma table_nodup_set (t : lua_table) (k : lua_key) (v : lua_value) :
  table_nodup t = true -> table_nodup (table_set t k v) = true.
Proof.
  induction t as [|k0 v0 rest IH]; simpl; [reflexivity|].
  intros H. apply andb_true_iff in H as [H1 H2].
  destruct (lua_key_eqb k0 k) eqn:E; simpl.
  - apply lua_key_eqb_eq in E. subst k0. rewrite H1, H2. reflexivity.
  - rewrite table_has_set, (IH H2).
    apply negb_true_iff in H1. rewrite H1.
    assert (Hne : lua_key_eqb k k0 = false).
    { destruct (lua_key_eqb k k0) eqn:E'; [|reflexivity].
      apply lua_key_eqb_eq in E'. subst k0.
      rewrite (proj2 (lua_key_eqb_eq k k) eq_refl) in E. discriminate E. }
    rewrite Hne. reflexivity.
Qed.

Lemma table_nodup_remove (t : lua_table) (k : lua_key) :
  table_nodup t = true -> table_nodup (table_remove t k) = true.
Proof.
  induction t as [|k0 v0 rest IH]; simpl; [reflexivity|].
  intros H. apply andb_true_iff in H as [H1 H2].
  destruct (lua_key_eqb k0 k); simpl; [exact H2|].
  apply negb_true_iff in H1. rewrite (table_has_remove rest k k0 H1), (IH H2).
  reflexivity.
Qed.

Lemma table_get_remove_same (t : lua_table) (k : lua_key) :
  table_nodup t = true -> table_get (table_remove t k) k = LNil.
Proof.
  induction t as [|k0 v0 rest IH]; simpl; [reflexivity|].
  intros H. apply andb_true_iff in H as [H1 H2].
  destruct (lua_key_eqb k0 k) eqn:E; simpl.
  - apply lua_key_eqb_eq in E. subst k0. apply table_has_get, negb_true_iff, H1.
  - rewrite E. exact (IH H2).
Qed.

Lemma table_get_remove_other (t : lua_table) (k k' : lua_key) :
  k <> k' -> table_get (table_remove t k) k' = table_get t k'.
Proof.
  intros Hne. induction t as [|k0 v0 rest IH]; simpl; [reflexivity|].
  destruct (lua_key_eqb k0 k) eqn:E; simpl.
  - apply lua_key_eqb_eq in E. subst k0. rewrite lua_key_eqb_neq by exact Hne.
    reflexivity.
  - destruct (lua_key_eqb k0 k'); [reflexivity|exact IH].
Qed.

Lemma table_get_assign_same (t : lua_table) (k : lua_key) (v : lua_value) :
  table_nodup t = true -> table_get (table_assign t k v) k = v.
Proof.
  intros H. destruct v; simpl;
    solve [apply table_get_remove_same; exact H | apply table_get_set_same].
Qed.

Lemma table_get_assign_other (t : lua_table) (k k' : lua_key) (v : lua_value) :
  k <> k' -> table_get (table_assign t k v) k' = table_get t k'.
Proof.
  intros H. destruct v; simpl;
    solve [apply table_get_remove_other; exact H | apply table_get_set_other; exact H].
Qed.

Lemma table_nodup_assign (t : lua_table) (k : lua_key) (v : lua_value) :
  table_nodup t = true -> table_nodup (table_assign t k v) = true.
Proof.
  intros H. destruct v; simpl;
    solve [apply table_nodup_remove; exact H | apply table_nodup_set; exact H].
Qed.

(** One column stored: the table after the two optional assignments. *)
Lemma store_column_nodup (num alpha : bool) (i : Z) (var : XSQLVAR) (v : lua_value)
  (t : lua_table) :
  table_nodup t = true ->
  table_nodup (if alpha
               then table_assign (if num then table_assign t (KeyNum (i + 1)) v else t)
                      (KeyStr (column_name var)) v
               else if num then table_assign t (KeyNum (i + 1)) v else t) = true.
Proof.
  intros H. destruct num, alpha; auto using table_nodup_assign.
Qed.

Lemma column_keys_inv (num alpha : bool) (j : Z) (name : list byte) (k : lua_key) :
  k ∈ column_keys num alpha j name -> k = KeyNum (j + 1) \/ k = KeyStr name.
Proof.
  unfold column_keys. destruct num, alpha; cbn [app];
    rewrite ?elem_of_cons, ?elem_of_nil; tauto.
Qed.

Lemma column_keys_num (alpha : bool) (j : Z) (name : list byte) :
  KeyNum (j + 1) ∈ column_keys true alpha j name.
Proof. unfold column_keys. cbn [app]. apply elem_of_cons. left. reflexivity. Qed.

Lemma column_keys_name (num : bool) (j : Z) (name : list byte) :
  KeyStr name ∈ column_keys num true j name.
Proof.
  unfold column_keys. destruct num; cbn [app]; rewrite ?elem_of_cons; tauto.
Qed.

Lemma store_columns_take (num alpha : bool) (vars : list XSQLVAR) :
  forall (vals : list lua_value) (i : Z) (t : lua_table),
    store_columns num alpha i (take (length vals) vars) vals t
    = store_columns num alpha i vars vals t.
Proof.
  induction vars as [|var vars IH]; intros [|v vals] i t; try reflexivity.
  cbn [length take store_columns]. apply IH.
Qed.

Lemma store_columns_get_other (num alpha : bool) (vars : list XSQLVAR) :
  forall (vals : list lua_value) (i : Z) (t : lua_table) (k : lua_key),
    (forall (m : nat) var, (m < length vals)%nat -> vars !! m = Some var ->
       k ∉ column_keys num alpha (i + Z.of_nat m) (column_name var)) ->
    table_get (store_columns num alpha i vars vals t) k = table_get t k.
Proof.
  induction vars as [|var vars IH]; intros [|v vals] i t k Hk; try reflexivity.
  cbn [store_columns].
  rewrite IH.
  - specialize (Hk 0%nat var ltac:(simpl; lia) eq_refl).
    rewrite Z.add_0_r in Hk.
    destruct num, alpha;
      rewrite ?table_get_assign_other; try reflexivity;
      intros Heq; apply Hk; rewrite <- Heq;
      solve [apply column_keys_num | apply column_keys_name].
  - intros m var' Hm Hvar'.
    specialize (Hk (S m) var' ltac:(simpl; lia) Hvar').
    replace (i + 1 + Z.of_nat m) with (i + Z.of_nat (S m)) by lia. exact Hk.
Qed.

Lemma store_columns_get_num (alpha : bool) (vars : list XSQLVAR) :
  forall (vals : list lua_value) (i : Z) (t : lua_table) (j : nat) (v : lua_value),
    table_nodup t = true ->
    (length vals <= length vars)%nat ->
    vals !! j = Some v ->
    table_get (store_columns true alpha i vars vals t) (KeyNum (i + Z.of_nat j + 1)) = v.
Proof.
  induction vars as [|var vars IH]; intros [|v0 vals] i t j v Hwf Hlen Hj;
    try discriminate Hj; [simpl in Hlen; lia|].
  cbn [store_columns]. destruct j as [|j].
  - injection Hj as ->. rewrite Z.add_0_r.
    rewrite store_columns_get_other.
    + destruct alpha.
      * rewrite table_get_assign_other by discriminate.
        apply table_get_assign_same, Hwf.
      * apply table_get_assign_same, Hwf.
    + intros m var' _ _ Hin. apply column_keys_inv in Hin as [Hin|Hin];
        [injection Hin; lia|discriminate Hin].
  - replace (i + Z.of_nat (S j) + 1) with (i + 1 + Z.of_nat j + 1) by lia.
    apply IH; [|simpl in Hlen; lia|exact Hj].
    apply (store_column_nodup true alpha i var v0 t Hwf).
Qed.

Lemma store_columns_get_name (num : bool) (vars : list XSQLVAR) :
  forall (vals : list lua_value) (i : Z) (t : lua_table) (j : nat) (v : lua_value)
         (var : XSQLVAR),
    table_nodup t = true ->
    vals !! j = Some v -> vars !! j = Some var ->
    (forall (m : nat) var', (j < m < length vals)%nat -> vars !! m = Some var' ->
       column_name var' <> column_name var) ->
    table_get (store_columns num true i vars vals t) (KeyStr (column_name var)) = v.
Proof.
  induction vars as [|var0 vars IH]; intros [|v0 vals] i t j v var Hwf Hj Hvar Hlast;
    try discriminate Hj; try discriminate Hvar.
  cbn [store_columns]. destruct j as [|j].
  - injection Hj as ->. injection Hvar as ->.
    rewrite store_columns_get_other.
    + apply table_get_assign_same. destruct num; auto using table_nodup_assign.
    + intros m var' Hm Hvar' Hin.
      specialize (Hlast (S m) var' ltac:(simpl; lia) Hvar').
      apply column_keys_inv in Hin as [Hin|Hin]; [discriminate Hin|].
      injection Hin as Hin. congruence.
  - apply (IH vals (i + 1) _ j v var); [|exact Hj|exact Hvar|].
    + apply (store_column_nodup num true i var0 v0 t Hwf).
    + intros m var' Hm Hvar'. apply (Hlast (S m) var'); [simpl; lia|exact Hvar'].
Qed.

(** Worlds that differ in their stacks only. *)
Lemma with_stack_twice (f g : list lua_value -> list lua_value) (w : World) :
  with_stack f (with_stack g w) = with_stack (fun st => f (g st)) w.
Proof. apply world_ext; reflexivity. Qed.

Lemma with_stack_ext (f g : list lua_value -> list lua_value) (w : World) :
  f (stack w) = g (stack w) -> with_stack f w = with_stack g w.
Proof. intros H. apply world_ext; try reflexivity. exact H. Qed.

Section Loops.

Variable cp : ptr.
Variable cur : cur_data.
Variable da : XSQLDA.
Variable vals : list lua_value.

Hypothesis Hda : out_sqlda cur = Live da.
Hypothesis Hpush : forall (j : nat) (v : lua_value) (w0 : World),
  vals !! j = Some v ->
  push_column engine host fuel (Z.of_nat j) cur w0
  = Ret tt (with_stack (fun st => st ++ [v]) w0).

Lemma fetch_into_list_pushes (n : nat) :
  forall (k : nat) (w : World),
    curs w !! cp = Some cur -> (k + n <= length vals)%nat ->
    fetch_into_list engine host fuel n (Z.of_nat k) cp w
    = Ret tt (with_stack (fun st => st ++ take n (drop k vals)) w).
Proof.
  induction n as [|n IH]; intros k w Hcur Hlen.
  - cbn [fetch_into_list take]. unfold ret. f_equal.
    apply world_ext; try reflexivity. cbn [stack with_stack]. rewrite app_nil_r.
    reflexivity.
  - cbn [fetch_into_list]. unfold bind at 1, get_cur, deref. rewrite Hcur.
    destruct (lookup_lt_is_Some_2 vals k) as [v Hv]; [lia|].
    unfold bind at 1. rewrite (Hpush k v _ Hv).
    replace (Z.of_nat k + 1) with (Z.of_nat (S k)) by lia.
    rewrite IH by (exact Hcur || lia).
    f_equal. rewrite with_stack_twice. apply with_stack_ext.
    rewrite (drop_S vals v k Hv). cbn [take]. rewrite <- app_assoc. reflexivity.
Qed.

Lemma fetch_into_table_stores (num alpha : bool) (ud : lua_value) (n : nat) :
  forall (k : nat) (w : World) (t : lua_table),
    curs w !! cp = Some cur ->
    (k + n <= length vals)%nat -> (k + n <= length (sqlvar da))%nat ->
    stack w = [ud; LTable t] ->
    fetch_into_table engine host fuel n (Z.of_nat k) cp num alpha w
    = Ret tt (with_stack
                (fun _ => [ud; LTable (store_columns num alpha (Z.of_nat k)
                                         (take n (drop k (sqlvar da)))
                                         (take n (drop k vals)) t)]) w).
Proof.
  induction n as [|n IH]; intros k w t Hcur Hlen Hlen' Hst.
  - cbn [fetch_into_table take store_columns]. unfold ret. f_equal.
    apply world_ext; try reflexivity. exact Hst.
  - cbn [fetch_into_table]. unfold bind at 1, get_cur, deref. rewrite Hcur.
    destruct (lookup_lt_is_Some_2 vals k) as [v Hv]; [lia|].
    destruct (lookup_lt_is_Some_2 (sqlvar da) k) as [var Hvar]; [lia|].
    unfold bind at 1. rewrite (Hpush k v _ Hv).
    set (w1 := with_stack (fun st => st ++ [v]) w).
    assert (Hst1 : stack w1 = [ud; LTable t; v]) by (cbn; rewrite Hst; reflexivity).
    set (t1 := if num then table_assign t (KeyNum (Z.of_nat k + 1)) v else t).
    assert (Hnum : (if num
                    then do! lua_push (LInteger (Z.of_nat k + 1)) in
                         do! lua_pushvalue (-2) in lua_settable 2
                    else ret tt) w1
                   = Ret tt (with_stack (fun _ => [ud; LTable t1; v]) w)).
    { subst t1. destruct num.
      - rewrite (set_field_runs w1 ud v (LInteger (Z.of_nat k + 1)) t
                   (KeyNum (Z.of_nat k + 1)) Hst1 eq_refl).
        first [reflexivity | f_equal; apply world_ext; reflexivity].
      - unfold ret. f_equal. apply world_ext; try reflexivity. exact Hst1. }
    unfold bind at 1. rewrite Hnum.
    set (w2 := with_stack (fun _ => [ud; LTable t1; v]) w).
    set (t2 := if alpha then table_assign t1 (KeyStr (column_name var)) v else t1).
    assert (Halpha : (if alpha
                      then let! da0 := get_live "cur_fetch: out_sqlda" (out_sqlda cur) in
                           match sqlvar da0 !! Z.to_nat (Z.of_nat k) with
                           | None => fault "cur_fetch: sqlvar index past the descriptor"
                           | Some var0 =>
                               do! lua_push (LString (read_bytes (aliasname var0) 0
                                                        (aliasname_length var0))) in
                               do! lua_pushvalue (-2) in lua_settable 2
                           end
                      else ret tt) w2
                     = Ret tt (with_stack (fun _ => [ud; LTable t2; v]) w)).
    { subst t2. destruct alpha.
      - rewrite Hda. unfold get_live, bind at 1, ret. rewrite Nat2Z.id, Hvar.
        fold (column_name var).
        rewrite (set_field_runs w2 ud v (LString (column_name var)) t1
                   (KeyStr (column_name var)) eq_refl eq_refl).
        first [reflexivity | f_equal; apply world_ext; reflexivity].
      - reflexivity. }
    unfold bind at 1. rewrite Halpha.
    unfold bind at 1, lua_pop, modify.
    replace (Z.of_nat k + 1) with (Z.of_nat (S k)) by lia.
    rewrite (IH (S k) _ t2) by (try reflexivity; try exact Hcur; lia).
    f_equal. rewrite !with_stack_twice. apply with_stack_ext.
    rewrite (drop_S vals v k Hv), (drop_S (sqlvar da) var k Hvar).
    cbn [take store_columns]. subst t2 t1.
    replace (Z.of_nat (S k)) with (Z.of_nat k + 1) by lia. reflexivity.
Qed.

End Loops.

(** X25.  What [fetch] returns for a row.  When the engine delivers a
    row, on a cursor of a statement other than EXECUTE PROCEDURE whose
    columns [push_column] turns into the values [vals] without asking the
    engine: without a table argument, [fetch] returns [vals], one value per
    column in the order of the columns; with a table, it returns that table
    with column j (from 1) stored under the integer j when the mode string
    holds an n (the default mode), and under the column's name when it
    holds an a, a later column of the same name winning; a NULL column
    leaves no entry; every other key of the table keeps its value.  The
    cursor stays open and only the cursor's descriptor and the status
    vector change. *)
Theorem fetched_row_holds_the_columns
  (w : World) (cp : ptr) (cur : cur_data) (stmt : stmt_data) (env : env_data)
  (da : XSQLDA) (vals args : list lua_value) (opts : list byte) :
  curs w !! cp = Some cur ->
  cur_closed cur = 0 ->
  stmts w !! cur_stmt cur = Some stmt ->
  type stmt <> isc_info_sql_stmt_exec_procedure ->
  out_sqlda cur = Live da ->
  envs w !! cur_env cur = Some env ->
  let c := isc_dsql_fetch (handle stmt) da in
  rp_value (isc engine (trace w) c) = 0 ->
  let da' := fetched (isc engine (trace w) c) da in
  let cur' := set_out_sqlda (Live da') cur in
  sqld da = Z.of_nat (length vals) ->
  (length vals <= length (sqlvar da'))%nat ->
  (forall (j : nat) (v : lua_value) (w0 : World),
     vals !! j = Some v ->
     push_column engine host fuel (Z.of_nat j) cur' w0
     = Ret tt (with_stack (fun st => st ++ [v]) w0)) ->
  match args !! 1%nat with
  | None | Some LNil => opts = [x6e]
  | Some (LString s) => opts = s
  | _ => False
  end ->
  let w' := with_stack (fun _ => [])
              (with_curs <[cp := cur']> (answered engine (cur_env cur) env c w)) in
  (match args !! 0%nat with Some (LTable _) => False | _ => True end ->
   call_from_lua (cur_fetch engine host fuel) (LUserdata KCur cp :: args) w = Ret vals w')
  /\ (forall t,
      args !! 0%nat = Some (LTable t) -> table_nodup t = true ->
      exists t',
        call_from_lua (cur_fetch engine host fuel) (LUserdata KCur cp :: args) w
          = Ret [LTable t'] w'
        /\ (has_char opts x6e = true ->
            forall j v, vals !! j = Some v ->
                        table_get t' (KeyNum (Z.of_nat j + 1)) = v)
        /\ (has_char opts x61 = true ->
            forall j v var,
              vals !! j = Some v -> sqlvar da' !! j = Some var ->
              (forall (m : nat) var', (j < m < length vals)%nat ->
                 sqlvar da' !! m = Some var' -> column_name var' <> column_name var) ->
              table_get t' (KeyStr (column_name var)) = v)
        /\ (forall k,
              (forall (j : nat) var, (j < length vals)%nat -> sqlvar da' !! j = Some var ->
                 k ∉ column_keys (has_char opts x6e) (has_char opts x61) (Z.of_nat j)
                       (column_name var)) ->
              table_get t' k = table_get t k)).
Proof.
  intros Hcur Hopen Hs Hkind Hda He c Hrow da' cur' Hn Hlen Hpush Hmode w'.
  set (w0 := with_stack (fun _ => LUserdata KCur cp :: args) w).
  assert (Hopts : luaL_optstring host 3 [x6e] w0 = Ret opts w0).
  { subst w0. unfold luaL_optstring, luaL_checklstring. monad_simpl.
    rewrite stack_at_third.
    destruct (args !! 1%nat) as [[]|] eqn:E; try contradiction; subst opts;
      monad_simpl; rewrite ?stack_at_third, ?E; reflexivity. }
  set (w1 := with_curs <[cp := cur']> (answered engine (cur_env cur) env c w0)).
  assert (Hcur1 : curs w1 !! cp = Some cur') by apply lookup_insert_eq.
  assert (Hst1 : stack w1 = LUserdata KCur cp :: args) by reflexivity.
  assert (Hs1 : stmts w1 !! cur_stmt cur = Some stmt) by exact Hs.
  assert (Hhead : forall (res : Z) (f : list lua_value -> list lua_value),
            fetch_columns engine host fuel cp (sqld da') (has_char opts x6e)
              (has_char opts x61) w1 = Ret res (with_stack f w1) ->
            cur_fetch engine host fuel w0 = Ret res (with_stack f w1)).
  { intros res f Hrun.
    assert (Hs2 : stmts (with_stack f w1) = stmts w1) by reflexivity.
    unfold cur_fetch, luaL_checkudata. unfold bind at 1, lua_value_at, gets.
    unfold bind at 1. cbn [stack w0 with_stack]. rewrite stack_at_first.
    cbv beta iota. destruct (decide (KCur = LUASQL_CURSOR_FIREBIRD)) as [_|Hx];
      [|exfalso; apply Hx; reflexivity].
    unfold ret at 1. unfold bind at 1. fold w0. rewrite Hopts.
    unfold bind at 1, get_cur, deref. cbn [curs w0 with_stack]. rewrite Hcur.
    destruct (decide (cur_closed cur <> 0)) as [Hx|_]; [congruence|].
    unfold bind at 1, get_stmt, deref. cbn [stmts w0 with_stack]. rewrite Hs.
    unfold bind at 1. rewrite Hda. cbn [get_live]. unfold ret at 1.
    unfold bind at 1, native. cbn [envs w0 with_stack]. rewrite He.
    cbn [trace w0 with_stack]. fold c. rewrite Hrow.
    unfold bind at 1, put_cur, modify. fold da'. fold cur'.
    destruct (decide (0 = 0)) as [_|Hx]; [|contradiction].
    unfold bind at 1. fold w0. fold w1. rewrite Hrun.
    unfold bind at 1, get_stmt, deref. rewrite Hs2, Hs1.
    destruct (decide (type stmt = isc_info_sql_stmt_exec_procedure)) as [Hx|_];
      [contradiction|].
    reflexivity. }
  split.
  - intros Hlist.
    erewrite call_returns.
    2:{ apply (Hhead _ (fun st => st ++ vals)).
        unfold fetch_columns, lua_type. unfold bind at 1. unfold bind at 1.
        unfold lua_value_at, gets. rewrite Hst1, stack_at_second. unfold ret at 1.
        assert (Hrun : (let! _ := fetch_into_list engine host fuel (Z.to_nat (sqld da')) 0 cp in
                        ret (sqld da')) w1
                       = Ret (sqld da') (with_stack (fun st => st ++ vals) w1)).
        { unfold bind. change 0 with (Z.of_nat 0).
          rewrite (fetch_into_list_pushes cp cur' vals Hpush) by (exact Hcur1 || (cbn [sqld da' fetched]; lia)).
          cbn [sqld da' fetched]. rewrite Hn, Nat2Z.id. cbn [drop].
          rewrite firstn_all. reflexivity. }
        destruct (args !! 0%nat) as [[]|]; try contradiction;
          cbn [type_of]; cbv beta iota; exact Hrun. }
    f_equal; try (apply world_ext; reflexivity).
    apply (results_top _ (LUserdata KCur cp :: args)); [reflexivity|].
    cbn [sqld da' fetched]. exact Hn.
  - intros t Harg Hwf.
    exists (store_columns (has_char opts x6e) (has_char opts x61) 0 (sqlvar da') vals t).
    split; [|split; [|split]].
    + erewrite call_returns.
      2:{ apply (Hhead _ (fun _ => [LUserdata KCur cp;
                                    LTable (store_columns (has_char opts x6e)
                                              (has_char opts x61) 0 (sqlvar da') vals
                                              t)])).
          unfold fetch_columns, lua_type. unfold bind at 1. unfold bind at 1.
          unfold lua_value_at, gets. rewrite Hst1, stack_at_second, Harg.
          unfold ret at 1. cbn [type_of].
          unfold bind at 1, lua_settop, modify.
          change 0 with (Z.of_nat 0). unfold bind at 1.
          rewrite (fetch_into_table_stores cp cur' da' vals eq_refl Hpush _ _
                     (LUserdata KCur cp) _ 0 _ t).
          - cbn [sqld da' fetched]. rewrite Hn, Nat2Z.id. cbn [drop].
            rewrite firstn_all, with_stack_twice, store_columns_take. reflexivity.
          - exact Hcur1.
          - cbn [sqld da' fetched]. lia.
          - cbn [sqld da' fetched]. lia.
          - cbn [stack with_stack]. rewrite Hst1.
            destruct args as [|a rest]; [discriminate Harg|].
            injection Harg as ->. reflexivity. }
      reflexivity.
    + intros Hnum j v Hv. rewrite Hnum.
      apply (store_columns_get_num _ (sqlvar da') vals 0 t j v Hwf Hlen Hv).
    + intros Halpha j v var Hv Hvar Hlast. rewrite Halpha.
      apply (store_columns_get_name _ (sqlvar da') vals 0 t j v var Hwf Hv Hvar Hlast).
    + intros k Hk. apply store_columns_get_other.
      intros m var Hm Hvar. apply (Hk m var Hm Hvar).
Qed.

(** X26.  A fetch that fails.  When the engine answers a fetch with a
    status that is neither 0 (a row) nor 100 (no more rows), [fetch] returns
    nil and the message of the status vector; the cursor stays open, with
    the descriptor as the engine left it, and its statement keeps its lock
    count: nothing is closed or released. *)
Theorem fetch_failure_keeps_cursor_open
  (w : World) (cp : ptr) (cur : cur_data) (stmt : stmt_data) (env : env_data)
  (da : XSQLDA) (args : list lua_value) :
  curs w !! cp = Some cur ->
  cur_closed cur = 0 ->
  stmts w !! cur_stmt cur = Some stmt ->
  out_sqlda cur = Live da ->
  envs w !! cur_env cur = Some env ->
  fetch_args args ->
  let c := isc_dsql_fetch (handle stmt) da in
  let r := isc engine (trace w) c in
  rp_value r <> 0 -> rp_value r <> 100 ->
  call_from_lua (cur_fetch engine host fuel) (LUserdata KCur cp :: args) w
  = Ret (db_error engine (rp_status r))
      (with_stack (fun _ => [])
         (with_curs <[cp := set_out_sqlda (Live (fetched r da)) cur]>
            (answered engine (cur_env cur) env c w))).
Proof.
  intros Hcur Hopen Hs Hda He Hargs c r Hrow Hend.
  set (w0 := with_stack (fun _ => LUserdata KCur cp :: args) w).
  destruct (optstring_runs host [x6e] (LUserdata KCur cp) args w0 Hargs eq_refl)
    as [opts Hopts].
  erewrite call_returns.
  2:{ unfold cur_fetch, luaL_checkudata. unfold bind at 1, lua_value_at, gets.
      unfold bind at 1. cbn [stack w0 with_stack]. rewrite stack_at_first.
      cbv beta iota. destruct (decide (KCur = LUASQL_CURSOR_FIREBIRD)) as [_|Hx];
        [|exfalso; apply Hx; reflexivity].
      unfold ret at 1. unfold bind at 1. fold w0. rewrite Hopts.
      unfold bind at 1, get_cur, deref. cbn [curs w0 with_stack]. rewrite Hcur.
      destruct (decide (cur_closed cur <> 0)) as [Hx|_]; [congruence|].
      unfold bind at 1, get_stmt, deref. cbn [stmts w0 with_stack]. rewrite Hs.
      unfold bind at 1. rewrite Hda. cbn [get_live]. unfold ret at 1.
      unfold bind at 1, native. cbn [envs w0 with_stack]. rewrite He.
      cbn [trace w0 with_stack]. fold c. fold r.
      unfold bind at 1, put_cur, modify.
      destruct (decide (rp_value r = 0)) as [Hx|_]; [contradiction|].
      destruct (decide (rp_value r <> 100)) as [_|Hx]; [|contradiction].
      unfold return_db_error. monad_simpl. rewrite lookup_insert_eq. crunch.
      reflexivity. }
  f_equal.
  apply (results_top _ (LUserdata KCur cp :: args)); [|reflexivity].
  cbn [stack with_stack with_curs answered with_trace with_envs w0].
  rewrite <- app_assoc. reflexivity.
Qed.

End Rows.

Lemma fetched_row_holds_the_columns_witness :
  let e := rows_engine 1 in
  let c := isc_dsql_fetch 13 {| version := 1; sqln := 1; sqld := 1;
                                sqlvar := [smallint_column] |} in
  let cur' := set_out_sqlda (Live (fetched (isc e [] c)
                                     {| version := 1; sqln := 1; sqld := 1;
                                        sqlvar := [smallint_column] |})) open_cur in
  let w' := with_stack (fun _ => [])
              (with_curs <[1%positive := cur']>
                 (answered e 1%positive held_env c chain_world)) in
  curs chain_world !! 1%positive = Some open_cur
  /\ type select_stmt <> isc_info_sql_stmt_exec_procedure
  /\ rp_value (isc e (trace chain_world) c) = 0
  /\ call_from_lua (cur_fetch e plain_host 1%nat) [LUserdata KCur 1%positive] chain_world
     = Ret [LInteger 7] w'
  /\ exists t',
       call_from_lua (cur_fetch e plain_host 1%nat)
         [LUserdata KCur 1%positive; LTable TEmpty; LString (bytes "a")] chain_world
       = Ret [LTable t'] w'
       /\ table_get t' (KeyStr (bytes "N")) = LInteger 7.
Proof.
  intros e c cur' w'.
  assert (Hkind : type select_stmt <> isc_info_sql_stmt_exec_procedure) by discriminate.
  assert (Hlen : (length [LInteger 7] <= 1)%nat) by (simpl; lia).
  assert (Hpush : forall (j : nat) (v : lua_value) (w0 : World),
            [LInteger 7] !! j = Some v ->
            push_column e plain_host 1%nat (Z.of_nat j) cur' w0
            = Ret tt (with_stack (fun st => st ++ [v]) w0)).
  { intros [|j] v w0 Hv; [|destruct j; discriminate Hv].
    injection Hv as <-. reflexivity. }
  split; [reflexivity|]. split; [exact Hkind|]. split; [reflexivity|].
  split.
  - apply (proj1 (fetched_row_holds_the_columns e plain_host 1 chain_world 1%positive
                    open_cur select_stmt held_env _ [LInteger 7] [] [x6e]
                    eq_refl eq_refl eq_refl Hkind eq_refl eq_refl eq_refl eq_refl Hlen
                    Hpush eq_refl) I).
  - destruct (proj2 (fetched_row_holds_the_columns e plain_host 1 chain_world 1%positive
                       open_cur select_stmt held_env _ [LInteger 7]
                       [LTable TEmpty; LString (bytes "a")] (bytes "a")
                       eq_refl eq_refl eq_refl Hkind eq_refl eq_refl eq_refl eq_refl Hlen
                       Hpush eq_refl) TEmpty eq_refl eq_refl)
      as (t' & Hrun & _ & Hname & _).
    exists t'. split; [exact Hrun|].
    apply (Hname eq_refl 0%nat (LInteger 7) _ eq_refl eq_refl).
    intros m var' Hm. simpl in Hm. lia.
Defined.

Lemma fetch_failure_keeps_cursor_open_witness :
  let e := refusing_engine 0 in
  let da := {| version := 1; sqln := 1; sqld := 1; sqlvar := [smallint_column] |} in
  let c := isc_dsql_fetch 13 da in
  curs chain_world !! 1%positive = Some open_cur
  /\ fetch_args []
  /\ rp_value (isc e (trace chain_world) c) <> 0
  /\ rp_value (isc e (trace chain_world) c) <> 100
  /\ call_from_lua (cur_fetch e plain_host 1%nat) [LUserdata KCur 1%positive] chain_world
     = Ret [LNil; LString (bytes "refused")]
         (with_stack (fun _ => [])
            (with_curs <[1%positive := set_out_sqlda (Live (fetched error_reply da))
                                         open_cur]>
               (answered e 1%positive held_env c chain_world))).
Proof.
  intros e da c.
  assert (H0 : rp_value (isc e (trace chain_world) c) <> 0) by discriminate.
  assert (H100 : rp_value (isc e (trace chain_world) c) <> 100) by discriminate.
  split; [reflexivity|]. split; [exact I|]. split; [exact H0|]. split; [exact H100|].
  apply (fetch_failure_keeps_cursor_open e plain_host 1 chain_world 1%positive open_cur
           select_stmt held_env da [] eq_refl eq_refl eq_refl eq_refl eq_refl I H0 H100).
Defined.

Section Failures.

Variable engine : Engine.
Variable host : Host.
Variable fuel : nat.

(** X27.  [prepare] that the engine refuses.  When the engine refuses to
    allocate the statement, or to prepare the text, [prepare] returns nil
    and the engine's message.  No statement object exists afterwards, and
    the connection keeps its lock count and its place, or absence, in the
    registry.  After a refused prepare the engine has been asked nothing
    more: the statement handle it allocated is not freed. *)
Theorem prepare_failure_leaves_connection_unlocked
  (w : World) (cp : ptr) (conn : conn_data) (env : env_data) (sql : list byte)
  (rest : list lua_value) :
  conns w !! cp = Some conn ->
  conn_closed conn = 0 ->
  envs w !! conn_env conn = Some env ->
  let c1 := isc_dsql_allocate_statement (db conn) 0 in
  let r1 := isc engine (trace w) c1 in
  let c2 := isc_dsql_prepare (transaction conn) (rp_handle r1) (cstr sql) (dialect conn) in
  let r2 := isc engine (trace w ++ [c1]) c2 in
  let fails (r : reply) (calls : list call) :=
    exists w',
      call_from_lua (conn_prepare engine host) (LUserdata KConn cp :: LString sql :: rest) w
        = Ret (db_error engine (rp_status r)) w'
      /\ trace w' = trace w ++ calls
      /\ stmts w' = stmts w /\ conns w' = conns w /\ registry w' = registry w
      /\ curs w' = curs w
      /\ envs w' = <[conn_env conn := set_status_vector (rp_status r) env]> (envs w) in
  (CHECK_DB_ERROR (rp_status r1) = true -> fails r1 [c1])
  /\ (CHECK_DB_ERROR (rp_status r1) = false -> CHECK_DB_ERROR (rp_status r2) = true ->
      fails r2 [c1; c2]).
Proof.
  intros Hc Hopen He c1 r1 c2 r2 fails. subst fails. cbv beta.
  split.
  - intros Hr1.
    unfold call_from_lua, conn_prepare, getconnection, luaL_checkudata, luaL_checklstring,
      return_db_error.
    monad_simpl. rewrite stack_at_first. simpl. rewrite Hc. simpl.
    rewrite bool_decide_eq_true_2 by exact Hopen. crunch. rewrite stack_at_2. crunch.
    rewrite Hc. crunch. rewrite He. crunch. fold c1. fold r1. rewrite Hr1. crunch.
    eexists. split; [f_equal|].
    { apply (results_top _ (LUserdata KConn cp :: LString sql :: rest)); [|reflexivity].
      crunch. rewrite <- app_assoc. reflexivity. }
    crunch. repeat split.
  - intros Hr1 Hr2.
    unfold call_from_lua, conn_prepare, getconnection, luaL_checkudata, luaL_checklstring,
      return_db_error, free_stmt, free_xsqlda.
    monad_simpl. rewrite stack_at_first. simpl. rewrite Hc. simpl.
    rewrite bool_decide_eq_true_2 by exact Hopen. crunch. rewrite stack_at_2. crunch.
    rewrite Hc. crunch. rewrite He. crunch. fold c1. fold r1. rewrite Hr1. crunch.
    fold c2. fold r2. rewrite Hr2. crunch.
    eexists. split; [f_equal|].
    { apply (results_top _ (LUserdata KConn cp :: LString sql :: rest)); [|reflexivity].
      crunch. rewrite <- app_assoc. reflexivity. }
    crunch. rewrite <- app_assoc, insert_insert_eq. repeat split.
Qed.

(** X28.  [execute] that the engine refuses.  On an open statement
    without an open cursor, without parameters to bind and without result
    columns, when the engine refuses to execute, [execute] returns nil and
    the engine's message.  Nothing is committed, whatever the connection's
    autocommit switch, the counts are not asked for, no cursor is made, and
    statement, connection and registry are as before. *)
Theorem execute_failure_makes_no_cursor
  (w : World) (sp : ptr) (stmt : stmt_data) (da : XSQLDA) (env : env_data)
  (conn : conn_data) :
  stmts w !! sp = Some stmt ->
  stmt_closed stmt = 0 ->
  stmt_lock stmt <= 0 ->
  in_sqlda stmt = Live da ->
  sqld da <= 0 ->
  envs w !! stmt_env stmt = Some env ->
  conns w !! stmt_conn stmt = Some conn ->
  let c1 := isc_dsql_describe (handle stmt) (malloc_xsqlda 1) in
  let c2 := isc_dsql_execute (transaction conn) (handle stmt) (Live da) in
  let r2 := isc engine (trace w ++ [c1]) c2 in
  rp_sqld (isc engine (trace w) c1) <= 0 ->
  CHECK_DB_ERROR (rp_status r2) = true ->
  exists w',
    call_from_lua (stmt_execute engine host) [LUserdata KStmt sp] w
      = Ret (db_error engine (rp_status r2)) w'
    /\ trace w' = trace w ++ [c1; c2]
    /\ stmts w' = stmts w /\ curs w' = curs w /\ conns w' = conns w
    /\ registry w' = registry w
    /\ envs w' = <[stmt_env stmt := set_status_vector (rp_status r2) env]> (envs w).
Proof.
  intros Hs Hopen Hlock Hda Hnone He Hc c1 c2 r2 Hn Hr2.
  unfold call_from_lua, stmt_execute, raw_execute, getstatement, luaL_checkudata,
    size_out_sqlda, malloc_sqlda_vars, free_cur, free_xsqlda, return_db_error.
  monad_simpl. rewrite stack_at_first. simpl. rewrite Hs. simpl.
  rewrite bool_decide_eq_true_2 by exact Hopen. crunch. rewrite Hs, Hda. crunch.
  destruct (decide (sqld da > 0)) as [Hx|_]; [lia|]. crunch.
  rewrite stack_at_first. simpl. rewrite Hs. simpl.
  rewrite bool_decide_eq_true_2 by exact Hopen. crunch. rewrite Hs. crunch.
  destruct (decide (stmt_lock stmt > 0)) as [Hx|_]; [lia|]. crunch.
  rewrite He. crunch. fold c1.
  cbn [described sqld sqln malloc_xsqlda].
  destruct (decide (rp_sqld (isc engine (trace w) c1) > 1)) as [Hx|_]; [lia|].
  crunch. cbn [described sqld sqln sqlvar malloc_xsqlda].
  rewrite describe_slots_length, length_replicate.
  destruct (decide (rp_sqld (isc engine (trace w) c1) <= Z.of_nat (Z.to_nat 1)))
    as [_|Hx]; [|lia].
  crunch. cbn [sqld].
  destruct (decide (rp_sqld (isc engine (trace w) c1) > 0)) as [Hx|_]; [lia|].
  crunch. cbn [negb]. crunch. rewrite Hc. crunch. rewrite Hda.
  fold c2. fold r2. rewrite Hr2. crunch.
  eexists. split; [reflexivity|].
  crunch. rewrite <- app_assoc, insert_insert_eq. repeat split.
Qed.

End Failures.

Lemma prepare_failure_leaves_connection_unlocked_witness :
  conns idle_world !! 1%positive = Some idle_conn
  /\ (exists w',
        call_from_lua (conn_prepare (refusing_engine 0) plain_host)
          [LUserdata KConn 1%positive; LString (bytes "select")] idle_world
        = Ret [LNil; LString (bytes "refused")] w'
        /\ trace w' = [isc_dsql_allocate_statement 11 0]
        /\ stmts w' = stmts idle_world /\ conns w' = conns idle_world)
  /\ (exists w',
        call_from_lua (conn_prepare (refusing_engine 1) plain_host)
          [LUserdata KConn 1%positive; LString (bytes "select")] idle_world
        = Ret [LNil; LString (bytes "refused")] w'
        /\ trace w' = [isc_dsql_allocate_statement 11 0;
                       isc_dsql_prepare 12 0 (bytes "select") 3]
        /\ stmts w' = stmts idle_world /\ conns w' = conns idle_world).
Proof.
  split; [reflexivity|]. split.
  - destruct (proj1 (prepare_failure_leaves_connection_unlocked (refusing_engine 0)
                       plain_host idle_world 1%positive idle_conn held_env
                       (bytes "select") [] eq_refl eq_refl eq_refl) eq_refl)
      as (w' & Hrun & Ht & Hs & Hc & _).
    exists w'. split; [exact Hrun|]. split; [exact Ht|]. split; [exact Hs|exact Hc].
  - destruct (proj2 (prepare_failure_leaves_connection_unlocked (refusing_engine 1)
                       plain_host idle_world 1%positive idle_conn held_env
                       (bytes "select") [] eq_refl eq_refl eq_refl) eq_refl eq_refl)
      as (w' & Hrun & Ht & Hs & Hc & _).
    exists w'. split; [exact Hrun|]. split; [exact Ht|]. split; [exact Hs|exact Hc].
Defined.

Lemma execute_failure_makes_no_cursor_witness :
  let e := refusing_engine 1 in
  stmts prepared_world !! 1%positive = Some idle_stmt
  /\ stmt_lock idle_stmt <= 0
  /\ exists w',
       call_from_lua (stmt_execute e plain_host) [LUserdata KStmt 1%positive]
         prepared_world
       = Ret [LNil; LString (bytes "refused")] w'
       /\ trace w' = [isc_dsql_describe 13 (malloc_xsqlda 1);
                      isc_dsql_execute 12 13 (in_sqlda idle_stmt)]
       /\ stmts w' = stmts prepared_world /\ curs w' = curs prepared_world
       /\ conns w' = conns prepared_world.
Proof.
  intros e.
  assert (Hlock : stmt_lock idle_stmt <= 0) by discriminate.
  assert (Hnone : sqld {| version := 1; sqln := 1; sqld := 0;
                          sqlvar := [{| sqltype := 0; sqllen := 0; sqldata := None;
                                        sqlind := None; aliasname := [];
                                        aliasname_length := 0 |}] |} <= 0)
    by discriminate.
  assert (Hn : rp_sqld (isc e (trace prepared_world)
                          (isc_dsql_describe (handle idle_stmt) (malloc_xsqlda 1))) <= 0)
    by discriminate.
  split; [reflexivity|]. split; [exact Hlock|].
  destruct (execute_failure_makes_no_cursor e plain_host prepared_world 1%positive
              idle_stmt _ held_env held_conn eq_refl eq_refl Hlock eq_refl Hnone eq_refl
              eq_refl Hn eq_refl)
    as (w' & Hrun & Ht & Hs & Hcu & Hc & _).
  exists w'. split; [exact Hrun|]. split; [exact Ht|]. split; [exact Hs|].
  split; [exact Hcu|exact Hc].
Defined.

Lemma classifying_engine_accepts (t : Z) : accepting (classifying_engine t).
Proof. intros tr c. destruct c; reflexivity. Qed.

Lemma classifying_engine_classifies (t : Z) : classifies (classifying_engine t) t.
Proof. intros tr h. exists [x01]. reflexivity. Qed.

Lemma prepare_returns_statement_and_locks_connection_witness :
  let e := classifying_engine 2 in
  let sp := fresh (dom (stmts idle_world)) in
  conns idle_world !! 1%positive = Some idle_conn
  /\ accepting e /\ classifies e 2 /\ binds e 0
  /\ exists w' da d,
       call_from_lua (conn_prepare e plain_host)
         [LUserdata KConn 1%positive; LString (bytes "insert")] idle_world
       = Ret [LUserdata KStmt sp] w'
       /\ stmts idle_world !! sp = None
       /\ stmts w' = <[sp := {| stmt_closed := 0; stmt_lock := 0; stmt_env := 1%positive;
                                stmt_conn := 1%positive; in_sqlda := Live da;
                                handle := 31; type := 2; hidden := 0 |}]>
                       (stmts idle_world)
       /\ sqld da = 0 /\ length (sqlvar da) = 1%nat
       /\ Forall (fun v => sqlind v = Some (-1)) (take 0 (sqlvar da))
       /\ conns w' = <[1%positive := held_conn]> (conns idle_world)
       /\ registry w' = <[(KConn, 1%positive) := LUserdata KConn 1%positive]>
                          (registry idle_world)
       /\ curs w' = curs idle_world
       /\ trace w' = trace idle_world
                      ++ [isc_dsql_allocate_statement 11 0;
                          isc_dsql_prepare 12 31 (bytes "insert") 3;
                          isc_dsql_sql_info 31 [isc_info_sql_stmt_type] 88]
                      ++ d
       /\ Forall (fun c => is_describe_bind c = true) d.
Proof.
  intros e sp.
  assert (Hb : binds e 0) by (intros tr h da; reflexivity).
  assert (H00 : (0 : Z) <= 0) by discriminate.
  split; [reflexivity|]. split; [exact (classifying_engine_accepts 2)|].
  split; [exact (classifying_engine_classifies 2)|]. split; [exact Hb|].
  exact (prepare_returns_statement_and_locks_connection e plain_host idle_world
           1%positive idle_conn held_env (bytes "insert") 2 0 eq_refl eq_refl eq_refl
           (classifying_engine_accepts 2) (classifying_engine_classifies 2) eq_refl Hb
           H00).
Defined.

Lemma conn_execute_returns_count_and_drops_statement_witness :
  let e := informing_engine (counts_buffer 2 [(x0e, 3)]) in
  let sp := fresh (dom (stmts idle_world)) in
  conns idle_world !! 1%positive = Some idle_conn
  /\ accepting e /\ classifies e 2 /\ binds e 0
  /\ (forall h, describes e h 0)
  /\ (forall h, reports_counts e h 2 [(x0e, 3)])
  /\ Forall counter_item [(x0e, 3)]
  /\ exists w' st,
       call_from_lua (conn_execute e plain_host)
         [LUserdata KConn 1%positive; LString (bytes "insert")] idle_world
       = Ret [LInteger 3] w'
       /\ stmts idle_world !! sp = None
       /\ stmts w' = <[sp := st]> (stmts idle_world)
       /\ stmt_closed st = 1 /\ hidden st = 1 /\ in_sqlda st = Dangling
       /\ stmt_conn st = 1%positive /\ type st = 2
       /\ conns w' = conns idle_world
       /\ curs w' = curs idle_world
       /\ registry w' = released 0 (KConn, 1%positive)
                          (<[(KConn, 1%positive) := LUserdata KConn 1%positive]>
                             (registry idle_world)).
Proof.
  intros e sp.
  assert (Hok : accepting e) by apply informing_engine_accepts.
  assert (Hclass : classifies e 2).
  { intros tr h. exists ([x17; x1d; x00] ++ record_items [(x0e, 3)] ++ [x01]).
    reflexivity. }
  assert (Hb : binds e 0) by (intros tr h da; reflexivity).
  assert (Hn : forall h, describes e h 0) by (intros h tr da; reflexivity).
  assert (Hcounts : forall h, reports_counts e h 2 [(x0e, 3)])
    by (intros h tr; reflexivity).
  assert (Hitems : Forall counter_item [(x0e, 3)]).
  { unfold counter_item, counter_codes.
    repeat (constructor; [split; [cbn [fst]; set_solver | cbn [snd]; lia]|]).
    constructor. }
  assert (Hlen : (length [(x0e, 3)] <= 11)%nat) by (simpl; lia).
  assert (H00 : (0 : Z) <= 0) by discriminate.
  assert (Hpos : 0 <= count_of 2 (fold_left update_count [(x0e, 3)] no_counts))
    by discriminate.
  split; [reflexivity|]. split; [exact Hok|]. split; [exact Hclass|].
  split; [exact Hb|]. split; [exact Hn|]. split; [exact Hcounts|].
  split; [exact Hitems|].
  exact (conn_execute_returns_count_and_drops_statement e plain_host idle_world
           1%positive idle_conn held_env (bytes "insert") 2 0 [(x0e, 3)] eq_refl eq_refl
           eq_refl Hok Hclass eq_refl Hb H00 Hn Hcounts Hitems Hlen Hpos).
Defined.

Lemma select_engine_accepts (K : nat) : accepting (select_engine K).
Proof.
  intros tr c. destruct c; try reflexivity. simpl.
  destruct (decide _); reflexivity.
Qed.

Lemma conn_execute_returns_cursor_over_hidden_statement_witness :
  let e := select_engine 2 in
  let sp := fresh (dom (stmts idle_world)) in
  let cur := fresh (dom (curs idle_world)) in
  conns idle_world !! 1%positive = Some idle_conn
  /\ accepting e /\ classifies e 1 /\ binds e 0
  /\ (forall h, describes e h 1)
  /\ exists w' st,
       call_from_lua (conn_execute e plain_host)
         [LUserdata KConn 1%positive; LString (bytes "select")] idle_world
       = Ret [LUserdata KCur cur] w'
       /\ stmts idle_world !! sp = None /\ curs idle_world !! cur = None
       /\ fetch_ready w' cur sp st 1
       /\ stmt_closed st = 0 /\ stmt_lock st = 1 /\ hidden st = 1
       /\ stmt_conn st = 1%positive /\ type st = 1
       /\ conns w' = <[1%positive := held_conn]> (conns idle_world)
       /\ registry w' = <[(KStmt, sp) := LUserdata KStmt sp]>
                          (<[(KConn, 1%positive) := LUserdata KConn 1%positive]>
                             (registry idle_world)).
Proof.
  intros e sp cur.
  assert (Hclass : classifies e 1) by (intros tr h; exists [x01]; reflexivity).
  assert (Hb : binds e 0) by (intros tr h da; reflexivity).
  assert (Hn : forall h, describes e h 1) by (intros h tr da; reflexivity).
  assert (H00 : (0 : Z) <= 0) by discriminate.
  assert (H11 : (1 : Z) <= 1) by discriminate.
  split; [reflexivity|]. split; [exact (select_engine_accepts 2)|].
  split; [exact Hclass|]. split; [exact Hb|]. split; [exact Hn|].
  exact (conn_execute_returns_cursor_over_hidden_statement e plain_host idle_world
           1%positive idle_conn held_env (bytes "select") 1 0 1 eq_refl eq_refl eq_refl
           (select_engine_accepts 2) Hclass eq_refl Hb H00 Hn H11).
Defined.
